(** * The real-time-strategy core of [src/rts/rts.py]: a shallow embedding

    The simulation core of the single-file RTS game (units, buildings,
    production queues, players, the shared map and the per-frame update
    pass) is transcribed here method by method, and the properties the
    specification states about it are proved or refuted below.

    Modelling conventions.
    - Python objects live in a store [objs : gmap nat Unit]; an object is
      named by its key, so two references to one unit are two occurrences
      of one key (the player's list, the map's list, a builder's [toBuild],
      an attacker's [obsession] all alias the same record).
    - The class hierarchy is a tag ([Kind]) with the [isinstance] tests as
      boolean functions; one record holds the attributes of every class
      and a constructor table gives each class its initial values.
    - Python [int] is [Z].  Python [float] is modelled by the exact
      rationals [Q]: the code only adds, subtracts, multiplies, compares
      and truncates these values.
    - [random.randint(0, 1)] is an explicit boolean draw handed to the
      code that consumes it.
    - Of the user interface, the camera, the minimap, the selection box,
      the command buttons and the end-of-game test are modelled; audio,
      images, fonts and painting are not. *)

From Stdlib Require Import ZArith QArith Qround Bool List Lia Lqa.
From stdpp Require Import base option list gmap.
Import ListNotations.

#[local] Open Scope Z_scope.

(** ** Numbers *)

Definition TARGET_FPS : Z := 60.
Definition NOMINAL_TICK_HZ : Q := 60.

Definition tick_scale (dt : Q) : Q := (dt * NOMINAL_TICK_HZ)%Q.

(** [a < b] on floats, as a boolean. *)
Definition Qltb (a b : Q) : bool := negb (Qle_bool b a).

(** Python's [int(v)] on a float: truncation toward zero. *)
Definition int_of (v : Q) : Z := Z.quot (Qnum v) (Zpos (Qden v)).

(** Python's [float(n)] on an int. *)
Definition float_of (n : Z) : Q := inject_Z n.

Definition clamp (v lo hi : Q) : Q :=
  if Qltb v lo then lo else if Qltb hi v then hi else v.

(** ** Rectangles

    [pygame.Rect] belongs to the pygame library, not to this repository.
    The two queries the game uses follow pygame's documented behaviour:
    a point on the right or bottom edge is outside, rectangles that only
    touch do not collide, and a rectangle of zero width or height collides
    with nothing. *)

Record Rect := mkRect { rect_x : Z; rect_y : Z; rect_width : Z; rect_height : Z }.

Definition collidepoint (r : Rect) (px py : Z) : bool :=
  (rect_x r <=? px) && (px <? rect_x r + rect_width r) &&
  (rect_y r <=? py) && (py <? rect_y r + rect_height r).

Definition colliderect (a b : Rect) : bool :=
  if (rect_width a =? 0) || (rect_height a =? 0) || (rect_width b =? 0) || (rect_height b =? 0)
  then false
  else
    (Z.min (rect_x a) (rect_x a + rect_width a) <? Z.max (rect_x b) (rect_x b + rect_width b)) &&
    (Z.min (rect_y a) (rect_y a + rect_height a) <? Z.max (rect_y b) (rect_y b + rect_height b)) &&
    (Z.min (rect_x b) (rect_x b + rect_width b) <? Z.max (rect_x a) (rect_x a + rect_width a)) &&
    (Z.min (rect_y b) (rect_y b + rect_height b) <? Z.max (rect_y a) (rect_y a + rect_height a)).

(** ** Classes

    The leaves of the class tree and the [isinstance] tests against its
    inner nodes: [Unit > Infantry > OffensiveInfantry > Hero] and
    [Unit > Building > ComandCenter > Tara]. *)

Inductive Kind :=
  | Builder | Spearman | Swordsman | Horseman | BrianBoru | Sigurd
  | Barracks | Stables | ComandCenter | Tara | SupplyDepot.

#[global] Instance Kind_eq_dec : EqDecision Kind.
Proof. solve_decision. Defined.

Definition is_Hero (k : Kind) : bool :=
  match k with BrianBoru | Sigurd => true | _ => false end.

Definition is_OffensiveInfantry (k : Kind) : bool :=
  match k with Spearman | Swordsman | Horseman | BrianBoru | Sigurd => true | _ => false end.

Definition is_Infantry (k : Kind) : bool :=
  match k with Builder => true | _ => is_OffensiveInfantry k end.

Definition is_Building (k : Kind) : bool :=
  match k with Barracks | Stables | ComandCenter | Tara | SupplyDepot => true | _ => false end.

Definition is_ComandCenter (k : Kind) : bool :=
  match k with ComandCenter | Tara => true | _ => false end.

Definition is_SupplyDepot (k : Kind) : bool :=
  match k with SupplyDepot => true | _ => false end.

Definition is_Builder (k : Kind) : bool :=
  match k with Builder => true | _ => false end.

(** The two players; a unit's [master] is the controller of one of them. *)
Inductive PlayerId := Human | Computer.

#[global] Instance PlayerId_eq_dec : EqDecision PlayerId.
Proof. solve_decision. Defined.

(** ** Units *)

Record Unit := mkUnit {
  (* class Unit *)
  kind : Kind;
  side : Z;
  master : PlayerId;
  rect : Rect;
  fx : Q;
  fy : Q;
  selected : bool;
  health : Q;
  maxHealth : Q;
  cost : Z;
  defense : Z;
  buildTime : Q;
  maxBuildTime : Q;
  personal_space : Rect;
  sight : Rect;
  didInitializeAfterBuild : bool;
  (* class Infantry *)
  obsession : option nat;
  unitValue : Z;
  speed : Z;
  destinationX : Z;
  destinationY : Z;
  setDestinationEnabled : bool;
  holdPosition : bool;
  (* class OffensiveInfantry; [attack_range] is the very [Rect] object
     [personal_space] and so has no field of its own *)
  ignoreEnemies : bool;
  attacking : bool;
  attackMoving : bool;
  power : Z;
  attackDistance : Z;
  (* class Builder *)
  toBuild : option nat;
  building : bool;
  selectingToBuild : bool;
  (* class Horseman *)
  hasSpearman : bool;
  (* class Building *)
  supportedUnits : Z;
  resourceIncrease : Q;
  queue : list nat
}.

(** *** Attribute assignment *)

Definition set_rect (v : Rect) (u : Unit) : Unit :=
  {| kind := kind u; side := side u; master := master u; rect := v; fx := fx u; fy := fy u;
     selected := selected u; health := health u; maxHealth := maxHealth u; cost := cost u;
     defense := defense u; buildTime := buildTime u; maxBuildTime := maxBuildTime u;
     personal_space := personal_space u; sight := sight u;
     didInitializeAfterBuild := didInitializeAfterBuild u; obsession := obsession u;
     unitValue := unitValue u; speed := speed u; destinationX := destinationX u;
     destinationY := destinationY u; setDestinationEnabled := setDestinationEnabled u;
     holdPosition := holdPosition u; ignoreEnemies := ignoreEnemies u; attacking := attacking u;
     attackMoving := attackMoving u; power := power u; attackDistance := attackDistance u;
     toBuild := toBuild u; building := building u; selectingToBuild := selectingToBuild u;
     hasSpearman := hasSpearman u; supportedUnits := supportedUnits u;
     resourceIncrease := resourceIncrease u; queue := queue u |}.

Definition set_fx (v : Q) (u : Unit) : Unit :=
  {| kind := kind u; side := side u; master := master u; rect := rect u; fx := v; fy := fy u;
     selected := selected u; health := health u; maxHealth := maxHealth u; cost := cost u;
     defense := defense u; buildTime := buildTime u; maxBuildTime := maxBuildTime u;
     personal_space := personal_space u; sight := sight u;
     didInitializeAfterBuild := didInitializeAfterBuild u; obsession := obsession u;
     unitValue := unitValue u; speed := speed u; destinationX := destinationX u;
     destinationY := destinationY u; setDestinationEnabled := setDestinationEnabled u;
     holdPosition := holdPosition u; ignoreEnemies := ignoreEnemies u; attacking := attacking u;
     attackMoving := attackMoving u; power := power u; attackDistance := attackDistance u;
     toBuild := toBuild u; building := building u; selectingToBuild := selectingToBuild u;
     hasSpearman := hasSpearman u; supportedUnits := supportedUnits u;
     resourceIncrease := resourceIncrease u; queue := queue u |}.

Definition set_fy (v : Q) (u : Unit) : Unit :=
  {| kind := kind u; side := side u; master := master u; rect := rect u; fx := fx u; fy := v;
     selected := selected u; health := health u; maxHealth := maxHealth u; cost := cost u;
     defense := defense u; buildTime := buildTime u; maxBuildTime := maxBuildTime u;
     personal_space := personal_space u; sight := sight u;
     didInitializeAfterBuild := didInitializeAfterBuild u; obsession := obsession u;
     unitValue := unitValue u; speed := speed u; destinationX := destinationX u;
     destinationY := destinationY u; setDestinationEnabled := setDestinationEnabled u;
     holdPosition := holdPosition u; ignoreEnemies := ignoreEnemies u; attacking := attacking u;
     attackMoving := attackMoving u; power := power u; attackDistance := attackDistance u;
     toBuild := toBuild u; building := building u; selectingToBuild := selectingToBuild u;
     hasSpearman := hasSpearman u; supportedUnits := supportedUnits u;
     resourceIncrease := resourceIncrease u; queue := queue u |}.

Definition set_selected (v : bool) (u : Unit) : Unit :=
  {| kind := kind u; side := side u; master := master u; rect := rect u; fx := fx u; fy := fy u;
     selected := v; health := health u; maxHealth := maxHealth u; cost := cost u;
     defense := defense u; buildTime := buildTime u; maxBuildTime := maxBuildTime u;
     personal_space := personal_space u; sight := sight u;
     didInitializeAfterBuild := didInitializeAfterBuild u; obsession := obsession u;
     unitValue := unitValue u; speed := speed u; destinationX := destinationX u;
     destinationY := destinationY u; setDestinationEnabled := setDestinationEnabled u;
     holdPosition := holdPosition u; ignoreEnemies := ignoreEnemies u; attacking := attacking u;
     attackMoving := attackMoving u; power := power u; attackDistance := attackDistance u;
     toBuild := toBuild u; building := building u; selectingToBuild := selectingToBuild u;
     hasSpearman := hasSpearman u; supportedUnits := supportedUnits u;
     resourceIncrease := resourceIncrease u; queue := queue u |}.

Definition set_health (v : Q) (u : Unit) : Unit :=
  {| kind := kind u; side := side u; master := master u; rect := rect u; fx := fx u; fy := fy u;
     selected := selected u; health := v; maxHealth := maxHealth u; cost := cost u;
     defense := defense u; buildTime := buildTime u; maxBuildTime := maxBuildTime u;
     personal_space := personal_space u; sight := sight u;
     didInitializeAfterBuild := didInitializeAfterBuild u; obsession := obsession u;
     unitValue := unitValue u; speed := speed u; destinationX := destinationX u;
     destinationY := destinationY u; setDestinationEnabled := setDestinationEnabled u;
     holdPosition := holdPosition u; ignoreEnemies := ignoreEnemies u; attacking := attacking u;
     attackMoving := attackMoving u; power := power u; attackDistance := attackDistance u;
     toBuild := toBuild u; building := building u; selectingToBuild := selectingToBuild u;
     hasSpearman := hasSpearman u; supportedUnits := supportedUnits u;
     resourceIncrease := resourceIncrease u; queue := queue u |}.

Definition set_defense (v : Z) (u : Unit) : Unit :=
  {| kind := kind u; side := side u; master := master u; rect := rect u; fx := fx u; fy := fy u;
     selected := selected u; health := health u; maxHealth := maxHealth u; cost := cost u;
     defense := v; buildTime := buildTime u; maxBuildTime := maxBuildTime u;
     personal_space := personal_space u; sight := sight u;
     didInitializeAfterBuild := didInitializeAfterBuild u; obsession := obsession u;
     unitValue := unitValue u; speed := speed u; destinationX := destinationX u;
     destinationY := destinationY u; setDestinationEnabled := setDestinationEnabled u;
     holdPosition := holdPosition u; ignoreEnemies := ignoreEnemies u; attacking := attacking u;
     attackMoving := attackMoving u; power := power u; attackDistance := attackDistance u;
     toBuild := toBuild u; building := building u; selectingToBuild := selectingToBuild u;
     hasSpearman := hasSpearman u; supportedUnits := supportedUnits u;
     resourceIncrease := resourceIncrease u; queue := queue u |}.

Definition set_buildTime (v : Q) (u : Unit) : Unit :=
  {| kind := kind u; side := side u; master := master u; rect := rect u; fx := fx u; fy := fy u;
     selected := selected u; health := health u; maxHealth := maxHealth u; cost := cost u;
     defense := defense u; buildTime := v; maxBuildTime := maxBuildTime u;
     personal_space := personal_space u; sight := sight u;
     didInitializeAfterBuild := didInitializeAfterBuild u; obsession := obsession u;
     unitValue := unitValue u; speed := speed u; destinationX := destinationX u;
     destinationY := destinationY u; setDestinationEnabled := setDestinationEnabled u;
     holdPosition := holdPosition u; ignoreEnemies := ignoreEnemies u; attacking := attacking u;
     attackMoving := attackMoving u; power := power u; attackDistance := attackDistance u;
     toBuild := toBuild u; building := building u; selectingToBuild := selectingToBuild u;
     hasSpearman := hasSpearman u; supportedUnits := supportedUnits u;
     resourceIncrease := resourceIncrease u; queue := queue u |}.

Definition set_personal_space (v : Rect) (u : Unit) : Unit :=
  {| kind := kind u; side := side u; master := master u; rect := rect u; fx := fx u; fy := fy u;
     selected := selected u; health := health u; maxHealth := maxHealth u; cost := cost u;
     defense := defense u; buildTime := buildTime u; maxBuildTime := maxBuildTime u;
     personal_space := v; sight := sight u;
     didInitializeAfterBuild := didInitializeAfterBuild u; obsession := obsession u;
     unitValue := unitValue u; speed := speed u; destinationX := destinationX u;
     destinationY := destinationY u; setDestinationEnabled := setDestinationEnabled u;
     holdPosition := holdPosition u; ignoreEnemies := ignoreEnemies u; attacking := attacking u;
     attackMoving := attackMoving u; power := power u; attackDistance := attackDistance u;
     toBuild := toBuild u; building := building u; selectingToBuild := selectingToBuild u;
     hasSpearman := hasSpearman u; supportedUnits := supportedUnits u;
     resourceIncrease := resourceIncrease u; queue := queue u |}.

Definition set_sight (v : Rect) (u : Unit) : Unit :=
  {| kind := kind u; side := side u; master := master u; rect := rect u; fx := fx u; fy := fy u;
     selected := selected u; health := health u; maxHealth := maxHealth u; cost := cost u;
     defense := defense u; buildTime := buildTime u; maxBuildTime := maxBuildTime u;
     personal_space := personal_space u; sight := v;
     didInitializeAfterBuild := didInitializeAfterBuild u; obsession := obsession u;
     unitValue := unitValue u; speed := speed u; destinationX := destinationX u;
     destinationY := destinationY u; setDestinationEnabled := setDestinationEnabled u;
     holdPosition := holdPosition u; ignoreEnemies := ignoreEnemies u; attacking := attacking u;
     attackMoving := attackMoving u; power := power u; attackDistance := attackDistance u;
     toBuild := toBuild u; building := building u; selectingToBuild := selectingToBuild u;
     hasSpearman := hasSpearman u; supportedUnits := supportedUnits u;
     resourceIncrease := resourceIncrease u; queue := queue u |}.

Definition set_didInitializeAfterBuild (v : bool) (u : Unit) : Unit :=
  {| kind := kind u; side := side u; master := master u; rect := rect u; fx := fx u; fy := fy u;
     selected := selected u; health := health u; maxHealth := maxHealth u; cost := cost u;
     defense := defense u; buildTime := buildTime u; maxBuildTime := maxBuildTime u;
     personal_space := personal_space u; sight := sight u; didInitializeAfterBuild := v;
     obsession := obsession u; unitValue := unitValue u; speed := speed u;
     destinationX := destinationX u; destinationY := destinationY u;
     setDestinationEnabled := setDestinationEnabled u; holdPosition := holdPosition u;
     ignoreEnemies := ignoreEnemies u; attacking := attacking u; attackMoving := attackMoving u;
     power := power u; attackDistance := attackDistance u; toBuild := toBuild u;
     building := building u; selectingToBuild := selectingToBuild u;
     hasSpearman := hasSpearman u; supportedUnits := supportedUnits u;
     resourceIncrease := resourceIncrease u; queue := queue u |}.

Definition set_obsession (v : option nat) (u : Unit) : Unit :=
  {| kind := kind u; side := side u; master := master u; rect := rect u; fx := fx u; fy := fy u;
     selected := selected u; health := health u; maxHealth := maxHealth u; cost := cost u;
     defense := defense u; buildTime := buildTime u; maxBuildTime := maxBuildTime u;
     personal_space := personal_space u; sight := sight u;
     didInitializeAfterBuild := didInitializeAfterBuild u; obsession := v;
     unitValue := unitValue u; speed := speed u; destinationX := destinationX u;
     destinationY := destinationY u; setDestinationEnabled := setDestinationEnabled u;
     holdPosition := holdPosition u; ignoreEnemies := ignoreEnemies u; attacking := attacking u;
     attackMoving := attackMoving u; power := power u; attackDistance := attackDistance u;
     toBuild := toBuild u; building := building u; selectingToBuild := selectingToBuild u;
     hasSpearman := hasSpearman u; supportedUnits := supportedUnits u;
     resourceIncrease := resourceIncrease u; queue := queue u |}.

Definition set_destinationX (v : Z) (u : Unit) : Unit :=
  {| kind := kind u; side := side u; master := master u; rect := rect u; fx := fx u; fy := fy u;
     selected := selected u; health := health u; maxHealth := maxHealth u; cost := cost u;
     defense := defense u; buildTime := buildTime u; maxBuildTime := maxBuildTime u;
     personal_space := personal_space u; sight := sight u;
     didInitializeAfterBuild := didInitializeAfterBuild u; obsession := obsession u;
     unitValue := unitValue u; speed := speed u; destinationX := v;
     destinationY := destinationY u; setDestinationEnabled := setDestinationEnabled u;
     holdPosition := holdPosition u; ignoreEnemies := ignoreEnemies u; attacking := attacking u;
     attackMoving := attackMoving u; power := power u; attackDistance := attackDistance u;
     toBuild := toBuild u; building := building u; selectingToBuild := selectingToBuild u;
     hasSpearman := hasSpearman u; supportedUnits := supportedUnits u;
     resourceIncrease := resourceIncrease u; queue := queue u |}.

Definition set_destinationY (v : Z) (u : Unit) : Unit :=
  {| kind := kind u; side := side u; master := master u; rect := rect u; fx := fx u; fy := fy u;
     selected := selected u; health := health u; maxHealth := maxHealth u; cost := cost u;
     defense := defense u; buildTime := buildTime u; maxBuildTime := maxBuildTime u;
     personal_space := personal_space u; sight := sight u;
     didInitializeAfterBuild := didInitializeAfterBuild u; obsession := obsession u;
     unitValue := unitValue u; speed := speed u; destinationX := destinationX u;
     destinationY := v; setDestinationEnabled := setDestinationEnabled u;
     holdPosition := holdPosition u; ignoreEnemies := ignoreEnemies u; attacking := attacking u;
     attackMoving := attackMoving u; power := power u; attackDistance := attackDistance u;
     toBuild := toBuild u; building := building u; selectingToBuild := selectingToBuild u;
     hasSpearman := hasSpearman u; supportedUnits := supportedUnits u;
     resourceIncrease := resourceIncrease u; queue := queue u |}.

Definition set_setDestinationEnabled (v : bool) (u : Unit) : Unit :=
  {| kind := kind u; side := side u; master := master u; rect := rect u; fx := fx u; fy := fy u;
     selected := selected u; health := health u; maxHealth := maxHealth u; cost := cost u;
     defense := defense u; buildTime := buildTime u; maxBuildTime := maxBuildTime u;
     personal_space := personal_space u; sight := sight u;
     didInitializeAfterBuild := didInitializeAfterBuild u; obsession := obsession u;
     unitValue := unitValue u; speed := speed u; destinationX := destinationX u;
     destinationY := destinationY u; setDestinationEnabled := v; holdPosition := holdPosition u;
     ignoreEnemies := ignoreEnemies u; attacking := attacking u; attackMoving := attackMoving u;
     power := power u; attackDistance := attackDistance u; toBuild := toBuild u;
     building := building u; selectingToBuild := selectingToBuild u;
     hasSpearman := hasSpearman u; supportedUnits := supportedUnits u;
     resourceIncrease := resourceIncrease u; queue := queue u |}.

Definition set_holdPosition (v : bool) (u : Unit) : Unit :=
  {| kind := kind u; side := side u; master := master u; rect := rect u; fx := fx u; fy := fy u;
     selected := selected u; health := health u; maxHealth := maxHealth u; cost := cost u;
     defense := defense u; buildTime := buildTime u; maxBuildTime := maxBuildTime u;
     personal_space := personal_space u; sight := sight u;
     didInitializeAfterBuild := didInitializeAfterBuild u; obsession := obsession u;
     unitValue := unitValue u; speed := speed u; destinationX := destinationX u;
     destinationY := destinationY u; setDestinationEnabled := setDestinationEnabled u;
     holdPosition := v; ignoreEnemies := ignoreEnemies u; attacking := attacking u;
     attackMoving := attackMoving u; power := power u; attackDistance := attackDistance u;
     toBuild := toBuild u; building := building u; selectingToBuild := selectingToBuild u;
     hasSpearman := hasSpearman u; supportedUnits := supportedUnits u;
     resourceIncrease := resourceIncrease u; queue := queue u |}.

Definition set_ignoreEnemies (v : bool) (u : Unit) : Unit :=
  {| kind := kind u; side := side u; master := master u; rect := rect u; fx := fx u; fy := fy u;
     selected := selected u; health := health u; maxHealth := maxHealth u; cost := cost u;
     defense := defense u; buildTime := buildTime u; maxBuildTime := maxBuildTime u;
     personal_space := personal_space u; sight := sight u;
     didInitializeAfterBuild := didInitializeAfterBuild u; obsession := obsession u;
     unitValue := unitValue u; speed := speed u; destinationX := destinationX u;
     destinationY := destinationY u; setDestinationEnabled := setDestinationEnabled u;
     holdPosition := holdPosition u; ignoreEnemies := v; attacking := attacking u;
     attackMoving := attackMoving u; power := power u; attackDistance := attackDistance u;
     toBuild := toBuild u; building := building u; selectingToBuild := selectingToBuild u;
     hasSpearman := hasSpearman u; supportedUnits := supportedUnits u;
     resourceIncrease := resourceIncrease u; queue := queue u |}.

Definition set_attacking (v : bool) (u : Unit) : Unit :=
  {| kind := kind u; side := side u; master := master u; rect := rect u; fx := fx u; fy := fy u;
     selected := selected u; health := health u; maxHealth := maxHealth u; cost := cost u;
     defense := defense u; buildTime := buildTime u; maxBuildTime := maxBuildTime u;
     personal_space := personal_space u; sight := sight u;
     didInitializeAfterBuild := didInitializeAfterBuild u; obsession := obsession u;
     unitValue := unitValue u; speed := speed u; destinationX := destinationX u;
     destinationY := destinationY u; setDestinationEnabled := setDestinationEnabled u;
     holdPosition := holdPosition u; ignoreEnemies := ignoreEnemies u; attacking := v;
     attackMoving := attackMoving u; power := power u; attackDistance := attackDistance u;
     toBuild := toBuild u; building := building u; selectingToBuild := selectingToBuild u;
     hasSpearman := hasSpearman u; supportedUnits := supportedUnits u;
     resourceIncrease := resourceIncrease u; queue := queue u |}.

Definition set_attackMoving (v : bool) (u : Unit) : Unit :=
  {| kind := kind u; side := side u; master := master u; rect := rect u; fx := fx u; fy := fy u;
     selected := selected u; health := health u; maxHealth := maxHealth u; cost := cost u;
     defense := defense u; buildTime := buildTime u; maxBuildTime := maxBuildTime u;
     personal_space := personal_space u; sight := sight u;
     didInitializeAfterBuild := didInitializeAfterBuild u; obsession := obsession u;
     unitValue := unitValue u; speed := speed u; destinationX := destinationX u;
     destinationY := destinationY u; setDestinationEnabled := setDestinationEnabled u;
     holdPosition := holdPosition u; ignoreEnemies := ignoreEnemies u; attacking := attacking u;
     attackMoving := v; power := power u; attackDistance := attackDistance u;
     toBuild := toBuild u; building := building u; selectingToBuild := selectingToBuild u;
     hasSpearman := hasSpearman u; supportedUnits := supportedUnits u;
     resourceIncrease := resourceIncrease u; queue := queue u |}.

Definition set_power (v : Z) (u : Unit) : Unit :=
  {| kind := kind u; side := side u; master := master u; rect := rect u; fx := fx u; fy := fy u;
     selected := selected u; health := health u; maxHealth := maxHealth u; cost := cost u;
     defense := defense u; buildTime := buildTime u; maxBuildTime := maxBuildTime u;
     personal_space := personal_space u; sight := sight u;
     didInitializeAfterBuild := didInitializeAfterBuild u; obsession := obsession u;
     unitValue := unitValue u; speed := speed u; destinationX := destinationX u;
     destinationY := destinationY u; setDestinationEnabled := setDestinationEnabled u;
     holdPosition := holdPosition u; ignoreEnemies := ignoreEnemies u; attacking := attacking u;
     attackMoving := attackMoving u; power := v; attackDistance := attackDistance u;
     toBuild := toBuild u; building := building u; selectingToBuild := selectingToBuild u;
     hasSpearman := hasSpearman u; supportedUnits := supportedUnits u;
     resourceIncrease := resourceIncrease u; queue := queue u |}.

Definition set_toBuild (v : option nat) (u : Unit) : Unit :=
  {| kind := kind u; side := side u; master := master u; rect := rect u; fx := fx u; fy := fy u;
     selected := selected u; health := health u; maxHealth := maxHealth u; cost := cost u;
     defense := defense u; buildTime := buildTime u; maxBuildTime := maxBuildTime u;
     personal_space := personal_space u; sight := sight u;
     didInitializeAfterBuild := didInitializeAfterBuild u; obsession := obsession u;
     unitValue := unitValue u; speed := speed u; destinationX := destinationX u;
     destinationY := destinationY u; setDestinationEnabled := setDestinationEnabled u;
     holdPosition := holdPosition u; ignoreEnemies := ignoreEnemies u; attacking := attacking u;
     attackMoving := attackMoving u; power := power u; attackDistance := attackDistance u;
     toBuild := v; building := building u; selectingToBuild := selectingToBuild u;
     hasSpearman := hasSpearman u; supportedUnits := supportedUnits u;
     resourceIncrease := resourceIncrease u; queue := queue u |}.

Definition set_building (v : bool) (u : Unit) : Unit :=
  {| kind := kind u; side := side u; master := master u; rect := rect u; fx := fx u; fy := fy u;
     selected := selected u; health := health u; maxHealth := maxHealth u; cost := cost u;
     defense := defense u; buildTime := buildTime u; maxBuildTime := maxBuildTime u;
     personal_space := personal_space u; sight := sight u;
     didInitializeAfterBuild := didInitializeAfterBuild u; obsession := obsession u;
     unitValue := unitValue u; speed := speed u; destinationX := destinationX u;
     destinationY := destinationY u; setDestinationEnabled := setDestinationEnabled u;
     holdPosition := holdPosition u; ignoreEnemies := ignoreEnemies u; attacking := attacking u;
     attackMoving := attackMoving u; power := power u; attackDistance := attackDistance u;
     toBuild := toBuild u; building := v; selectingToBuild := selectingToBuild u;
     hasSpearman := hasSpearman u; supportedUnits := supportedUnits u;
     resourceIncrease := resourceIncrease u; queue := queue u |}.

Definition set_selectingToBuild (v : bool) (u : Unit) : Unit :=
  {| kind := kind u; side := side u; master := master u; rect := rect u; fx := fx u; fy := fy u;
     selected := selected u; health := health u; maxHealth := maxHealth u; cost := cost u;
     defense := defense u; buildTime := buildTime u; maxBuildTime := maxBuildTime u;
     personal_space := personal_space u; sight := sight u;
     didInitializeAfterBuild := didInitializeAfterBuild u; obsession := obsession u;
     unitValue := unitValue u; speed := speed u; destinationX := destinationX u;
     destinationY := destinationY u; setDestinationEnabled := setDestinationEnabled u;
     holdPosition := holdPosition u; ignoreEnemies := ignoreEnemies u; attacking := attacking u;
     attackMoving := attackMoving u; power := power u; attackDistance := attackDistance u;
     toBuild := toBuild u; building := building u; selectingToBuild := v;
     hasSpearman := hasSpearman u; supportedUnits := supportedUnits u;
     resourceIncrease := resourceIncrease u; queue := queue u |}.

Definition set_hasSpearman (v : bool) (u : Unit) : Unit :=
  {| kind := kind u; side := side u; master := master u; rect := rect u; fx := fx u; fy := fy u;
     selected := selected u; health := health u; maxHealth := maxHealth u; cost := cost u;
     defense := defense u; buildTime := buildTime u; maxBuildTime := maxBuildTime u;
     personal_space := personal_space u; sight := sight u;
     didInitializeAfterBuild := didInitializeAfterBuild u; obsession := obsession u;
     unitValue := unitValue u; speed := speed u; destinationX := destinationX u;
     destinationY := destinationY u; setDestinationEnabled := setDestinationEnabled u;
     holdPosition := holdPosition u; ignoreEnemies := ignoreEnemies u; attacking := attacking u;
     attackMoving := attackMoving u; power := power u; attackDistance := attackDistance u;
     toBuild := toBuild u; building := building u; selectingToBuild := selectingToBuild u;
     hasSpearman := v; supportedUnits := supportedUnits u;
     resourceIncrease := resourceIncrease u; queue := queue u |}.

Definition set_queue (v : list nat) (u : Unit) : Unit :=
  {| kind := kind u; side := side u; master := master u; rect := rect u; fx := fx u; fy := fy u;
     selected := selected u; health := health u; maxHealth := maxHealth u; cost := cost u;
     defense := defense u; buildTime := buildTime u; maxBuildTime := maxBuildTime u;
     personal_space := personal_space u; sight := sight u;
     didInitializeAfterBuild := didInitializeAfterBuild u; obsession := obsession u;
     unitValue := unitValue u; speed := speed u; destinationX := destinationX u;
     destinationY := destinationY u; setDestinationEnabled := setDestinationEnabled u;
     holdPosition := holdPosition u; ignoreEnemies := ignoreEnemies u; attacking := attacking u;
     attackMoving := attackMoving u; power := power u; attackDistance := attackDistance u;
     toBuild := toBuild u; building := building u; selectingToBuild := selectingToBuild u;
     hasSpearman := hasSpearman u; supportedUnits := supportedUnits u;
     resourceIncrease := resourceIncrease u; queue := v |}.

(** *** Constructors

    The values the [__init__] chain of each class leaves in a new object. *)

Definition init_build_time (k : Kind) : Z :=
  match k with
  | Builder => 100 | Spearman => 200 | Swordsman => 250 | Horseman => 350
  | BrianBoru | Sigurd => 900
  | Barracks => 600 | Stables => 2500 | ComandCenter | Tara => 900 | SupplyDepot => 300
  end.

Definition init_size (k : Kind) : Z * Z :=
  match k with
  | Builder => (25, 25) | Spearman | Swordsman => (30, 30) | Horseman => (50, 50)
  | BrianBoru | Sigurd => (40, 40)
  | Barracks => (90, 90) | Stables => (120, 80) | ComandCenter | Tara => (100, 100)
  | SupplyDepot => (50, 50)
  end.

Definition init_health (k : Kind) : Z :=
  match k with
  | Builder => 50 | Spearman => 70 | Swordsman => 100 | Horseman => 150
  | BrianBoru | Sigurd => 1000
  | Barracks => 2000 | Stables => 2500 | ComandCenter | Tara => 10000 | SupplyDepot => 1000
  end.

Definition init_cost (k : Kind) : Z :=
  match k with
  | Builder => 30 | Spearman => 60 | Swordsman => 90 | Horseman => 150
  | BrianBoru | Sigurd => 400
  | Barracks => 150 | Stables => 200 | ComandCenter | Tara => 400 | SupplyDepot => 40
  end.

Definition init_unitValue (k : Kind) : Z :=
  match k with Horseman => 2 | _ => if is_Infantry k then 1 else 0 end.

Definition init_speed (k : Kind) : Z :=
  match k with
  | Horseman => 7 | BrianBoru | Sigurd => 6 | _ => if is_Infantry k then 3 else 0
  end.

Definition init_power (k : Kind) : Z :=
  match k with
  | Swordsman => 2 | Horseman => 1 * 2 + 2 | BrianBoru | Sigurd => 10
  | _ => if is_OffensiveInfantry k then 1 else 0
  end.

Definition init_attackDistance (k : Kind) : Z :=
  match k with
  | Spearman => 5 | BrianBoru | Sigurd => 10 | _ => if is_OffensiveInfantry k then 4 else 0
  end.

Definition init_supportedUnits (k : Kind) : Z :=
  match k with
  | ComandCenter | Tara => 20 | SupplyDepot => 10 | _ => if is_Building k then 1 else 0
  end.

Definition init_resourceIncrease (k : Kind) : Q :=
  match k with
  | ComandCenter | Tara => 8 # 100 | SupplyDepot => 4 # 100
  | _ => if is_Building k then 1 # 1000 else 0
  end.

(** [k(side, controller, assets)] under the global [BU.timeModifier = tm]. *)
Definition new_unit (k : Kind) (sd : Z) (m : PlayerId) (tm : Z) : Unit :=
  {| kind := k; side := sd; master := m;
     rect := mkRect 0 0 (fst (init_size k)) (snd (init_size k));
     fx := 0; fy := 0; selected := false;
     health := float_of (init_health k); maxHealth := float_of (init_health k);
     cost := init_cost k; defense := 0;
     buildTime := (float_of (init_build_time k) / float_of (Z.max 1 tm))%Q;
     maxBuildTime := float_of (init_build_time k);
     personal_space := mkRect 0 0 0 0; sight := mkRect 0 0 0 0;
     didInitializeAfterBuild := false;
     obsession := None; unitValue := init_unitValue k; speed := init_speed k;
     destinationX := if is_Infantry k then 100 else 0;
     destinationY := if is_Infantry k then 100 else 0;
     setDestinationEnabled := false; holdPosition := false;
     ignoreEnemies := false; attacking := false; attackMoving := false;
     power := init_power k; attackDistance := init_attackDistance k;
     toBuild := None; building := false; selectingToBuild := false;
     hasSpearman := match k with Horseman => true | _ => false end;
     supportedUnits := init_supportedUnits k;
     resourceIncrease := init_resourceIncrease k;
     queue := [] |}.

(** ** Players, the map and the world *)

(** The computer player's per-class bookkeeping lists, by name. *)
Inductive Roster :=
  | comandcenter | stables | barracks | supplyDepots
  | builders | swordsmen | horsemen | bowmen.

#[global] Instance Roster_eq_dec : EqDecision Roster.
Proof. solve_decision. Defined.

Record Player := mkPlayer {
  units : list nat;
  selected_units : list (option nat);
  builder_mode : option nat;
  supplyDepotCount : Z;
  comandCenterCount : Z;
  hasHero : bool;
  supplyDepotLimit : Z;
  comandCeneterLimit : Z;
  attackUpgrade : bool;
  resources : Q;
  totalUnitsValue : Z;
  supportedUnitsValue : Z;
  (* class ComputerPlayer *)
  roster : Roster -> list nat;
  sigurd : option nat
}.

Definition set_units (v : list nat) (p : Player) : Player :=
  {| units := v; selected_units := selected_units p; builder_mode := builder_mode p;
     supplyDepotCount := supplyDepotCount p; comandCenterCount := comandCenterCount p;
     hasHero := hasHero p; supplyDepotLimit := supplyDepotLimit p;
     comandCeneterLimit := comandCeneterLimit p; attackUpgrade := attackUpgrade p;
     resources := resources p; totalUnitsValue := totalUnitsValue p;
     supportedUnitsValue := supportedUnitsValue p; roster := roster p; sigurd := sigurd p |}.

Definition set_selected_units (v : list (option nat)) (p : Player) : Player :=
  {| units := units p; selected_units := v; builder_mode := builder_mode p;
     supplyDepotCount := supplyDepotCount p; comandCenterCount := comandCenterCount p;
     hasHero := hasHero p; supplyDepotLimit := supplyDepotLimit p;
     comandCeneterLimit := comandCeneterLimit p; attackUpgrade := attackUpgrade p;
     resources := resources p; totalUnitsValue := totalUnitsValue p;
     supportedUnitsValue := supportedUnitsValue p; roster := roster p; sigurd := sigurd p |}.

Definition set_builder_mode (v : option nat) (p : Player) : Player :=
  {| units := units p; selected_units := selected_units p; builder_mode := v;
     supplyDepotCount := supplyDepotCount p; comandCenterCount := comandCenterCount p;
     hasHero := hasHero p; supplyDepotLimit := supplyDepotLimit p;
     comandCeneterLimit := comandCeneterLimit p; attackUpgrade := attackUpgrade p;
     resources := resources p; totalUnitsValue := totalUnitsValue p;
     supportedUnitsValue := supportedUnitsValue p; roster := roster p; sigurd := sigurd p |}.

Definition set_supplyDepotCount (v : Z) (p : Player) : Player :=
  {| units := units p; selected_units := selected_units p; builder_mode := builder_mode p;
     supplyDepotCount := v; comandCenterCount := comandCenterCount p; hasHero := hasHero p;
     supplyDepotLimit := supplyDepotLimit p; comandCeneterLimit := comandCeneterLimit p;
     attackUpgrade := attackUpgrade p; resources := resources p;
     totalUnitsValue := totalUnitsValue p; supportedUnitsValue := supportedUnitsValue p;
     roster := roster p; sigurd := sigurd p |}.

Definition set_comandCenterCount (v : Z) (p : Player) : Player :=
  {| units := units p; selected_units := selected_units p; builder_mode := builder_mode p;
     supplyDepotCount := supplyDepotCount p; comandCenterCount := v; hasHero := hasHero p;
     supplyDepotLimit := supplyDepotLimit p; comandCeneterLimit := comandCeneterLimit p;
     attackUpgrade := attackUpgrade p; resources := resources p;
     totalUnitsValue := totalUnitsValue p; supportedUnitsValue := supportedUnitsValue p;
     roster := roster p; sigurd := sigurd p |}.

Definition set_hasHero (v : bool) (p : Player) : Player :=
  {| units := units p; selected_units := selected_units p; builder_mode := builder_mode p;
     supplyDepotCount := supplyDepotCount p; comandCenterCount := comandCenterCount p;
     hasHero := v; supplyDepotLimit := supplyDepotLimit p;
     comandCeneterLimit := comandCeneterLimit p; attackUpgrade := attackUpgrade p;
     resources := resources p; totalUnitsValue := totalUnitsValue p;
     supportedUnitsValue := supportedUnitsValue p; roster := roster p; sigurd := sigurd p |}.

Definition set_attackUpgrade (v : bool) (p : Player) : Player :=
  {| units := units p; selected_units := selected_units p; builder_mode := builder_mode p;
     supplyDepotCount := supplyDepotCount p; comandCenterCount := comandCenterCount p;
     hasHero := hasHero p; supplyDepotLimit := supplyDepotLimit p;
     comandCeneterLimit := comandCeneterLimit p; attackUpgrade := v; resources := resources p;
     totalUnitsValue := totalUnitsValue p; supportedUnitsValue := supportedUnitsValue p;
     roster := roster p; sigurd := sigurd p |}.

Definition set_resources (v : Q) (p : Player) : Player :=
  {| units := units p; selected_units := selected_units p; builder_mode := builder_mode p;
     supplyDepotCount := supplyDepotCount p; comandCenterCount := comandCenterCount p;
     hasHero := hasHero p; supplyDepotLimit := supplyDepotLimit p;
     comandCeneterLimit := comandCeneterLimit p; attackUpgrade := attackUpgrade p;
     resources := v; totalUnitsValue := totalUnitsValue p;
     supportedUnitsValue := supportedUnitsValue p; roster := roster p; sigurd := sigurd p |}.

Definition set_totalUnitsValue (v : Z) (p : Player) : Player :=
  {| units := units p; selected_units := selected_units p; builder_mode := builder_mode p;
     supplyDepotCount := supplyDepotCount p; comandCenterCount := comandCenterCount p;
     hasHero := hasHero p; supplyDepotLimit := supplyDepotLimit p;
     comandCeneterLimit := comandCeneterLimit p; attackUpgrade := attackUpgrade p;
     resources := resources p; totalUnitsValue := v;
     supportedUnitsValue := supportedUnitsValue p; roster := roster p; sigurd := sigurd p |}.

Definition set_supportedUnitsValue (v : Z) (p : Player) : Player :=
  {| units := units p; selected_units := selected_units p; builder_mode := builder_mode p;
     supplyDepotCount := supplyDepotCount p; comandCenterCount := comandCenterCount p;
     hasHero := hasHero p; supplyDepotLimit := supplyDepotLimit p;
     comandCeneterLimit := comandCeneterLimit p; attackUpgrade := attackUpgrade p;
     resources := resources p; totalUnitsValue := totalUnitsValue p; supportedUnitsValue := v;
     roster := roster p; sigurd := sigurd p |}.

Definition set_roster (v : Roster -> list nat) (p : Player) : Player :=
  {| units := units p; selected_units := selected_units p; builder_mode := builder_mode p;
     supplyDepotCount := supplyDepotCount p; comandCenterCount := comandCenterCount p;
     hasHero := hasHero p; supplyDepotLimit := supplyDepotLimit p;
     comandCeneterLimit := comandCeneterLimit p; attackUpgrade := attackUpgrade p;
     resources := resources p; totalUnitsValue := totalUnitsValue p;
     supportedUnitsValue := supportedUnitsValue p; roster := v; sigurd := sigurd p |}.

Definition set_sigurd (v : option nat) (p : Player) : Player :=
  {| units := units p; selected_units := selected_units p; builder_mode := builder_mode p;
     supplyDepotCount := supplyDepotCount p; comandCenterCount := comandCenterCount p;
     hasHero := hasHero p; supplyDepotLimit := supplyDepotLimit p;
     comandCeneterLimit := comandCeneterLimit p; attackUpgrade := attackUpgrade p;
     resources := resources p; totalUnitsValue := totalUnitsValue p;
     supportedUnitsValue := supportedUnitsValue p; roster := roster p; sigurd := v |}.

(** [Player.__init__], before the subclass's [init] hook runs. *)
Definition new_player : Player :=
  {| units := []; selected_units := replicate 12 None; builder_mode := None;
     supplyDepotCount := 0; comandCenterCount := 0; hasHero := false;
     supplyDepotLimit := 30; comandCeneterLimit := 3; attackUpgrade := false;
     resources := 800; totalUnitsValue := 0; supportedUnitsValue := 0;
     roster := fun _ => []; sigurd := None |}.

(** The heap of unit objects, the two players, the map's unit list, the
    allocation counter and the global [BU.timeModifier]. *)
Record World := mkWorld {
  objs : gmap nat Unit;
  hp : Player;
  cp : Player;
  map_units : list nat;
  next_id : nat;
  timeModifier : Z
}.

Definition set_objs (v : gmap nat Unit) (w : World) : World :=
  {| objs := v; hp := hp w; cp := cp w; map_units := map_units w; next_id := next_id w;
     timeModifier := timeModifier w |}.

Definition set_hp (v : Player) (w : World) : World :=
  {| objs := objs w; hp := v; cp := cp w; map_units := map_units w; next_id := next_id w;
     timeModifier := timeModifier w |}.

Definition set_cp (v : Player) (w : World) : World :=
  {| objs := objs w; hp := hp w; cp := v; map_units := map_units w; next_id := next_id w;
     timeModifier := timeModifier w |}.

Definition set_map_units (v : list nat) (w : World) : World :=
  {| objs := objs w; hp := hp w; cp := cp w; map_units := v; next_id := next_id w;
     timeModifier := timeModifier w |}.

Definition set_next_id (v : nat) (w : World) : World :=
  {| objs := objs w; hp := hp w; cp := cp w; map_units := map_units w; next_id := v;
     timeModifier := timeModifier w |}.

Definition set_timeModifier (v : Z) (w : World) : World :=
  {| objs := objs w; hp := hp w; cp := cp w; map_units := map_units w; next_id := next_id w;
     timeModifier := v |}.

(** ** Reading and writing the heap *)

Definition player (p : PlayerId) (w : World) : Player :=
  match p with Human => hp w | Computer => cp w end.

Definition upd_player (p : PlayerId) (f : Player -> Player) (w : World) : World :=
  match p with Human => set_hp (f (hp w)) w | Computer => set_cp (f (cp w)) w end.

(** In-place mutation of the attributes of object [i]. *)
Definition upd (i : nat) (f : Unit -> Unit) (w : World) : World :=
  set_objs (alter f i (objs w)) w.

(** Object creation: the new object gets the next unused key. *)
Definition alloc (u : Unit) (w : World) : nat * World :=
  (next_id w, set_next_id (S (next_id w)) (set_objs (<[next_id w := u]> (objs w)) w)).

Definition kind_is (f : Kind -> bool) (w : World) (i : nat) : bool :=
  match objs w !! i with Some u => f (kind u) | None => false end.

Definition rect_of (w : World) (i : nat) : Rect :=
  match objs w !! i with Some u => rect u | None => mkRect 0 0 0 0 end.

(** Python's [lst.remove(x)] with the [ValueError] swallowed: the first
    occurrence goes, and a list without [x] is left alone. *)
Fixpoint py_remove (i : nat) (l : list nat) : list nat :=
  match l with
  | [] => []
  | j :: l' => if decide (i = j) then l' else j :: py_remove i l'
  end.

(** ** class Map *)

Definition map_width : Z := 3000.
Definition map_height : Z := 3000.

Definition Map_add_unit (i : nat) (w : World) : World :=
  set_map_units (map_units w ++ [i]) w.

Definition Map_remove_unit (i : nat) (w : World) : World :=
  set_map_units (py_remove i (map_units w)) w.

Definition Map_is_colliding_with_unit (r : Rect) (w : World) : bool :=
  existsb (fun i => colliderect (rect_of w i) r) (map_units w).

Definition Map_unit_in_bounds (r : Rect) : bool :=
  (0 <? rect_x r) && (rect_x r + rect_width r <? map_width) &&
  (0 <? rect_y r) && (rect_y r + rect_height r <? map_height).

Definition Map_get_unit_at_point (px py : Z) (w : World) : option nat :=
  List.find (fun i => collidepoint (rect_of w i) px py) (map_units w).

(** ** class Player *)

(** [Unit.get_unit_to_add], overridden by [Infantry]: the unit counts
    against the population of its master. *)
Definition Unit_get_unit_to_add (i : nat) (w : World) : World :=
  match objs w !! i with
  | Some u =>
      if is_Infantry (kind u)
      then upd_player (master u)
             (fun pl => set_totalUnitsValue (totalUnitsValue pl + unitValue u) pl) w
      else w
  | None => w
  end.

Definition Player_add_unit (p : PlayerId) (i : nat) (w : World) : bool * World :=
  match objs w !! i with
  | None => (false, w)
  | Some u =>
      if is_Hero (kind u) && hasHero (player p w) then (false, w) else
      if is_ComandCenter (kind u)
         && (comandCeneterLimit (player p w) <=? comandCenterCount (player p w))
      then (false, w) else
      let w :=
        if is_ComandCenter (kind u)
        then upd_player p (fun pl => set_comandCenterCount (comandCenterCount pl + 1) pl) w
        else w in
      if is_SupplyDepot (kind u)
         && (supplyDepotLimit (player p w) <=? supplyDepotCount (player p w))
      then (false, w) else
      let w :=
        if is_SupplyDepot (kind u)
        then upd_player p (fun pl => set_supplyDepotCount (supplyDepotCount pl + 1) pl) w
        else w in
      let enough_supply :=
        if is_Infantry (kind u)
        then unitValue u <=? supportedUnitsValue (player p w) - totalUnitsValue (player p w)
        else true in
      if Qltb (float_of (cost u)) (resources (player p w)) && enough_supply then
        let w := upd_player p
                   (fun pl => set_resources (resources pl - float_of (cost u))%Q pl) w in
        let w := if is_Hero (kind u) then upd_player p (set_hasHero true) w else w in
        let w := upd_player p (fun pl => set_units (units pl ++ [i]) pl) w in
        let w := Unit_get_unit_to_add i w in
        (true, Map_add_unit i w)
      else (false, w)
  end.

(** [Player.update_selected_units]: the first twelve selected units of the
    player's list, in order; any further selected unit is deselected. *)
Definition update_selected_step (acc : list nat * World) (i : nat) : list nat * World :=
  let (sel, w) := acc in
  match objs w !! i with
  | Some u =>
      if selected u then
        if (length sel <? 12)%nat then (sel ++ [i], w)
        else (sel, upd i (set_selected false) w)
      else (sel, w)
  | None => (sel, w)
  end.

Definition Player_update_selected_units (p : PlayerId) (w : World) : World :=
  let (sel, w) := fold_left update_selected_step (units (player p w)) ([], w) in
  upd_player p
    (set_selected_units (take 12 (map Some sel ++ replicate (12 - length sel) None))) w.

Definition Player_remove_unit (p : PlayerId) (i : nat) (w : World) : World :=
  let w := if kind_is is_Hero w i then upd_player p (set_hasHero false) w else w in
  let w := upd_player p (fun pl => set_units (py_remove i (units pl)) pl) w in
  let w := Map_remove_unit i w in
  Player_update_selected_units p w.

Definition Player_deselect_all (p : PlayerId) (w : World) : World :=
  fold_left (fun w i => upd i (set_selected false) w) (units (player p w)) w.

Definition Player_deselect (uni : list (option nat)) (w : World) : World :=
  fold_left (fun w o => match o with Some i => upd i (set_selected false) w | None => w end)
    uni w.

(** ** class ComputerPlayer *)

(** The bookkeeping list a class is filed under ([Spearman] under [bowmen]). *)
Definition roster_of (k : Kind) : option Roster :=
  match k with
  | ComandCenter | Tara => Some comandcenter
  | Stables => Some stables
  | Barracks => Some barracks
  | SupplyDepot => Some supplyDepots
  | Builder => Some builders
  | Swordsman => Some swordsmen
  | Spearman => Some bowmen
  | Horseman => Some horsemen
  | BrianBoru | Sigurd => None
  end.

Definition roster_upd (r : Roster) (f : list nat -> list nat) (pl : Player) : Player :=
  set_roster (fun r' => if decide (r' = r) then f (roster pl r') else roster pl r') pl.

Definition ComputerPlayer_add_unit (i : nat) (w : World) : bool * World :=
  match objs w !! i with
  | None => (false, w)
  | Some u =>
      if negb (Map_is_colliding_with_unit (rect u) w) then
        let (ok, w) := Player_add_unit Computer i w in
        if ok then
          let w := match roster_of (kind u) with
                   | Some r => upd_player Computer (roster_upd r (fun l => l ++ [i])) w
                   | None => w
                   end in
          let w := match kind u with
                   | Sigurd => upd_player Computer (set_sigurd (Some i)) w
                   | _ => w
                   end in
          (true, w)
        else (false, w)
      else (false, w)
  end.

Definition ComputerPlayer_remove_unit (i : nat) (w : World) : World :=
  let w := Player_remove_unit Computer i w in
  match objs w !! i with
  | Some u =>
      let w := match roster_of (kind u) with
               | Some r => upd_player Computer (roster_upd r (py_remove i)) w
               | None => w
               end in
      match kind u with
      | Sigurd => upd_player Computer (fun pl => set_hasHero false (set_sigurd None pl)) w
      | _ => w
      end
  | None => w
  end.

(** Method dispatch on the player's class: [HumanPlayer] inherits both
    methods from [Player], [ComputerPlayer] overrides them. *)
Definition add_unit (p : PlayerId) (i : nat) (w : World) : bool * World :=
  match p with
  | Human => Player_add_unit Human i w
  | Computer => ComputerPlayer_add_unit i w
  end.

Definition remove_unit (p : PlayerId) (i : nat) (w : World) : World :=
  match p with
  | Human => Player_remove_unit Human i w
  | Computer => ComputerPlayer_remove_unit i w
  end.

(** ** class Unit *)

(** Attribute reads through a reference; a dangling key reads as a neutral
    value (the game never holds one). *)
Definition health_of (w : World) (i : nat) : Q :=
  match objs w !! i with Some u => health u | None => 0%Q end.

Definition buildTime_of (w : World) (i : nat) : Q :=
  match objs w !! i with Some u => buildTime u | None => 0%Q end.

Definition side_of (w : World) (i : nat) : Z :=
  match objs w !! i with Some u => side u | None => 0 end.

Definition personal_space_of (w : World) (i : nat) : Rect :=
  match objs w !! i with Some u => personal_space u | None => mkRect 0 0 0 0 end.

Definition Unit_set_location (x y : Z) (u : Unit) : Unit :=
  let u := set_fx (float_of x) u in
  let u := set_fy (float_of y) u in
  set_rect (mkRect (int_of (fx u)) (int_of (fy u)) (rect_width (rect u)) (rect_height (rect u))) u.

(** The rectangle [r] grown by [d] on every side. *)
Definition inflate (r : Rect) (d : Z) : Rect :=
  mkRect (rect_x r - d) (rect_y r - d) (rect_width r + d * 2) (rect_height r + d * 2).

Definition Building_is_being_built (u : Unit) : bool := Qltb 0 (buildTime u).

(** [Unit.select], overridden by [Building]. *)
Definition select (u : Unit) : Unit :=
  if is_Building (kind u)
  then (if negb (Building_is_being_built u) then set_selected true u else u)
  else set_selected true u.

Definition deselect (u : Unit) : Unit := set_selected false u.

Definition Unit_die (i : nat) (w : World) : World :=
  match objs w !! i with
  | Some u => remove_unit (master u) i w
  | None => w
  end.

Definition Infantry_die (i : nat) (w : World) : World :=
  match objs w !! i with
  | Some u =>
      let w := Unit_die i w in
      upd_player (master u)
        (fun pl => set_totalUnitsValue (totalUnitsValue pl - unitValue u) pl) w
  | None => w
  end.

Definition Building_die (i : nat) (w : World) : World :=
  match objs w !! i with
  | Some u =>
      let w := Unit_die i w in
      upd_player (master u)
        (fun pl => set_supportedUnitsValue (supportedUnitsValue pl - supportedUnits u) pl) w
  | None => w
  end.

Definition ComandCenter_die (i : nat) (w : World) : World :=
  match objs w !! i with
  | Some u =>
      let w := Building_die i w in
      upd_player (master u) (fun pl => set_comandCenterCount (comandCenterCount pl - 1) pl) w
  | None => w
  end.

Definition SupplyDepot_die (i : nat) (w : World) : World :=
  match objs w !! i with
  | Some u =>
      let w := Building_die i w in
      upd_player (master u) (fun pl => set_supplyDepotCount (supplyDepotCount pl - 1) pl) w
  | None => w
  end.

(** [self.die()], resolved on the object's class. *)
Definition die (i : nat) (w : World) : World :=
  match objs w !! i with
  | Some u =>
      if is_Infantry (kind u) then Infantry_die i w
      else if is_ComandCenter (kind u) then ComandCenter_die i w
      else if is_SupplyDepot (kind u) then SupplyDepot_die i w
      else Building_die i w
  | None => w
  end.

Definition Unit_act (i : nat) (w : World) : World :=
  match objs w !! i with
  | Some u =>
      if Qltb 0 (health u)
      then upd i (fun u => set_sight (inflate (rect u) 300)
                             (set_personal_space (inflate (rect u) 3) u)) w
      else die i w
  | None => w
  end.

Definition Unit_units_in_sight (i : nat) (w : World) : list nat :=
  match objs w !! i with
  | Some u => List.filter (fun j => colliderect (rect_of w j) (sight u)) (map_units w)
  | None => []
  end.

(** ** class Infantry *)

Definition Infantry_at_destination (u : Unit) : bool :=
  (destinationX u <? rect_x (rect u) + 1) && (rect_x (rect u) - 1 <? destinationX u) &&
  (destinationY u <? rect_y (rect u) + 1) && (rect_y (rect u) - 1 <? destinationY u).

Definition Infantry_set_destination (x y : Z) (u : Unit) : Unit :=
  set_destinationY y (set_destinationX x u).

(** The new logical position; the method also stores the untruncated
    position in [fx], [fy]. *)
Definition Infantry_get_next_logical_location (dt : Q) (u : Unit) : (Z * Z) * Unit :=
  let s := tick_scale dt in
  let spd := (float_of (speed u) * s)%Q in
  let tx :=
    if Qltb (float_of (destinationX u)) (fx u + spd)
       && Qltb (fx u - spd) (float_of (destinationX u))
    then float_of (destinationX u)
    else if Qltb (fx u) (float_of (destinationX u)) then (fx u + spd)%Q
    else (fx u - spd)%Q in
  let ty :=
    if Qltb (float_of (destinationY u)) (fy u + spd)
       && Qltb (fy u - spd) (float_of (destinationY u))
    then float_of (destinationY u)
    else if Qltb (float_of (destinationY u)) (fy u) then (fy u - spd)%Q
    else (fy u + spd)%Q in
  let tx := clamp tx (float_of 0) (float_of (map_width - rect_width (rect u))) in
  let ty := clamp ty (float_of 0) (float_of (map_height - rect_height (rect u))) in
  ((int_of tx, int_of ty), set_fy ty (set_fx tx u)).

Definition Infantry_do_right_click (wx wy : Z) (u : Unit) : Unit :=
  let u := set_destinationX (wx - int_of ((1 # 2) * float_of (rect_width (rect u)))) u in
  set_destinationY (wy - int_of ((1 # 2) * float_of (rect_height (rect u)))) u.

(** ** class OffensiveInfantry *)

Definition OffensiveInfantry_get_next_logical_location (dt : Q) (i : nat) (w : World)
  : (Z * Z) * World :=
  match objs w !! i with
  | None => ((0, 0), w)
  | Some u =>
      if holdPosition u then ((int_of (fx u), int_of (fy u)), w) else
      let w :=
        if negb (ignoreEnemies u)
           && (negb (bool_decide (is_Some (obsession u)))
               || Infantry_at_destination u || attackMoving u)
        then
          match List.find (fun j => negb (side_of w j =? side u) && negb (attacking u))
                  (Unit_units_in_sight i w) with
          | Some j =>
              upd i (fun u => set_destinationY (rect_y (rect_of w j))
                                (set_destinationX (rect_x (rect_of w j))
                                   (set_obsession (Some j) u))) w
          | None => w
          end
        else w in
      match objs w !! i with
      | Some u =>
          (fst (Infantry_get_next_logical_location dt u),
           upd i (fun u => snd (Infantry_get_next_logical_location dt u)) w)
      | None => ((0, 0), w)
      end
  end.

(** [self.get_next_logical_location(dt)], resolved on the object's class. *)
Definition get_next_logical_location (dt : Q) (i : nat) (w : World) : (Z * Z) * World :=
  match objs w !! i with
  | Some u =>
      if is_OffensiveInfantry (kind u)
      then OffensiveInfantry_get_next_logical_location dt i w
      else (fst (Infantry_get_next_logical_location dt u),
            upd i (fun u => snd (Infantry_get_next_logical_location dt u)) w)
  | None => ((0, 0), w)
  end.

Definition Infantry_act (dt : Q) (i : nat) (w : World) : World :=
  let w := Unit_act i w in
  let '((nx, ny), w) := get_next_logical_location dt i w in
  upd i (Unit_set_location nx ny) w.

(** [random.randint(0, 1)] for the draw [r]. *)
Definition randint01 (r : bool) : Z := if r then 1 else 0.

(** [a.attack(d)]: [a] and [d] are the keys of the attacker and of the
    defender, [r] the random draw the call may consume. *)
Definition OffensiveInfantry_attack (r : bool) (a d : nat) (w : World) : World :=
  match objs w !! a, objs w !! d with
  | Some ua, Some ud =>
      let w := upd a (fun u => set_attackMoving false (set_attacking true u)) w in
      let damage := power ua - defense ud in
      let damage := if damage <? 1 then randint01 r else damage in
      let w :=
        if attackUpgrade (player (master ua) w)
        then upd d (fun u => set_health (health u - float_of (damage + 2))%Q u) w
        else upd d (fun u => set_health (health u - float_of damage)%Q u) w in
      if Qltb (health_of w d) 1
      then upd a (fun u => set_holdPosition false (set_obsession None u)) w
      else w
  | _, _ => w
  end.

Definition OffensiveInfantry_act (r : bool) (dt : Q) (i : nat) (w : World) : World :=
  match objs w !! i with
  | None => w
  | Some u =>
      let w :=
        if Qltb 0 (health u)
        then upd i (fun u => set_personal_space (inflate (rect u) (attackDistance u)) u) w
        else w in
      let w :=
        if Infantry_at_destination u
        then upd i (fun u => set_attackMoving false (set_ignoreEnemies false u)) w
        else w in
      let w := Infantry_act dt i w in
      let w := upd i (set_attacking false) w in
      match objs w !! i with
      | None => w
      | Some u =>
          match obsession u with
          | Some o =>
              if negb (ignoreEnemies u)
                 && negb (side_of w o =? side u)
                 && colliderect (personal_space u) (personal_space_of w o)
                 && Qltb 0 (health u)
              then OffensiveInfantry_attack r i o (upd i (set_holdPosition true) w)
              else upd i (set_holdPosition false) w
          | None => upd i (set_holdPosition false) w
          end
      end
  end.

Definition OffensiveInfantry_do_right_click (wx wy : Z) (i : nat) (w : World) : World :=
  let w :=
    match Map_get_unit_at_point wx wy w with
    | Some t => upd i (fun u => set_attacking false (set_obsession (Some t) u)) w
    | None => w
    end in
  let w := upd i (fun u => set_holdPosition false (set_attackMoving true u)) w in
  upd i (Infantry_do_right_click wx wy) w.

(** ** classes BrianBoru and Sigurd *)

Definition Hero_act (r : bool) (dt : Q) (i : nat) (w : World) : World :=
  let w := OffensiveInfantry_act r dt i w in
  upd i (fun u =>
           let u := set_health (health u + 2 * tick_scale dt)%Q u in
           if Qltb (maxHealth u) (health u) then set_health (maxHealth u) u else u) w.

(** ** class Builder *)

Definition Builder_act (dt : Q) (i : nat) (w : World) : World :=
  match objs w !! i with
  | None => w
  | Some u =>
      let w :=
        match toBuild u with
        | Some t =>
            if colliderect (personal_space u) (personal_space_of w t) && building u
            then upd i (fun u => set_destinationY (rect_y (rect u))
                                   (set_destinationX (rect_x (rect u)) u)) w
            else w
        | None => w
        end in
      let w := Infantry_act dt i w in
      match objs w !! i with
      | None => w
      | Some u =>
          match toBuild u with
          | Some t =>
              if Infantry_at_destination u && building u then
                let w := upd t (fun b => set_buildTime (buildTime b - tick_scale dt)%Q b) w in
                if negb (Qltb 0 (buildTime_of w t)) then upd i (set_building false) w else w
              else w
          | None => w
          end
      end
  end.

Definition Builder_build_building_at (x y : Z) (i : nat) (w : World) : bool * World :=
  match objs w !! i with
  | None => (false, w)
  | Some u =>
      match toBuild u with
      | None => (false, w)
      | Some t =>
          let tw := rect_width (rect_of w t) in
          let th := rect_height (rect_of w t) in
          let r := mkRect x y tw th in
          if negb (Map_is_colliding_with_unit r w) then
            let w := upd t (Unit_set_location
                              (int_of (float_of x - (1 # 2) * float_of tw))
                              (int_of (float_of y - (1 # 2) * float_of th))) w in
            let w := snd (add_unit (master u) t w) in
            let w := upd i (set_building true) w in
            let w := upd i (fun u => set_destinationY (rect_y (rect_of w t))
                                       (set_destinationX (rect_x (rect_of w t)) u)) w in
            let w := upd i (set_selectingToBuild false) w in
            (true, upd i select w)
          else (false, w)
      end
  end.

Definition Builder_ai_build_building_at (x y : Z) (i : nat) (w : World) : bool * World :=
  match objs w !! i with
  | None => (false, w)
  | Some u =>
      match toBuild u with
      | None => (false, w)
      | Some t =>
          let r := mkRect x y (rect_width (rect_of w t)) (rect_height (rect_of w t)) in
          if negb (Map_is_colliding_with_unit r w) then
            let w := upd t (Unit_set_location x y) w in
            let w := snd (add_unit (master u) t w) in
            let w := upd i (set_building true) w in
            let w := upd i (fun u => set_destinationY (rect_y (rect_of w t))
                                       (set_destinationX (rect_x (rect_of w t)) u)) w in
            let w := upd i (set_selectingToBuild false) w in
            (true, upd i select w)
          else (false, w)
      end
  end.

(** ** class ProductionQueue *)

Definition ProductionQueue_enqueue (obj : nat) (q : list nat) : bool * list nat :=
  if (length q <? 5)%nat then (true, q ++ [obj]) else (false, q).

Definition ProductionQueue_next (q : list nat) : option nat := head q.

Definition ProductionQueue_dequeue (q : list nat) : option nat * list nat :=
  match q with
  | [] => (None, [])
  | obj :: q' => (Some obj, q')
  end.

Definition ProductionQueue_is_full (q : list nat) : bool := (5 <=? length q)%nat.

Definition ProductionQueue_size (q : list nat) : nat := length q.

(** [DequeueAction.tech_act]: the newest order is dropped ([pop(-1)]). *)
Definition DequeueAction_tech_act (q : list nat) : list nat := removelast q.

(** ** class Building *)

Definition Building_init_after_build (i : nat) (w : World) : World :=
  match objs w !! i with
  | Some b =>
      if negb (didInitializeAfterBuild b) then
        let w := upd i (set_didInitializeAfterBuild true) w in
        upd_player (master b)
          (fun pl => set_supportedUnitsValue (supportedUnitsValue pl + supportedUnits b) pl) w
      else w
  | None => w
  end.

(** The body of [if nxt.buildTime <= 0:] in [Building.act]: the finished
    order leaves the queue of building [i], is handed to the owner's
    [add_unit] and is put at the building's bottom-right corner. *)
Definition Building_release (i : nat) (w : World) : World :=
  match objs w !! i with
  | None => w
  | Some b =>
      match ProductionQueue_dequeue (queue b) with
      | (None, _) => w
      | (Some temp_unit, rest) =>
          let w := upd i (set_queue rest) w in
          let w := snd (add_unit (master b) temp_unit w) in
          let cx := rect_x (rect b) + rect_width (rect b) in
          let cy := rect_y (rect b) + rect_height (rect b) in
          let w :=
            if kind_is is_Infantry w temp_unit
            then upd temp_unit (fun u => set_destinationY cy (set_destinationX cx u)) w
            else w in
          upd temp_unit (Unit_set_location cx cy) w
      end
  end.

Definition Building_act (dt : Q) (i : nat) (w : World) : World :=
  let w := Unit_act i w in
  match objs w !! i with
  | None => w
  | Some b =>
      if negb (Building_is_being_built b) then
        let w := Building_init_after_build i w in
        let w := upd_player (master b)
                   (fun pl => set_resources
                                (resources pl + resourceIncrease b * tick_scale dt)%Q pl) w in
        match ProductionQueue_next (queue b) with
        | None => w
        | Some nxt =>
            if negb (kind_is (fun _ => true) w nxt) then w else
            let w := upd nxt (fun u => set_buildTime (buildTime u - tick_scale dt)%Q u) w in
            if Qle_bool (buildTime_of w nxt) 0 then Building_release i w else w
        end
      else w
  end.

(** [Building.do_click]: a finished building is selected; an unfinished
    one is handed to every selected builder of its owner. *)
Definition Building_do_click (i : nat) (w : World) : World :=
  match objs w !! i with
  | None => w
  | Some b =>
      if negb (Building_is_being_built b) then upd i select w
      else
        fold_left
          (fun w o =>
             match o with
             | Some j =>
                 if kind_is is_Builder w j
                 then upd j (fun u => Infantry_set_destination (rect_x (rect b)) (rect_y (rect b))
                                        (set_building true (set_toBuild (Some i) u))) w
                 else w
             | None => w
             end)
          (selected_units (player (master b) w)) w
  end.

(** [u.act(dt)], resolved on the object's class; [r] is the random draw
    available to this call. *)
Definition act (r : bool) (dt : Q) (i : nat) (w : World) : World :=
  match objs w !! i with
  | None => w
  | Some u =>
      match kind u with
      | Builder => Builder_act dt i w
      | Spearman | Swordsman | Horseman => OffensiveInfantry_act r dt i w
      | BrianBoru | Sigurd => Hero_act r dt i w
      | Barracks | Stables | ComandCenter | Tara | SupplyDepot => Building_act dt i w
      end
  end.

(** ** Tech actions

    The buttons a unit offers: [tech_actions k s] is the action object the
    constructor of class [k] stores in slot [s]. *)

Inductive TechAction :=
  | SetDestinationAction | SetOffensiveDestinationAction
  | MakeComandCenter | MakeBarracks | MakeStables | MakeSupplyDepot
  | DropSpearmanAction | DequeueAction
  | MakeSwordsmanAction | MakeSpearmanAction | MakeHorsemanAction
  | MakeBuilderAction | MakeHeroAction | UpgradeToClaymoreAction.

Definition tech_actions (k : Kind) (slot : nat) : option TechAction :=
  match k, slot with
  | Builder, 0%nat => Some SetDestinationAction
  | Builder, 1%nat => Some MakeComandCenter
  | Builder, 2%nat => Some MakeBarracks
  | Builder, 3%nat => Some MakeStables
  | Builder, 4%nat => Some MakeSupplyDepot
  | (Spearman | Swordsman | Horseman | BrianBoru | Sigurd), 0%nat => Some SetDestinationAction
  | (Spearman | Swordsman | Horseman | BrianBoru | Sigurd), 1%nat =>
      Some SetOffensiveDestinationAction
  | Horseman, 2%nat => Some DropSpearmanAction
  | Barracks, 0%nat => Some MakeSwordsmanAction
  | Barracks, 1%nat => Some MakeSpearmanAction
  | Stables, 0%nat => Some MakeHorsemanAction
  | (ComandCenter | Tara), 0%nat => Some MakeBuilderAction
  | (ComandCenter | Tara), 1%nat => Some MakeHeroAction
  | SupplyDepot, 0%nat => Some UpgradeToClaymoreAction
  | (Barracks | Stables | ComandCenter | Tara | SupplyDepot), 8%nat => Some DequeueAction
  | _, _ => None
  end.

(** [MakeBuilding.tech_act] after the subclass has created the pending
    building of class [k]. *)
Definition MakeBuilding_tech_act (k : Kind) (i : nat) (w : World) : World :=
  match objs w !! i with
  | None => w
  | Some u =>
      let (t, w) := alloc (new_unit k (side u) (master u) (timeModifier w)) w in
      let w := upd i (set_toBuild (Some t)) w in
      let w :=
        if negb (selectingToBuild u)
        then upd_player (master u) (set_builder_mode (Some i)) w
        else upd_player (master u) (set_builder_mode None) w in
      upd i (fun u => set_selectingToBuild (negb (selectingToBuild u)) u) w
  end.

(** The [Make...Action.tech_act] of a building: a new unit of class [k]
    is created and offered to the queue, which may refuse it. *)
Definition MakeUnit_tech_act (k : Kind) (i : nat) (w : World) : World :=
  match objs w !! i with
  | None => w
  | Some b =>
      let (t, w) := alloc (new_unit k (side b) (master b) (timeModifier w)) w in
      upd i (fun b => set_queue (snd (ProductionQueue_enqueue t (queue b))) b) w
  end.

Definition DropSpearmanAction_tech_act (i : nat) (w : World) : World :=
  match objs w !! i with
  | None => w
  | Some h =>
      if hasSpearman h then
        let w := upd i (fun h => set_power (int_of (float_of (power h) / 2)) 
                                   (set_hasSpearman false h)) w in
        let (sm, w) := alloc (new_unit Spearman (side h) (master h) (timeModifier w)) w in
        let w := upd sm (Unit_set_location (rect_x (rect h)) (rect_y (rect h))) w in
        let w := upd sm (Infantry_set_destination (destinationX h) (destinationY h)) w in
        let w := upd_player (master h) (fun pl => set_units (units pl ++ [sm]) pl) w in
        Map_add_unit sm w
      else w
  end.

Definition UpgradeToClaymoreAction_tech_act (i : nat) (w : World) : World :=
  match objs w !! i with
  | None => w
  | Some b =>
      let p := master b in
      if negb (attackUpgrade (player p w)) && Qltb 200 (resources (player p w))
      then upd_player p (fun pl => set_attackUpgrade true
                                     (set_resources (resources pl - 200)%Q pl)) w
      else w
  end.

Definition SetDestinationAction_tech_act (i : nat) (w : World) : World :=
  let w := upd i (set_setDestinationEnabled true) w in
  if kind_is is_OffensiveInfantry w i then upd i (set_ignoreEnemies true) w else w.

Definition SetOffensiveDestinationAction_tech_act (i : nat) (w : World) : World :=
  let w := SetDestinationAction_tech_act i w in
  upd i (fun u => set_attackMoving true (set_ignoreEnemies false u)) w.

(** [a.tech_act()] for the action [a] of the unit [i]. *)
Definition tech_act (a : TechAction) (i : nat) (w : World) : World :=
  match a with
  | SetDestinationAction => SetDestinationAction_tech_act i w
  | SetOffensiveDestinationAction => SetOffensiveDestinationAction_tech_act i w
  | MakeComandCenter => MakeBuilding_tech_act ComandCenter i w
  | MakeBarracks => MakeBuilding_tech_act Barracks i w
  | MakeStables => MakeBuilding_tech_act Stables i w
  | MakeSupplyDepot => MakeBuilding_tech_act SupplyDepot i w
  | DropSpearmanAction => DropSpearmanAction_tech_act i w
  | DequeueAction => upd i (fun b => set_queue (DequeueAction_tech_act (queue b)) b) w
  | MakeSwordsmanAction => MakeUnit_tech_act Swordsman i w
  | MakeSpearmanAction => MakeUnit_tech_act Spearman i w
  | MakeHorsemanAction => MakeUnit_tech_act Horseman i w
  | MakeBuilderAction => MakeUnit_tech_act Builder i w
  | MakeHeroAction =>
      if side_of w i =? 0 then MakeUnit_tech_act BrianBoru i w
      else MakeUnit_tech_act Sigurd i w
  | UpgradeToClaymoreAction => UpgradeToClaymoreAction_tech_act i w
  end.

(** Pressing button [slot] of unit [i]. *)
Definition press (i slot : nat) (w : World) : World :=
  match objs w !! i with
  | Some u =>
      match tech_actions (kind u) slot with
      | Some a => tech_act a i w
      | None => w
      end
  | None => w
  end.

(** [UnitSelectionAction.tech_act]. *)
Definition UnitSelectionAction_tech_act (i : nat) (w : World) : World :=
  match objs w !! i with
  | Some u =>
      let w := Player_deselect_all (master u) w in
      let w := upd i select w in
      Player_update_selected_units (master u) w
  | None => w
  end.

(** ** Mouse clicks on a unit *)

(** [Infantry.do_click]; [dbl] says the click came within half a second
    of the previous one. *)
Definition Infantry_do_click (dbl : bool) (i : nat) (w : World) : World :=
  match objs w !! i with
  | Some u =>
      if dbl then
        fold_left (fun w j => if kind_is (fun k => bool_decide (k = kind u)) w j
                              then upd j select w else w)
          (Unit_units_in_sight i w) w
      else w
  | None => w
  end.

(** [self.do_click()], resolved on the object's class. *)
Definition do_click (dbl : bool) (i : nat) (w : World) : World :=
  match objs w !! i with
  | Some u =>
      match kind u with
      | Builder | Spearman | Horseman => Infantry_do_click dbl i (upd i select w)
      | Swordsman | BrianBoru | Sigurd => upd i select (Infantry_do_click dbl i w)
      | Barracks | Stables | ComandCenter | Tara | SupplyDepot => Building_do_click i w
      end
  | None => w
  end.

(** [self.do_right_click(wx, wy)], resolved on the object's class. *)
Definition do_right_click (wx wy : Z) (i : nat) (w : World) : World :=
  match objs w !! i with
  | Some u =>
      if is_OffensiveInfantry (kind u) then OffensiveInfantry_do_right_click wx wy i w
      else if is_Infantry (kind u) then upd i (Infantry_do_right_click wx wy) w
      else w
  | None => w
  end.

Definition Unit_click (dbl : bool) (button wx wy : Z) (i : nat) (w : World) : World :=
  match objs w !! i with
  | Some u =>
      if (button =? 3) && selected u then do_right_click wx wy i w
      else if collidepoint (rect u) wx wy then do_click dbl i w
      else w
  | None => w
  end.

(** [u.click(button, pos)] with [pos] already in world coordinates. *)
Definition click (dbl : bool) (button wx wy : Z) (i : nat) (w : World) : World :=
  match objs w !! i with
  | Some u =>
      if is_Infantry (kind u) then
        let w :=
          if setDestinationEnabled u
          then upd i (fun u => Infantry_do_right_click wx wy (set_holdPosition false u)) w
          else w in
        Unit_click dbl button wx wy i (upd i (set_setDestinationEnabled false) w)
      else Unit_click dbl button wx wy i w
  | None => w
  end.

(** The placement step of [HumanPlayer.click]. *)
Definition HumanPlayer_click_place (wx wy : Z) (w : World) : World :=
  match builder_mode (hp w) with
  | Some b =>
      let (ok, w) := Builder_build_building_at wx wy b w in
      if ok then upd_player Human (set_builder_mode None) w else w
  | None => w
  end.

(** ** The computer player's building placement *)

(** [for i in range(-1, 2): for j in range(-1, 2)] *)
Definition ai_offsets : list (Z * Z) :=
  [(-1, -1); (-1, 0); (-1, 1); (0, -1); (0, 0); (0, 1); (1, -1); (1, 0); (1, 1)].

(** One candidate spot next to the building [u]; the flag records that
    the method has returned. *)
Definition ai_try (b : nat) (acc : bool * World) (c : nat * (Z * Z)) : bool * World :=
  let (returned, w) := acc in
  let '(u, (i, j)) := c in
  if returned then acc else
  match objs w !! b, objs w !! u with
  | Some ub, Some uu =>
      match toBuild ub with
      | Some tb =>
          if is_Building (kind uu) then
            let r := rect uu in
            let w := upd tb (Unit_set_location
                       (rect_x r + int_of ((1 # 2) * float_of (rect_width r))
                        + rect_width r / 2 * i + rect_width r * 3 * i)
                       (rect_y r + int_of ((1 # 2) * float_of (rect_height r))
                        + rect_height r / 2 * j + rect_height r * 3 * j)) w in
            let tr := rect_of w tb in
            if negb (Map_is_colliding_with_unit tr w) && Map_unit_in_bounds tr
            then Builder_ai_build_building_at (rect_x tr) (rect_y tr) b w
            else (false, w)
          else acc
      | None => acc
      end
  | _, _ => acc
  end.

Definition ComputerPlayer_build_at_logical_location (b : nat) (w : World) : World :=
  snd (fold_left (ai_try b)
         (flat_map (fun u => map (pair u) ai_offsets) (units (cp w))) (false, w)).

(** ** class Game *)

(** [Game.__init__]: the map, then the computer player with its command
    centre, then the human player with Tara. *)
Definition Game_init : World :=
  let w := mkWorld ∅ new_player new_player [] 0 1 in
  let (cc, w) := alloc (new_unit ComandCenter 1 Computer (timeModifier w)) w in
  let w := upd cc (set_buildTime 0) w in
  let w := upd cc (Unit_set_location 2500 2500) w in
  let w := snd (add_unit Computer cc w) in
  let (t, w) := alloc (new_unit Tara 0 Human (timeModifier w)) w in
  let w := upd t (set_buildTime 0) w in
  let w := upd t (Unit_set_location 770 100) w in
  snd (add_unit Human t w).

(** [for u in list(self.map.units): u.act(dt)] over the snapshot [l];
    the [k]-th call may consume the draw [rnd k]. *)
Fixpoint act_all (rnd : nat -> bool) (dt : Q) (k : nat) (l : list nat) (w : World) : World :=
  match l with
  | [] => w
  | i :: l' => act_all rnd dt (S k) l' (act (rnd k) dt i w)
  end.

(** The unit pass of [Game.update]; the main loop never passes a negative
    [dt]. *)
Definition Game_update (rnd : nat -> bool) (dt : Q) (w : World) : World :=
  let dt := if Qltb dt 0 then 0%Q else dt in
  act_all rnd dt 0 (map_units w) w.

(** ** Events

    What can happen to a running game: a frame, or one of the commands
    that the human player's input and the computer player's poll issue. *)
Inductive Event :=
  | Tick (rnd : nat -> bool) (dt : Q)
  | Press (i slot : nat)
  | PressUnit (i : nat)
  | Click (dbl : bool) (button wx wy : Z) (i : nat)
  | Place (wx wy : Z)
  | AiPlace (b : nat)
  | Select (i : nat)
  | Deselect (i : nat)
  | DeselectAll (p : PlayerId)
  | UpdateSelected (p : PlayerId)
  | SetDestination (i : nat) (x y : Z)
  | Money
  | Fastpace.

Definition step (e : Event) (w : World) : World :=
  match e with
  | Tick rnd dt => Game_update rnd dt w
  | Press i slot => press i slot w
  | PressUnit i => UnitSelectionAction_tech_act i w
  | Click dbl button wx wy i => click dbl button wx wy i w
  | Place wx wy => HumanPlayer_click_place wx wy w
  | AiPlace b => ComputerPlayer_build_at_logical_location b w
  | Select i => upd i select w
  | Deselect i => upd i deselect w
  | DeselectAll p => Player_deselect_all p w
  | UpdateSelected p => Player_update_selected_units p w
  | SetDestination i x y =>
      if kind_is is_Infantry w i then upd i (Infantry_set_destination x y) w else w
  | Money => upd_player Human (set_resources 100000) w
  | Fastpace => set_timeModifier 10 w
  end.

Definition run (es : list Event) (w : World) : World := fold_left (fun w e => step e w) es w.

(** The states a game can be in. *)
Inductive reachable : World -> Prop :=
  | reachable_init : reachable Game_init
  | reachable_step e w : reachable w -> reachable (step e w).

(** * The user interface *)

(** ** [java_mod]

    Python's [%] on integers takes the sign of the divisor, as [Z.modulo]
    does. *)
Definition java_mod (a b : Z) : Z :=
  if b =? 0 then 0
  else if 0 <=? a then a mod b
  else - ((- a) mod b).

(** ** class BU: the window *)

Record BU := mkBU { BU_w : Z; BU_h : Z; mouseX : Z; mouseY : Z }.

(** ** class Map: the camera

    [Map.x], [Map.y]: where the map's top-left corner is drawn on the
    window (never positive once clamped). *)
Record Camera := mkCamera { cam_x : Z; cam_y : Z }.

(** [Map._clamp_to_bounds] *)
Definition Map_clamp_to_bounds (s : BU) (c : Camera) : Camera :=
  let c := if 0 <? cam_y c then mkCamera (cam_x c) 0 else c in
  let c := if cam_y c + map_height <? BU_h s
           then mkCamera (cam_x c) (BU_h s - map_height) else c in
  let c := if cam_x c + map_width <? BU_w s
           then mkCamera (BU_w s - map_width) (cam_y c) else c in
  if 0 <? cam_x c then mkCamera 0 (cam_y c) else c.

Definition Map_set_location (s : BU) (x_world y_world : Z) : Camera :=
  Map_clamp_to_bounds s (mkCamera (- x_world) (- y_world)).

Definition Map_update_scroll (s : BU) (dt : Q) (c : Camera) : Camera :=
  let d := int_of (10 * tick_scale dt) in
  let c := if mouseY s <? 15 then mkCamera (cam_x c) (cam_y c + d) else c in
  let c := if BU_h s - 40 <=? mouseY s then mkCamera (cam_x c) (cam_y c - d) else c in
  let c := if BU_w s - 15 <=? mouseX s then mkCamera (cam_x c - d) (cam_y c) else c in
  let c := if mouseX s <=? 15 then mkCamera (cam_x c + d) (cam_y c) else c in
  Map_clamp_to_bounds s c.

(** ** class Minimap *)

(** [Minimap.update_rect]: the rectangle of the minimap on the window. *)
Definition Minimap_rect (s : BU) : Rect :=
  mkRect 3 (BU_h s - BU_h s / 4 + 3) (BU_w s / 5 - 3) (BU_h s / 5 - 3).

Definition Minimap_do_click (s : BU) (px py : Z) : Camera :=
  let r := Minimap_rect s in
  let x_goto := (px - rect_x r) * map_width / Z.max 1 (rect_width r) in
  let y_goto := (py - rect_y r) * map_height / Z.max 1 (rect_height r) in
  Map_set_location s x_goto y_goto.

(** [Minimap.click]; the flag is the method's answer. *)
Definition Minimap_click (s : BU) (px py : Z) (c : Camera) : bool * Camera :=
  if collidepoint (Minimap_rect s) px py then (true, Minimap_do_click s px py)
  else (false, c).

(** The rectangle [Minimap.buffer_paint] draws for the part of the map
    the window shows, relative to the minimap's corner. *)
Definition Minimap_view (s : BU) (c : Camera) : Rect :=
  let r := Minimap_rect s in
  mkRect (- cam_x c * rect_width r / map_width)
         (- cam_y c * rect_height r / map_height)
         (BU_w s * rect_width r / map_width)
         (BU_h s * rect_height r / map_height).

(** ** class HumanPlayer: the selection box *)

Record Drag := mkDrag {
  dragAnchorX : Z; dragAnchorY : Z; dragCurX : Z; dragCurY : Z;
  dragStartedOnMinimap : bool; dragAllowed : bool;
  selecting_rect : option Rect
}.

Definition DRAG_THRESH : Z := 4.

Definition HumanPlayer_begin_drag (s : BU) (x y : Z) : Drag :=
  let hud_top := BU_h s - BU_h s / 4 in
  mkDrag x y x y (collidepoint (Minimap_rect s) x y) (y <? hud_top) None.

(** [HumanPlayer._update_selection_rect] *)
Definition HumanPlayer_update_selection_rect (d : Drag) : Drag :=
  let set r := mkDrag (dragAnchorX d) (dragAnchorY d) (dragCurX d) (dragCurY d)
                  (dragStartedOnMinimap d) (dragAllowed d) r in
  if negb (dragAllowed d) || dragStartedOnMinimap d then set None else
  let dx := Z.abs (dragCurX d - dragAnchorX d) in
  let dy := Z.abs (dragCurY d - dragAnchorY d) in
  if (DRAG_THRESH <=? dx) || (DRAG_THRESH <=? dy) then
    set (Some (mkRect (Z.min (dragAnchorX d) (dragCurX d))
                      (Z.min (dragAnchorY d) (dragCurY d)) dx dy))
  else set None.

(** [HumanPlayer.update_drag]: the pointer moves with the button down;
    over the minimap this also moves the camera ([Minimap.dragged]). *)
Definition HumanPlayer_update_drag (s : BU) (x y : Z) (d : Drag) (c : Camera)
  : Drag * Camera :=
  let d := mkDrag (dragAnchorX d) (dragAnchorY d) x y
             (dragStartedOnMinimap d) (dragAllowed d) (selecting_rect d) in
  let c := if collidepoint (Minimap_rect s) x y then Minimap_do_click s x y else c in
  (HumanPlayer_update_selection_rect d, c).

Definition HumanPlayer_count_selected (w : World) : nat :=
  length (List.filter (fun o => match o with Some _ => true | None => false end)
            (selected_units (hp w))).

(** The loop of [mouse_released_select_box] over the player's units: the
    buildings under the box are collected, every other unit under it is
    selected. *)
Definition select_box_step (r : Rect) (acc : list nat * World) (i : nat) : list nat * World :=
  let (temp_buildings, w) := acc in
  match objs w !! i with
  | Some u =>
      if colliderect (rect u) r then
        if is_Building (kind u) then (temp_buildings ++ [i], w)
        else (temp_buildings, upd i select w)
      else acc
  | None => acc
  end.

Definition HumanPlayer_mouse_released_select_box (c : Camera) (d : Drag) (w : World)
  : Drag * World :=
  match selecting_rect d with
  | None => (d, w)
  | Some r0 =>
      let r := mkRect (rect_x r0 - cam_x c) (rect_y r0 - cam_y c)
                 (rect_width r0) (rect_height r0) in
      let (temp_buildings, w) := fold_left (select_box_step r) (units (hp w)) ([], w) in
      let w := Player_update_selected_units Human w in
      let w :=
        match temp_buildings with
        | [b] => if (HumanPlayer_count_selected w =? 0)%nat
                 then Player_update_selected_units Human (upd b select w)
                 else w
        | _ => w
        end in
      (mkDrag (dragAnchorX d) (dragAnchorY d) (dragCurX d) (dragCurY d)
         (dragStartedOnMinimap d) (dragAllowed d) None, w)
  end.

(** ** class Controller: the buttons *)

(** The classes of the game, inner nodes included. *)
Inductive Class :=
  | c_object | c_Unit | c_Infantry | c_OffensiveInfantry | c_Hero | c_Building
  | c_Kind (k : Kind).

#[global] Instance Class_eq_dec : EqDecision Class.
Proof. solve_decision. Defined.

(** The base class each [class] statement names. *)
Definition base (c : Class) : option Class :=
  match c with
  | c_object => None
  | c_Unit => Some c_object
  | c_Infantry | c_Building => Some c_Unit
  | c_OffensiveInfantry => Some c_Infantry
  | c_Hero => Some c_OffensiveInfantry
  | c_Kind Builder => Some c_Infantry
  | c_Kind (Spearman | Swordsman | Horseman) => Some c_OffensiveInfantry
  | c_Kind (BrianBoru | Sigurd) => Some c_Hero
  | c_Kind (Barracks | Stables | ComandCenter | SupplyDepot) => Some c_Building
  | c_Kind Tara => Some (c_Kind ComandCenter)
  end.

Fixpoint issubclass_upto (n : nat) (c d : Class) : bool :=
  bool_decide (c = d) ||
  match n with
  | O => false
  | S n => match base c with Some b => issubclass_upto n b d | None => false end
  end.

(** No class is more than six steps below [object]. *)
Definition issubclass (c d : Class) : bool := issubclass_upto 6 c d.

Definition isinstance (k : Kind) (c : Class) : bool := issubclass (c_Kind k) c.

(** [Controller.get_lowest_common_class] on the classes of the units
    that are not [None]. *)
Definition get_lowest_common_class (real : list Kind) : Class :=
  let all c := forallb (fun k => isinstance k c) real in
  if all c_Infantry then
    if all c_OffensiveInfantry then
      if all (c_Kind Spearman) then c_Kind Spearman
      else if all c_Hero && all (c_Kind BrianBoru) then c_Kind BrianBoru
      else if all c_Hero && all (c_Kind Sigurd) then c_Kind Sigurd
      else if all (c_Kind Swordsman) then c_Kind Swordsman
      else if all (c_Kind Horseman) then c_Kind Horseman
      else c_Infantry
    else if all (c_Kind Builder) then c_Kind Builder
    else c_Infantry
  else c_Unit.

(** [native_cls] of each action class. *)
Definition native_cls (a : TechAction) : Class :=
  match a with
  | SetDestinationAction | SetOffensiveDestinationAction => c_Infantry
  | MakeSpearmanAction | MakeSwordsmanAction => c_Kind Barracks
  | MakeBuilderAction | MakeHeroAction => c_Kind ComandCenter
  | MakeHorsemanAction => c_Kind Stables
  | MakeComandCenter | MakeBarracks | MakeStables | MakeSupplyDepot
  | DropSpearmanAction | DequeueAction | UpgradeToClaymoreAction => c_object
  end.

(** The units of a selection that are there. *)
Definition real_units (w : World) (units : list (option nat)) : list (nat * Kind) :=
  omap (fun o => i ← o; u ← objs w !! i; Some (i, kind u)) units.

(** [BufferButton.add_tech_action] *)
Definition add_tech_action (ta : nat * TechAction) (actions : list (nat * TechAction))
  : list (nat * TechAction) :=
  if (length actions <? 12)%nat then actions ++ [ta] else actions.

(** One round of the inner loop of [Controller.set_selected_units] for
    button [i]: the unit [u] of class [k] offers its action of slot [i]
    if the common class [cls] lies below the action's [native_cls]. *)
Definition group_step (cls : Class) (i : nat) (actions : list (nat * TechAction))
    (uk : nat * Kind) : list (nat * TechAction) :=
  let (u, k) := uk in
  match tech_actions k i with
  | Some ta => if issubclass cls (native_cls ta)
               then add_tech_action (u, ta) actions else actions
  | None => actions
  end.

(** The actions [Controller.set_selected_units] leaves on the command
    button [i] (an action is paired with the unit it belongs to). *)
Definition bb_actions (w : World) (units : list (option nat)) (i : nat)
  : list (nat * TechAction) :=
  match real_units w units with
  | [] => []
  | [(u, k)] => match tech_actions k i with Some ta => [(u, ta)] | None => [] end
  | real => fold_left (group_step (get_lowest_common_class (map snd real)) i) real []
  end.

(** [BufferButton.resize(3.0, 3.0)]: the size of a command button. *)
Definition bb_size (s : BU) : Z * Z :=
  (int_of (float_of (BU_w s) / (3 * 5) - 3), int_of (float_of (BU_h s) / (3 * 5) - 3)).

(** [BufferButton.do_click] *)
Definition BufferButton_do_click (actions : list (nat * TechAction)) (w : World) : World :=
  fold_left (fun w '(u, ta) => tech_act ta u w) actions w.

(** [Controller.click_buffer_button] of the controller of player [p]:
    the button is clicked one pixel inside its corner. *)
Definition Controller_click_buffer_button (s : BU) (p : PlayerId) (idx : Z) (w : World)
  : World :=
  if (0 <=? idx) && (idx <? 9) then
    let (bw, bh) := bb_size s in
    if collidepoint (mkRect 0 0 bw bh) 1 1
    then BufferButton_do_click (bb_actions w (selected_units (player p w)) (Z.to_nat idx)) w
    else w
  else w.

(** ** class Game: the end of the game *)

Record Verdict := mkVerdict {
  game_over : bool; winner : option PlayerId; end_count : Q
}.

(** The part of [Game.update] after the unit pass; the flag says that
    the [QUIT] event is posted. *)
Definition Game_judge (dt : Q) (w : World) (g : Verdict) : Verdict * bool :=
  let g := if (length (units (cp w)) <=? 0)%nat && negb (game_over g)
           then mkVerdict true (Some Human) 0 else g in
  let g := if (length (units (hp w)) <=? 0)%nat && negb (game_over g)
           then mkVerdict true (Some Computer) 0 else g in
  if game_over g then
    let g := mkVerdict (game_over g) (winner g) (end_count g + tick_scale dt)%Q in
    (g, Qltb 300 (end_count g))
  else (g, false).

(** * Vocabulary of the specification *)

(** ** Production queues in isolation *)

(** The operations the game performs on a production queue. *)
Inductive QueueOp :=
  | QEnqueue (obj : nat)
  | QNext
  | QDequeue
  | QDropLast.

Definition queue_step (q : list nat) (op : QueueOp) : list nat :=
  match op with
  | QEnqueue obj => snd (ProductionQueue_enqueue obj q)
  | QNext => q
  | QDequeue => snd (ProductionQueue_dequeue q)
  | QDropLast => DequeueAction_tech_act q
  end.

(** A queue starts empty ([ProductionQueue.__init__]). *)
Definition queue_run (ops : list QueueOp) : list nat := fold_left queue_step ops [].

(** ** Reading attributes through a reference *)

Definition queue_of (w : World) (i : nat) : list nat :=
  match objs w !! i with Some u => queue u | None => [] end.

(** ** Sample worlds

    Worlds obtained from the initial game by creating further objects;
    they serve as concrete inputs below.  In [Game_init] key 0 is the
    computer player's command centre and key 1 is Tara. *)

(** A human swordsman (key 2). *)
Definition duel : World := snd (alloc (new_unit Swordsman 0 Human 1) Game_init).

(** A human spearman (key 2) and a computer spearman with one point of
    defense (key 3). *)
Definition arena : World :=
  snd (alloc (set_defense 1 (new_unit Spearman 1 Computer 1))
         (snd (alloc (new_unit Spearman 0 Human 1) Game_init))).

(** A second command centre for the human player, not yet placed (key 2);
    the player holds 400 resources, the price of a command centre. *)
Definition broke : World := snd (alloc (new_unit ComandCenter 0 Human 1) Game_init).

(** ** Well-formed worlds *)

(** Occurrences of a key in a list. *)
Definition occ (l : list nat) (i : nat) : nat := count_occ Nat.eq_dec l i.

(** [q] is an order waiting in some production queue. *)
Definition queued (w : World) (q : nat) : Prop :=
  exists b ub, objs w !! b = Some ub /\ q ∈ queue ub.

(** The unit is not larger than the map. *)
Definition fits (u : Unit) : Prop :=
  rect_width (rect u) <= map_width /\ rect_height (rect u) <= map_height.

(** The unit lies within the map: its float position and its rectangle. *)
Definition in_bounds (u : Unit) : Prop :=
  (0 <= fx u <= float_of (map_width - rect_width (rect u)))%Q /\
  (0 <= fy u <= float_of (map_height - rect_height (rect u)))%Q /\
  0 <= rect_x (rect u) <= map_width - rect_width (rect u) /\
  0 <= rect_y (rect u) <= map_height - rect_height (rect u).

(** What is known of the position of a unit at any time: a mobile unit
    that holds its position has been put within the map by its last
    movement step. *)
Definition settled (u : Unit) : Prop :=
  is_Infantry (kind u) = true -> fits u /\ (holdPosition u = true -> in_bounds u).

Definition healthy (u : Unit) : Prop := (health u <= maxHealth u)%Q.

(** Number of heroes among the units listed in [l]. *)
Definition hero_count (w : World) (l : list nat) : nat :=
  length (List.filter (kind_is is_Hero w) l).

(** The attributes no method changes once the object is in play. *)
Definition same_class (u u' : Unit) : Prop :=
  kind u' = kind u /\ master u' = master u /\ maxHealth u' = maxHealth u /\
  rect_width (rect u') = rect_width (rect u) /\ rect_height (rect u') = rect_height (rect u).

Definition same_pose (u u' : Unit) : Prop :=
  fx u' = fx u /\ fy u' = fy u /\ rect u' = rect u.

(** The part of a player that lists units. *)
Definition same_units (pl pl' : Player) : Prop :=
  units pl' = units pl /\ hasHero pl' = hasHero pl.

Definition same_roll (pl pl' : Player) : Prop :=
  same_units pl pl' /\ selected_units pl' = selected_units pl.

Record WFc (w : World) : Prop := {
  wf_fresh : forall i, is_Some (objs w !! i) -> (i < next_id w)%nat;
  wf_on_map : forall i, i ∈ map_units w -> is_Some (objs w !! i);
  wf_map : forall i u, objs w !! i = Some u ->
             occ (map_units w) i = occ (units (player (master u) w)) i;
  wf_owner : forall p i, i ∈ units (player p w) ->
               exists u, objs w !! i = Some u /\ master u = p;
  wf_queue : forall b ub q, objs w !! b = Some ub -> q ∈ queue ub ->
               exists uq, objs w !! q = Some uq /\ is_Infantry (kind uq) = true /\
                          master uq = master ub /\ holdPosition uq = false /\
                          q ∉ map_units w;
  wf_queue_nodup : forall b ub, objs w !! b = Some ub -> NoDup (queue ub);
  wf_queue_disj : forall b1 b2 u1 u2 q,
               objs w !! b1 = Some u1 -> objs w !! b2 = Some u2 ->
               q ∈ queue u1 -> q ∈ queue u2 -> b1 = b2;
  wf_queue_len : forall b ub, objs w !! b = Some ub -> (length (queue ub) <= 5)%nat;
  wf_toBuild : forall x ux t, objs w !! x = Some ux -> toBuild ux = Some t ->
               exists ut, objs w !! t = Some ut /\ is_Building (kind ut) = true /\
                          master ut = master ux;
  wf_infantry_once : forall i u, objs w !! i = Some u -> is_Infantry (kind u) = true ->
               (occ (map_units w) i <= 1)%nat;
  wf_hero : forall p, (hero_count w (units (player p w)) <= 1)%nat /\
               ((1 <= hero_count w (units (player p w)))%nat -> hasHero (player p w) = true);
  wf_health : forall i u, objs w !! i = Some u -> healthy u;
  wf_settled : forall i u, objs w !! i = Some u -> settled u
}.

(** The selection of a player is drawn from its own units. *)
Definition selected_ok (w : World) : Prop :=
  forall p j, Some j ∈ selected_units (player p w) -> j ∈ units (player p w).

Definition WF (w : World) : Prop := WFc w /\ selected_ok w.

(** ** The elementary changes of one [act] call

    [x] is the unit whose [act] runs.  An attribute assignment to object
    [j] is harmless when it keeps the class attributes, the queue and the
    pending building, does not raise the health (a hero may regenerate up
    to its maximum), keeps what is known of the position, lets only [x]
    start holding its position and moves only [x]. *)
Definition quiet (x j : nat) (u u' : Unit) : Prop :=
  same_class u u' /\ queue u' = queue u /\ toBuild u' = toBuild u /\
  ((health u' <= health u)%Q \/ (j = x /\ is_Hero (kind u) = true /\ healthy u')) /\
  (settled u -> settled u') /\
  (holdPosition u' = true -> holdPosition u = true \/ j = x) /\
  (j <> x -> same_pose u u').

Inductive elem (x : nat) (w : World) : World -> Prop :=
  | elem_upd j f :
      (forall u, objs w !! j = Some u -> quiet x j u (f u)) -> elem x w (upd j f w)
  | elem_player p g :
      same_roll (player p w) (g (player p w)) -> elem x w (upd_player p g w)
  | elem_die ux :
      objs w !! x = Some ux ->
      (is_Hero (kind ux) = true -> x ∈ map_units w) ->
      elem x w (remove_unit (master ux) x w)
  | elem_release ux :
      objs w !! x = Some ux -> elem x w (Building_release x w).

(** The state of a frame in progress: the world is well formed and the
    unit acting is not an order of a queue. *)
Definition acting (x : nat) (w : World) : Prop := WF w /\ ~ queued w x.

(** ** Changes that leave a world well formed

    [steady w' i u u']: object [i] was [u] and is [u'] in the new world
    [w'], and the change keeps every clause of [WF] (orders may have left
    its queue); [framed w w']: [w'] differs from [w] by such changes and
    by player attributes other than the unit lists. *)
Definition steady (w' : World) (i : nat) (u u' : Unit) : Prop :=
  same_class u u' /\ queue u' `sublist_of` queue u /\ toBuild u' = toBuild u /\
  (healthy u -> healthy u') /\ (settled u -> settled u') /\
  (holdPosition u' = true -> holdPosition u = true \/ ~ queued w' i).

Definition framed (w w' : World) : Prop :=
  next_id w' = next_id w /\ map_units w' = map_units w /\
  (forall p, same_units (player p w) (player p w')) /\
  forall i, option_Forall2 (steady w' i) (objs w !! i) (objs w' !! i).

(** As [framed], and the selections are untouched as well. *)
Definition framed_sel (w w' : World) : Prop :=
  framed w w' /\ forall p, selected_units (player p w') = selected_units (player p w).

(** [w'] is [w] after the unit [x], of record [ux], has been taken off
    the list of player [p] and off the map. *)
Definition removed (p : PlayerId) (x : nat) (ux : Unit) (w w' : World) : Prop :=
  next_id w' = next_id w /\
  map_units w' = py_remove x (map_units w) /\
  units (player p w') = py_remove x (units (player p w)) /\
  hasHero (player p w') = (if is_Hero (kind ux) then false else hasHero (player p w)) /\
  (forall q, q <> p -> same_roll (player q w) (player q w')) /\
  (forall i, option_Forall2 (steady w' i) (objs w !! i) (objs w' !! i)) /\
  (forall j, Some j ∈ selected_units (player p w') -> j ∈ units (player p w')).

(** [w'] is [w] after [add_unit] of player [p] has answered [ok] for the
    unit [i] of record [u]. *)
Definition added (p : PlayerId) (i : nat) (u : Unit) (ok : bool) (w w' : World) : Prop :=
  objs w' = objs w /\ next_id w' = next_id w /\
  (forall q, selected_units (player q w') = selected_units (player q w)) /\
  if ok then
    map_units w' = map_units w ++ [i] /\
    units (player p w') = units (player p w) ++ [i] /\
    hasHero (player p w') = hasHero (player p w) || is_Hero (kind u) /\
    (is_Hero (kind u) = true -> hasHero (player p w) = false) /\
    (forall q, q <> p -> same_units (player q w) (player q w'))
  else
    map_units w' = map_units w /\ (forall q, same_units (player q w) (player q w')).

(** ** What one [act] call can do to the rest of the world

    [unsel w w']: every object of [w] is still there in [w'], changed at
    most by a [deselect]. *)
Definition same_but_selected (u u' : Unit) : Prop := u' = u \/ u' = set_selected false u.

Definition unsel (w w' : World) : Prop :=
  forall j u, objs w !! j = Some u ->
              exists u', objs w' !! j = Some u' /\ same_but_selected u u'.

(** [drift x w w']: what the [act] call of [x] may have done between [w]
    and [w'].  No order joins a queue; every object keeps its class
    attributes; only a hero's own call raises its health; only [x] and
    the orders of a queue move; only [x] can leave the map and only
    orders can be put on it. *)
Definition drift (x : nat) (w w' : World) : Prop :=
  (forall q, queued w' q -> queued w q) /\
  (forall j u, objs w !! j = Some u ->
     exists u', objs w' !! j = Some u' /\ same_class u u' /\
                (j <> x \/ is_Hero (kind u) = false -> (health u' <= health u)%Q) /\
                (j <> x -> ~ queued w j -> same_pose u u')) /\
  (forall j, j <> x -> (occ (map_units w) j <= occ (map_units w') j)%nat) /\
  (forall j, ~ queued w j -> (occ (map_units w') j <= occ (map_units w) j)%nat).

(** [pose_kept w w']: no object has moved between [w] and [w']. *)
Definition pose_kept (w w' : World) : Prop :=
  forall j u, objs w !! j = Some u -> exists u', objs w' !! j = Some u' /\ same_pose u u'.

(** [calm x w w']: elementary changes of the [act] call of [x] that
    neither move an object nor touch the map's list. *)
Definition calm (x : nat) (w w' : World) : Prop :=
  rtc (elem x) w w' /\ pose_kept w w' /\ map_units w' = map_units w.

(** ** The unit pass of a frame

    [pass_ok l w]: the state of [Game.update] when the units of [l] have
    yet to act: the world is well formed, the units to come exist and are
    not orders of a queue, and a mobile unit to come is still on the map. *)
Definition pass_ok (l : list nat) (w : World) : Prop :=
  WF w /\
  (forall j, j ∈ l -> ~ queued w j /\ is_Some (objs w !! j)) /\
  (forall j u, objs w !! j = Some u -> is_Infantry (kind u) = true ->
               (occ l j <= occ (map_units w) j)%nat).

(** ** Sample games

    Event sequences played from the initial state.  [still] is the run
    of draws in which [random.randint(0, 1)] always answers 0. *)
Definition still : nat -> bool := fun _ => false.

(** The computer's command centre trains a builder (key 2), which comes
    out at (2600, 2600); the human player cheats for money and Tara
    trains Brian Boru (key 3), who comes out at (870, 200). *)
Definition muster : list Event :=
  [Press 0 0; Tick still 2; Tick still 2; Money; Press 1 1; Tick still 15].

Definition camp : World := run muster Game_init.

(** Brian Boru is sent east of the computer's builder, sights it, closes
    in and strikes five times; the fifth blow leaves the builder, which
    has already acted in that frame, with no health. *)
Definition raid : list Event :=
  muster ++
  [SetDestination 3 2910 2600; Tick still 10; Tick still (7 # 9);
   Tick still (1 # 360); Tick still (1 # 360); Tick still (1 # 360);
   Tick still (1 # 360); Tick still (1 # 360)].

Definition battlefield : World := run raid Game_init.

(** Tara trains a builder (key 2), which comes out at (870, 200) and is
    told to build a barracks (key 3, 90 by 90); the human player is in
    building-placement mode. *)
Definition site : World :=
  run [Press 1 0; Tick still 2; Tick still 2; Press 2 2] Game_init.

(** Tara with one builder (key 2) on order. *)
Definition nursery : World := run [Press 1 0] Game_init.

(** ** Further sample worlds *)

(** As [camp], with a human swordsman created and not yet added (key 4). *)
Definition recruit : World := snd (alloc (new_unit Swordsman 0 Human 1) camp).


(** As [site], with the builder told to build where it stands. *)
Definition workshop : World := upd 2 (set_building true) site.

(** A human horseman, created and not yet added (key 2). *)
Definition rider : World := snd (alloc (new_unit Horseman 0 Human 1) Game_init).

(** The window at its initial size, the pointer in its corner. *)
Definition window : BU := mkBU 500 500 0 0.

(** As [camp], with Tara selected by her portrait. *)
Definition office : World := step (PressUnit 1) camp.

(** As [office], with Brian Boru selected as well, the player's
    selection not yet brought up to date. *)
Definition parade : World := step (Select 3) office.

(** ** Vocabulary of the further properties *)

(** The position of a unit after the movement part of [Infantry.act]:
    [get_next_logical_location], then [set_location] at the position it
    returned. *)
Definition Infantry_move (dt : Q) (u : Unit) : Unit :=
  let '((nx, ny), u') := Infantry_get_next_logical_location dt u in
  Unit_set_location nx ny u'.

(** The unit [j] is there and selected. *)
Definition is_selected (w : World) (j : nat) : bool :=
  match objs w !! j with Some u => selected u | None => false end.

(** The books of a player: what [add_unit] and [die] charge and credit. *)
Definition books (pl : Player) : Q * Z * Z * Z * Z :=
  (resources pl, totalUnitsValue pl, supportedUnitsValue pl,
   comandCenterCount pl, supplyDepotCount pl).

(** The camera shows nothing beyond the map. *)
Definition on_map (s : BU) (c : Camera) : Prop :=
  BU_w s - map_width <= cam_x c <= 0 /\ BU_h s - map_height <= cam_y c <= 0.

(** The unit [i] is there and its rectangle meets [r]. *)
Definition under_box (r : Rect) (w : World) (i : nat) : bool :=
  match objs w !! i with Some u => colliderect (rect u) r | None => false end.

(** [keeps_kinds w w']: every object of [w] is still there in [w'],
    with its class. *)
Definition keeps_kinds (w w' : World) : Prop :=
  forall j uj, objs w !! j = Some uj ->
               exists uj', objs w' !! j = Some uj' /\ kind uj' = kind uj.

(** The verdict after the frames [frames], each a frame length and the
    world the unit pass left. *)
Definition judge_all (frames : list (Q * World)) (g : Verdict) : Verdict :=
  fold_left (fun g f => fst (Game_judge (fst f) (snd f) g)) frames g.


(** * Proofs *)

(** ** Numbers *)

Lemma Qltb_lt a b : Qltb a b = true <-> (a < b)%Q.
Proof.
  unfold Qltb. rewrite negb_true_iff, <- not_true_iff_false, Qle_bool_iff.
  split; [apply Qnot_le_lt | apply Qlt_not_le].
Qed.

Lemma Qltb_ge a b : Qltb a b = false <-> (b <= a)%Q.
Proof. unfold Qltb. rewrite negb_false_iff. apply Qle_bool_iff. Qed.

Lemma float_of_le a b : a <= b -> (float_of a <= float_of b)%Q.
Proof. intros H. unfold float_of. now rewrite <- Zle_Qle. Qed.

Lemma int_of_float_of n : int_of (float_of n) = n.
Proof. unfold int_of, float_of. simpl. apply Z.quot_1_r. Qed.

(** ** The heap *)

Lemma objs_upd i f w j :
  objs (upd i f w) !! j = if decide (i = j) then f <$> objs w !! i else objs w !! j.
Proof. unfold upd. simpl. apply lookup_alter. Qed.

Lemma objs_upd_eq i f w : objs (upd i f w) !! i = f <$> objs w !! i.
Proof. rewrite objs_upd. now rewrite decide_True. Qed.

Lemma objs_upd_ne i f w j : i <> j -> objs (upd i f w) !! j = objs w !! j.
Proof. intros H. rewrite objs_upd. now rewrite decide_False. Qed.

Lemma objs_upd_player p f w : objs (upd_player p f w) = objs w.
Proof. now destruct p. Qed.

Lemma player_upd i f w p : player p (upd i f w) = player p w.
Proof. now destruct p. Qed.

Lemma player_upd_player p f w q :
  player q (upd_player p f w) = if decide (p = q) then f (player p w) else player q w.
Proof. destruct p, q; reflexivity. Qed.

Lemma player_upd_player_eq p f w : player p (upd_player p f w) = f (player p w).
Proof. now destruct p. Qed.

(** ** The production queue *)

Lemma queue_step_length q op : (length q <= 5)%nat -> (length (queue_step q op) <= 5)%nat.
Proof.
  intros H. destruct op as [obj| | |]; simpl; try assumption.
  - unfold ProductionQueue_enqueue. destruct (length q <? 5)%nat eqn:E; simpl; [|assumption].
    apply Nat.ltb_lt in E. rewrite length_app. simpl. lia.
  - destruct q; simpl in *; lia.
  - unfold DequeueAction_tech_act. destruct q as [|x q]; [simpl; lia|].
    rewrite (app_removelast_last 0%nat (l := x :: q)) in H by discriminate.
    rewrite length_app in H. lia.
Qed.

Lemma queue_fold_length ops q :
  (length q <= 5)%nat -> (length (fold_left queue_step ops q) <= 5)%nat.
Proof.
  revert q. induction ops as [|op ops IH]; intros q H; simpl; [assumption|].
  apply IH, queue_step_length, H.
Qed.

(** C4. [enqueue] on a queue that already holds five orders returns false
    and leaves the queue as it was; on a shorter queue it returns true and
    puts the order at the back; so no sequence of queue operations, started
    on the empty queue, yields a queue of more than five orders. *)
Theorem enqueue_capacity :
  (forall q obj, length q = 5%nat -> ProductionQueue_enqueue obj q = (false, q)) /\
  (forall q obj, (length q < 5)%nat -> ProductionQueue_enqueue obj q = (true, q ++ [obj])) /\
  (forall ops, (length (queue_run ops) <= 5)%nat).
Proof.
  split; [|split].
  - intros q obj H. unfold ProductionQueue_enqueue. now rewrite H.
  - intros q obj H. unfold ProductionQueue_enqueue.
    apply Nat.ltb_lt in H. now rewrite H.
  - intros ops. apply queue_fold_length. simpl. lia.
Qed.

Lemma enqueue_capacity_witness :
  ProductionQueue_enqueue 9 [1; 2; 3; 4; 5]%nat = (false, [1; 2; 3; 4; 5]%nat) /\
  ProductionQueue_enqueue 9 [1; 2]%nat = (true, [1; 2; 9]%nat) /\
  (length (queue_run (map QEnqueue [1; 2; 3; 4; 5; 6; 7]%nat)) <= 5)%nat.
Proof.
  destruct enqueue_capacity as (Hfull & Hroom & Hrun).
  split; [apply Hfull; reflexivity|].
  split; [apply (Hroom [1; 2]%nat 9%nat); simpl; lia|].
  apply Hrun.
Defined.

(** ** Combat *)

Lemma health_of_upd i f w j :
  health_of (upd i f w) j =
  match objs w !! j with
  | Some u => if decide (i = j) then health (f u) else health u
  | None => 0%Q
  end.
Proof.
  unfold health_of. rewrite objs_upd.
  destruct (decide (i = j)) as [->|]; [|reflexivity].
  now destruct (objs w !! j).
Qed.

Lemma attack_health r a d w ua ud :
  objs w !! a = Some ua -> objs w !! d = Some ud ->
  health_of (OffensiveInfantry_attack r a d w) d =
  (health ud - float_of ((if power ua - defense ud <? 1 then randint01 r
                          else power ua - defense ud)
                         + if attackUpgrade (player (master ua) w) then 2 else 0))%Q.
Proof.
  intros Ha Hd. unfold OffensiveInfantry_attack. rewrite Ha, Hd. cbv zeta.
  rewrite player_upd.
  set (dmg := if power ua - defense ud <? 1 then randint01 r else power ua - defense ud).
  set (w1 := upd a _ w).
  assert (Hd1 : exists ud1, objs w1 !! d = Some ud1 /\ health ud1 = health ud).
  { subst w1. rewrite objs_upd. destruct (decide (a = d)) as [->|].
    - rewrite Hd. simpl. eauto.
    - eauto. }
  destruct Hd1 as (ud1 & Hd1 & Hh).
  assert (Hgoal : forall k w2,
             w2 = upd d (fun u => set_health (health u - float_of k)%Q u) w1 ->
             health_of (if Qltb (health_of w2 d) 1
                        then upd a (fun u => set_holdPosition false (set_obsession None u)) w2
                        else w2) d = (health ud - float_of k)%Q).
  { intros k w2 ->.
    assert (E : health_of (upd d (fun u => set_health (health u - float_of k)%Q u) w1) d
                = (health ud - float_of k)%Q).
    { rewrite health_of_upd, Hd1. rewrite decide_True by reflexivity. simpl. now rewrite Hh. }
    destruct (Qltb _ 1); [|exact E].
    rewrite health_of_upd. rewrite objs_upd_eq, Hd1. simpl.
    destruct (decide (a = d)); simpl; now rewrite Hh. }
  destruct (attackUpgrade (player (master ua) w)).
  - now apply Hgoal.
  - rewrite Z.add_0_r. now apply Hgoal.
Qed.

Lemma damage_is_max p d r :
  (if p - d <? 1 then randint01 r else p - d) = Z.max (p - d) (randint01 r).
Proof. destruct (Z.ltb_spec (p - d) 1), r; simpl; lia. Qed.

(** C2. One call of [attack] lowers the defender's health by exactly
    [max (power - defense) r], where [r] is the draw from {0, 1}, plus 2
    exactly when the attacker's player has the attack upgrade; the draw
    does not matter once [power - defense >= 1]; and with power 2,
    defense 0 and no upgrade the damage is 2 whatever the draw. *)
Theorem attack_damage r a d w ua ud :
  objs w !! a = Some ua -> objs w !! d = Some ud ->
  health_of (OffensiveInfantry_attack r a d w) d =
    (health ud - float_of (Z.max (power ua - defense ud) (randint01 r)
                           + if attackUpgrade (player (master ua) w) then 2 else 0))%Q
  /\ (1 <= power ua - defense ud ->
      forall r', health_of (OffensiveInfantry_attack r' a d w) d =
                 health_of (OffensiveInfantry_attack r a d w) d)
  /\ (power ua = 2 -> defense ud = 0 -> attackUpgrade (player (master ua) w) = false ->
      health_of (OffensiveInfantry_attack r a d w) d = (health ud - float_of 2)%Q).
Proof.
  intros Ha Hd. split; [|split].
  - rewrite (attack_health r a d w ua ud Ha Hd). now rewrite damage_is_max.
  - intros Hge r'. rewrite !(attack_health _ a d w ua ud Ha Hd).
    destruct (Z.ltb_spec (power ua - defense ud) 1); [lia|reflexivity].
  - intros Hp Hdf Hup. rewrite (attack_health r a d w ua ud Ha Hd), Hp, Hdf, Hup.
    reflexivity.
Qed.

Lemma attack_damage_witness :
  health_of (OffensiveInfantry_attack true 2 0 duel) 0 = (float_of 10000 - float_of 2)%Q.
Proof.
  assert (Ha : objs duel !! 2%nat = Some (new_unit Swordsman 0 Human 1))
    by (vm_compute; reflexivity).
  destruct (objs duel !! 0%nat) as [ud|] eqn:Hd; [|vm_compute in Hd; discriminate].
  destruct (attack_damage true 2 0 duel _ ud Ha Hd) as (_ & _ & H).
  assert (Hh : health ud = float_of 10000)
    by (vm_compute in Hd; injection Hd as <-; reflexivity).
  assert (Hdf : defense ud = 0)
    by (vm_compute in Hd; injection Hd as <-; reflexivity).
  rewrite <- Hh. apply H; [reflexivity|exact Hdf|vm_compute; reflexivity].
Defined.

(** C3 (as stated) fails: a spearman of power 1 hits a unit of defense 1
    with the draw 0 and the defender keeps all its health. *)
Lemma zero_damage_hit :
  let ua := new_unit Spearman 0 Human 1 in
  let ud := set_defense 1 (new_unit Spearman 1 Computer 1) in
  objs arena !! 2%nat = Some ua /\ objs arena !! 3%nat = Some ud /\
  defense ud >= power ua /\
  attackUpgrade (player (master ua) arena) = false /\
  ~ (health_of (OffensiveInfantry_attack false 2 3 arena) 3 <= health ud - 1)%Q.
Proof.
  cbv zeta. repeat split; try (vm_compute; reflexivity); try (vm_compute; discriminate).
  intros H. vm_compute in H. apply H. reflexivity.
Qed.

(** C3 (amended). When the defender's defense is at least the attacker's
    power and the attacker's player has no attack upgrade, one call of
    [attack] lowers the defender's health by exactly the draw from
    {0, 1}: by one when the draw is 1 and not at all when it is 0. *)
Theorem attack_floor_damage r a d w ua ud :
  objs w !! a = Some ua -> objs w !! d = Some ud ->
  power ua <= defense ud ->
  attackUpgrade (player (master ua) w) = false ->
  health_of (OffensiveInfantry_attack r a d w) d = (health ud - float_of (randint01 r))%Q
  /\ (r = false -> (health_of (OffensiveInfantry_attack r a d w) d == health ud)%Q)
  /\ (r = true -> (health_of (OffensiveInfantry_attack r a d w) d == health ud - 1)%Q).
Proof.
  intros Ha Hd Hle Hup.
  assert (E : health_of (OffensiveInfantry_attack r a d w) d
              = (health ud - float_of (randint01 r))%Q).
  { rewrite (attack_health r a d w ua ud Ha Hd), Hup, Z.add_0_r.
    destruct (Z.ltb_spec (power ua - defense ud) 1); [reflexivity|lia]. }
  split; [exact E|]. rewrite E.
  split; intros ->; simpl; unfold float_of; ring.
Qed.

Lemma attack_floor_damage_witness :
  (health_of (OffensiveInfantry_attack false 2 3 arena) 3 == float_of 70)%Q /\
  (health_of (OffensiveInfantry_attack true 2 3 arena) 3 == float_of 70 - 1)%Q.
Proof.
  assert (Ha : objs arena !! 2%nat = Some (new_unit Spearman 0 Human 1))
    by (vm_compute; reflexivity).
  assert (Hd : objs arena !! 3%nat = Some (set_defense 1 (new_unit Spearman 1 Computer 1)))
    by (vm_compute; reflexivity).
  split.
  - apply (attack_floor_damage false 2 3 arena _ _ Ha Hd); [simpl; lia|reflexivity|reflexivity].
  - apply (attack_floor_damage true 2 3 arena _ _ Ha Hd); [simpl; lia|reflexivity|reflexivity].
Defined.

(** ** Adding a unit to a player *)

(** C10. A unit whose cost equals the player's balance is refused: the
    resource test is strict.  The computer player's override, which
    defers to the same test, refuses it as well. *)
Theorem add_unit_exact_cost_rejected p i w u :
  objs w !! i = Some u ->
  (float_of (cost u) == resources (player p w))%Q ->
  fst (Player_add_unit p i w) = false /\ fst (add_unit p i w) = false.
Proof.
  intros Hu Hc.
  assert (H : fst (Player_add_unit p i w) = false).
  { unfold Player_add_unit. rewrite Hu.
    repeat match goal with
           | |- fst (if ?c then _ else _) = false => destruct c eqn:?; [reflexivity|]
           end.
    match goal with
    | |- fst (if ?c && _ then _ else _) = false => assert (Hlt : c = false)
    end.
    { apply Qltb_ge.
      destruct (is_ComandCenter (kind u)), (is_SupplyDepot (kind u));
        rewrite ?player_upd_player_eq; simpl; rewrite Hc; apply Qle_refl. }
    rewrite Hlt. reflexivity. }
  split; [exact H|].
  destruct p; [exact H|].
  unfold add_unit, ComputerPlayer_add_unit. rewrite Hu.
  destruct (negb _); [|reflexivity].
  destruct (Player_add_unit Computer i w) as [ok w'] eqn:E. simpl in H. now subst ok.
Qed.

Lemma add_unit_exact_cost_rejected_witness :
  fst (Player_add_unit Human 2 broke) = false /\ fst (add_unit Human 2 broke) = false.
Proof.
  apply (add_unit_exact_cost_rejected Human 2 broke (new_unit ComandCenter 0 Human 1)).
  - vm_compute. reflexivity.
  - vm_compute. reflexivity.
Defined.

(** C1 fails on the code.  In [broke] the human player holds 400
    resources and one command centre; adding a second one (cost 400) is
    refused for lack of resources, and the unit lists and the balance stay
    as they were, yet the refused call has already counted the command
    centre.  Two refused calls bring the count to the limit of 3, after
    which the player is refused a command centre it can pay for, which it
    would have been granted before. *)
Lemma rejected_add_leaks_counter :
  let r1 := Player_add_unit Human 2 broke in
  let r2 := Player_add_unit Human 2 (snd r1) in
  let rich := upd_player Human (set_resources 100000) in
  fst r1 = false /\
  units (hp (snd r1)) = units (hp broke) /\
  map_units (snd r1) = map_units broke /\
  resources (hp (snd r1)) = resources (hp broke) /\
  comandCenterCount (hp broke) = 1 /\
  comandCenterCount (hp (snd r1)) = 2 /\
  fst r2 = false /\ comandCenterCount (hp (snd r2)) = 3 /\
  fst (Player_add_unit Human 2 (rich broke)) = true /\
  fst (Player_add_unit Human 2 (rich (snd r2))) = false.
Proof. cbv zeta. vm_compute. repeat split; reflexivity. Qed.

(** ** Lists of keys *)

Lemma occ_app l1 l2 i : occ (l1 ++ l2) i = (occ l1 i + occ l2 i)%nat.
Proof. apply count_occ_app. Qed.

Lemma occ_snoc_eq l i : occ (l ++ [i]) i = S (occ l i).
Proof. rewrite occ_app. unfold occ. simpl. destruct (Nat.eq_dec i i); [lia|congruence]. Qed.

Lemma occ_snoc_ne l i j : i <> j -> occ (l ++ [i]) j = occ l j.
Proof.
  intros H. rewrite occ_app. unfold occ. simpl.
  destruct (Nat.eq_dec i j); [congruence|lia].
Qed.

Lemma occ_pos l i : i ∈ l <-> (0 < occ l i)%nat.
Proof. rewrite list_elem_of_In. apply count_occ_In. Qed.

Lemma occ_zero l i : i ∉ l <-> occ l i = 0%nat.
Proof. rewrite occ_pos. lia. Qed.

Lemma occ_py_remove_eq l i : occ (py_remove i l) i = pred (occ l i).
Proof.
  induction l as [|j l IH]; [reflexivity|]. unfold occ in *. simpl.
  destruct (decide (i = j)) as [->|Hne].
  - destruct (Nat.eq_dec j j); [reflexivity|congruence].
  - simpl. destruct (Nat.eq_dec j i); [congruence|exact IH].
Qed.

Lemma occ_py_remove_ne l i j : i <> j -> occ (py_remove i l) j = occ l j.
Proof.
  intros Hij. induction l as [|k l IH]; [reflexivity|]. unfold occ in *. simpl.
  destruct (decide (i = k)) as [->|Hne].
  - destruct (Nat.eq_dec k j); [congruence|reflexivity].
  - simpl. destruct (Nat.eq_dec k j); [now rewrite IH|exact IH].
Qed.

Lemma elem_of_py_remove l i j : j ∈ py_remove i l -> j ∈ l.
Proof.
  rewrite !occ_pos. destruct (decide (i = j)) as [->|Hne].
  - rewrite occ_py_remove_eq. lia.
  - now rewrite occ_py_remove_ne.
Qed.

Lemma filter_py_remove (P : nat -> bool) l i :
  P i = false -> List.filter P (py_remove i l) = List.filter P l.
Proof.
  intros Hi. induction l as [|j l IH]; [reflexivity|]. simpl.
  destruct (decide (i = j)) as [->|Hne].
  - now rewrite Hi.
  - simpl. now rewrite IH.
Qed.

Lemma filter_length_py_remove (P : nat -> bool) l i :
  i ∈ l -> P i = true ->
  length (List.filter P l) = S (length (List.filter P (py_remove i l))).
Proof.
  intros Hin Hi. induction l as [|j l IH]; [now apply elem_of_nil in Hin|]. simpl.
  destruct (decide (i = j)) as [->|Hne].
  - now rewrite Hi.
  - apply elem_of_cons in Hin as [->|Hin]; [congruence|].
    simpl. destruct (P j); simpl; now rewrite IH.
Qed.

Lemma filter_ext_in_keys (P Q : nat -> bool) l :
  (forall i, i ∈ l -> P i = Q i) -> List.filter P l = List.filter Q l.
Proof.
  intros H. apply List.filter_ext_in. intros i Hi. apply H. now apply list_elem_of_In.
Qed.

(** ** Framed changes *)

Lemma framed_fwd w w' i u :
  framed w w' -> objs w !! i = Some u ->
  exists u', objs w' !! i = Some u' /\ steady w' i u u'.
Proof.
  intros (_ & _ & _ & H) Hu. specialize (H i). rewrite Hu in H.
  inversion H; subst. eauto.
Qed.

Lemma framed_bwd w w' i u' :
  framed w w' -> objs w' !! i = Some u' ->
  exists u, objs w !! i = Some u /\ steady w' i u u'.
Proof.
  intros (_ & _ & _ & H) Hu. specialize (H i). rewrite Hu in H.
  inversion H; subst. eauto.
Qed.

Lemma framed_kind_is f w w' i : framed w w' -> kind_is f w' i = kind_is f w i.
Proof.
  intros (_ & _ & _ & H). specialize (H i). unfold kind_is.
  destruct H as [u u' (Hc & _)|]; [|reflexivity].
  destruct Hc as (-> & _). reflexivity.
Qed.

Lemma framed_queued w w' q : framed w w' -> queued w' q -> queued w q.
Proof.
  intros H (b & ub & Hb & Hq).
  destruct (framed_bwd _ _ _ _ H Hb) as (u & Hu & _ & Hqu & _).
  exists b, u. split; [exact Hu|]. eapply sublist_subseteq; eauto.
Qed.

Lemma WFc_framed w w' : WFc w -> framed w w' -> WFc w'.
Proof.
  intros Hwf Hfr.
  pose proof Hfr as (Hid & Hmap & Hroll & Hobj).
  assert (Hunits : forall p, units (player p w') = units (player p w))
    by (intros p; apply (Hroll p)).
  split.
  - intros i [u' Hu']. destruct (framed_bwd _ _ _ _ Hfr Hu') as (u & Hu & _).
    rewrite Hid. apply (wf_fresh _ Hwf). eauto.
  - intros i Hi. rewrite Hmap in Hi. destruct (wf_on_map _ Hwf i Hi) as [u Hu].
    destruct (framed_fwd _ _ _ _ Hfr Hu) as (u' & Hu' & _). eauto.
  - intros i u' Hu'. destruct (framed_bwd _ _ _ _ Hfr Hu') as (u & Hu & (_ & Hm & _) & _).
    rewrite Hmap, Hunits, Hm. apply (wf_map _ Hwf _ _ Hu).
  - intros p i Hi. rewrite Hunits in Hi.
    destruct (wf_owner _ Hwf p i Hi) as (u & Hu & Hm).
    destruct (framed_fwd _ _ _ _ Hfr Hu) as (u' & Hu' & (_ & Hm' & _) & _).
    exists u'. split; [exact Hu'|congruence].
  - intros b ub' q Hb Hq.
    destruct (framed_bwd _ _ _ _ Hfr Hb) as (ub & Hub & (_ & Hmb & _) & Hqb & _).
    pose proof (sublist_subseteq _ _ Hqb _ Hq) as Hq0.
    destruct (wf_queue _ Hwf b ub q Hub Hq0) as (uq & Huq & Hk & Hm & Hh & Hnm).
    destruct (framed_fwd _ _ _ _ Hfr Huq)
      as (uq' & Huq' & (Hk' & Hm' & _) & _ & _ & _ & _ & Hhold).
    exists uq'. split; [exact Huq'|]. rewrite Hk', Hm', Hmb, Hmap.
    repeat split; try assumption.
    destruct (holdPosition uq') eqn:E; [|reflexivity].
    destruct (Hhold eq_refl) as [Habs|Habs]; [congruence|].
    exfalso. apply Habs. exists b, ub'. auto.
  - intros b ub' Hb.
    destruct (framed_bwd _ _ _ _ Hfr Hb) as (ub & Hub & _ & Hqb & _).
    apply (sublist_NoDup _ _ (wf_queue_nodup _ Hwf b ub Hub) Hqb).
  - intros b1 b2 u1' u2' q H1 H2 Hq1 Hq2.
    destruct (framed_bwd _ _ _ _ Hfr H1) as (u1 & Hu1 & _ & E1 & _).
    destruct (framed_bwd _ _ _ _ Hfr H2) as (u2 & Hu2 & _ & E2 & _).
    apply (wf_queue_disj _ Hwf b1 b2 u1 u2 q Hu1 Hu2);
      eapply sublist_subseteq; eauto.
  - intros b ub' Hb. destruct (framed_bwd _ _ _ _ Hfr Hb) as (ub & Hub & _ & E & _).
    apply sublist_length in E. pose proof (wf_queue_len _ Hwf b ub Hub). lia.
  - intros x ux' t Hx Ht.
    destruct (framed_bwd _ _ _ _ Hfr Hx) as (ux & Hux & (_ & Hmx & _) & _ & Etb & _).
    rewrite Etb in Ht.
    destruct (wf_toBuild _ Hwf x ux t Hux Ht) as (ut & Hut & Hk & Hm).
    destruct (framed_fwd _ _ _ _ Hfr Hut) as (ut' & Hut' & (Hk' & Hm' & _) & _).
    exists ut'. split; [exact Hut'|]. rewrite Hk', Hm', Hmx. auto.
  - intros i u' Hu' Hk.
    destruct (framed_bwd _ _ _ _ Hfr Hu') as (u & Hu & (Hk' & _) & _).
    rewrite Hmap. rewrite Hk' in Hk. apply (wf_infantry_once _ Hwf i u Hu Hk).
  - intros p. destruct (Hroll p) as (Hu & Hh). rewrite Hu, Hh. unfold hero_count.
    rewrite (filter_ext_in_keys (kind_is is_Hero w') (kind_is is_Hero w))
      by (intros; now apply framed_kind_is).
    apply (wf_hero _ Hwf p).
  - intros i u' Hu'.
    destruct (framed_bwd _ _ _ _ Hfr Hu') as (u & Hu & _ & _ & _ & Hh & _).
    apply Hh, (wf_health _ Hwf i u Hu).
  - intros i u' Hu'.
    destruct (framed_bwd _ _ _ _ Hfr Hu') as (u & Hu & _ & _ & _ & _ & Hs & _).
    apply Hs, (wf_settled _ Hwf i u Hu).
Qed.

Lemma WF_framed w w' : WF w -> framed_sel w w' -> WF w'.
Proof.
  intros (Hc & Hs) (Hfr & Hsel). split; [eapply WFc_framed; eauto|].
  intros p j Hj. rewrite Hsel in Hj.
  destruct Hfr as (_ & _ & Hroll & _). destruct (Hroll p) as (-> & _). now apply Hs.
Qed.

Lemma steady_refl w i u : steady w i u u.
Proof. unfold steady, same_class. split; [tauto|]. split; [reflexivity|tauto]. Qed.

Lemma framed_refl w : framed_sel w w.
Proof.
  split; [|reflexivity]. split; [reflexivity|]. split; [reflexivity|]. split.
  - intros p. split; reflexivity.
  - intros i. destruct (objs w !! i); constructor. apply steady_refl.
Qed.

Lemma framed_upd w j f :
  (forall u, objs w !! j = Some u -> steady (upd j f w) j u (f u)) ->
  framed_sel w (upd j f w).
Proof.
  intros H. split; [|intros p; now rewrite player_upd].
  split; [reflexivity|]. split; [reflexivity|]. split.
  - intros p. rewrite player_upd. split; reflexivity.
  - intros i. rewrite objs_upd. destruct (decide (j = i)) as [->|Hne].
    + destruct (objs w !! i) as [u|] eqn:E; simpl; constructor. now apply H.
    + destruct (objs w !! i) as [u|]; constructor. apply steady_refl.
Qed.

Lemma framed_upd_player w p g :
  same_roll (player p w) (g (player p w)) -> framed_sel w (upd_player p g w).
Proof.
  intros (H & Hsel). split.
  - split; [now destruct p|]. split; [now destruct p|]. split.
    + intros q. rewrite player_upd_player. destruct (decide (p = q)) as [<-|];
        [exact H|split; reflexivity].
    + intros i. rewrite objs_upd_player. destruct (objs w !! i); constructor.
      apply steady_refl.
  - intros q. rewrite player_upd_player. destruct (decide (p = q)) as [<-|];
      [exact Hsel|reflexivity].
Qed.

Lemma WF_upd w j f :
  WF w -> (forall u, objs w !! j = Some u -> steady (upd j f w) j u (f u)) ->
  WF (upd j f w).
Proof. intros Hwf H. eapply WF_framed; [exact Hwf|]. now apply framed_upd. Qed.

Lemma WF_upd_player w p g :
  WF w -> same_roll (player p w) (g (player p w)) -> WF (upd_player p g w).
Proof. intros Hwf H. eapply WF_framed; [exact Hwf|]. now apply framed_upd_player. Qed.

Lemma quiet_steady x j w' u u' : ~ queued w' x -> quiet x j u u' -> steady w' j u u'.
Proof.
  intros Hx (Hc & Hq & Ht & Hh & Hs & Hhold & _).
  split; [exact Hc|]. split; [now rewrite Hq|]. split; [exact Ht|].
  split; [|split; [exact Hs|]].
  - intros Hu. destruct Hh as [Hle|(_ & _ & Hh)]; [|exact Hh].
    unfold healthy in *. destruct Hc as (_ & _ & -> & _). eapply Qle_trans; eauto.
  - intros E. destruct (Hhold E) as [Hl | ->]; [now left|now right].
Qed.

Lemma framed_trans w1 w2 w3 : framed w1 w2 -> framed w2 w3 -> framed w1 w3.
Proof.
  intros H12 H23.
  pose proof H12 as (Hid1 & Hm1 & Hr1 & Ho1). pose proof H23 as (Hid2 & Hm2 & Hr2 & Ho2).
  split; [congruence|]. split; [congruence|]. split.
  - intros p. destruct (Hr1 p) as (A1 & B1), (Hr2 p) as (A2 & B2). split; congruence.
  - intros i. specialize (Ho1 i). specialize (Ho2 i).
    destruct Ho1 as [u1 u2 S1|]; inversion Ho2 as [? u3 S2|]; subst; constructor.
    destruct S1 as (C1 & Q1 & T1 & Hh1 & Hs1 & Hd1), S2 as (C2 & Q2 & T2 & Hh2 & Hs2 & Hd2).
    split; [|split; [etrans; eauto|split; [congruence|split; [tauto|split; [tauto|]]]]].
    + destruct C1 as (? & ? & ? & ? & ?), C2 as (? & ? & ? & ? & ?).
      unfold same_class. repeat split; congruence.
    + intros E. destruct (Hd2 E) as [E1|Hq]; [|now right].
      destruct (Hd1 E1) as [|Hq]; [now left|right].
      intros Hq3. apply Hq. eapply framed_queued; eauto.
Qed.

Lemma framed_sel_trans w1 w2 w3 : framed_sel w1 w2 -> framed_sel w2 w3 -> framed_sel w1 w3.
Proof.
  intros (H12 & S12) (H23 & S23). split; [eapply framed_trans; eauto|].
  intros p. now rewrite S23.
Qed.

(** ** Selection *)

Lemma steady_deselect w i u : steady w i u (set_selected false u).
Proof.
  unfold steady, same_class, healthy, settled, fits, in_bounds. simpl.
  split; [tauto|]. split; [reflexivity|tauto].
Qed.

Lemma update_selected_fold l sel w :
  framed_sel w (snd (fold_left update_selected_step l (sel, w))) /\
  forall j, j ∈ fst (fold_left update_selected_step l (sel, w)) -> j ∈ sel \/ j ∈ l.
Proof.
  revert sel w. induction l as [|i l IH]; intros sel w; cbn [fold_left].
  - split; [apply framed_refl|auto].
  - assert (Hstep : framed_sel w (snd (update_selected_step (sel, w) i)) /\
                    forall j, j ∈ fst (update_selected_step (sel, w) i) -> j ∈ sel \/ j = i).
    { unfold update_selected_step. destruct (objs w !! i) as [u|]; simpl.
      - destruct (selected u); simpl.
        + destruct (length sel <? 12)%nat; simpl.
          * split; [apply framed_refl|]. intros j Hj. apply elem_of_app in Hj as [|Hj]; [auto|].
            apply list_elem_of_singleton in Hj. auto.
          * split; [|auto]. apply framed_upd. intros; apply steady_deselect.
        + split; [apply framed_refl|auto].
      - split; [apply framed_refl|auto]. }
    destruct (update_selected_step (sel, w) i) as [sel1 w1]. simpl in Hstep.
    destruct Hstep as (Hf1 & Hs1). destruct (IH sel1 w1) as (Hf2 & Hs2).
    split; [eapply framed_sel_trans; [exact Hf1|exact Hf2]|].
    intros j Hj. destruct (Hs2 j Hj) as [H|H].
    + destruct (Hs1 j H) as [Hl | ->]; [auto|]. right. apply elem_of_cons. auto.
    + right. apply elem_of_cons. auto.
Qed.

Lemma update_selected_spec p w :
  framed w (Player_update_selected_units p w) /\
  (forall j, Some j ∈ selected_units (player p (Player_update_selected_units p w)) ->
             j ∈ units (player p w)) /\
  (forall q, q <> p -> selected_units (player q (Player_update_selected_units p w))
                       = selected_units (player q w)).
Proof.
  unfold Player_update_selected_units.
  destruct (update_selected_fold (units (player p w)) [] w) as (Hf & Hs).
  destruct (fold_left update_selected_step (units (player p w)) ([], w)) as [sel w1].
  simpl in Hf, Hs. destruct Hf as (Hf & Hsel).
  split; [|split].
  - eapply framed_trans; [exact Hf|].
    split; [now destruct p|]. split; [now destruct p|]. split.
    + intros q. rewrite player_upd_player. destruct (decide (p = q)) as [<-|];
        split; reflexivity.
    + intros i. rewrite objs_upd_player. destruct (objs w1 !! i); constructor.
      apply steady_refl.
  - intros j Hj. rewrite player_upd_player_eq in Hj. simpl in Hj.
    apply elem_of_take in Hj as (n & Hn & _).
    apply list_elem_of_lookup_2 in Hn.
    apply elem_of_app in Hn as [Hn|Hn].
    + apply list_elem_of_fmap in Hn as (k & [= ->] & Hk).
      destruct (Hs _ Hk) as [Hnil|]; [now apply elem_of_nil in Hnil|assumption].
    + apply elem_of_replicate in Hn as (Hn & _). discriminate.
  - intros q Hq. rewrite player_upd_player. rewrite decide_False by congruence.
    apply Hsel.
Qed.

(** ** Removing a unit *)

Lemma queued_objs w w' q : objs w' = objs w -> queued w' q <-> queued w q.
Proof. intros H. unfold queued. now rewrite H. Qed.

Lemma steady_world w w' i u u' :
  (queued w' i -> queued w i) -> steady w i u u' -> steady w' i u u'.
Proof.
  intros Hq (A & B & C & D & E & F). repeat (split; [assumption|]).
  intros G. destruct (F G); [now left|right; tauto].
Qed.

Lemma player_Map_remove_unit p x w : player p (Map_remove_unit x w) = player p w.
Proof. now destruct p. Qed.

Lemma player_Map_add_unit p x w : player p (Map_add_unit x w) = player p w.
Proof. now destruct p. Qed.

Lemma next_id_upd_player p f w : next_id (upd_player p f w) = next_id w.
Proof. now destruct p. Qed.

Lemma map_units_upd_player p f w : map_units (upd_player p f w) = map_units w.
Proof. now destruct p. Qed.

Lemma other_player p q : q <> p -> forall w f, player q (upd_player p f w) = player q w.
Proof. intros H w f. rewrite player_upd_player. now rewrite decide_False by congruence. Qed.

Lemma Player_remove_unit_removed p x w ux :
  objs w !! x = Some ux -> removed p x ux w (Player_remove_unit p x w).
Proof.
  intros Hx. unfold Player_remove_unit.
  set (w0 := if kind_is is_Hero w x then upd_player p (set_hasHero false) w else w).
  set (w1 := Map_remove_unit x (upd_player p (fun pl => set_units (py_remove x (units pl)) pl) w0)).
  assert (Hk : kind_is is_Hero w x = is_Hero (kind ux)) by (unfold kind_is; now rewrite Hx).
  assert (H0 : objs w0 = objs w /\ next_id w0 = next_id w /\ map_units w0 = map_units w /\
               units (player p w0) = units (player p w) /\
               hasHero (player p w0) = (if is_Hero (kind ux) then false else hasHero (player p w)) /\
               (forall q, q <> p -> player q w0 = player q w)).
  { subst w0. rewrite Hk. destruct (is_Hero (kind ux)).
    - rewrite objs_upd_player, player_upd_player_eq.
      repeat split; try (now destruct p). intros q Hq. now apply other_player.
    - repeat split. }
  destruct H0 as (Ho0 & Hi0 & Hm0 & Hu0 & Hh0 & Hq0).
  assert (H1 : objs w1 = objs w /\ next_id w1 = next_id w /\
               map_units w1 = py_remove x (map_units w) /\
               units (player p w1) = py_remove x (units (player p w)) /\
               hasHero (player p w1) = (if is_Hero (kind ux) then false else hasHero (player p w)) /\
               (forall q, q <> p -> player q w1 = player q w)).
  { subst w1. rewrite player_Map_remove_unit, player_upd_player_eq.
    change (objs (Map_remove_unit x ?v)) with (objs v).
    change (next_id (Map_remove_unit x ?v)) with (next_id v).
    change (map_units (Map_remove_unit x ?v)) with (py_remove x (map_units v)).
    rewrite objs_upd_player, next_id_upd_player, map_units_upd_player.
    split; [exact Ho0|]. split; [exact Hi0|]. split; [now rewrite Hm0|].
    split; [simpl; now rewrite Hu0|]. split; [exact Hh0|].
    intros q Hq. rewrite player_Map_remove_unit, other_player by assumption.
    now apply Hq0. }
  destruct H1 as (Ho1 & Hi1 & Hm1 & Hu1 & Hh1 & Hq1).
  destruct (update_selected_spec p w1) as ((Fi & Fm & Fr & Fo) & Fs & Fq).
  split; [congruence|]. split; [congruence|].
  destruct (Fr p) as (Fu & Fh).
  split; [congruence|]. split; [congruence|]. split; [|split].
  - intros q Hq. destruct (Fr q) as (Fuq & Fhq). specialize (Fq q Hq).
    rewrite (Hq1 q Hq) in Fuq, Fhq, Fq. repeat split; assumption.
  - intros i. specialize (Fo i). now rewrite Ho1 in Fo.
  - intros j Hj. rewrite Fu. now apply Fs.
Qed.

Lemma removed_framed p x ux w w' g :
  removed p x ux w w' -> same_roll (player p w') (g (player p w')) ->
  removed p x ux w (upd_player p g w').
Proof.
  intros (Hi & Hm & Hu & Hh & Hq & Ho & Hs) ((Gu & Gh) & Gs).
  split; [now destruct p|]. split; [now destruct p|].
  rewrite player_upd_player_eq, Gu, Gh, Gs.
  repeat (split; [assumption|]). split; [|split; [|assumption]].
  - intros q Hne. rewrite other_player by assumption. now apply Hq.
  - intros i. rewrite objs_upd_player. specialize (Ho i).
    destruct Ho as [u u' S|]; constructor.
    eapply steady_world; [|exact S].
    now rewrite (queued_objs w' (upd_player p g w')) by apply objs_upd_player.
Qed.

Lemma remove_unit_removed p x w ux :
  objs w !! x = Some ux -> removed p x ux w (remove_unit p x w).
Proof.
  intros Hx. destruct p; [now apply Player_remove_unit_removed|].
  unfold remove_unit, ComputerPlayer_remove_unit.
  pose proof (Player_remove_unit_removed Computer x w ux Hx) as Hr.
  set (w1 := Player_remove_unit Computer x w) in *.
  pose proof Hr as (_ & _ & _ & Hh & _ & Ho & _).
  specialize (Ho x). rewrite Hx in Ho. inversion Ho as [? u1 S E1 E2|]; subst.
  destruct S as ((Hk & _) & _).
  set (w2 := match roster_of (kind u1) with
             | Some r => upd_player Computer (roster_upd r (py_remove x)) w1
             | None => w1
             end).
  assert (Hr2 : removed Computer x ux w w2).
  { subst w2. destruct (roster_of (kind u1)); [|exact Hr].
    apply removed_framed; [exact Hr|]. repeat split. }
  destruct (kind u1) eqn:Ek; try exact Hr2.
  apply removed_framed; [exact Hr2|].
  destruct Hr2 as (_ & _ & _ & Hh2 & _).
  split; [split; [reflexivity|]|reflexivity].
  change (false = hasHero (player Computer w2)). now rewrite Hh2, <- Hk.
Qed.

Lemma WF_removed p x ux w w' :
  WF w -> objs w !! x = Some ux -> master ux = p ->
  (is_Hero (kind ux) = true -> x ∈ map_units w) ->
  removed p x ux w w' -> WF w'.
Proof.
  intros (Hwf & Hsel) Hx Hp Hhero (Hi & Hm & Hu & Hh & Hq & Ho & Hs).
  assert (Hother : forall q, q <> p -> units (player q w') = units (player q w)).
  { intros q Hne. apply (Hq q Hne). }
  assert (Hbwd : forall i u', objs w' !! i = Some u' ->
                   exists u, objs w !! i = Some u /\ steady w' i u u').
  { intros i u' E. specialize (Ho i). rewrite E in Ho. inversion Ho; subst. eauto. }
  assert (Hfwd : forall i u, objs w !! i = Some u ->
                   exists u', objs w' !! i = Some u' /\ steady w' i u u').
  { intros i u E. specialize (Ho i). rewrite E in Ho. inversion Ho; subst. eauto. }
  assert (Hkind : forall i, kind_is is_Hero w' i = kind_is is_Hero w i).
  { intros i. specialize (Ho i). unfold kind_is.
    destruct Ho as [u u' ((-> & _) & _)|]; reflexivity. }
  assert (Hunits : forall q i, i ∈ units (player q w') -> i ∈ units (player q w)).
  { intros q i. destruct (decide (q = p)) as [->|Hne].
    - rewrite Hu. apply elem_of_py_remove.
    - now rewrite Hother. }
  split; [split|].
  - intros i [u' E]. destruct (Hbwd _ _ E) as (u & Eu & _). rewrite Hi.
    apply (wf_fresh _ Hwf). eauto.
  - intros i Hin. rewrite Hm in Hin. apply elem_of_py_remove in Hin.
    destruct (wf_on_map _ Hwf i Hin) as [u Eu]. destruct (Hfwd _ _ Eu) as (u' & E & _). eauto.
  - intros i u' E. destruct (Hbwd _ _ E) as (u & Eu & (_ & Hmu & _) & _).
    rewrite Hmu, Hm. pose proof (wf_map _ Hwf i u Eu) as Hocc.
    destruct (decide (master u = p)) as [Emp|Hne].
    + rewrite Emp in *. rewrite Hu. destruct (decide (x = i)) as [->|Hxi].
      * rewrite !occ_py_remove_eq. congruence.
      * rewrite !occ_py_remove_ne by assumption. exact Hocc.
    + rewrite (Hother _ Hne). destruct (decide (x = i)) as [->|Hxi].
      * congruence.
      * rewrite occ_py_remove_ne by assumption. exact Hocc.
  - intros q i Hin. apply Hunits in Hin.
    destruct (wf_owner _ Hwf q i Hin) as (u & Eu & Emu).
    destruct (Hfwd _ _ Eu) as (u' & E & (_ & Hmu & _) & _). exists u'. split; congruence.
  - intros b ub' q Eb Hqb.
    destruct (Hbwd _ _ Eb) as (ub & Eub & (_ & Hmb & _) & Hqq & _).
    pose proof (sublist_subseteq _ _ Hqq _ Hqb) as Hq0.
    destruct (wf_queue _ Hwf b ub q Eub Hq0) as (uq & Euq & Hk & Hmq & Hhq & Hnm).
    destruct (Hfwd _ _ Euq) as (uq' & Euq' & (Hk' & Hm' & _) & _ & _ & _ & _ & Hhold).
    exists uq'. split; [exact Euq'|]. rewrite Hk', Hm', Hmb, Hm.
    repeat split; try assumption.
    + destruct (holdPosition uq') eqn:E; [|reflexivity].
      destruct (Hhold eq_refl) as [Habs|Habs]; [congruence|].
      exfalso. apply Habs. exists b, ub'. auto.
    + intros Hin. apply Hnm. now apply elem_of_py_remove in Hin.
  - intros b ub' Hb. destruct (Hbwd _ _ Hb) as (ub & Hub & _ & Hqb & _).
    apply (sublist_NoDup _ _ (wf_queue_nodup _ Hwf b ub Hub) Hqb).
  - intros b1 b2 u1' u2' q H1 H2 Hq1 Hq2.
    destruct (Hbwd _ _ H1) as (u1 & Hu1 & _ & E1 & _).
    destruct (Hbwd _ _ H2) as (u2 & Hu2 & _ & E2 & _).
    apply (wf_queue_disj _ Hwf b1 b2 u1 u2 q Hu1 Hu2);
      eapply sublist_subseteq; eauto.
  - intros b ub' Hb. destruct (Hbwd _ _ Hb) as (ub & Hub & _ & E & _).
    apply sublist_length in E. pose proof (wf_queue_len _ Hwf b ub Hub). lia.
  - intros y uy' t Hy Ht.
    destruct (Hbwd _ _ Hy) as (uy & Huy & (_ & Hmy & _) & _ & Etb & _).
    rewrite Etb in Ht.
    destruct (wf_toBuild _ Hwf y uy t Huy Ht) as (ut & Hut & Hk & Hmt).
    destruct (Hfwd _ _ Hut) as (ut' & Hut' & (Hk' & Hm' & _) & _).
    exists ut'. split; [exact Hut'|]. rewrite Hk', Hm', Hmy. auto.
  - intros i u' E Hk. destruct (Hbwd _ _ E) as (u & Eu & (Hk' & _) & _).
    rewrite Hk' in Hk. pose proof (wf_infantry_once _ Hwf i u Eu Hk) as Hocc.
    rewrite Hm. destruct (decide (x = i)) as [->|Hxi].
    + rewrite occ_py_remove_eq. lia.
    + now rewrite occ_py_remove_ne.
  - intros q. unfold hero_count.
    rewrite (filter_ext_in_keys (kind_is is_Hero w') (kind_is is_Hero w))
      by (intros; apply Hkind).
    destruct (wf_hero _ Hwf q) as (Hle & Hflag). unfold hero_count in Hle, Hflag.
    destruct (decide (q = p)) as [->|Hne].
    + rewrite Hu, Hh. destruct (is_Hero (kind ux)) eqn:Ehero.
      * assert (Hin : x ∈ units (player p w)).
        { apply occ_pos. rewrite <- Hp, <- (wf_map _ Hwf x ux Hx). apply occ_pos. auto. }
        assert (Hkx : kind_is is_Hero w x = true) by (unfold kind_is; now rewrite Hx).
        pose proof (filter_length_py_remove (kind_is is_Hero w) _ _ Hin Hkx). lia.
      * assert (Hkx : kind_is is_Hero w x = false) by (unfold kind_is; now rewrite Hx).
        rewrite (filter_py_remove _ _ _ Hkx). auto.
    + destruct (Hq q Hne) as ((-> & ->) & _). auto.
  - intros i u' E. destruct (Hbwd _ _ E) as (u & Eu & _ & _ & _ & Hhl & _).
    apply Hhl, (wf_health _ Hwf i u Eu).
  - intros i u' E. destruct (Hbwd _ _ E) as (u & Eu & _ & _ & _ & _ & Hst & _).
    apply Hst, (wf_settled _ Hwf i u Eu).
  - intros q j Hj. destruct (decide (q = p)) as [->|Hne]; [now apply Hs|].
    destruct (Hq q Hne) as ((Eu & _) & Es). rewrite Es in Hj. rewrite Eu.
    now apply Hsel.
Qed.

(** ** Adding a unit *)

Ltac split_ifs :=
  repeat match goal with
         | |- context [if ?c then _ else _] => destruct c eqn:?; simpl
         end.

Ltac by_players :=
  repeat split; rewrite ?orb_false_r, ?orb_true_r; try reflexivity; try congruence;
  intros;
  repeat match goal with q : PlayerId |- _ => destruct q end;
  simpl; repeat split; reflexivity || congruence.

Lemma Player_add_unit_added p i w u :
  objs w !! i = Some u ->
  added p i u (fst (Player_add_unit p i w)) w (snd (Player_add_unit p i w)).
Proof.
  intros Hu. unfold Player_add_unit, added, Unit_get_unit_to_add, Map_add_unit. rewrite Hu.
  destruct (kind u) eqn:Ek, p, (master u) eqn:Em; simpl; split_ifs;
    repeat (progress (simpl; rewrite ?Hu, ?Ek, ?Em)); by_players.
Qed.

Lemma added_upd_player p i u ok w w' q g :
  added p i u ok w w' -> same_roll (player q w') (g (player q w')) ->
  added p i u ok w (upd_player q g w').
Proof.
  intros (Ho & Hi & Hs & H) ((Gu & Gh) & Gs).
  assert (Hpl : forall r, units (player r (upd_player q g w')) = units (player r w') /\
                          hasHero (player r (upd_player q g w')) = hasHero (player r w') /\
                          selected_units (player r (upd_player q g w'))
                          = selected_units (player r w')).
  { intros r. rewrite player_upd_player. destruct (decide (q = r)) as [<-|]; auto. }
  split; [now rewrite objs_upd_player|]. split; [now rewrite next_id_upd_player|].
  split; [intros r; destruct (Hpl r) as (_ & _ & ->); apply Hs|].
  destruct ok.
  - destruct H as (Hm & Hu & Hh & Hpre & Hq). rewrite map_units_upd_player.
    destruct (Hpl p) as (-> & -> & _). repeat (split; [assumption|]).
    intros r Hr. destruct (Hpl r) as (Eu & Eh & _), (Hq r Hr) as (Fu & Fh).
    split; congruence.
  - destruct H as (Hm & Hq). rewrite map_units_upd_player. split; [assumption|].
    intros r. destruct (Hpl r) as (Eu & Eh & _), (Hq r) as (Fu & Fh). split; congruence.
Qed.

Lemma added_refused p i u w : added p i u false w w.
Proof. repeat split. Qed.

Lemma add_unit_added p i w u :
  objs w !! i = Some u -> added p i u (fst (add_unit p i w)) w (snd (add_unit p i w)).
Proof.
  intros Hu. destruct p; [now apply Player_add_unit_added|].
  unfold add_unit, ComputerPlayer_add_unit. rewrite Hu.
  destruct (negb _); [|apply added_refused].
  pose proof (Player_add_unit_added Computer i w u Hu) as Ha.
  destruct (Player_add_unit Computer i w) as [[|] w1]; cbn [fst snd] in *; [|exact Ha].
  assert (Ha2 : added Computer i u true w
                  match roster_of (kind u) with
                  | Some r => upd_player Computer (roster_upd r (fun l => l ++ [i])) w1
                  | None => w1
                  end).
  { destruct (roster_of (kind u)); [|exact Ha]. apply added_upd_player; [exact Ha|].
    repeat split. }
  destruct (kind u); try exact Ha2.
  cbv iota. apply added_upd_player; [exact Ha2|]. repeat split.
Qed.

Lemma add_unit_missing p i w : objs w !! i = None -> add_unit p i w = (false, w).
Proof.
  intros Hu. destruct p; simpl; unfold Player_add_unit, ComputerPlayer_add_unit;
    now rewrite Hu.
Qed.

Lemma hero_count_snoc w l i :
  hero_count w (l ++ [i]) = (hero_count w l + if kind_is is_Hero w i then 1 else 0)%nat.
Proof.
  unfold hero_count. rewrite List.filter_app, length_app. simpl.
  now destruct (kind_is is_Hero w i).
Qed.

Lemma WF_added p i u ok w w' :
  WF w -> objs w !! i = Some u -> master u = p -> ~ queued w i ->
  (is_Infantry (kind u) = true -> i ∉ map_units w) ->
  added p i u ok w w' -> WF w'.
Proof.
  intros (Hwf & Hsel) Hu Hp Hnq Hinf (Ho & Hi & Hs & H).
  destruct ok.
  - destruct H as (Hm & Hup & Hh & Hpre & Hq).
    assert (Hunits : forall q, units (player q w') =
                               if decide (q = p) then units (player q w) ++ [i]
                               else units (player q w)).
    { intros q. destruct (decide (q = p)) as [->|Hne]; [exact Hup|]. apply (Hq q Hne). }
    assert (Hkind : forall f j, kind_is f w' j = kind_is f w j)
      by (intros; unfold kind_is; now rewrite Ho).
    split; [split|].
    + intros j. rewrite Ho, Hi. apply (wf_fresh _ Hwf).
    + intros j Hj. rewrite Ho. rewrite Hm in Hj. apply elem_of_app in Hj as [Hj|Hj].
      * now apply (wf_on_map _ Hwf).
      * apply list_elem_of_singleton in Hj as ->. eauto.
    + intros j uj Hj. rewrite Ho in Hj. rewrite Hm, Hunits.
      pose proof (wf_map _ Hwf j uj Hj) as Hocc.
      destruct (decide (i = j)) as [<-|Hne].
      * assert (uj = u) by congruence. subst uj. rewrite decide_True by assumption.
        rewrite !occ_snoc_eq. rewrite Hp in Hocc. congruence.
      * rewrite occ_snoc_ne by assumption.
        destruct (decide (master uj = p)) as [E|]; [|exact Hocc].
        rewrite occ_snoc_ne by assumption. exact Hocc.
    + intros q j Hj. rewrite Ho. rewrite Hunits in Hj.
      destruct (decide (q = p)) as [->|Hne]; [|now apply (wf_owner _ Hwf)].
      apply elem_of_app in Hj as [Hj|Hj]; [now apply (wf_owner _ Hwf)|].
      apply list_elem_of_singleton in Hj as ->. eauto.
    + intros b ub q Hb Hqb. rewrite Ho in Hb. rewrite Ho, Hm.
      destruct (wf_queue _ Hwf b ub q Hb Hqb) as (uq & Huq & Hk & Hmq & Hhq & Hnm).
      exists uq. repeat split; try assumption.
      intros Hin. apply elem_of_app in Hin as [Hin|Hin]; [now apply Hnm|].
      apply list_elem_of_singleton in Hin as ->. apply Hnq. exists b, ub. auto.
    + intros b ub. rewrite Ho. apply (wf_queue_nodup _ Hwf).
    + intros b1 b2 u1 u2 q. rewrite Ho. apply (wf_queue_disj _ Hwf).
    + intros b ub. rewrite Ho. apply (wf_queue_len _ Hwf).
    + intros y uy t. rewrite Ho. apply (wf_toBuild _ Hwf).
    + intros j uj Hj Hk. rewrite Ho in Hj. rewrite Hm.
      pose proof (wf_infantry_once _ Hwf j uj Hj Hk) as Hocc.
      destruct (decide (i = j)) as [<-|Hne].
      * assert (uj = u) by congruence. subst uj.
        rewrite occ_snoc_eq. apply Hinf, occ_zero in Hk. lia.
      * now rewrite occ_snoc_ne.
    + intros q. unfold hero_count.
      rewrite (filter_ext_in_keys (kind_is is_Hero w') (kind_is is_Hero w))
        by (intros; apply Hkind).
      fold (hero_count w (units (player q w'))). rewrite Hunits.
      destruct (wf_hero _ Hwf q) as (Hle & Hflag).
      destruct (decide (q = p)) as [->|Hne].
      * rewrite hero_count_snoc, Hh.
        assert (Hki : kind_is is_Hero w i = is_Hero (kind u))
          by (unfold kind_is; now rewrite Hu).
        rewrite Hki. destruct (is_Hero (kind u)).
        -- specialize (Hpre eq_refl). rewrite orb_true_r.
           assert (hero_count w (units (player p w)) = 0)%nat.
           { destruct (hero_count w (units (player p w))); [reflexivity|].
             rewrite Hflag in Hpre by lia. discriminate. }
           split; [lia|reflexivity].
        -- rewrite orb_false_r, Nat.add_0_r. auto.
      * destruct (Hq q Hne) as (_ & ->). auto.
    + intros j uj. rewrite Ho. apply (wf_health _ Hwf).
    + intros j uj. rewrite Ho. apply (wf_settled _ Hwf).
    + intros q j Hj. rewrite Hs in Hj. apply Hsel in Hj. rewrite Hunits.
      destruct (decide (q = p)); [apply elem_of_app; now left|assumption].
  - destruct H as (Hm & Hq). eapply WF_framed; [split; eassumption|].
    split; [|exact Hs]. split; [exact Hi|]. split; [exact Hm|]. split; [exact Hq|].
    intros j. rewrite Ho. destruct (objs w !! j); constructor. apply steady_refl.
Qed.

(** ** The elementary changes keep a frame in progress well formed *)

Lemma queued_sub w w' :
  (forall b ub', objs w' !! b = Some ub' ->
                 exists ub, objs w !! b = Some ub /\ queue ub' `sublist_of` queue ub) ->
  forall q, queued w' q -> queued w q.
Proof.
  intros H q (b & ub' & Hb & Hq). destruct (H b ub' Hb) as (ub & Hub & Hs).
  exists b, ub. split; [exact Hub|]. eapply sublist_subseteq; eauto.
Qed.

Lemma queued_upd w j f q :
  (forall u, objs w !! j = Some u -> queue (f u) `sublist_of` queue u) ->
  queued (upd j f w) q -> queued w q.
Proof.
  intros H. apply queued_sub. intros b ub'. rewrite objs_upd.
  destruct (decide (j = b)) as [->|Hne].
  - destruct (objs w !! b) as [ub|] eqn:E; [|discriminate]. simpl. intros [= <-].
    exists ub. split; [reflexivity|]. now apply H.
  - intros E. exists ub'. split; [exact E|reflexivity].
Qed.

Lemma removed_queued p x ux w w' q : removed p x ux w w' -> queued w' q -> queued w q.
Proof.
  intros (_ & _ & _ & _ & _ & Ho & _). apply queued_sub. intros b ub' E.
  specialize (Ho b). rewrite E in Ho. inversion Ho as [u ? (_ & S & _)|]; subst. eauto.
Qed.

Lemma steady_set_queue w i u rest :
  rest `sublist_of` queue u -> steady w i u (set_queue rest u).
Proof.
  intros H. unfold steady, same_class, healthy, settled, fits, in_bounds. simpl.
  split; [tauto|]. split; [exact H|tauto].
Qed.

Lemma steady_placed w i u f :
  same_class u (f u) -> queue (f u) = queue u -> toBuild (f u) = toBuild u ->
  health (f u) = health u -> holdPosition (f u) = holdPosition u ->
  holdPosition u = false -> steady w i u (f u).
Proof.
  intros Hc Hq Ht Hh Hhold Hfalse. split; [exact Hc|]. split; [now rewrite Hq|].
  split; [exact Ht|]. split; [|split].
  - unfold healthy. destruct Hc as (_ & _ & -> & _). now rewrite Hh.
  - intros Hs Hk. destruct Hc as (Hk' & _ & _ & Hw & Hhh). rewrite Hk' in Hk.
    destruct (Hs Hk) as ((Hf1 & Hf2) & _). split.
    + unfold fits. now rewrite Hw, Hhh.
    + rewrite Hhold, Hfalse. discriminate.
  - rewrite Hhold, Hfalse. discriminate.
Qed.

Lemma same_class_set_location x y u : same_class u (Unit_set_location x y u).
Proof. repeat split. Qed.

Lemma WF_release x w ux :
  WF w -> objs w !! x = Some ux -> WF (Building_release x w).
Proof.
  intros Hwf Hx. unfold Building_release. rewrite Hx.
  destruct (queue ux) as [|q rest] eqn:Eq; simpl; [exact Hwf|].
  destruct (wf_queue _ (proj1 Hwf) x ux q Hx) as (uq & Huq & Hkq & Hmq & Hhq & Hnm);
    [rewrite Eq; apply elem_of_cons; now left|].
  set (w1 := upd x (set_queue rest) w).
  assert (Hwf1 : WF w1).
  { apply WF_upd; [exact Hwf|]. intros u Hu. apply steady_set_queue.
    assert (u = ux) by congruence. subst u. rewrite Eq. apply sublist_cons, reflexivity. }
  assert (Hq1 : exists uq1, objs w1 !! q = Some uq1 /\ kind uq1 = kind uq /\
                            master uq1 = master uq /\ holdPosition uq1 = false).
  { subst w1. rewrite objs_upd. destruct (decide (x = q)) as [->|].
    - rewrite Hx. simpl. assert (uq = ux) by congruence. subst uq. eauto.
    - eauto. }
  destruct Hq1 as (uq1 & Huq1 & Hk1 & Hm1 & Hh1).
  assert (Hnq1 : ~ queued w1 q).
  { intros (b & ub1 & Hb & Hin). subst w1. rewrite objs_upd in Hb.
    pose proof (wf_queue_nodup _ (proj1 Hwf) x ux Hx) as Hnd. rewrite Eq in Hnd.
    apply NoDup_cons in Hnd as (Hnin & _).
    destruct (decide (x = b)) as [->|Hne].
    - rewrite Hx in Hb. simpl in Hb. injection Hb as <-. simpl in Hin. contradiction.
    - assert (x = b); [|contradiction].
      apply (wf_queue_disj _ (proj1 Hwf) x b ux ub1 q Hx Hb); [|exact Hin].
      rewrite Eq. apply elem_of_cons. now left. }
  pose proof (add_unit_added (master ux) q w1 uq1 Huq1) as Hadd.
  destruct (add_unit (master ux) q w1) as [ok w2]. cbn [fst snd] in *.
  assert (Hwf2 : WF w2).
  { apply (WF_added (master ux) q uq1 ok w1 w2 Hwf1 Huq1);
      [congruence|exact Hnq1|intros _; exact Hnm|exact Hadd]. }
  assert (Ho2 : objs w2 = objs w1) by apply Hadd.
  set (cx := rect_x (rect ux) + rect_width (rect ux)).
  set (cy := rect_y (rect ux) + rect_height (rect ux)).
  set (w3 := if kind_is is_Infantry w2 q
             then upd q (fun u => set_destinationY cy (set_destinationX cx u)) w2 else w2).
  assert (Hw3 : WF w3 /\ exists uq3, objs w3 !! q = Some uq3 /\ holdPosition uq3 = false).
  { subst w3. destruct (kind_is is_Infantry w2 q).
    - split.
      + apply WF_upd; [exact Hwf2|]. intros u Hu. rewrite Ho2, Huq1 in Hu.
        injection Hu as <-.
        apply (steady_placed _ q uq1 (fun u => set_destinationY cy (set_destinationX cx u)));
          try reflexivity; [repeat split|exact Hh1].
      + rewrite objs_upd_eq, Ho2, Huq1. simpl. eauto.
    - split; [exact Hwf2|]. rewrite Ho2. eauto. }
  destruct Hw3 as (Hwf3 & uq3 & Huq3 & Hh3).
  apply WF_upd; [exact Hwf3|]. intros u Hu. assert (u = uq3) by congruence. subst u.
  apply steady_placed; try reflexivity; [apply same_class_set_location|exact Hh3].
Qed.

Lemma release_queued x w q : queued (Building_release x w) q -> queued w q.
Proof.
  unfold Building_release. destruct (objs w !! x) as [ux|] eqn:Hx; [|auto].
  destruct (queue ux) as [|t rest] eqn:Eq; simpl; [auto|].
  intros H. apply queued_upd in H; [|reflexivity].
  assert (H3 : queued (snd (add_unit (master ux) t (upd x (set_queue rest) w))) q).
  { destruct (kind_is is_Infantry _ t); [|exact H]. now apply queued_upd in H. }
  assert (H1 : queued (upd x (set_queue rest) w) q).
  { destruct (objs (upd x (set_queue rest) w) !! t) as [ut|] eqn:Et.
    - pose proof (add_unit_added (master ux) t _ ut Et) as (Ho & _).
      now rewrite (queued_objs _ _ q Ho) in H3.
    - now rewrite add_unit_missing in H3. }
  apply queued_upd in H1; [exact H1|].
  intros u Hu. assert (u = ux) by congruence. subst u. simpl. rewrite Eq.
  apply sublist_cons. reflexivity.
Qed.

Lemma elem_acting x w w' : acting x w -> elem x w w' -> acting x w'.
Proof.
  intros (Hwf & Hnq) He. destruct He as [j f Hq|p g Hr|ux Hx Hhero|ux Hx].
  - assert (Hnq' : ~ queued (upd j f w) x).
    { intros H. apply Hnq. eapply queued_upd; [|exact H].
      intros u Hu. destruct (Hq u Hu) as (_ & -> & _). reflexivity. }
    split; [|exact Hnq']. apply WF_upd; [exact Hwf|].
    intros u Hu. eapply quiet_steady; [exact Hnq'|]. now apply Hq.
  - split; [now apply WF_upd_player|].
    now rewrite (queued_objs w (upd_player p g w)) by apply objs_upd_player.
  - pose proof (remove_unit_removed (master ux) x w ux Hx) as Hr. split.
    + eapply WF_removed; eauto.
    + intros H. apply Hnq. eapply removed_queued; eauto.
  - split; [eapply WF_release; eauto|]. intros H. apply Hnq. now apply release_queued in H.
Qed.

Lemma rtc_elem_acting x w w' : acting x w -> rtc (elem x) w w' -> acting x w'.
Proof. intros H Hr. induction Hr; [assumption|]. eauto using elem_acting. Qed.

(** ** Objects after a removal *)

Lemma unsel_refl w : unsel w w.
Proof. intros j u Hu. exists u. split; [exact Hu|now left]. Qed.

Lemma unsel_objs w w' : objs w' = objs w -> unsel w w'.
Proof. intros H j u Hu. exists u. rewrite H. split; [exact Hu|now left]. Qed.

Lemma unsel_trans w1 w2 w3 : unsel w1 w2 -> unsel w2 w3 -> unsel w1 w3.
Proof.
  intros H1 H2 j u Hu. destruct (H1 j u Hu) as (u2 & Hu2 & S2).
  destruct (H2 j u2 Hu2) as (u3 & Hu3 & S3). exists u3. split; [exact Hu3|].
  destruct S2 as [->| ->], S3 as [->| ->]; [now left|now right|now right|now right].
Qed.

Lemma unsel_deselect w j : unsel w (upd j (set_selected false) w).
Proof.
  intros i u Hu. rewrite objs_upd. destruct (decide (j = i)) as [->|].
  - rewrite Hu. simpl. eexists. split; [reflexivity|now right].
  - exists u. split; [exact Hu|now left].
Qed.

Lemma update_selected_unsel l sel w :
  unsel w (snd (fold_left update_selected_step l (sel, w))).
Proof.
  revert sel w. induction l as [|i l IH]; intros sel w; cbn [fold_left].
  - apply unsel_refl.
  - assert (Hstep : unsel w (snd (update_selected_step (sel, w) i))).
    { unfold update_selected_step. destruct (objs w !! i) as [u|]; simpl;
        [|apply unsel_refl].
      destruct (selected u); simpl; [|apply unsel_refl].
      destruct (length sel <? 12)%nat; simpl; [apply unsel_refl|apply unsel_deselect]. }
    destruct (update_selected_step (sel, w) i) as [sel1 w1].
    eapply unsel_trans; [exact Hstep|apply IH].
Qed.

Lemma Player_update_selected_units_unsel p w : unsel w (Player_update_selected_units p w).
Proof.
  unfold Player_update_selected_units.
  pose proof (update_selected_unsel (units (player p w)) [] w) as H.
  destruct (fold_left update_selected_step (units (player p w)) ([], w)) as [sel w1].
  eapply unsel_trans; [exact H|]. apply unsel_objs, objs_upd_player.
Qed.

Lemma Player_remove_unit_unsel p x w : unsel w (Player_remove_unit p x w).
Proof.
  unfold Player_remove_unit.
  eapply unsel_trans; [|apply Player_update_selected_units_unsel].
  apply unsel_objs. unfold Map_remove_unit.
  change (objs (set_map_units ?l ?v)) with (objs v). rewrite objs_upd_player.
  destruct (kind_is is_Hero w x); [apply objs_upd_player|reflexivity].
Qed.

Lemma remove_unit_unsel p x w : unsel w (remove_unit p x w).
Proof.
  destruct p; [apply Player_remove_unit_unsel|].
  unfold remove_unit, ComputerPlayer_remove_unit.
  eapply unsel_trans; [apply (Player_remove_unit_unsel Computer x w)|].
  apply unsel_objs.
  destruct (objs (Player_remove_unit Computer x w) !! x) as [u|]; [|reflexivity].
  destruct (roster_of (kind u)), (kind u); now rewrite ?objs_upd_player.
Qed.

(** ** One elementary change, seen from the rest of the world *)

Lemma same_class_refl u : same_class u u.
Proof. repeat split. Qed.

Lemma same_class_trans u1 u2 u3 : same_class u1 u2 -> same_class u2 u3 -> same_class u1 u3.
Proof.
  intros (A1 & A2 & A3 & A4 & A5) (B1 & B2 & B3 & B4 & B5).
  repeat split; congruence.
Qed.

Lemma same_pose_refl u : same_pose u u.
Proof. repeat split. Qed.

Lemma same_pose_trans u1 u2 u3 : same_pose u1 u2 -> same_pose u2 u3 -> same_pose u1 u3.
Proof. intros (A1 & A2 & A3) (B1 & B2 & B3). repeat split; congruence. Qed.

Lemma drift_refl x w : drift x w w.
Proof.
  split; [auto|]. split; [|split; auto].
  intros j u Hu. exists u. split; [exact Hu|]. split; [apply same_class_refl|].
  split; [intros _; apply Qle_refl|intros _ _; apply same_pose_refl].
Qed.

Lemma drift_trans x w1 w2 w3 : drift x w1 w2 -> drift x w2 w3 -> drift x w1 w3.
Proof.
  intros (Q1 & O1 & M1 & N1) (Q2 & O2 & M2 & N2).
  split; [auto|]. split; [|split].
  - intros j u Hu. destruct (O1 j u Hu) as (u2 & Hu2 & C1 & H1 & P1).
    destruct (O2 j u2 Hu2) as (u3 & Hu3 & C2 & H2 & P2).
    exists u3. split; [exact Hu3|]. split; [eapply same_class_trans; eauto|]. split.
    + intros H. eapply Qle_trans; [apply H2|apply H1; exact H].
      destruct C1 as (-> & _). exact H.
    + intros Hne Hnq. eapply same_pose_trans; [apply P1; assumption|].
      apply P2; [assumption|]. intros H. apply Hnq. now apply Q1.
  - intros j Hj. etransitivity; [apply M1; exact Hj|apply M2; exact Hj].
  - intros j Hj. etransitivity; [apply N2|apply N1; exact Hj].
    intros H. apply Hj. now apply Q1.
Qed.

Lemma drift_objs x w w' :
  objs w' = objs w -> map_units w' = map_units w -> drift x w w'.
Proof.
  intros Ho Hm. split; [intros q; now rewrite (queued_objs w w' q Ho)|].
  split; [|rewrite Hm; split; auto].
  intros j u Hu. exists u. rewrite Ho. split; [exact Hu|]. split; [apply same_class_refl|].
  split; [intros _; apply Qle_refl|intros _ _; apply same_pose_refl].
Qed.

Lemma drift_upd x w j f :
  (forall u, objs w !! j = Some u -> quiet x j u (f u)) -> drift x w (upd j f w).
Proof.
  intros H. split; [|split; [|split; auto]].
  - intros q. apply queued_upd. intros u Hu. destruct (H u Hu) as (_ & -> & _). reflexivity.
  - intros i u Hu. rewrite objs_upd. destruct (decide (j = i)) as [->|Hne].
    + rewrite Hu. simpl. exists (f u). split; [reflexivity|].
      destruct (H u Hu) as (Hc & _ & _ & Hh & _ & _ & Hp). split; [exact Hc|]. split.
      * intros Hi. destruct Hh as [Hle|(-> & Hk & _)]; [exact Hle|].
        destruct Hi as [Hi|Hi]; congruence.
      * intros Hi _. now apply Hp.
    + exists u. split; [exact Hu|]. split; [apply same_class_refl|].
      split; [intros _; apply Qle_refl|intros _ _; apply same_pose_refl].
Qed.

Lemma same_but_selected_class u u' : same_but_selected u u' ->
  same_class u u' /\ health u' = health u /\ same_pose u u' /\ queue u' = queue u.
Proof. intros [->| ->]; repeat split. Qed.

Lemma drift_remove x p w ux :
  objs w !! x = Some ux -> drift x w (remove_unit p x w).
Proof.
  intros Hx. pose proof (remove_unit_unsel p x w) as Hun.
  pose proof (remove_unit_removed p x w ux Hx) as Hr.
  assert (Hm : map_units (remove_unit p x w) = py_remove x (map_units w)) by apply Hr.
  split; [intros q; eapply removed_queued; eauto|]. split; [|split].
  - intros j u Hu. destruct (Hun j u Hu) as (u' & Hu' & S).
    apply same_but_selected_class in S as (Hc & Hh & Hp & _).
    exists u'. split; [exact Hu'|]. split; [exact Hc|].
    split; [intros _; rewrite Hh; apply Qle_refl|intros _ _; exact Hp].
  - intros j Hj. rewrite Hm, occ_py_remove_ne by congruence. reflexivity.
  - intros j _. rewrite Hm. destruct (decide (x = j)) as [->|Hne].
    + rewrite occ_py_remove_eq. lia.
    + now rewrite occ_py_remove_ne.
Qed.

Lemma drift_release x w ux :
  objs w !! x = Some ux -> drift x w (Building_release x w).
Proof.
  intros Hx. split; [intros q; apply release_queued|].
  unfold Building_release. rewrite Hx.
  destruct (queue ux) as [|q rest] eqn:Eq; cbn [ProductionQueue_dequeue]; cbv zeta.
  { split; [|split; auto]. intros j u Hu. exists u. split; [exact Hu|].
    split; [apply same_class_refl|].
    split; [intros _; apply Qle_refl|intros _ _; apply same_pose_refl]. }
  assert (Hq : queued w q).
  { exists x, ux. split; [exact Hx|]. rewrite Eq. apply elem_of_cons. now left. }
  set (w1 := upd x (set_queue rest) w).
  assert (H2 : objs (snd (add_unit (master ux) q w1)) = objs w1 /\
               (map_units (snd (add_unit (master ux) q w1)) = map_units w \/
                map_units (snd (add_unit (master ux) q w1)) = map_units w ++ [q])).
  { destruct (objs w1 !! q) as [uq|] eqn:Eq1.
    - pose proof (add_unit_added (master ux) q w1 uq Eq1) as (Ho & _ & _ & H).
      split; [exact Ho|]. destruct (fst (add_unit (master ux) q w1)).
      + right. apply H.
      + left. apply H.
    - rewrite add_unit_missing by exact Eq1. split; [reflexivity|now left]. }
  destruct H2 as (Ho2 & Hm2). set (w2 := snd (add_unit (master ux) q w1)) in *.
  set (cx := rect_x (rect ux) + rect_width (rect ux)).
  set (cy := rect_y (rect ux) + rect_height (rect ux)).
  set (w3 := if kind_is is_Infantry w2 q
             then upd q (fun u => set_destinationY cy (set_destinationX cx u)) w2 else w2).
  assert (Hm3 : map_units (upd q (Unit_set_location cx cy) w3) = map_units w2).
  { subst w3. now destruct (kind_is is_Infantry w2 q). }
  split; [|rewrite Hm3; split].
  - intros j u Hu.
    assert (H1 : exists u1, objs w2 !! j = Some u1 /\ same_class u u1 /\
                            health u1 = health u /\ same_pose u u1).
    { rewrite Ho2. subst w1. rewrite objs_upd. destruct (decide (x = j)) as [->|].
      - rewrite Hu. simpl. eexists. split; [reflexivity|]. repeat split.
      - exists u. split; [exact Hu|]. repeat split. }
    destruct H1 as (u1 & Hu1 & Hc1 & Hh1 & Hp1).
    assert (H3 : exists u3, objs w3 !! j = Some u3 /\ same_class u u3 /\
                            health u3 = health u /\ same_pose u u3).
    { subst w3. destruct (kind_is is_Infantry w2 q); [|eauto].
      rewrite objs_upd. destruct (decide (q = j)) as [->|]; [|eauto].
      rewrite Hu1. simpl. eexists. split; [reflexivity|].
      destruct Hc1 as (? & ? & ? & ? & ?), Hp1 as (? & ? & ?). repeat split; assumption. }
    destruct H3 as (u3 & Hu3 & Hc3 & Hh3 & Hp3).
    rewrite objs_upd. destruct (decide (q = j)) as [->|Hne].
    + rewrite Hu3. simpl. eexists. split; [reflexivity|]. split; [|split].
      * destruct Hc3 as (? & ? & ? & ? & ?). repeat split; assumption.
      * intros _. simpl. rewrite Hh3. apply Qle_refl.
      * intros _ Hn. contradiction.
    + exists u3. split; [exact Hu3|]. split; [exact Hc3|].
      split; [intros _; rewrite Hh3; apply Qle_refl|intros _ _; exact Hp3].
  - intros j _. destruct Hm2 as [-> | ->]; [reflexivity|]. rewrite occ_app. lia.
  - intros j Hj. destruct Hm2 as [-> | ->]; [reflexivity|].
    rewrite occ_snoc_ne; [reflexivity|]. intros ->. contradiction.
Qed.

Lemma elem_drift x w w' : elem x w w' -> drift x w w'.
Proof.
  intros [j f Hq|p g Hr|ux Hx Hhero|ux Hx].
  - now apply drift_upd.
  - apply drift_objs; [apply objs_upd_player|apply map_units_upd_player].
  - eapply drift_remove; eauto.
  - eapply drift_release; eauto.
Qed.

Lemma rtc_elem_drift x w w' : rtc (elem x) w w' -> drift x w w'.
Proof.
  intros H. induction H; [apply drift_refl|].
  eapply drift_trans; [apply elem_drift|]; eassumption.
Qed.

(** ** Arithmetic of a movement step *)

Lemma clamp_bounds v lo hi : (lo <= hi)%Q -> (lo <= clamp v lo hi <= hi)%Q.
Proof.
  intros H. unfold clamp. destruct (Qltb v lo) eqn:E1.
  - split; [apply Qle_refl|exact H].
  - apply Qltb_ge in E1. destruct (Qltb hi v) eqn:E2.
    + split; [exact H|apply Qle_refl].
    + apply Qltb_ge in E2. split; assumption.
Qed.

Lemma int_of_lower a v : (float_of a <= v)%Q -> a <= int_of v.
Proof.
  destruct v as [n d]. unfold float_of, inject_Z, Qle, int_of. simpl. intros H.
  transitivity (Z.quot (a * Zpos d) (Zpos d)); [|apply Z.quot_le_mono; lia].
  rewrite Z.quot_mul by discriminate. lia.
Qed.

Lemma int_of_upper b v : (v <= float_of b)%Q -> int_of v <= b.
Proof.
  destruct v as [n d]. unfold float_of, inject_Z, Qle, int_of. simpl. intros H.
  transitivity (Z.quot (b * Zpos d) (Zpos d)); [apply Z.quot_le_mono; lia|].
  rewrite Z.quot_mul by discriminate. lia.
Qed.

Lemma float_of_int_of_bounds a b v :
  (float_of a <= v <= float_of b)%Q ->
  (float_of a <= float_of (int_of v) <= float_of b)%Q /\ a <= int_of v <= b.
Proof.
  intros (H1 & H2). apply int_of_lower in H1. apply int_of_upper in H2.
  split; [split; now apply float_of_le|lia].
Qed.

(** A unit put at an integer position inside the map lies within the map. *)
Lemma in_bounds_set_location nx ny u :
  0 <= nx <= map_width - rect_width (rect u) ->
  0 <= ny <= map_height - rect_height (rect u) ->
  in_bounds (Unit_set_location nx ny u).
Proof.
  intros Hx Hy. unfold in_bounds, Unit_set_location. simpl.
  rewrite !int_of_float_of.
  split; [split; apply (float_of_le 0 nx) || apply float_of_le; lia|].
  split; [split; apply (float_of_le 0 ny) || apply float_of_le; lia|].
  split; assumption.
Qed.

(** The position [Infantry.get_next_logical_location] returns is inside
    the map, and so is the untruncated position it stores. *)
Lemma Infantry_next_in_bounds dt u :
  fits u ->
  let '((nx, ny), u') := Infantry_get_next_logical_location dt u in
  0 <= nx <= map_width - rect_width (rect u) /\
  0 <= ny <= map_height - rect_height (rect u) /\
  (0 <= fx u' <= float_of (map_width - rect_width (rect u)))%Q /\
  (0 <= fy u' <= float_of (map_height - rect_height (rect u)))%Q /\
  rect u' = rect u.
Proof.
  intros (Hw & Hh). unfold Infantry_get_next_logical_location. cbv zeta.
  match goal with |- context [int_of (clamp ?a ?lo ?hi)] =>
    pose proof (clamp_bounds a lo hi) as Hcx; set (tx := clamp a lo hi) in * end.
  match goal with |- context [int_of (clamp ?a (float_of 0) (float_of (map_height - ?h)))] =>
    pose proof (clamp_bounds a (float_of 0) (float_of (map_height - h))) as Hcy;
    set (ty := clamp a (float_of 0) (float_of (map_height - h))) in * end.
  specialize (Hcx ltac:(apply float_of_le; lia)).
  specialize (Hcy ltac:(apply float_of_le; lia)).
  destruct (float_of_int_of_bounds _ _ _ Hcx) as (_ & Hix).
  destruct (float_of_int_of_bounds _ _ _ Hcy) as (_ & Hiy).
  simpl. repeat split; try tauto; try lia; apply Hcx || apply Hcy.
Qed.

(** ** Harmless assignments *)

(** An assignment that touches none of the attributes [WF] speaks of. *)
Lemma quiet_plain x j u u' :
  same_class u u' -> queue u' = queue u -> toBuild u' = toBuild u ->
  health u' = health u -> holdPosition u' = holdPosition u -> same_pose u u' ->
  quiet x j u u'.
Proof.
  intros Hc Hq Ht Hh Hhold Hp. split; [exact Hc|]. split; [exact Hq|]. split; [exact Ht|].
  split; [left; rewrite Hh; apply Qle_refl|]. split; [|split].
  - destruct Hc as (Hk & _ & _ & Hw & Hhh), Hp as (Hfx & Hfy & Hr).
    unfold settled, fits, in_bounds. rewrite Hk, Hhold, Hfx, Hfy, Hr. auto.
  - rewrite Hhold. now left.
  - intros _. exact Hp.
Qed.

(** An assignment of the acting unit to itself. *)
Lemma quiet_self x u u' :
  same_class u u' -> queue u' = queue u -> toBuild u' = toBuild u ->
  (health u' <= health u)%Q -> (settled u -> settled u') -> quiet x x u u'.
Proof.
  intros Hc Hq Ht Hh Hs. split; [exact Hc|]. split; [exact Hq|]. split; [exact Ht|].
  split; [now left|]. split; [exact Hs|]. split; [now right|]. intros H. now destruct H.
Qed.

(** A loss of health. *)
Lemma quiet_hurt x j u d :
  (0 <= d)%Q -> quiet x j u (set_health (health u - d)%Q u).
Proof.
  intros Hd. split; [repeat split|]. split; [reflexivity|]. split; [reflexivity|].
  split; [|split; [auto|split; [now left|intros _; repeat split]]].
  left. simpl. rewrite <- (Qplus_0_r (health u)) at 2. unfold Qminus.
  apply Qplus_le_r. apply (Qopp_le_compat 0 d) in Hd. exact Hd.
Qed.

Ltac quiet_plain := intros; apply quiet_plain; reflexivity || (repeat split).

(** ** Changes that move nothing *)

Lemma pose_kept_refl w : pose_kept w w.
Proof. intros j u Hu. exists u. split; [exact Hu|apply same_pose_refl]. Qed.

Lemma pose_kept_trans w1 w2 w3 : pose_kept w1 w2 -> pose_kept w2 w3 -> pose_kept w1 w3.
Proof.
  intros H1 H2 j u Hu. destruct (H1 j u Hu) as (u2 & Hu2 & P2).
  destruct (H2 j u2 Hu2) as (u3 & Hu3 & P3). exists u3. split; [exact Hu3|].
  eapply same_pose_trans; eauto.
Qed.

Lemma pose_kept_upd w j f :
  (forall u, objs w !! j = Some u -> same_pose u (f u)) -> pose_kept w (upd j f w).
Proof.
  intros H i u Hu. rewrite objs_upd. destruct (decide (j = i)) as [->|].
  - rewrite Hu. simpl. exists (f u). split; [reflexivity|now apply H].
  - exists u. split; [exact Hu|apply same_pose_refl].
Qed.

Lemma pose_kept_objs w w' : objs w' = objs w -> pose_kept w w'.
Proof. intros H j u Hu. exists u. rewrite H. split; [exact Hu|apply same_pose_refl]. Qed.

Lemma pose_kept_unsel w w' : unsel w w' -> pose_kept w w'.
Proof.
  intros H j u Hu. destruct (H j u Hu) as (u' & Hu' & S). exists u'. split; [exact Hu'|].
  now apply same_but_selected_class in S.
Qed.

Lemma calm_refl x w : calm x w w.
Proof. split; [constructor|]. split; [apply pose_kept_refl|reflexivity]. Qed.

Lemma calm_trans x w1 w2 w3 : calm x w1 w2 -> calm x w2 w3 -> calm x w1 w3.
Proof.
  intros (R1 & P1 & M1) (R2 & P2 & M2). split; [etransitivity; eauto|].
  split; [eapply pose_kept_trans; eauto|congruence].
Qed.

Lemma calm_upd x w j f :
  (forall u, objs w !! j = Some u -> quiet x j u (f u) /\ same_pose u (f u)) ->
  calm x w (upd j f w).
Proof.
  intros H. split; [apply rtc_once; constructor; intros u Hu; now apply H|].
  split; [|reflexivity]. apply pose_kept_upd. intros u Hu. now apply H.
Qed.

Lemma calm_plain x w j f :
  (forall u, same_class u (f u) /\ queue (f u) = queue u /\ toBuild (f u) = toBuild u /\
             health (f u) = health u /\ holdPosition (f u) = holdPosition u /\
             same_pose u (f u)) ->
  calm x w (upd j f w).
Proof.
  intros H. apply calm_upd. intros u _. destruct (H u) as (A & B & C & D & E & F).
  split; [now apply quiet_plain|exact F].
Qed.

Lemma calm_player x w p g :
  same_roll (player p w) (g (player p w)) -> calm x w (upd_player p g w).
Proof.
  intros H. split; [apply rtc_once; now constructor|].
  split; [apply pose_kept_objs, objs_upd_player|apply map_units_upd_player].
Qed.

Ltac calm_plain := apply calm_plain; intros; repeat split.

(** ** [Unit.act] and [die] *)

Lemma die_walk x w u :
  objs w !! x = Some u -> (is_Hero (kind u) = true -> x ∈ map_units w) ->
  rtc (elem x) w (die x w) /\ pose_kept w (die x w) /\
  map_units (die x w) = py_remove x (map_units w).
Proof.
  intros Hx Hhero.
  pose proof (elem_die x w u Hx Hhero) as He.
  pose proof (remove_unit_unsel (master u) x w) as Hun.
  assert (Hm : map_units (remove_unit (master u) x w) = py_remove x (map_units w))
    by apply (remove_unit_removed (master u) x w u Hx).
  set (w1 := remove_unit (master u) x w) in *.
  assert (H1 : forall g, same_roll (player (master u) w1) (g (player (master u) w1)) ->
                 rtc (elem x) w (upd_player (master u) g w1) /\
                 pose_kept w (upd_player (master u) g w1) /\
                 map_units (upd_player (master u) g w1) = py_remove x (map_units w)).
  { intros g Hg. split; [eapply rtc_l; [exact He|apply rtc_once; now constructor]|].
    split; [|now rewrite map_units_upd_player].
    eapply pose_kept_trans; [apply pose_kept_unsel, Hun|].
    apply pose_kept_objs, objs_upd_player. }
  assert (H2 : forall g h,
                 same_roll (player (master u) w1) (g (player (master u) w1)) ->
                 (forall pl, same_roll pl (h pl)) ->
                 rtc (elem x) w (upd_player (master u) h (upd_player (master u) g w1)) /\
                 pose_kept w (upd_player (master u) h (upd_player (master u) g w1)) /\
                 map_units (upd_player (master u) h (upd_player (master u) g w1))
                 = py_remove x (map_units w)).
  { intros g h Hg Hh. destruct (H1 g Hg) as (R & P & M).
    split; [eapply rtc_r; [exact R|constructor; apply Hh]|].
    split; [|now rewrite map_units_upd_player].
    eapply pose_kept_trans; [exact P|]. apply pose_kept_objs, objs_upd_player. }
  unfold die, Infantry_die, ComandCenter_die, SupplyDepot_die, Building_die, Unit_die.
  rewrite !Hx. fold w1.
  destruct (is_Infantry (kind u)); [apply H1; repeat split|].
  destruct (is_ComandCenter (kind u)); [apply H2; repeat split|].
  destruct (is_SupplyDepot (kind u)); [apply H2; repeat split|].
  apply H1; repeat split.
Qed.

Lemma Unit_act_walk x w u :
  objs w !! x = Some u ->
  (is_Hero (kind u) = true -> (health u <= 0)%Q -> x ∈ map_units w) ->
  rtc (elem x) w (Unit_act x w) /\ pose_kept w (Unit_act x w) /\
  map_units (Unit_act x w)
  = (if Qltb 0 (health u) then map_units w else py_remove x (map_units w)).
Proof.
  intros Hx Hhero. unfold Unit_act. rewrite Hx. destruct (Qltb 0 (health u)) eqn:Eh.
  - apply calm_plain. intros; repeat split.
  - apply Qltb_ge in Eh. apply (die_walk x w u Hx). auto.
Qed.

(** ** Movement *)

Lemma settled_next dt u :
  settled u -> settled (snd (Infantry_get_next_logical_location dt u)).
Proof.
  intros Hs Hk. destruct (Hs Hk) as (Hf & Hin). split; [exact Hf|].
  intros Hh. pose proof (Infantry_next_in_bounds dt u Hf) as Hn.
  destruct (Infantry_get_next_logical_location dt u) as [[nx ny] u'] eqn:E.
  destruct Hn as (_ & _ & Hfx & Hfy & Hr). simpl.
  assert (Hh' : holdPosition u = true).
  { unfold Infantry_get_next_logical_location in E. injection E as _ _ <-. exact Hh. }
  destruct (Hin Hh') as (_ & _ & Hrx & Hry).
  unfold in_bounds. rewrite Hr. auto.
Qed.

Lemma quiet_next x dt u : quiet x x u (snd (Infantry_get_next_logical_location dt u)).
Proof.
  apply quiet_self; try reflexivity; [repeat split|apply Qle_refl|apply settled_next].
Qed.

(** The step of the acting unit to the position its
    [get_next_logical_location] has returned. *)
Lemma quiet_set_location x nx ny u :
  0 <= nx <= map_width - rect_width (rect u) ->
  0 <= ny <= map_height - rect_height (rect u) ->
  quiet x x u (Unit_set_location nx ny u).
Proof.
  intros Hx Hy.
  apply quiet_self; try reflexivity; [repeat split|apply Qle_refl|].
  intros Hs Hk. destruct (Hs Hk) as (Hf & _). split; [exact Hf|].
  intros _. now apply in_bounds_set_location.
Qed.

Lemma get_next_walk dt x w u nx ny w' :
  acting x w -> objs w !! x = Some u -> is_Infantry (kind u) = true ->
  get_next_logical_location dt x w = ((nx, ny), w') ->
  rtc (elem x) w w' /\ map_units w' = map_units w /\
  exists u', objs w' !! x = Some u' /\
             0 <= nx <= map_width - rect_width (rect u') /\
             0 <= ny <= map_height - rect_height (rect u').
Proof.
  intros Hact Hx Hk. unfold get_next_logical_location. rewrite Hx.
  assert (Hplain : forall w2 u2, acting x w2 -> objs w2 !! x = Some u2 ->
            is_Infantry (kind u2) = true ->
            (fst (Infantry_get_next_logical_location dt u2),
             upd x (fun u => snd (Infantry_get_next_logical_location dt u)) w2)
            = ((nx, ny), w') ->
            rtc (elem x) w2 w' /\ map_units w' = map_units w2 /\
            exists u', objs w' !! x = Some u' /\
                       0 <= nx <= map_width - rect_width (rect u') /\
                       0 <= ny <= map_height - rect_height (rect u')).
  { intros w2 u2 Hact2 Hx2 Hk2 E.
    destruct (wf_settled _ (proj1 (proj1 Hact2)) x u2 Hx2 Hk2) as (Hf & _).
    pose proof (Infantry_next_in_bounds dt u2 Hf) as Hn.
    destruct (Infantry_get_next_logical_location dt u2) as [[nx2 ny2] u2'] eqn:E2.
    cbn [fst snd] in E. injection E as -> -> <-.
    split; [apply rtc_once; constructor; intros; apply quiet_next|].
    split; [reflexivity|]. exists u2'. destruct Hn as (A & B & _ & _ & ->).
    split; [|auto].
    replace u2' with (snd (Infantry_get_next_logical_location dt u2)) by now rewrite E2.
    rewrite objs_upd_eq, Hx2. reflexivity. }
  destruct (is_OffensiveInfantry (kind u)); [|now apply Hplain].
  unfold OffensiveInfantry_get_next_logical_location. rewrite Hx.
  destruct (holdPosition u) eqn:Eh.
  - intros [= <- <- <-]. split; [constructor|]. split; [reflexivity|].
    exists u. split; [exact Hx|].
    destruct (wf_settled _ (proj1 (proj1 Hact)) x u Hx Hk) as (_ & Hin).
    destruct (Hin Eh) as (Hfx & Hfy & _).
    apply float_of_int_of_bounds in Hfx as (_ & Hfx).
    apply float_of_int_of_bounds in Hfy as (_ & Hfy). auto.
  - match goal with |- context [objs ?v !! x] =>
      match v with
      | w => fail 1
      | _ => set (w2 := v)
      end
    end.
    assert (H2 : rtc (elem x) w w2 /\ map_units w2 = map_units w /\
                 exists u2, objs w2 !! x = Some u2 /\ kind u2 = kind u).
    { subst w2. destruct (_ && _); [|split; [constructor|eauto]].
      destruct (List.find _ _); [|split; [constructor|eauto]].
      split; [apply rtc_once; constructor; quiet_plain|].
      split; [reflexivity|]. rewrite objs_upd_eq, Hx. simpl. eauto. }
    destruct H2 as (R2 & M2 & u2 & Hx2 & Hk2). rewrite Hx2. intros E.
    destruct (Hplain w2 u2) as (R3 & M3 & H3); [|exact Hx2|congruence|exact E|].
    { eapply rtc_elem_acting; eauto. }
    split; [etransitivity; eauto|]. split; [congruence|exact H3].
Qed.

Lemma Infantry_act_walk dt x w u :
  acting x w -> objs w !! x = Some u -> is_Infantry (kind u) = true ->
  (is_Hero (kind u) = true -> (health u <= 0)%Q -> x ∈ map_units w) ->
  rtc (elem x) w (Infantry_act dt x w) /\
  map_units (Infantry_act dt x w)
  = (if Qltb 0 (health u) then map_units w else py_remove x (map_units w)) /\
  exists u', objs (Infantry_act dt x w) !! x = Some u' /\ in_bounds u'.
Proof.
  intros Hact Hx Hk Hhero. unfold Infantry_act.
  destruct (Unit_act_walk x w u Hx Hhero) as (R1 & P1 & M1).
  set (w1 := Unit_act x w) in *.
  pose proof (rtc_elem_acting x w w1 Hact R1) as Hact1.
  destruct (proj1 (proj2 (rtc_elem_drift x w w1 R1)) x u Hx) as (u1 & Hx1 & Hc1 & _).
  assert (Hk1 : is_Infantry (kind u1) = true) by (destruct Hc1 as (-> & _); exact Hk).
  destruct (get_next_logical_location dt x w1) as [[nx ny] w2] eqn:E.
  destruct (get_next_walk dt x w1 u1 nx ny w2 Hact1 Hx1 Hk1 E) as (R2 & M2 & u2 & Hx2 & Bx & By).
  split; [|split].
  - etransitivity; [exact R1|]. eapply rtc_r; [exact R2|]. constructor.
    intros u' Hu'. assert (u' = u2) by congruence. subst u'.
    now apply quiet_set_location.
  - change (map_units (upd x (Unit_set_location nx ny) w2)) with (map_units w2).
    congruence.
  - rewrite objs_upd_eq, Hx2. simpl. eexists. split; [reflexivity|].
    now apply in_bounds_set_location.
Qed.

(** ** Fighting *)

(** An assignment of the acting unit to itself that does not move it and
    does not make it hold its position. *)
Lemma calm_self x w f :
  (forall u, same_class u (f u) /\ queue (f u) = queue u /\ toBuild (f u) = toBuild u /\
             health (f u) = health u /\ same_pose u (f u) /\
             (holdPosition (f u) = false \/ holdPosition (f u) = holdPosition u)) ->
  calm x w (upd x f w).
Proof.
  intros H. apply calm_upd. intros u _. destruct (H u) as (Hc & Hq & Ht & Hh & Hp & Hhold).
  split; [|exact Hp]. apply quiet_self; try assumption; [rewrite Hh; apply Qle_refl|].
  intros Hs Hk. destruct Hc as (Hk' & _ & _ & Hw & Hhh), Hp as (Hfx & Hfy & Hr).
  rewrite Hk' in Hk. destruct (Hs Hk) as (Hf & Hin).
  unfold fits, in_bounds in *. rewrite Hfx, Hfy, Hr. split; [exact Hf|].
  intros E. apply Hin. destruct Hhold as [Hhold|Hhold]; congruence.
Qed.

Ltac calm_self := apply calm_self; intros; repeat split; auto.

Lemma attack_calm r x d w : calm x w (OffensiveInfantry_attack r x d w).
Proof.
  unfold OffensiveInfantry_attack.
  destruct (objs w !! x) as [ua|]; [|apply calm_refl].
  destruct (objs w !! d) as [ud|]; [|apply calm_refl].
  set (w1 := upd x (fun u => set_attackMoving false (set_attacking true u)) w).
  assert (H1 : calm x w w1) by (subst w1; calm_self).
  set (damage := if power ua - defense ud <? 1 then randint01 r else power ua - defense ud).
  assert (Hd : 0 <= damage).
  { subst damage. destruct (power ua - defense ud <? 1) eqn:E.
    - destruct r; simpl; lia.
    - apply Z.ltb_ge in E. lia. }
  cbv zeta.
  match goal with |- calm x w (if _ then upd x ?f ?v else _) => set (w2 := v) end.
  assert (H2 : calm x w w2).
  { eapply calm_trans; [exact H1|]. subst w2.
    destruct (attackUpgrade _); apply calm_upd; intros u _;
      (split; [apply quiet_hurt|repeat split]).
    - apply (float_of_le 0). lia.
    - apply (float_of_le 0). lia. }
  destruct (Qltb (health_of w2 d) 1); [|exact H2].
  eapply calm_trans; [exact H2|]. calm_self.
Qed.

Lemma in_bounds_pose u u' : same_pose u u' -> in_bounds u -> in_bounds u'.
Proof. intros (Hfx & Hfy & Hr). unfold in_bounds. now rewrite Hfx, Hfy, Hr. Qed.

Lemma calm_in_bounds x w w' i u :
  calm x w w' -> objs w !! i = Some u -> in_bounds u ->
  exists u', objs w' !! i = Some u' /\ in_bounds u'.
Proof.
  intros (_ & P & _) Hu Hin. destruct (P i u Hu) as (u' & Hu' & Hp).
  exists u'. split; [exact Hu'|]. eapply in_bounds_pose; eauto.
Qed.

(** The acting unit starts holding the position its movement step has
    just put it at. *)
Lemma calm_hold x w u :
  objs w !! x = Some u -> in_bounds u -> calm x w (upd x (set_holdPosition true) w).
Proof.
  intros Hx Hin. apply calm_upd. intros u' Hu'. assert (u' = u) by congruence. subst u'.
  split; [|repeat split].
  apply quiet_self; try reflexivity; [repeat split|apply Qle_refl|].
  intros Hs Hk. destruct (Hs Hk) as (Hf & _). split; [exact Hf|]. intros _. exact Hin.
Qed.

Lemma OffensiveInfantry_act_walk r dt x w u :
  acting x w -> objs w !! x = Some u -> is_Infantry (kind u) = true ->
  (is_Hero (kind u) = true -> (health u <= 0)%Q -> x ∈ map_units w) ->
  rtc (elem x) w (OffensiveInfantry_act r dt x w) /\
  map_units (OffensiveInfantry_act r dt x w)
  = (if Qltb 0 (health u) then map_units w else py_remove x (map_units w)) /\
  exists u', objs (OffensiveInfantry_act r dt x w) !! x = Some u' /\ in_bounds u'.
Proof.
  intros Hact Hx Hk Hhero. unfold OffensiveInfantry_act. rewrite Hx. cbv zeta.
  match goal with |- context [Infantry_act dt x ?v] => set (wb := v) end.
  assert (Hb : calm x w wb /\ exists ub, objs wb !! x = Some ub /\ kind ub = kind u /\
                                         health ub = health u).
  { subst wb.
    destruct (Qltb 0 (health u)), (Infantry_at_destination u).
    - split; [eapply calm_trans; calm_self|]. rewrite !objs_upd_eq, Hx. simpl. eauto.
    - split; [calm_self|]. rewrite !objs_upd_eq, Hx. simpl. eauto.
    - split; [calm_self|]. rewrite !objs_upd_eq, Hx. simpl. eauto.
    - split; [apply calm_refl|eauto]. }
  destruct Hb as ((Rb & Pb & Mb) & ub & Hxb & Hkb & Hhb).
  pose proof (rtc_elem_acting x w wb Hact Rb) as Hactb.
  destruct (Infantry_act_walk dt x wb ub Hactb Hxb) as (Rc & Mc & uc & Hxc & Hin).
  { congruence. }
  { rewrite Hkb, Hhb, Mb. exact Hhero. }
  rewrite Hhb, Mb in Mc.
  set (wc := Infantry_act dt x wb) in *.
  set (wd := upd x (set_attacking false) wc).
  assert (Hd : calm x wc wd) by (subst wd; calm_self).
  assert (Hxd : objs wd !! x = Some (set_attacking false uc)).
  { subst wd. now rewrite objs_upd_eq, Hxc. }
  assert (Hind : in_bounds (set_attacking false uc)) by exact Hin.
  rewrite Hxd.
  assert (Hend : forall w', calm x wd w' ->
            rtc (elem x) w w' /\
            map_units w' = (if Qltb 0 (health u) then map_units w
                            else py_remove x (map_units w)) /\
            exists u', objs w' !! x = Some u' /\ in_bounds u').
  { intros w' Hw'. pose proof (calm_trans x wc wd w' Hd Hw') as (R & P & M).
    split; [etransitivity; [exact Rb|]; etransitivity; eauto|].
    split; [congruence|]. eapply (calm_in_bounds x wc w'); eauto. split; [exact R|auto]. }
  assert (Hoff : calm x wd (upd x (set_holdPosition false) wd)) by calm_self.
  destruct (obsession (set_attacking false uc)) as [o|]; [|now apply Hend].
  destruct (_ && _); [|now apply Hend].
  apply Hend. eapply calm_trans; [eapply calm_hold; eauto|apply attack_calm].
Qed.

(** ** Heroes *)

Lemma calm_regen x w (s : Q) :
  (forall u, objs w !! x = Some u -> is_Hero (kind u) = true) ->
  calm x w (upd x (fun u =>
                     let u := set_health (health u + s)%Q u in
                     if Qltb (maxHealth u) (health u) then set_health (maxHealth u) u else u) w).
Proof.
  intros Hk. apply calm_upd. intros u Hu. specialize (Hk u Hu). cbv zeta.
  destruct (Qltb (maxHealth (set_health (health u + s)%Q u))
              (health (set_health (health u + s)%Q u))) eqn:E.
  - split; [|repeat split]. split; [repeat split|]. split; [reflexivity|].
    split; [reflexivity|]. split; [right; split; [reflexivity|split; [exact Hk|]]|].
    + unfold healthy. simpl. apply Qle_refl.
    + split; [auto|]. split; [now left|]. intros _. repeat split.
  - apply Qltb_ge in E.
    split; [|repeat split]. split; [repeat split|]. split; [reflexivity|].
    split; [reflexivity|]. split; [right; split; [reflexivity|split; [exact Hk|exact E]]|].
    split; [auto|]. split; [now left|]. intros _. repeat split.
Qed.

Lemma Hero_act_walk r dt x w u :
  acting x w -> objs w !! x = Some u -> is_Hero (kind u) = true ->
  ((health u <= 0)%Q -> x ∈ map_units w) ->
  rtc (elem x) w (Hero_act r dt x w) /\
  map_units (Hero_act r dt x w)
  = (if Qltb 0 (health u) then map_units w else py_remove x (map_units w)) /\
  exists u', objs (Hero_act r dt x w) !! x = Some u' /\ in_bounds u'.
Proof.
  intros Hact Hx Hk Hhero. unfold Hero_act.
  assert (Hi : is_Infantry (kind u) = true) by (destruct (kind u); done).
  destruct (OffensiveInfantry_act_walk r dt x w u Hact Hx Hi) as (R & M & u1 & Hx1 & Hin);
    [auto|].
  set (w1 := OffensiveInfantry_act r dt x w) in *.
  assert (Hh : forall u', objs w1 !! x = Some u' -> is_Hero (kind u') = true).
  { intros u' Hu'. destruct (proj1 (proj2 (rtc_elem_drift x w w1 R)) x u Hx)
      as (u2 & Hu2 & (Hk2 & _) & _). assert (u' = u2) by congruence. subst u'. rewrite Hk2. exact Hk. }
  destruct (calm_regen x w1 (2 * tick_scale dt) Hh) as (R2 & P2 & M2).
  split; [etransitivity; eauto|]. split; [etransitivity; [exact M2|exact M]|].
  destruct (P2 x u1 Hx1) as (u2 & Hx2 & Hp). exists u2. split; [exact Hx2|].
  eapply in_bounds_pose; eauto.
Qed.

(** ** Builders *)

Lemma Builder_act_walk dt x w u :
  acting x w -> objs w !! x = Some u -> is_Infantry (kind u) = true ->
  is_Hero (kind u) = false ->
  rtc (elem x) w (Builder_act dt x w) /\
  map_units (Builder_act dt x w)
  = (if Qltb 0 (health u) then map_units w else py_remove x (map_units w)) /\
  exists u', objs (Builder_act dt x w) !! x = Some u' /\ in_bounds u'.
Proof.
  intros Hact Hx Hk Hnh. unfold Builder_act. rewrite Hx. cbv zeta.
  match goal with |- context [Infantry_act dt x ?v] => set (wb := v) end.
  assert (Hb : calm x w wb /\ exists ub, objs wb !! x = Some ub /\ kind ub = kind u /\
                                         health ub = health u).
  { subst wb. destruct (toBuild u) as [t|]; [|split; [apply calm_refl|eauto]].
    destruct (_ && _); [|split; [apply calm_refl|eauto]].
    split; [calm_self|]. rewrite !objs_upd_eq, Hx. simpl. eauto. }
  destruct Hb as ((Rb & Pb & Mb) & ub & Hxb & Hkb & Hhb).
  pose proof (rtc_elem_acting x w wb Hact Rb) as Hactb.
  destruct (Infantry_act_walk dt x wb ub Hactb Hxb) as (Rc & Mc & uc & Hxc & Hin).
  { congruence. }
  { rewrite Hkb. congruence. }
  rewrite Hhb, Mb in Mc.
  set (wc := Infantry_act dt x wb) in *. rewrite Hxc.
  assert (Hend : forall w', calm x wc w' ->
            rtc (elem x) w w' /\
            map_units w' = (if Qltb 0 (health u) then map_units w
                            else py_remove x (map_units w)) /\
            exists u', objs w' !! x = Some u' /\ in_bounds u').
  { intros w' (R & P & M).
    split; [etransitivity; [exact Rb|]; etransitivity; eauto|].
    split; [congruence|]. eapply (calm_in_bounds x wc w'); eauto. split; [exact R|auto]. }
  destruct (toBuild uc) as [t|]; [|apply Hend, calm_refl].
  destruct (_ && _); [|apply Hend, calm_refl].
  set (wd := upd t _ wc).
  assert (Hd : calm x wc wd) by (subst wd; calm_plain).
  destruct (negb _); [|now apply Hend].
  apply Hend. eapply calm_trans; [exact Hd|]. calm_self.
Qed.

(** ** Buildings *)

Lemma Building_init_after_build_calm x i w : calm x w (Building_init_after_build i w).
Proof.
  unfold Building_init_after_build. destruct (objs w !! i) as [b|]; [|apply calm_refl].
  destruct (negb _); [|apply calm_refl].
  apply (calm_trans x w (upd i (set_didInitializeAfterBuild true) w));
    [calm_plain|apply calm_player; repeat split].
Qed.

Lemma Building_act_walk dt x w u :
  acting x w -> objs w !! x = Some u -> is_Hero (kind u) = false ->
  rtc (elem x) w (Building_act dt x w) /\
  ((health u <= 0)%Q ->
   (occ (map_units (Building_act dt x w)) x <= pred (occ (map_units w) x))%nat).
Proof.
  intros Hact Hx Hk. unfold Building_act.
  destruct (Unit_act_walk x w u Hx) as (R1 & P1 & M1); [congruence|].
  set (w1 := Unit_act x w) in *.
  assert (Hend : forall w', rtc (elem x) w1 w' ->
            rtc (elem x) w w' /\
            ((health u <= 0)%Q -> (occ (map_units w') x <= pred (occ (map_units w) x))%nat)).
  { intros w' R. split; [etransitivity; eauto|]. intros Hh.
    apply Qltb_ge in Hh. rewrite Hh in M1.
    pose proof (rtc_elem_acting x w w1 Hact R1) as (_ & Hnq).
    destruct (rtc_elem_drift x w1 w' R) as (_ & _ & _ & Hocc).
    etransitivity; [apply Hocc, Hnq|]. rewrite M1, occ_py_remove_eq. reflexivity. }
  cbv zeta. destruct (objs w1 !! x) as [b|] eqn:Hb; [|apply Hend; constructor].
  destruct (negb (Building_is_being_built b)); [|apply Hend; constructor].
  set (w3 := upd_player (master b) _ (Building_init_after_build x w1)).
  assert (H3 : calm x w1 w3).
  { subst w3. eapply calm_trans; [apply Building_init_after_build_calm|].
    apply calm_player. repeat split. }
  destruct (ProductionQueue_next (queue b)) as [nxt|]; [|apply Hend, H3].
  destruct (negb _); [apply Hend, H3|].
  set (w4 := upd nxt _ w3).
  assert (H4 : calm x w1 w4) by (eapply calm_trans; [exact H3|subst w4; calm_plain]).
  destruct (Qle_bool _ _); [|apply Hend, H4].
  apply Hend. destruct H4 as (R4 & P4 & _).
  destruct (P4 x b Hb) as (b4 & Hb4 & _).
  eapply rtc_r; [exact R4|]. eapply elem_release; eauto.
Qed.

(** ** One [act] call *)

Lemma act_walk r dt x w u :
  acting x w -> objs w !! x = Some u ->
  (is_Hero (kind u) = true -> (health u <= 0)%Q -> x ∈ map_units w) ->
  rtc (elem x) w (act r dt x w) /\
  (is_Infantry (kind u) = true ->
   exists u', objs (act r dt x w) !! x = Some u' /\ in_bounds u') /\
  ((health u <= 0)%Q ->
   (occ (map_units (act r dt x w)) x <= pred (occ (map_units w) x))%nat).
Proof.
  intros Hact Hx Hhero.
  assert (Hmob : forall w',
            rtc (elem x) w w' /\
            map_units w' = (if Qltb 0 (health u) then map_units w
                            else py_remove x (map_units w)) /\
            (exists u', objs w' !! x = Some u' /\ in_bounds u') ->
            rtc (elem x) w w' /\
            (is_Infantry (kind u) = true -> exists u', objs w' !! x = Some u' /\ in_bounds u') /\
            ((health u <= 0)%Q -> (occ (map_units w') x <= pred (occ (map_units w) x))%nat)).
  { intros w' (R & M & B). split; [exact R|]. split; [auto|].
    intros Hh. apply Qltb_ge in Hh. rewrite Hh in M. rewrite M, occ_py_remove_eq.
    reflexivity. }
  assert (Hbld : forall w',
            is_Infantry (kind u) = false ->
            rtc (elem x) w w' /\
            ((health u <= 0)%Q -> (occ (map_units w') x <= pred (occ (map_units w) x))%nat) ->
            rtc (elem x) w w' /\
            (is_Infantry (kind u) = true -> exists u', objs w' !! x = Some u' /\ in_bounds u') /\
            ((health u <= 0)%Q -> (occ (map_units w') x <= pred (occ (map_units w) x))%nat)).
  { intros w' Hk (R & D). split; [exact R|]. split; [congruence|exact D]. }
  unfold act. rewrite Hx.
  destruct (kind u) eqn:Ek.
  1: apply Hmob, (Builder_act_walk dt x w u Hact Hx); now rewrite Ek.
  1-3: apply Hmob, (OffensiveInfantry_act_walk r dt x w u Hact Hx); [now rewrite Ek|rewrite Ek; exact Hhero].
  1-2: apply Hmob, (Hero_act_walk r dt x w u Hact Hx); [now rewrite Ek|apply Hhero; reflexivity].
  all: apply Hbld; [reflexivity|]; apply (Building_act_walk dt x w u Hact Hx); now rewrite Ek.
Qed.

(** ** The unit pass keeps the world well formed *)

Lemma occ_cons_eq l i : occ (i :: l) i = S (occ l i).
Proof. unfold occ. simpl. destruct (Nat.eq_dec i i); [reflexivity|congruence]. Qed.

Lemma occ_cons_ne l i j : i <> j -> occ (i :: l) j = occ l j.
Proof. intros H. unfold occ. simpl. destruct (Nat.eq_dec i j); [congruence|reflexivity]. Qed.

Lemma pass_ok_start w : WF w -> pass_ok (map_units w) w.
Proof.
  intros Hwf. split; [exact Hwf|]. split; [|auto].
  intros j Hj. split; [|now apply (wf_on_map _ (proj1 Hwf))].
  intros (b & ub & Hb & Hq).
  destruct (wf_queue _ (proj1 Hwf) b ub j Hb Hq) as (_ & _ & _ & _ & _ & Hn). contradiction.
Qed.

Lemma pass_ok_step r dt x l w :
  pass_ok (x :: l) w ->
  exists u, objs w !! x = Some u /\ acting x w /\
            rtc (elem x) w (act r dt x w) /\
            (is_Infantry (kind u) = true ->
             exists u', objs (act r dt x w) !! x = Some u' /\ in_bounds u') /\
            ((health u <= 0)%Q ->
             (occ (map_units (act r dt x w)) x <= pred (occ (map_units w) x))%nat) /\
            pass_ok l (act r dt x w).
Proof.
  intros (Hwf & Hl & Hocc).
  destruct (Hl x) as (Hnq & (u & Hx)); [apply elem_of_cons; now left|].
  assert (Hact : acting x w) by (split; assumption).
  assert (Hhero : is_Hero (kind u) = true -> (health u <= 0)%Q -> x ∈ map_units w).
  { intros Hk _. apply occ_pos. specialize (Hocc x u Hx).
    rewrite occ_cons_eq in Hocc. destruct (kind u); try discriminate; simpl in Hocc; lia. }
  destruct (act_walk r dt x w u Hact Hx Hhero) as (R & B & D).
  exists u. split; [exact Hx|]. split; [exact Hact|]. split; [exact R|].
  split; [exact B|]. split; [exact D|].
  pose proof (rtc_elem_acting x w _ Hact R) as (Hwf' & _).
  destruct (rtc_elem_drift x w _ R) as (Q' & O' & M' & N').
  split; [exact Hwf'|]. split.
  - intros j Hj. destruct (Hl j) as (Hnqj & (uj & Huj)); [apply elem_of_cons; now right|].
    split; [intros H; apply Hnqj; now apply Q'|].
    destruct (O' j uj Huj) as (uj' & -> & _). eauto.
  - intros j uj' Huj' Hk.
    destruct (decide (x = j)) as [<-|Hne].
    + destruct (O' x u Hx) as (u2 & Hu2 & (Hk2 & _) & _).
      assert (uj' = u2) by congruence. subst uj'. rewrite Hk2 in Hk.
      specialize (Hocc x u Hx Hk). rewrite occ_cons_eq in Hocc.
      pose proof (wf_infantry_once _ (proj1 Hwf) x u Hx Hk). lia.
    + destruct (objs w !! j) as [uj|] eqn:Huj.
      * destruct (O' j uj Huj) as (u2 & Hu2 & (Hk2 & _) & _).
        assert (uj' = u2) by congruence. subst uj'. rewrite Hk2 in Hk.
        specialize (Hocc j uj Huj Hk). rewrite occ_cons_ne in Hocc by exact Hne.
        specialize (M' j ltac:(congruence)). lia.
      * assert (Hz : occ l j = 0%nat); [|lia].
        apply occ_zero. intros Hin. destruct (Hl j) as (_ & (? & ?)); [|congruence].
        apply elem_of_cons. now right.
Qed.

Lemma act_all_pass_ok rnd dt k l w : pass_ok l w -> WF (act_all rnd dt k l w).
Proof.
  revert k w. induction l as [|x l IH]; intros k w H; simpl; [apply H|].
  destruct (pass_ok_step (rnd k) dt x l w H) as (_ & _ & _ & _ & _ & _ & H').
  now apply IH.
Qed.

Lemma WF_Game_update rnd dt w : WF w -> WF (Game_update rnd dt w).
Proof. intros H. apply act_all_pass_ok, pass_ok_start, H. Qed.

(** ** Mobile units after the pass *)

Lemma act_all_bounds rnd dt l : forall k w (P : nat -> Prop),
  pass_ok l w ->
  (forall j, P j -> ~ queued w j /\
                    exists u, objs w !! j = Some u /\
                              (is_Infantry (kind u) = true -> in_bounds u)) ->
  forall j, P j \/ j ∈ l ->
            exists u', objs (act_all rnd dt k l w) !! j = Some u' /\
                       (is_Infantry (kind u') = true -> in_bounds u').
Proof.
  induction l as [|x l IH]; intros k w P Hok HP j Hj; simpl.
  - destruct Hj as [Hj|Hj]; [|now apply elem_of_nil in Hj].
    destruct (HP j Hj) as (_ & H). exact H.
  - destruct (pass_ok_step (rnd k) dt x l w Hok) as (u & Hx & Hact & R & B & _ & Hok').
    apply (IH (S k) _ (fun j => P j \/ j = x) Hok').
    + intros i Hi.
      pose proof (rtc_elem_acting x w _ Hact R) as (_ & Hnq').
      destruct (rtc_elem_drift x w _ R) as (Q' & O' & _ & _).
      destruct (decide (i = x)) as [->|Hne].
      * split; [exact Hnq'|].
        destruct (O' x u Hx) as (u2 & Hu2 & (Hk2 & _) & _).
        exists u2. split; [exact Hu2|]. rewrite Hk2. intros Hk.
        destruct (B Hk) as (u3 & Hu3 & Hin). congruence.
      * destruct Hi as [Hi|Hi]; [|contradiction].
        destruct (HP i Hi) as (Hnq & ui & Hui & Hin).
        split; [intros H; apply Hnq; now apply Q'|].
        destruct (O' i ui Hui) as (u2 & Hu2 & (Hk2 & _) & _ & Hp).
        exists u2. split; [exact Hu2|]. rewrite Hk2. intros Hk.
        eapply in_bounds_pose; [apply Hp; assumption|auto].
    + destruct Hj as [Hj|Hj]; [now left; left|].
      apply elem_of_cons in Hj as [->|Hj]; [left; now right|now right].
Qed.

(** ** Dead units after the pass *)

Lemma act_all_dead rnd dt x l : forall k w u,
  pass_ok l w -> objs w !! x = Some u -> ~ queued w x ->
  (occ (map_units w) x <= occ l x)%nat ->
  ((0 < occ l x)%nat -> (health u <= 0)%Q) ->
  x ∉ map_units (act_all rnd dt k l w).
Proof.
  induction l as [|y l IH]; intros k w u Hok Hx Hnq Hocc Hh; simpl.
  - apply occ_zero. unfold occ at 2 in Hocc. simpl in Hocc. lia.
  - destruct (pass_ok_step (rnd k) dt y l w Hok) as (uy & Hy & Hact & R & _ & D & Hok').
    destruct (rtc_elem_drift y w _ R) as (Q' & O' & _ & N').
    destruct (O' x u Hx) as (u' & Hx' & (Hk' & _) & Hh' & _).
    apply (IH (S k) _ u' Hok' Hx'); [intros H; apply Hnq; now apply Q'| |].
    + destruct (decide (y = x)) as [->|Hne].
      * assert (uy = u) by congruence. subst uy. rewrite occ_cons_eq in Hocc, Hh.
        specialize (D (Hh ltac:(lia))). lia.
      * rewrite occ_cons_ne in Hocc by exact Hne. specialize (N' x Hnq). lia.
    + intros Hpos. destruct (decide (y = x)) as [->|Hne].
      * rewrite occ_cons_eq in Hh. specialize (Hh ltac:(lia)).
        destruct (is_Hero (kind u)) eqn:Ehero.
        -- exfalso. destruct Hok as (Hwf & _ & Hpi).
           assert (Hinf : is_Infantry (kind u) = true) by (destruct (kind u); done).
           specialize (Hpi x u Hx Hinf). rewrite occ_cons_eq in Hpi.
           pose proof (wf_infantry_once _ (proj1 Hwf) x u Hx Hinf). lia.
        -- eapply Qle_trans; [apply Hh'; now right|exact Hh].
      * rewrite occ_cons_ne in Hh by exact Hne.
        eapply Qle_trans; [apply Hh'; now left|auto].
Qed.

Lemma act_all_master rnd dt x l : forall k w u,
  pass_ok l w -> objs w !! x = Some u ->
  exists u', objs (act_all rnd dt k l w) !! x = Some u' /\ master u' = master u.
Proof.
  induction l as [|y l IH]; intros k w u Hok Hx; simpl; [eauto|].
  destruct (pass_ok_step (rnd k) dt y l w Hok) as (uy & Hy & Hact & R & _ & _ & Hok').
  destruct (rtc_elem_drift y w _ R) as (_ & O' & _).
  destruct (O' x u Hx) as (u' & Hx' & (_ & Hm & _) & _).
  destruct (IH (S k) _ u' Hok' Hx') as (u2 & Hu2 & Hm2). exists u2. split; [exact Hu2|].
  congruence.
Qed.

Lemma Game_update_dead rnd dt w x u :
  WF w -> objs w !! x = Some u -> ~ queued w x -> (health u <= 0)%Q ->
  (x ∉ map_units (Game_update rnd dt w)) /\
  (x ∉ units (player (master u) (Game_update rnd dt w))).
Proof.
  intros Hwf Hx Hnq Hh.
  assert (Hmap : x ∉ map_units (Game_update rnd dt w)).
  { eapply act_all_dead; eauto using pass_ok_start. }
  split; [exact Hmap|].
  pose proof (WF_Game_update rnd dt w Hwf) as Hwf'.
  destruct (act_all_master rnd (if Qltb dt 0 then 0%Q else dt) x (map_units w) 0%nat w u
              (pass_ok_start w Hwf) Hx) as (u' & Hx' & Hm).
  fold (Game_update rnd dt w) in Hx'.
  apply occ_zero. rewrite <- Hm, <- (wf_map _ (proj1 Hwf') x u' Hx'). now apply occ_zero.
Qed.

(** ** Commands keep the world well formed *)

Lemma steady_plain w i u u' :
  same_class u u' -> queue u' = queue u -> toBuild u' = toBuild u ->
  health u' = health u -> holdPosition u' = holdPosition u -> same_pose u u' ->
  steady w i u u'.
Proof.
  intros Hc Hq Ht Hh Hhold Hp. split; [exact Hc|]. split; [now rewrite Hq|].
  split; [exact Ht|]. destruct Hc as (Hk & Hm & Hmax & Hw & Hhh), Hp as (Hfx & Hfy & Hr).
  unfold healthy, settled, fits, in_bounds. rewrite Hk, Hmax, Hh, Hhold, Hfx, Hfy, Hr.
  split; [auto|]. split; [auto|]. intros E. now left.
Qed.

(** An assignment that lets a unit go: its position and destination may
    change, and it does not hold its position afterwards. *)
Lemma steady_unhold w i u u' :
  same_class u u' -> queue u' = queue u -> toBuild u' = toBuild u ->
  health u' = health u -> holdPosition u' = false -> steady w i u u'.
Proof.
  intros Hc Hq Ht Hh Hhold. split; [exact Hc|]. split; [now rewrite Hq|].
  split; [exact Ht|]. destruct Hc as (Hk & Hm & Hmax & Hw & Hhh).
  unfold healthy, settled, fits. rewrite Hk, Hmax, Hh, Hhold, Hw, Hhh.
  split; [auto|]. split; [|discriminate].
  intros Hs Hi. destruct (Hs Hi) as (Hf & _). split; [exact Hf|discriminate].
Qed.

(** A building may be put anywhere. *)
Lemma steady_building w i u u' :
  is_Infantry (kind u) = false ->
  same_class u u' -> queue u' = queue u -> toBuild u' = toBuild u ->
  health u' = health u -> holdPosition u' = holdPosition u -> steady w i u u'.
Proof.
  intros Hb Hc Hq Ht Hh Hhold. split; [exact Hc|]. split; [now rewrite Hq|].
  split; [exact Ht|]. destruct Hc as (Hk & Hm & Hmax & Hw & Hhh).
  unfold healthy, settled. rewrite Hk, Hmax, Hh, Hhold, Hb.
  split; [auto|]. split; [discriminate|]. intros E. now left.
Qed.

Lemma WF_plain w j f :
  WF w ->
  (forall u, same_class u (f u) /\ queue (f u) = queue u /\ toBuild (f u) = toBuild u /\
             health (f u) = health u /\ holdPosition (f u) = holdPosition u /\
             same_pose u (f u)) ->
  WF (upd j f w).
Proof.
  intros Hwf H. apply WF_upd; [exact Hwf|]. intros u _.
  destruct (H u) as (A & B & C & D & E & F). now apply steady_plain.
Qed.

Lemma WF_unhold w j f :
  WF w ->
  (forall u, same_class u (f u) /\ queue (f u) = queue u /\ toBuild (f u) = toBuild u /\
             health (f u) = health u /\ holdPosition (f u) = false) ->
  WF (upd j f w).
Proof.
  intros Hwf H. apply WF_upd; [exact Hwf|]. intros u _.
  destruct (H u) as (A & B & C & D & E). now apply steady_unhold.
Qed.

Ltac wf_plain := apply WF_plain; [assumption|intros; repeat split].
Ltac wf_unhold := apply WF_unhold; [assumption|intros; repeat split].

Lemma select_plain u :
  same_class u (select u) /\ queue (select u) = queue u /\ toBuild (select u) = toBuild u /\
  health (select u) = health u /\ holdPosition (select u) = holdPosition u /\
  same_pose u (select u).
Proof.
  unfold select. destruct (is_Building (kind u)); [destruct (negb _)|]; repeat split.
Qed.

Lemma WF_select w j : WF w -> WF (upd j select w).
Proof. intros H. apply WF_plain; [exact H|apply select_plain]. Qed.

Lemma WF_fold {A} (step : World -> A -> World) (l : list A) w :
  (forall w a, WF w -> WF (step w a)) -> WF w -> WF (fold_left step l w).
Proof. intros H. revert w. induction l; simpl; auto. Qed.

Lemma WF_deselect_all p w : WF w -> WF (Player_deselect_all p w).
Proof. intros H. apply WF_fold; [|exact H]. intros; wf_plain. Qed.

Lemma WF_update_selected p w : WF w -> WF (Player_update_selected_units p w).
Proof.
  intros (Hwf & Hsel). destruct (update_selected_spec p w) as (Hf & Hs & Hq).
  split; [eapply WFc_framed; eauto|].
  intros q j Hj. destruct Hf as (_ & _ & Hu & _).
  destruct (Hu q) as (-> & _).
  destruct (decide (q = p)) as [->|Hne]; [now apply Hs|].
  rewrite Hq in Hj by exact Hne. now apply Hsel.
Qed.

Lemma WF_timeModifier t w : WF w -> WF (set_timeModifier t w).
Proof.
  intros H. eapply WF_framed; [exact H|]. split; [|now intros []].
  split; [reflexivity|]. split; [reflexivity|]. split.
  - intros []; split; reflexivity.
  - intros i. simpl. destruct (objs w !! i); constructor. apply steady_refl.
Qed.

(** ** Object creation *)

Lemma alloc_spec u0 w :
  fst (alloc u0 w) = next_id w /\
  objs (snd (alloc u0 w)) = <[next_id w := u0]> (objs w) /\
  next_id (snd (alloc u0 w)) = S (next_id w) /\
  map_units (snd (alloc u0 w)) = map_units w /\
  forall p, player p (snd (alloc u0 w)) = player p w.
Proof. repeat split. Qed.

Lemma fresh_none w : WFc w -> objs w !! next_id w = None.
Proof.
  intros Hwf. destruct (objs w !! next_id w) eqn:E; [|reflexivity].
  pose proof (wf_fresh _ Hwf (next_id w) ltac:(rewrite E; eauto)). lia.
Qed.

Lemma WF_alloc u0 w :
  WF w -> healthy u0 -> settled u0 -> queue u0 = [] -> toBuild u0 = None ->
  WF (snd (alloc u0 w)).
Proof.
  intros (Hwf & Hsel) Hh Hs Hq Ht.
  destruct (alloc_spec u0 w) as (_ & Ho & Hi & Hm & Hp).
  set (w' := snd (alloc u0 w)) in *. set (n := next_id w) in *.
  pose proof (fresh_none w Hwf) as Hn. fold n in Hn.
  assert (Hold : forall i u, objs w !! i = Some u -> objs w' !! i = Some u /\ i <> n).
  { intros i u Hu. assert (i <> n) by congruence.
    split; [|assumption]. rewrite Ho. now rewrite lookup_insert_ne. }
  assert (Hnew : forall i u, objs w' !! i = Some u ->
                   (i = n /\ u = u0) \/ (i <> n /\ objs w !! i = Some u)).
  { intros i u. rewrite Ho. destruct (decide (n = i)) as [<-|Hne].
    - rewrite lookup_insert_eq. intros [= <-]. now left.
    - rewrite lookup_insert_ne by exact Hne. right. split; [congruence|assumption]. }
  assert (Hnmap : n ∉ map_units w).
  { intros Hin. destruct (wf_on_map _ Hwf n Hin) as (? & ?). congruence. }
  assert (Hnunits : forall p, n ∉ units (player p w)).
  { intros p Hin. destruct (wf_owner _ Hwf p n Hin) as (? & ? & _). congruence. }
  assert (Hkind : forall f i, i <> n -> kind_is f w' i = kind_is f w i).
  { intros f i Hne. unfold kind_is. rewrite Ho. now rewrite lookup_insert_ne. }
  split; [split|].
  - intros i (u & Hu). rewrite Hi. destruct (Hnew i u Hu) as [(-> & _)|(_ & Hu')]; [lia|].
    pose proof (wf_fresh _ Hwf i ltac:(rewrite Hu'; eauto)). lia.
  - intros i. rewrite Hm. intros Hin. destruct (wf_on_map _ Hwf i Hin) as (u & Hu).
    destruct (Hold i u Hu) as (-> & _). eauto.
  - intros i u Hu. rewrite Hm, Hp. destruct (Hnew i u Hu) as [(-> & ->)|(_ & Hu')].
    + assert (H1 : occ (map_units w) n = 0%nat) by now apply occ_zero.
      assert (H2 : occ (units (player (master u0) w)) n = 0%nat) by now apply occ_zero.
      congruence.
    + now apply (wf_map _ Hwf).
  - intros p i. rewrite Hp. intros Hin. destruct (wf_owner _ Hwf p i Hin) as (u & Hu & Hmu).
    exists u. split; [now apply Hold|exact Hmu].
  - intros b ub q Hb Hin. rewrite Hm.
    destruct (Hnew b ub Hb) as [(-> & ->)|(_ & Hb')].
    + rewrite Hq in Hin. now apply elem_of_nil in Hin.
    + destruct (wf_queue _ Hwf b ub q Hb' Hin) as (uq & Huq & H).
      exists uq. split; [now apply Hold|exact H].
  - intros b ub Hb. destruct (Hnew b ub Hb) as [(-> & ->)|(_ & Hb')].
    + rewrite Hq. constructor.
    + now apply (wf_queue_nodup _ Hwf b).
  - intros b1 b2 u1 u2 q H1 H2 I1 I2.
    destruct (Hnew b1 u1 H1) as [(-> & ->)|(_ & H1')];
      [rewrite Hq in I1; now apply elem_of_nil in I1|].
    destruct (Hnew b2 u2 H2) as [(-> & ->)|(_ & H2')];
      [rewrite Hq in I2; now apply elem_of_nil in I2|].
    now apply (wf_queue_disj _ Hwf b1 b2 u1 u2 q).
  - intros b ub Hb. destruct (Hnew b ub Hb) as [(-> & ->)|(_ & Hb')].
    + rewrite Hq. simpl. lia.
    + now apply (wf_queue_len _ Hwf b).
  - intros x ux t Hx Htb. destruct (Hnew x ux Hx) as [(-> & ->)|(_ & Hx')]; [congruence|].
    destruct (wf_toBuild _ Hwf x ux t Hx' Htb) as (ut & Hut & H).
    exists ut. split; [now apply Hold|exact H].
  - intros i u Hu Hk. rewrite Hm. destruct (Hnew i u Hu) as [(-> & ->)|(_ & Hu')].
    + assert (H1 : occ (map_units w) n = 0%nat) by now apply occ_zero. lia.
    + now apply (wf_infantry_once _ Hwf i u).
  - intros p. rewrite Hp.
    assert (E : hero_count w' (units (player p w)) = hero_count w (units (player p w))).
    { unfold hero_count. f_equal. apply filter_ext_in_keys. intros i Hin.
      apply Hkind. intros ->. now apply (Hnunits p). }
    rewrite E. apply (wf_hero _ Hwf).
  - intros i u Hu. destruct (Hnew i u Hu) as [(-> & ->)|(_ & Hu')]; [exact Hh|].
    now apply (wf_health _ Hwf i).
  - intros i u Hu. destruct (Hnew i u Hu) as [(-> & ->)|(_ & Hu')]; [exact Hs|].
    now apply (wf_settled _ Hwf i).
  - intros p j. rewrite Hp. apply Hsel.
Qed.

Lemma new_unit_ok k sd m tm :
  healthy (new_unit k sd m tm) /\ settled (new_unit k sd m tm) /\
  queue (new_unit k sd m tm) = [] /\ toBuild (new_unit k sd m tm) = None.
Proof.
  split; [apply Qle_refl|]. split; [|split; reflexivity].
  intros _. split; [|discriminate]. unfold fits, map_width, map_height.
  destruct k; simpl; lia.
Qed.

Lemma WF_alloc_new k sd m tm w : WF w -> WF (snd (alloc (new_unit k sd m tm) w)).
Proof.
  intros H. destruct (new_unit_ok k sd m tm) as (A & B & C & D). now apply WF_alloc.
Qed.

(** ** Orders and pending buildings *)

(** A world whose objects keep their class, health and position is well
    formed as soon as its queues and pending buildings are in order. *)
Lemma WFc_rebuild w w' :
  WFc w -> next_id w' = next_id w -> map_units w' = map_units w ->
  (forall p, same_units (player p w) (player p w')) ->
  (forall i, option_Forall2
               (fun u u' => same_class u u' /\ (healthy u -> healthy u') /\
                            (settled u -> settled u'))
               (objs w !! i) (objs w' !! i)) ->
  (forall b ub q, objs w' !! b = Some ub -> q ∈ queue ub ->
     exists uq, objs w' !! q = Some uq /\ is_Infantry (kind uq) = true /\
                master uq = master ub /\ holdPosition uq = false /\ q ∉ map_units w') ->
  (forall b ub, objs w' !! b = Some ub -> NoDup (queue ub) /\ (length (queue ub) <= 5)%nat) ->
  (forall b1 b2 u1 u2 q, objs w' !! b1 = Some u1 -> objs w' !! b2 = Some u2 ->
     q ∈ queue u1 -> q ∈ queue u2 -> b1 = b2) ->
  (forall x ux t, objs w' !! x = Some ux -> toBuild ux = Some t ->
     exists ut, objs w' !! t = Some ut /\ is_Building (kind ut) = true /\
                master ut = master ux) ->
  WFc w'.
Proof.
  intros Hwf Hid Hmap Hroll Hobj Hq Hnd Hdisj Htb.
  assert (Hunits : forall p, units (player p w') = units (player p w))
    by (intros p; apply (Hroll p)).
  assert (Hbwd : forall i u', objs w' !! i = Some u' ->
            exists u, objs w !! i = Some u /\ same_class u u' /\
                      (healthy u -> healthy u') /\ (settled u -> settled u')).
  { intros i u' E. specialize (Hobj i). rewrite E in Hobj. inversion Hobj; subst. eauto. }
  assert (Hfwd : forall i u, objs w !! i = Some u ->
            exists u', objs w' !! i = Some u' /\ same_class u u').
  { intros i u E. specialize (Hobj i). rewrite E in Hobj. inversion Hobj as [? u' (S & _)|];
      subst. eauto. }
  assert (Hkind : forall i, kind_is is_Hero w' i = kind_is is_Hero w i).
  { intros i. specialize (Hobj i). unfold kind_is.
    destruct Hobj as [u u' ((-> & _) & _)|]; reflexivity. }
  split.
  - intros i [u' Hu']. destruct (Hbwd i u' Hu') as (u & Hu & _).
    rewrite Hid. apply (wf_fresh _ Hwf). eauto.
  - intros i Hi. rewrite Hmap in Hi. destruct (wf_on_map _ Hwf i Hi) as [u Hu].
    destruct (Hfwd i u Hu) as (u' & Hu' & _). eauto.
  - intros i u' Hu'. destruct (Hbwd i u' Hu') as (u & Hu & (_ & Hm & _) & _).
    rewrite Hmap, Hunits, Hm. apply (wf_map _ Hwf _ _ Hu).
  - intros p i Hi. rewrite Hunits in Hi.
    destruct (wf_owner _ Hwf p i Hi) as (u & Hu & Hm).
    destruct (Hfwd i u Hu) as (u' & Hu' & (_ & Hm' & _)).
    exists u'. split; [exact Hu'|congruence].
  - exact Hq.
  - intros b ub Hb. apply (Hnd b ub Hb).
  - exact Hdisj.
  - intros b ub Hb. apply (Hnd b ub Hb).
  - exact Htb.
  - intros i u' Hu' Hk. destruct (Hbwd i u' Hu') as (u & Hu & (Hk' & _) & _).
    rewrite Hmap. rewrite Hk' in Hk. apply (wf_infantry_once _ Hwf i u Hu Hk).
  - intros p. destruct (Hroll p) as (Hu & Hh). rewrite Hu, Hh. unfold hero_count.
    rewrite (filter_ext_in_keys (kind_is is_Hero w') (kind_is is_Hero w))
      by (intros; apply Hkind).
    apply (wf_hero _ Hwf p).
  - intros i u' Hu'. destruct (Hbwd i u' Hu') as (u & Hu & _ & Hh & _).
    apply Hh, (wf_health _ Hwf i u Hu).
  - intros i u' Hu'. destruct (Hbwd i u' Hu') as (u & Hu & _ & _ & Hs).
    apply Hs, (wf_settled _ Hwf i u Hu).
Qed.

(** The objects of [upd i f w] when [f] keeps everything but the queue
    and the pending building. *)
Lemma upd_bwd w i f b ub' :
  objs (upd i f w) !! b = Some ub' ->
  exists ub, objs w !! b = Some ub /\ ub' = (if decide (i = b) then f ub else ub).
Proof.
  rewrite objs_upd. destruct (decide (i = b)) as [->|Hne].
  - destruct (objs w !! b) as [ub|]; [|discriminate]. simpl. intros [= <-]. eauto.
  - eauto.
Qed.

Lemma upd_fwd w i f b ub :
  objs w !! b = Some ub ->
  objs (upd i f w) !! b = Some (if decide (i = b) then f ub else ub).
Proof.
  intros H. rewrite objs_upd. destruct (decide (i = b)) as [->|Hne]; [now rewrite H|exact H].
Qed.

Lemma WF_set_toBuild w i t :
  WF w ->
  (forall u, objs w !! i = Some u ->
             exists ut, objs w !! t = Some ut /\ is_Building (kind ut) = true /\
                        master ut = master u) ->
  WF (upd i (set_toBuild (Some t)) w).
Proof.
  intros (Hwf & Hsel) Ht. set (f := set_toBuild (Some t)).
  assert (Hf : forall (c : bool) u, same_class u (if c then f u else u) /\
                 queue (if c then f u else u) = queue u /\
                 holdPosition (if c then f u else u) = holdPosition u)
    by (intros [] u; repeat split).
  split; [|intros p j; rewrite player_upd; apply Hsel].
  apply (WFc_rebuild w); try reflexivity; try exact Hwf.
  - intros p. rewrite player_upd. split; reflexivity.
  - intros j. rewrite objs_upd. destruct (decide (i = j)) as [->|].
    + destruct (objs w !! j); constructor.
      split; [repeat split|split; exact (fun H => H)].
    + destruct (objs w !! j); constructor.
      split; [repeat split|split; exact (fun H => H)].
  - intros b ub' q Hb Hq. apply upd_bwd in Hb as (ub & Hb & ->).
    destruct (Hf (bool_decide (i = b)) ub) as ((_ & Hm & _) & Hqq & _).
    assert (Hq0 : q ∈ queue ub) by (destruct (decide (i = b)); exact Hq).
    destruct (wf_queue _ Hwf b ub q Hb Hq0) as (uq & Huq & Hk & Hmq & Hh & Hnm).
    eexists. split; [apply upd_fwd, Huq|].
    destruct (decide (i = q)), (decide (i = b)); repeat split; assumption.
  - intros b ub' Hb. apply upd_bwd in Hb as (ub & Hb & ->).
    assert (E : queue (if decide (i = b) then f ub else ub) = queue ub)
      by (now destruct (decide (i = b))).
    rewrite E. split; [now apply (wf_queue_nodup _ Hwf b)|now apply (wf_queue_len _ Hwf b)].
  - intros b1 b2 u1' u2' q H1 H2 I1 I2.
    apply upd_bwd in H1 as (u1 & H1 & ->). apply upd_bwd in H2 as (u2 & H2 & ->).
    apply (wf_queue_disj _ Hwf b1 b2 u1 u2 q H1 H2).
    + now destruct (decide (i = b1)).
    + now destruct (decide (i = b2)).
  - intros x ux' t' Hx Htb. apply upd_bwd in Hx as (ux & Hx & ->).
    destruct (decide (i = x)) as [->|Hne].
    + injection Htb as <-. destruct (Ht ux Hx) as (ut & Hut & Hk & Hm).
      eexists. split; [apply upd_fwd, Hut|].
      destruct (decide (x = t)); split; assumption.
    + destruct (wf_toBuild _ Hwf x ux t' Hx Htb) as (ut & Hut & Hk & Hm).
      eexists. split; [apply upd_fwd, Hut|].
      destruct (decide (i = t')); split; assumption.
Qed.

Lemma enqueue_elem t q l :
  q ∈ snd (ProductionQueue_enqueue t l) -> q ∈ l \/ q = t.
Proof.
  unfold ProductionQueue_enqueue. destruct (length l <? 5)%nat; simpl; [|auto].
  intros H. apply elem_of_app in H as [H|H]; [auto|].
  apply list_elem_of_singleton in H. auto.
Qed.

Lemma WF_enqueue w i t ut :
  WF w -> objs w !! t = Some ut -> is_Infantry (kind ut) = true ->
  holdPosition ut = false -> t ∉ map_units w -> ~ queued w t -> i <> t ->
  (forall b, objs w !! i = Some b -> master ut = master b) ->
  WF (upd i (fun b => set_queue (snd (ProductionQueue_enqueue t (queue b))) b) w).
Proof.
  intros (Hwf & Hsel) Ht Hk Hh Hnm Hnq Hne Hm.
  set (f := fun b => set_queue (snd (ProductionQueue_enqueue t (queue b))) b).
  assert (Hf : forall (c : bool) u, same_class u (if c then f u else u) /\
                 toBuild (if c then f u else u) = toBuild u /\
                 holdPosition (if c then f u else u) = holdPosition u)
    by (intros [] u; repeat split).
  assert (Hqf : forall b ub q, objs w !! b = Some ub ->
                  q ∈ queue (if decide (i = b) then f ub else ub) ->
                  q ∈ queue ub \/ (q = t /\ i = b)).
  { intros b ub q Hb. destruct (decide (i = b)) as [->|]; [|auto].
    intros H. apply enqueue_elem in H as [H|H]; auto. }
  assert (Hold : forall b ub, objs w !! b = Some ub -> t ∉ queue ub).
  { intros b ub Hb Hin. apply Hnq. exists b, ub. auto. }
  split; [|intros p j; rewrite player_upd; apply Hsel].
  apply (WFc_rebuild w); try reflexivity; try exact Hwf.
  - intros p. rewrite player_upd. split; reflexivity.
  - intros j. rewrite objs_upd. destruct (decide (i = j)) as [->|].
    + destruct (objs w !! j); constructor.
      split; [repeat split|split; exact (fun H => H)].
    + destruct (objs w !! j); constructor.
      split; [repeat split|split; exact (fun H => H)].
  - intros b ub' q Hb Hq. apply upd_bwd in Hb as (ub & Hb & ->).
    assert (Hmb : master (if decide (i = b) then f ub else ub) = master ub)
      by (now destruct (decide (i = b))).
    rewrite Hmb.
    destruct (Hqf b ub q Hb Hq) as [Hq0|(-> & <-)].
    + destruct (wf_queue _ Hwf b ub q Hb Hq0) as (uq & Huq & Hkq & Hmq & Hhq & Hnmq).
      eexists. split; [apply upd_fwd, Huq|].
      destruct (decide (i = q)); repeat split; assumption.
    + eexists. split; [apply upd_fwd, Ht|]. rewrite decide_False by exact Hne.
      repeat split; try assumption. now apply Hm.
  - intros b ub' Hb. apply upd_bwd in Hb as (ub & Hb & ->).
    pose proof (wf_queue_nodup _ Hwf b ub Hb) as Hnd.
    pose proof (wf_queue_len _ Hwf b ub Hb) as Hlen.
    destruct (decide (i = b)) as [->|]; [|auto].
    unfold f, ProductionQueue_enqueue. simpl.
    destruct (length (queue ub) <? 5)%nat eqn:E; simpl; [|auto].
    apply Nat.ltb_lt in E. split; [|rewrite length_app; simpl; lia].
    apply NoDup_app. split; [exact Hnd|]. split; [|apply NoDup_singleton].
    intros y Hy Hy'. apply list_elem_of_singleton in Hy' as ->. now apply (Hold b ub).
  - intros b1 b2 u1' u2' q H1 H2 I1 I2.
    apply upd_bwd in H1 as (u1 & H1 & ->). apply upd_bwd in H2 as (u2 & H2 & ->).
    destruct (Hqf b1 u1 q H1 I1) as [J1|(E1 & <-)],
             (Hqf b2 u2 q H2 I2) as [J2|(E2 & <-)]; try reflexivity.
    + now apply (wf_queue_disj _ Hwf b1 b2 u1 u2 q).
    + subst q. now apply (Hold b1 u1 H1) in J1.
    + subst q. now apply (Hold b2 u2 H2) in J2.
  - intros x ux' t' Hx Htb. apply upd_bwd in Hx as (ux & Hx & ->).
    assert (Htb0 : toBuild ux = Some t') by (destruct (decide (i = x)); exact Htb).
    assert (Hmx : master (if decide (i = x) then f ux else ux) = master ux)
      by (now destruct (decide (i = x))).
    rewrite Hmx.
    destruct (wf_toBuild _ Hwf x ux t' Hx Htb0) as (ut' & Hut & Hkt & Hmt).
    eexists. split; [apply upd_fwd, Hut|].
    destruct (decide (i = t')); split; assumption.
Qed.

Lemma alloc_fresh u0 w t w1 :
  WF w -> alloc u0 w = (t, w1) -> queue u0 = [] ->
  w1 = snd (alloc u0 w) /\ objs w1 !! t = Some u0 /\ (t ∉ map_units w1) /\ ~ queued w1 t /\
  (forall i u, objs w !! i = Some u -> i <> t /\ objs w1 !! i = Some u) /\
  (forall p, t ∉ units (player p w1)) /\
  (forall p, player p w1 = player p w) /\ map_units w1 = map_units w.
Proof.
  intros (Hwf & _) E Hq. unfold alloc in E. injection E as <- <-.
  pose proof (fresh_none w Hwf) as Hn.
  assert (Hold : forall i u, objs w !! i = Some u ->
            i <> next_id w /\ <[next_id w := u0]> (objs w) !! i = Some u).
  { intros i u Hu. assert (i <> next_id w) by congruence.
    split; [assumption|]. now rewrite lookup_insert_ne. }
  split; [reflexivity|]. split; [apply lookup_insert_eq|]. split; [|split; [|split]].
  - intros Hin. destruct (wf_on_map _ Hwf _ Hin) as (? & ?). congruence.
  - intros (b & ub & Hb & Hin). simpl in Hb.
    destruct (decide (next_id w = b)) as [<-|Hne].
    + rewrite lookup_insert_eq in Hb. injection Hb as <-. rewrite Hq in Hin.
      now apply elem_of_nil in Hin.
    + rewrite lookup_insert_ne in Hb by exact Hne.
      destruct (wf_queue _ Hwf b ub _ Hb Hin) as (? & ? & _). congruence.
  - exact Hold.
  - split; [|split; [now intros []|reflexivity]].
    intros p Hin. assert (Hin' : next_id w ∈ units (player p w)) by (now destruct p).
    destruct (wf_owner _ Hwf p _ Hin') as (? & ? & _). congruence.
Qed.

Lemma WF_MakeUnit k i w :
  is_Infantry k = true -> WF w -> WF (MakeUnit_tech_act k i w).
Proof.
  intros Hk Hwf. unfold MakeUnit_tech_act. destruct (objs w !! i) as [b|] eqn:Hi; [|exact Hwf].
  destruct (alloc _ w) as [t w1] eqn:E.
  destruct (alloc_fresh _ w t w1 Hwf E eq_refl) as (-> & Ht & Hnm & Hnq & Hold & _).
  destruct (Hold i b Hi) as (Hne & Hi1).
  eapply WF_enqueue; eauto.
  - now apply WF_alloc_new.
  - intros b' Hb'. assert (b' = b) by congruence. subst b'. reflexivity.
Qed.

Lemma WF_MakeBuilding k i w :
  is_Building k = true -> WF w -> WF (MakeBuilding_tech_act k i w).
Proof.
  intros Hk Hwf. unfold MakeBuilding_tech_act.
  destruct (objs w !! i) as [u|] eqn:Hi; [|exact Hwf].
  destruct (alloc _ w) as [t w1] eqn:E.
  destruct (alloc_fresh _ w t w1 Hwf E eq_refl) as (-> & Ht & Hnm & Hnq & Hold & _).
  destruct (Hold i u Hi) as (Hne & Hi1).
  set (w1 := snd (alloc _ w)) in *.
  assert (H2 : WF (upd i (set_toBuild (Some t)) w1)).
  { apply WF_set_toBuild; [now apply WF_alloc_new|].
    intros u' Hu'. assert (u' = u) by congruence. subst u'.
    eexists. split; [exact Ht|]. split; [exact Hk|reflexivity]. }
  apply WF_plain; [|intros; repeat split].
  destruct (negb _); apply WF_upd_player; try exact H2; repeat split.
Qed.

Lemma removelast_sublist {A} (l : list A) : removelast l `sublist_of` l.
Proof.
  induction l as [|a l IH]; [reflexivity|]. simpl. destruct l; [|now constructor].
  apply sublist_nil_l.
Qed.

Lemma WF_DropSpearman i w : WF w -> WF (DropSpearmanAction_tech_act i w).
Proof.
  intros Hwf. unfold DropSpearmanAction_tech_act.
  destruct (objs w !! i) as [h|] eqn:Hi; [|exact Hwf].
  destruct (hasSpearman h); [|exact Hwf].
  set (w0 := upd i _ w).
  assert (Hwf0 : WF w0) by (subst w0; wf_plain).
  destruct (alloc _ w0) as [sm w1] eqn:E.
  destruct (alloc_fresh _ w0 sm w1 Hwf0 E eq_refl) as (-> & Ht & Hnm & Hnq & Hold & Hnu & _).
  set (w1 := snd (alloc _ w0)) in *.
  assert (Hwf1 : WF w1) by now apply WF_alloc_new.
  set (w2 := upd sm (Unit_set_location (rect_x (rect h)) (rect_y (rect h))) w1).
  assert (Hwf2 : WF w2).
  { apply WF_upd; [exact Hwf1|]. intros u Hu. assert (Hu' := Hu). rewrite Ht in Hu'.
    injection Hu' as <-. apply (steady_placed _ sm _ (Unit_set_location _ _));
      try reflexivity. repeat split. }
  set (w3 := upd sm (Infantry_set_destination (destinationX h) (destinationY h)) w2).
  assert (Hwf3 : WF w3) by (subst w3; wf_plain).
  assert (H3 : exists u3, objs w3 !! sm = Some u3 /\ kind u3 = Spearman /\
                          master u3 = master h).
  { subst w3 w2. rewrite !objs_upd_eq, Ht. simpl. eauto. }
  destruct H3 as (u3 & Hu3 & Hk3 & Hm3).
  assert (Hq3 : forall q, queued w3 q -> queued w1 q).
  { intros q H. subst w3. apply queued_upd in H; [|reflexivity].
    subst w2. apply queued_upd in H; [exact H|reflexivity]. }
  apply (WF_added (master h) sm u3 true w3); auto.
  unfold added, Map_add_unit. rewrite Hk3. generalize w3. intros v.
  destruct (master h); simpl; rewrite orb_false_r;
    (repeat split; try discriminate; try (now intros []));
    match goal with q : PlayerId |- _ => destruct q end; reflexivity || congruence.
Qed.

(** ** Buttons *)

Lemma WF_SetDestinationAction i w : WF w -> WF (SetDestinationAction_tech_act i w).
Proof.
  intros H. unfold SetDestinationAction_tech_act.
  assert (H1 : WF (upd i (set_setDestinationEnabled true) w)) by wf_plain.
  destruct (kind_is _ _ _); [wf_plain|exact H1].
Qed.

Lemma WF_tech_act a i w u :
  WF w -> objs w !! i = Some u -> tech_actions (kind u) = tech_actions (kind u) ->
  WF (tech_act a i w).
Proof.
  intros H Hi _. destruct a; simpl.
  - now apply WF_SetDestinationAction.
  - unfold SetOffensiveDestinationAction_tech_act.
    pose proof (WF_SetDestinationAction i w H). wf_plain.
  - now apply WF_MakeBuilding.
  - now apply WF_MakeBuilding.
  - now apply WF_MakeBuilding.
  - now apply WF_MakeBuilding.
  - now apply WF_DropSpearman.
  - apply WF_upd; [exact H|]. intros b _. apply steady_set_queue, removelast_sublist.
  - now apply WF_MakeUnit.
  - now apply WF_MakeUnit.
  - now apply WF_MakeUnit.
  - now apply WF_MakeUnit.
  - destruct (_ =? _); now apply WF_MakeUnit.
  - unfold UpgradeToClaymoreAction_tech_act. rewrite Hi.
    destruct (_ && _); [|exact H]. apply WF_upd_player; [exact H|repeat split].
Qed.

Lemma WF_press i slot w : WF w -> WF (press i slot w).
Proof.
  intros H. unfold press. destruct (objs w !! i) as [u|] eqn:Hi; [|exact H].
  destruct (tech_actions (kind u) slot); [|exact H]. now apply (WF_tech_act _ i w u).
Qed.

Lemma WF_UnitSelectionAction i w : WF w -> WF (UnitSelectionAction_tech_act i w).
Proof.
  intros H. unfold UnitSelectionAction_tech_act. destruct (objs w !! i); [|exact H].
  apply WF_update_selected, WF_select, WF_deselect_all, H.
Qed.

(** ** Clicks *)

Lemma WF_Infantry_do_click dbl i w : WF w -> WF (Infantry_do_click dbl i w).
Proof.
  intros H. unfold Infantry_do_click. destruct (objs w !! i); [|exact H].
  destruct dbl; [|exact H]. apply WF_fold; [|exact H].
  intros v j Hv. destruct (kind_is _ v j); [now apply WF_select|exact Hv].
Qed.

Lemma upd_compose j (g h : Unit -> Unit) w :
  upd j (fun u => g (h u)) w = upd j g (upd j h w).
Proof.
  unfold upd, set_objs. destruct w. simpl. f_equal. apply map_eq. intros k.
  rewrite !lookup_alter. destruct (decide (j = k)) as [->|]; [|reflexivity].
  rewrite ?decide_True by reflexivity. now destruct (_ !! k).
Qed.

Lemma building_not_queued w t ut :
  WF w -> objs w !! t = Some ut -> is_Infantry (kind ut) = false -> ~ queued w t.
Proof.
  intros (Hwf & _) Ht Hk (b & ub & Hb & Hq).
  destruct (wf_queue _ Hwf b ub t Hb Hq) as (uq & Huq & Hkq & _). congruence.
Qed.

Lemma building_not_infantry k : is_Building k = true -> is_Infantry k = false.
Proof. now destruct k. Qed.

(** An unfinished building that is clicked becomes the pending building
    of the selected builders of its owner. *)
Lemma WF_Building_do_click i w b :
  WF w -> objs w !! i = Some b -> is_Building (kind b) = true ->
  WF (Building_do_click i w).
Proof.
  intros H Hi Hk. unfold Building_do_click. rewrite Hi.
  destruct (negb _); [now apply WF_select|].
  set (m := master b).
  assert (Hl : forall j, Some j ∈ selected_units (player m w) ->
                 exists uj, objs w !! j = Some uj /\ master uj = m).
  { intros j Hj. apply (wf_owner _ (proj1 H)). now apply (proj2 H). }
  assert (Hb : exists ui, objs w !! i = Some ui /\ is_Building (kind ui) = true /\
                          master ui = m) by eauto.
  revert H Hl Hb. generalize (selected_units (player m w)) as l. clear Hi.
  intros l. revert w. induction l as [|o l IH]; intros w H Hl Hb; simpl; [exact H|].
  assert (Hstep : forall j, Some j ∈ o :: l ->
            let f := fun u => Infantry_set_destination (rect_x (rect b)) (rect_y (rect b))
                                (set_building true (set_toBuild (Some i) u)) in
            WF (upd j f w) /\
            (forall k uk, objs w !! k = Some uk ->
               exists uk', objs (upd j f w) !! k = Some uk' /\ kind uk' = kind uk /\
                           master uk' = master uk)).
  { intros j Hj f. split.
    - subst f.
      rewrite (upd_compose j (fun u => Infantry_set_destination (rect_x (rect b))
                                         (rect_y (rect b)) (set_building true u))
                 (set_toBuild (Some i))).
      apply WF_plain; [|intros; repeat split].
      apply WF_set_toBuild; [exact H|]. intros u Hu.
      destruct Hb as (ui & Hui & Hki & Hmi). destruct (Hl j Hj) as (uj & Huj & Hmj).
      exists ui. split; [exact Hui|]. split; [exact Hki|congruence].
    - intros k uk Huk. rewrite (upd_fwd w j f k uk Huk). eexists. split; [reflexivity|].
      destruct (decide (j = k)); split; reflexivity. }
  assert (Hkeep : forall w', WF w' ->
            (forall k uk, objs w !! k = Some uk ->
               exists uk', objs w' !! k = Some uk' /\ kind uk' = kind uk /\
                           master uk' = master uk) ->
            WF (fold_left
                  (fun w o =>
                     match o with
                     | Some j =>
                         if kind_is is_Builder w j
                         then upd j (fun u => Infantry_set_destination (rect_x (rect b))
                                                (rect_y (rect b))
                                                (set_building true (set_toBuild (Some i) u))) w
                         else w
                     | None => w
                     end) l w')).
  { intros w' H' Hk'. apply IH; [exact H'| |].
    - intros j Hj. destruct (Hl j) as (uj & Huj & Hmj); [apply elem_of_cons; now right|].
      destruct (Hk' j uj Huj) as (uj' & Huj' & _ & Hm'). exists uj'. split; congruence.
    - destruct Hb as (ui & Hui & Hki & Hmi).
      destruct (Hk' i ui Hui) as (ui' & Hui' & Hk2 & Hm2). exists ui'.
      split; [exact Hui'|]. split; congruence. }
  destruct o as [j|]; [|apply Hkeep; eauto].
  destruct (kind_is is_Builder w j); [|apply Hkeep; eauto].
  destruct (Hstep j) as (H1 & H2); [apply elem_of_cons; now left|].
  now apply Hkeep.
Qed.

Lemma WF_do_click dbl i w : WF w -> WF (do_click dbl i w).
Proof.
  intros H. unfold do_click. destruct (objs w !! i) as [u|] eqn:Hi; [|exact H].
  destruct (kind u) eqn:Ek;
    try (apply WF_Infantry_do_click, WF_select, H);
    try (apply WF_select, WF_Infantry_do_click, H);
    apply (WF_Building_do_click i w u H Hi); now rewrite Ek.
Qed.

Lemma WF_do_right_click wx wy i w : WF w -> WF (do_right_click wx wy i w).
Proof.
  intros H. unfold do_right_click. destruct (objs w !! i) as [u|]; [|exact H].
  destruct (is_OffensiveInfantry (kind u)).
  - unfold OffensiveInfantry_do_right_click.
    assert (H1 : WF match Map_get_unit_at_point wx wy w with
                    | Some t => upd i (fun u => set_attacking false (set_obsession (Some t) u)) w
                    | None => w
                    end).
    { destruct (Map_get_unit_at_point wx wy w); [wf_plain|exact H]. }
    apply WF_plain; [|intros; repeat split]. wf_unhold.
  - destruct (is_Infantry (kind u)); [wf_plain|exact H].
Qed.

Lemma WF_Unit_click dbl button wx wy i w : WF w -> WF (Unit_click dbl button wx wy i w).
Proof.
  intros H. unfold Unit_click. destruct (objs w !! i) as [u|]; [|exact H].
  destruct (_ && _); [now apply WF_do_right_click|].
  destruct (collidepoint _ _ _); [now apply WF_do_click|exact H].
Qed.

Lemma WF_click dbl button wx wy i w : WF w -> WF (click dbl button wx wy i w).
Proof.
  intros H. unfold click. destruct (objs w !! i) as [u|]; [|exact H].
  destruct (is_Infantry (kind u)); [|now apply WF_Unit_click].
  apply WF_Unit_click. apply WF_plain; [|intros; repeat split].
  destruct (setDestinationEnabled u); [wf_unhold|exact H].
Qed.

(** ** Placing a building *)

(** The common part of [Builder.build_building_at] and
    [Builder.ai_build_building_at]: the pending building is put at
    [(nx, ny)] and handed to the owner's [add_unit]; the builder walks
    there. *)
Lemma WF_place nx ny i t u w :
  WF w -> objs w !! i = Some u -> toBuild u = Some t ->
  let w1 := upd t (Unit_set_location nx ny) w in
  let w2 := snd (add_unit (master u) t w1) in
  let w3 := upd i (set_building true) w2 in
  let w4 := upd i (fun u => set_destinationY (rect_y (rect_of w3 t))
                              (set_destinationX (rect_x (rect_of w3 t)) u)) w3 in
  WF (upd i select (upd i (set_selectingToBuild false) w4)).
Proof.
  intros H Hi Ht w1 w2 w3 w4.
  destruct (wf_toBuild _ (proj1 H) i u t Hi Ht) as (ut & Hut & Hk & Hm).
  pose proof (building_not_infantry _ Hk) as Hni.
  assert (H1 : WF w1).
  { subst w1. apply WF_upd; [exact H|]. intros u' Hu'. assert (u' = ut) by congruence.
    subst u'. apply steady_building; try reflexivity; [exact Hni|repeat split]. }
  assert (Hut1 : objs w1 !! t = Some (Unit_set_location nx ny ut)).
  { subst w1. now rewrite objs_upd_eq, Hut. }
  assert (H2 : WF w2).
  { subst w2. pose proof (add_unit_added (master u) t w1 _ Hut1) as Ha.
    destruct (add_unit (master u) t w1) as [ok w2']. cbn [fst snd] in *.
    apply (WF_added (master u) t _ ok w1 w2' H1 Hut1); [exact Hm| | |exact Ha].
    - eapply building_not_queued; eauto.
    - simpl. congruence. }
  apply WF_select. subst w4 w3.
  do 3 (apply WF_plain; [|intros; repeat split]). exact H2.
Qed.

Lemma WF_Builder_build_building_at x y i w :
  WF w -> WF (snd (Builder_build_building_at x y i w)).
Proof.
  intros H. unfold Builder_build_building_at.
  destruct (objs w !! i) as [u|] eqn:Hi; [|exact H].
  destruct (toBuild u) as [t|] eqn:Ht; [|exact H].
  destruct (negb _); [|exact H]. cbn [snd]. now apply (WF_place _ _ i t u).
Qed.

Lemma WF_Builder_ai_build_building_at x y i w :
  WF w -> WF (snd (Builder_ai_build_building_at x y i w)).
Proof.
  intros H. unfold Builder_ai_build_building_at.
  destruct (objs w !! i) as [u|] eqn:Hi; [|exact H].
  destruct (toBuild u) as [t|] eqn:Ht; [|exact H].
  destruct (negb _); [|exact H]. cbn [snd]. now apply (WF_place _ _ i t u).
Qed.

Lemma WF_HumanPlayer_click_place wx wy w : WF w -> WF (HumanPlayer_click_place wx wy w).
Proof.
  intros H. unfold HumanPlayer_click_place. destruct (builder_mode (hp w)) as [b|]; [|exact H].
  pose proof (WF_Builder_build_building_at wx wy b w H) as H1.
  destruct (Builder_build_building_at wx wy b w) as [[|] w1]; [|exact H1].
  apply WF_upd_player; [exact H1|repeat split].
Qed.

Lemma WF_ai_try b acc c : WF (snd acc) -> WF (snd (ai_try b acc c)).
Proof.
  intros H. unfold ai_try. destruct acc as [returned w]. destruct c as [u [i j]].
  cbn [snd] in H. destruct returned; [exact H|].
  destruct (objs w !! b) as [ub|] eqn:Hb; [|exact H].
  destruct (objs w !! u) as [uu|] eqn:Hu; [|exact H].
  destruct (toBuild ub) as [tb|] eqn:Ht; [|exact H].
  destruct (is_Building (kind uu)); [|exact H]. cbv zeta.
  match goal with |- context [upd tb ?f w] => set (w1 := upd tb f w) end.
  assert (H1 : WF w1).
  { destruct (wf_toBuild _ (proj1 H) b ub tb Hb Ht) as (ut & Hut & Hk & Hm).
    subst w1. apply WF_upd; [exact H|]. intros u' Hu'. assert (u' = ut) by congruence.
    subst u'. apply steady_building; try reflexivity; [|repeat split].
    now apply building_not_infantry. }
  destruct (_ && _); [|exact H1]. now apply WF_Builder_ai_build_building_at.
Qed.

Lemma WF_ComputerPlayer_build_at_logical_location b w :
  WF w -> WF (ComputerPlayer_build_at_logical_location b w).
Proof.
  intros H. unfold ComputerPlayer_build_at_logical_location.
  generalize (flat_map (fun u => map (pair u) ai_offsets) (units (cp w))). intros l.
  assert (G : forall acc, WF (snd acc) -> WF (snd (fold_left (ai_try b) l acc))).
  { induction l as [|c l IH]; intros acc Hacc; simpl; [exact Hacc|].
    apply IH. now apply WF_ai_try. }
  now apply (G (false, w)).
Qed.

(** ** Every state of the game is well formed *)

Lemma WF_empty tm : WF (mkWorld ∅ new_player new_player [] 0 tm).
Proof.
  split; [split|]; simpl.
  - intros i (u & Hu). now rewrite lookup_empty in Hu.
  - intros i Hi. now apply elem_of_nil in Hi.
  - intros i u Hu. now rewrite lookup_empty in Hu.
  - intros [] i Hi; now apply elem_of_nil in Hi.
  - intros b ub q Hb. now rewrite lookup_empty in Hb.
  - intros b ub Hb. now rewrite lookup_empty in Hb.
  - intros b1 b2 u1 u2 q Hb. now rewrite lookup_empty in Hb.
  - intros b ub Hb. now rewrite lookup_empty in Hb.
  - intros x ux t Hb. now rewrite lookup_empty in Hb.
  - intros i u Hu. now rewrite lookup_empty in Hu.
  - intros []; unfold hero_count; simpl; split; (lia || (intros; lia)).
  - intros i u Hu. now rewrite lookup_empty in Hu.
  - intros i u Hu. now rewrite lookup_empty in Hu.
  - intros [] j Hj; simpl in Hj;
      repeat (apply elem_of_cons in Hj as [Hj|Hj]; [discriminate|]);
      now apply elem_of_nil in Hj.
Qed.

(** A new building is given a finished state and a place, and is handed
    to its owner: the opening of [Game.__init__] for either side. *)
Lemma WF_first_building k sd p x y w :
  is_Building k = true -> WF w ->
  let '(c, w1) := alloc (new_unit k sd p (timeModifier w)) w in
  WF (snd (add_unit p c (upd c (Unit_set_location x y) (upd c (set_buildTime 0) w1)))).
Proof.
  intros Hk H. destruct (alloc _ w) as [c w1] eqn:E.
  destruct (alloc_fresh _ w c w1 H E eq_refl) as (-> & Hc & Hnm & Hnq & _).
  set (w1 := snd (alloc _ w)) in *.
  assert (H1 : WF w1) by now apply WF_alloc_new.
  set (w2 := upd c (set_buildTime 0) w1).
  assert (H2 : WF w2) by (subst w2; wf_plain).
  set (w3 := upd c (Unit_set_location x y) w2).
  assert (Hc3 : exists u3, objs w3 !! c = Some u3 /\ kind u3 = k /\ master u3 = p).
  { subst w3 w2. rewrite !objs_upd_eq, Hc. simpl. eauto. }
  destruct Hc3 as (u3 & Hc3 & Hk3 & Hm3).
  assert (H3 : WF w3).
  { subst w3. apply WF_upd; [exact H2|]. intros u' Hu'.
    assert (Hk' : kind u' = k).
    { subst w2. rewrite objs_upd_eq, Hc in Hu'. simpl in Hu'. now injection Hu' as <-. }
    apply steady_building; try reflexivity; [|repeat split].
    rewrite Hk'. now apply building_not_infantry. }
  pose proof (add_unit_added p c w3 u3 Hc3) as Ha.
  destruct (add_unit p c w3) as [ok w4]. cbn [fst snd] in *.
  apply (WF_added p c u3 ok w3 w4 H3 Hc3 Hm3); [| |exact Ha].
  - eapply building_not_queued; eauto. rewrite Hk3. now apply building_not_infantry.
  - rewrite Hk3, (building_not_infantry _ Hk). discriminate.
Qed.

Lemma WF_Game_init : WF Game_init.
Proof.
  unfold Game_init.
  pose proof (WF_first_building ComandCenter 1 Computer 2500 2500 _ eq_refl (WF_empty 1)) as H1.
  cbv zeta. cbn [alloc] in *.
  match type of H1 with WF ?v =>
    pose proof (WF_first_building Tara 0 Human 770 100 v eq_refl H1) as H2 end.
  exact H2.
Qed.

Lemma WF_step e w : WF w -> WF (step e w).
Proof.
  intros H. destruct e; simpl.
  - now apply WF_Game_update.
  - now apply WF_press.
  - now apply WF_UnitSelectionAction.
  - now apply WF_click.
  - now apply WF_HumanPlayer_click_place.
  - now apply WF_ComputerPlayer_build_at_logical_location.
  - now apply WF_select.
  - wf_plain.
  - now apply WF_deselect_all.
  - now apply WF_update_selected.
  - destruct (kind_is _ _ _); [wf_plain|exact H].
  - apply (WF_upd_player w Human (set_resources 100000)); [exact H|repeat split].
  - now apply WF_timeModifier.
Qed.

Lemma reachable_WF w : reachable w -> WF w.
Proof. intros H. induction H; [apply WF_Game_init|now apply WF_step]. Qed.

(** * The claims about whole games *)

Lemma reachable_run es w : reachable w -> reachable (run es w).
Proof.
  unfold run. revert w. induction es as [|e es IH]; intros w H; simpl; [exact H|].
  apply IH. now constructor.
Qed.

Lemma hero_refused p h w :
  kind_is is_Hero w h = true -> hasHero (player p w) = true ->
  Player_add_unit p h w = (false, w) /\ add_unit p h w = (false, w).
Proof.
  intros Hk Hh.
  assert (H : Player_add_unit p h w = (false, w)).
  { unfold Player_add_unit. unfold kind_is in Hk. destruct (objs w !! h); [|discriminate].
    now rewrite Hk, Hh. }
  split; [exact H|]. destruct p; [exact H|].
  unfold add_unit, ComputerPlayer_add_unit. unfold kind_is in Hk.
  destruct (objs w !! h); [|reflexivity]. rewrite H. now destruct (negb _).
Qed.

(** C8. In every state the game can reach, a player's unit list holds at
    most one hero; and when it holds one, [Player.add_unit] (and the
    computer player's override) answers false for any hero and leaves the
    whole world, so the player's resources and unit list, as it was. *)
Theorem one_hero_per_player w p :
  reachable w ->
  (hero_count w (units (player p w)) <= 1)%nat /\
  forall h, kind_is is_Hero w h = true ->
            (1 <= hero_count w (units (player p w)))%nat ->
            Player_add_unit p h w = (false, w) /\ add_unit p h w = (false, w) /\
            resources (player p (snd (Player_add_unit p h w))) = resources (player p w) /\
            units (player p (snd (Player_add_unit p h w))) = units (player p w).
Proof.
  intros Hr. apply reachable_WF in Hr as (Hwf & _).
  destruct (wf_hero _ Hwf p) as (Hle & Hflag). split; [exact Hle|].
  intros h Hk Hone. destruct (hero_refused p h w Hk (Hflag Hone)) as (H1 & H2).
  rewrite H1. auto.
Qed.

Lemma one_hero_per_player_witness :
  hero_count camp (units (player Human camp)) = 1%nat /\
  Player_add_unit Human 3 camp = (false, camp).
Proof.
  assert (Hone : hero_count camp (units (player Human camp)) = 1%nat)
    by (vm_compute; reflexivity).
  split; [exact Hone|].
  destruct (one_hero_per_player camp Human) as (_ & H).
  - apply reachable_run, reachable_init.
  - assert (Hk : kind_is is_Hero camp 3 = true) by (vm_compute; reflexivity).
    assert (H1 : (1 <= hero_count camp (units (player Human camp)))%nat)
      by (rewrite Hone; lia).
    exact (proj1 (H 3%nat Hk H1)).
Defined.

(** C6. After a frame of any length, with any destinations, every mobile
    unit that was on the map when the frame began lies within the map:
    its position [(x, y)] satisfies [0 <= x <= map.width - width] and
    [0 <= y <= map.height - height], for the stored float position and
    for the rectangle alike.  This holds in every state the game can
    reach, hence after any number of frames. *)
Theorem units_stay_on_map w rnd dt x u' :
  reachable w -> x ∈ map_units w ->
  objs (step (Tick rnd dt) w) !! x = Some u' -> is_Infantry (kind u') = true ->
  (0 <= fx u' <= float_of (map_width - rect_width (rect u')))%Q /\
  (0 <= fy u' <= float_of (map_height - rect_height (rect u')))%Q /\
  0 <= rect_x (rect u') <= map_width - rect_width (rect u') /\
  0 <= rect_y (rect u') <= map_height - rect_height (rect u').
Proof.
  intros Hr Hx Hu' Hk. apply reachable_WF in Hr.
  destruct (act_all_bounds rnd (if Qltb dt 0 then 0%Q else dt) (map_units w) 0%nat w
              (fun _ => False) (pass_ok_start w Hr)) with (j := x) as (u2 & Hu2 & Hin).
  - intros j [].
  - now right.
  - simpl in Hu'. unfold Game_update in Hu'. assert (u2 = u') by congruence. subst u2.
    apply Hin, Hk.
Qed.

Lemma units_stay_on_map_witness :
  exists u', objs (step (Tick still 1) camp) !! 3%nat = Some u' /\
             kind u' = BrianBoru /\
             0 <= rect_x (rect u') <= map_width - rect_width (rect u') /\
             0 <= rect_y (rect u') <= map_height - rect_height (rect u').
Proof.
  destruct (objs (step (Tick still 1) camp) !! 3%nat) as [u'|] eqn:E;
    [|vm_compute in E; discriminate].
  assert (Hk : kind u' = BrianBoru) by (vm_compute in E; injection E as <-; reflexivity).
  exists u'. split; [reflexivity|]. split; [exact Hk|].
  apply (units_stay_on_map camp still 1 3 u').
  - apply reachable_run, reachable_init.
  - apply list_elem_of_In. vm_compute. tauto.
  - exact E.
  - now rewrite Hk.
Defined.

(** C7. After every frame no unit has more health than its maximum (a
    hero's regeneration is clamped).  A unit of the map whose health is
    not positive when its [act] is called leaves the map's list and its
    owner's list in that call; and whatever unit is without health when
    a frame begins, unless it is still an order in a queue, is on
    neither list when the frame is over. *)
Theorem health_bounded_and_dead_removed w rnd dt :
  reachable w ->
  (forall i u', objs (step (Tick rnd dt) w) !! i = Some u' ->
                (health u' <= maxHealth u')%Q) /\
  (forall x u r, x ∈ map_units w -> objs w !! x = Some u -> (health u <= 0)%Q ->
     (occ (map_units (act r dt x w)) x < occ (map_units w) x)%nat /\
     (occ (units (player (master u) (act r dt x w))) x
      < occ (units (player (master u) w)) x)%nat) /\
  (forall x u, objs w !! x = Some u -> ~ queued w x -> (health u <= 0)%Q ->
     (x ∉ map_units (step (Tick rnd dt) w)) /\
     (x ∉ units (player (master u) (step (Tick rnd dt) w)))).
Proof.
  intros Hr. apply reachable_WF in Hr. split; [|split].
  - intros i u' Hu'. apply (wf_health _ (proj1 (WF_Game_update rnd dt w Hr)) i u' Hu').
  - intros x u r Hx Hu Hh.
    destruct (pass_ok_step r dt x [] w) as (u0 & Hu0 & Hact & R & _ & D & (Hwf' & _)).
    { destruct (pass_ok_start w Hr) as (_ & Hl & _). split; [exact Hr|]. split.
      - intros j Hj. apply elem_of_cons in Hj as [->|Hj]; [now apply Hl|].
        now apply elem_of_nil in Hj.
      - intros j uj Huj Hk. destruct (decide (x = j)) as [<-|Hne].
        + rewrite occ_cons_eq. apply occ_pos in Hx. unfold occ at 1. simpl. lia.
        + rewrite occ_cons_ne by exact Hne. unfold occ at 1. simpl. lia. }
    assert (u0 = u) by congruence. subst u0. specialize (D Hh).
    pose proof (proj1 (occ_pos _ _) Hx) as Hpos.
    split; [lia|].
    destruct (proj1 (proj2 (rtc_elem_drift x w _ R)) x u Hu) as (u2 & Hu2 & (_ & Hm & _) & _).
    rewrite <- (wf_map _ (proj1 Hr) x u Hu).
    rewrite <- Hm, <- (wf_map _ (proj1 Hwf') x u2 Hu2). lia.
  - intros x u Hu Hnq Hh. now apply Game_update_dead.
Qed.

Lemma health_bounded_and_dead_removed_witness :
  (2%nat ∈ map_units battlefield) /\ health_of battlefield 2 = 0%Q /\
  (2%nat ∉ map_units (step (Tick still 1) battlefield)) /\
  (2%nat ∉ units (player Computer (step (Tick still 1) battlefield))).
Proof.
  assert (Hr : reachable battlefield) by apply reachable_run, reachable_init.
  destruct (objs battlefield !! 2%nat) as [u|] eqn:E; [|vm_compute in E; discriminate].
  assert (Hm : master u = Computer) by (vm_compute in E; injection E as <-; reflexivity).
  assert (Hh : health u = 0%Q) by (vm_compute in E; injection E as <-; reflexivity).
  assert (Hin : 2%nat ∈ map_units battlefield)
    by (apply list_elem_of_In; vm_compute; tauto).
  split; [exact Hin|]. split; [unfold health_of; now rewrite E|].
  destruct (health_bounded_and_dead_removed battlefield still 1 Hr) as (_ & _ & H).
  rewrite <- Hm. apply (H 2%nat u E).
  - apply reachable_WF in Hr. intros (b & ub & Hb & Hq).
    destruct (wf_queue _ (proj1 Hr) b ub _ Hb Hq) as (_ & _ & _ & _ & _ & Hn). contradiction.
  - rewrite Hh. apply Qle_refl.
Defined.

(** ** Production *)






(** ** Placing a building *)



(** C9 fails on the code.  In [site] the human player's builder (key 2)
    is about to place a barracks (key 3) and the player clicks at
    (880, 100).  The barracks is put with its centre there, on the
    rectangle [Rect(835, 55, 90, 90)], which overlaps Tara
    ([Rect(770, 100, 100, 100)]); the ghost preview, which tests that
    rectangle, reports a collision.  [build_building_at] tests the
    rectangle with its corner at the click point instead,
    [Rect(880, 100, 90, 90)], finds it free and answers true: the
    barracks is added on top of Tara, the builder is sent there and the
    placement mode ends. *)
Lemma placement_overlaps_neighbour :
  let spot := mkRect 835 55 90 90 in
  let w' := step (Place 880 100) site in
  builder_mode (hp site) = Some 2%nat /\
  rect_of site 1 = mkRect 770 100 100 100 /\
  Map_is_colliding_with_unit spot site = true /\
  Map_is_colliding_with_unit (mkRect 880 100 90 90) site = false /\
  fst (Builder_build_building_at 880 100 2 site) = true /\
  map_units site = [0; 1; 2]%nat /\ map_units w' = [0; 1; 2; 3]%nat /\
  rect_of w' 3 = spot /\
  colliderect (rect_of w' 3) (rect_of w' 1) = true /\
  builder_mode (hp w') = None.
Proof. cbv zeta. vm_compute. repeat split; reflexivity. Qed.

(** * Further properties *)

(** A refused [Player.add_unit] leaves the heap, the map's list and, for
    every player, the unit list, the hero flag, the balance and the
    population count as they were: of the player's state only the two
    building counters can differ. *)
Theorem refused_add_keeps_lists p i w :
  fst (Player_add_unit p i w) = false ->
  objs (snd (Player_add_unit p i w)) = objs w /\
  map_units (snd (Player_add_unit p i w)) = map_units w /\
  forall q, units (player q (snd (Player_add_unit p i w))) = units (player q w) /\
            hasHero (player q (snd (Player_add_unit p i w))) = hasHero (player q w) /\
            resources (player q (snd (Player_add_unit p i w))) = resources (player q w) /\
            totalUnitsValue (player q (snd (Player_add_unit p i w)))
            = totalUnitsValue (player q w).
Proof.
  unfold Player_add_unit. destruct (objs w !! i) as [u|]; [|now repeat split].
  destruct (is_Hero (kind u) && hasHero (player p w)); [now repeat split|].
  destruct (is_ComandCenter (kind u)) eqn:Ecc, (is_SupplyDepot (kind u)) eqn:Esd;
    try (destruct (kind u); discriminate); cbn [andb];
    repeat match goal with
           | |- context [if ?c then (false, _) else _] => destruct c; [now repeat split|]
           | |- context [if ?c then _ else (false, _)] => destruct c; [discriminate|]
           end;
    intros _; cbn [snd]; rewrite ?objs_upd_player, ?map_units_upd_player;
    (split; [reflexivity|]); (split; [reflexivity|]);
    intros q; rewrite ?player_upd_player; destruct (decide (p = q)) as [<-|];
    repeat split.
Qed.

Lemma refused_add_keeps_lists_witness :
  units (player Human (snd (Player_add_unit Human 2 broke))) = units (player Human broke) /\
  resources (player Human (snd (Player_add_unit Human 2 broke)))
  = resources (player Human broke).
Proof.
  destruct (refused_add_keeps_lists Human 2 broke) as (_ & _ & H);
    [vm_compute; reflexivity|].
  destruct (H Human) as (Hu & _ & Hr & _). split; assumption.
Defined.

(** In every state the game can reach, no production queue holds more
    than five orders, and no order is on the map. *)
Theorem reachable_queue_bound w b ub :
  reachable w -> objs w !! b = Some ub ->
  (length (queue ub) <= 5)%nat /\ forall q, q ∈ queue ub -> q ∉ map_units w.
Proof.
  intros Hr Hb. apply reachable_WF in Hr as (Hwf & _).
  split; [now apply (wf_queue_len _ Hwf b)|].
  intros q Hq. now destruct (wf_queue _ Hwf b ub q Hb Hq) as (_ & _ & _ & _ & _ & Hn).
Qed.

Lemma reachable_queue_bound_witness :
  exists ub, objs nursery !! 1%nat = Some ub /\ queue ub = [2%nat] /\
             (length (queue ub) <= 5)%nat.
Proof.
  destruct (objs nursery !! 1%nat) as [ub|] eqn:E; [|vm_compute in E; discriminate].
  exists ub. split; [reflexivity|].
  split; [vm_compute in E; injection E as <-; reflexivity|].
  apply (reachable_queue_bound nursery 1 ub); [apply reachable_run, reachable_init|exact E].
Defined.

(** Whatever the frame length (negative ones included) and the
    destination, the position [Infantry.get_next_logical_location]
    returns for a unit no larger than the map is inside the map, and so
    is the position it stores. *)
Theorem next_location_in_bounds dt u :
  rect_width (rect u) <= map_width -> rect_height (rect u) <= map_height ->
  let r := Infantry_get_next_logical_location dt u in
  0 <= fst (fst r) <= map_width - rect_width (rect u) /\
  0 <= snd (fst r) <= map_height - rect_height (rect u) /\
  (0 <= fx (snd r) <= float_of (map_width - rect_width (rect u)))%Q /\
  (0 <= fy (snd r) <= float_of (map_height - rect_height (rect u)))%Q.
Proof.
  intros Hw Hh r. pose proof (Infantry_next_in_bounds dt u (conj Hw Hh)) as H.
  subst r. destruct (Infantry_get_next_logical_location dt u) as [[nx ny] u'].
  simpl. tauto.
Qed.

Lemma next_location_in_bounds_witness :
  let r := Infantry_get_next_logical_location (-5) (new_unit Horseman 0 Human 1) in
  0 <= fst (fst r) <= map_width - 50 /\ 0 <= snd (fst r) <= map_height - 50.
Proof.
  cbv zeta.
  destruct (next_location_in_bounds (-5) (new_unit Horseman 0 Human 1)) as (A & B & _);
    [vm_compute; discriminate|vm_compute; discriminate|].
  split; [exact A|exact B].
Defined.

(** * Further properties of the units *)

(** ** Reaching a destination *)

Lemma at_destination_iff u :
  Infantry_at_destination u = true <->
  destinationX u = rect_x (rect u) /\ destinationY u = rect_y (rect u).
Proof.
  unfold Infantry_at_destination. rewrite !andb_true_iff, !Z.ltb_lt. lia.
Qed.


(** [Infantry.at_destination] allows a tolerance of one pixel on either
    side with strict comparisons; on integer coordinates that is no
    tolerance at all. *)
Theorem at_destination_exact u :
  Infantry_at_destination u = true <->
  destinationX u = rect_x (rect u) /\ destinationY u = rect_y (rect u).
Proof. apply at_destination_iff. Qed.

Lemma tick_scale_nonneg dt : (0 <= dt)%Q -> (0 <= tick_scale dt)%Q.
Proof. unfold tick_scale, NOMINAL_TICK_HZ. intros H. lra. Qed.

Lemma step_nonneg dt u :
  (0 <= dt)%Q -> 0 <= speed u -> (0 <= float_of (speed u) * tick_scale dt)%Q.
Proof.
  intros Hd Hs. apply Qmult_le_0_compat; [apply (float_of_le 0), Hs|].
  now apply tick_scale_nonneg.
Qed.

Lemma clamp_id v lo hi : (lo <= v <= hi)%Q -> clamp v lo hi = v.
Proof.
  intros (H1 & H2). unfold clamp.
  destruct (Qltb v lo) eqn:E1; [apply Qltb_lt in E1; lra|].
  destruct (Qltb hi v) eqn:E2; [apply Qltb_lt in E2; lra|reflexivity].
Qed.

Ltac qcases :=
  repeat match goal with
         | |- context [Qltb ?a ?b] =>
             let E := fresh "E" in
             destruct (Qltb a b) eqn:E;
             [apply Qltb_lt in E | apply Qltb_ge in E]; cbn [andb]
         end.

(** One movement step on the x axis and on the y axis: with a frame
    length that is not negative, a unit inside the map with a destination
    inside the map ends between where it was and its destination; it
    lands exactly on the destination when that is less than one step
    away, and otherwise advances by one step, [speed * tick_scale dt]. *)
Theorem next_location_toward dt u :
  (0 <= dt)%Q -> 0 <= speed u ->
  (0 <= fx u <= float_of (map_width - rect_width (rect u)))%Q ->
  (0 <= fy u <= float_of (map_height - rect_height (rect u)))%Q ->
  (0 <= float_of (destinationX u) <= float_of (map_width - rect_width (rect u)))%Q ->
  (0 <= float_of (destinationY u) <= float_of (map_height - rect_height (rect u)))%Q ->
  let u' := snd (Infantry_get_next_logical_location dt u) in
  let s := (float_of (speed u) * tick_scale dt)%Q in
  let dx := float_of (destinationX u) in
  let dy := float_of (destinationY u) in
  ((fx u <= dx -> fx u <= fx u' <= dx) /\ (dx <= fx u -> dx <= fx u' <= fx u) /\
   (fx u - s < dx /\ dx < fx u + s -> fx u' = dx) /\
   (fx u + s <= dx -> fx u' == fx u + s) /\ (dx <= fx u - s -> fx u' == fx u - s))%Q /\
  ((fy u <= dy -> fy u <= fy u' <= dy) /\ (dy <= fy u -> dy <= fy u' <= fy u) /\
   (fy u - s < dy /\ dy < fy u + s -> fy u' = dy) /\
   (fy u + s <= dy -> fy u' == fy u + s) /\ (dy <= fy u - s -> fy u' == fy u - s))%Q.
Proof.
  intros Hdt Hsp Hx Hy Hdx Hdy u' s dx dy.
  pose proof (step_nonneg dt u Hdt Hsp) as Hs. fold s in Hs.
  subst u'. unfold Infantry_get_next_logical_location. cbv zeta. cbn [snd].
  change (float_of 0) with 0%Q in *.
  fold s. fold dx. fold dy. fold dx in Hdx. fold dy in Hdy.
  set (Wx := float_of (map_width - rect_width (rect u))) in *.
  set (Wy := float_of (map_height - rect_height (rect u))) in *.
  split.
  - change (fx (set_fy ?b (set_fx ?a u))) with a.
    qcases; rewrite clamp_id by lra; repeat split; intros; try lra; try reflexivity.
  - change (fy (set_fy ?b (set_fx ?a u))) with b.
    qcases; rewrite clamp_id by lra; repeat split; intros; try lra; try reflexivity.
Qed.

(** ** Truncation *)

Lemma int_of_lt_pos b v : (0 <= v)%Q -> (v < float_of b)%Q -> int_of v < b.
Proof.
  destruct v as [n d]. unfold float_of, inject_Z, Qle, Qlt, int_of. simpl. intros H0 H.
  apply Z.quot_lt_upper_bound; lia.
Qed.

Lemma int_of_floor n v :
  0 <= n -> (float_of n <= v)%Q -> (v < float_of (n + 1))%Q -> int_of v = n.
Proof.
  intros Hn H1 H2. pose proof (int_of_lower n v H1).
  assert (H0 : (0 <= v)%Q).
  { eapply Qle_trans; [|exact H1]. apply (float_of_le 0), Hn. }
  pose proof (int_of_lt_pos (n + 1) v H0 H2). lia.
Qed.

Lemma float_of_plus1 n : (float_of (n + 1) == float_of n + 1)%Q.
Proof. unfold float_of. rewrite inject_Z_plus. reflexivity. Qed.

(** [Infantry.act] puts the unit at the truncated position, so what is
    left of a step after the decimal point is lost at every frame.  A
    unit that stands on a pixel and whose step is shorter than one pixel
    does not move at all towards a destination to its right and below,
    and moves a whole pixel towards a destination to its left and above. *)
Theorem sub_pixel_step dt u :
  let s := (float_of (speed u) * tick_scale dt)%Q in
  fx u = float_of (rect_x (rect u)) -> fy u = float_of (rect_y (rect u)) ->
  (0 < s)%Q -> (s < 1)%Q ->
  1 <= rect_x (rect u) < map_width - rect_width (rect u) ->
  1 <= rect_y (rect u) < map_height - rect_height (rect u) ->
  (rect_x (rect u) < destinationX u -> rect_y (rect u) < destinationY u ->
   rect (Infantry_move dt u) = rect u /\
   fx (Infantry_move dt u) = fx u /\ fy (Infantry_move dt u) = fy u) /\
  (destinationX u < rect_x (rect u) -> destinationY u < rect_y (rect u) ->
   rect_x (rect (Infantry_move dt u)) = rect_x (rect u) - 1 /\
   rect_y (rect (Infantry_move dt u)) = rect_y (rect u) - 1).
Proof.
  intros s Hfx Hfy Hs0 Hs1 Hx Hy.
  set (x := rect_x (rect u)) in *. set (y := rect_y (rect u)) in *.
  assert (Hx1 := float_of_plus1 x). assert (Hy1 := float_of_plus1 y).
  assert (Hxm := float_of_plus1 (x - 1)). assert (Hym := float_of_plus1 (y - 1)).
  replace (x - 1 + 1) with x in Hxm by lia. replace (y - 1 + 1) with y in Hym by lia.
  assert (Hx0 : (1 <= float_of x)%Q) by (apply (float_of_le 1); lia).
  assert (Hy0 : (1 <= float_of y)%Q) by (apply (float_of_le 1); lia).
  assert (HxW : (float_of (x + 1) <= float_of (map_width - rect_width (rect u)))%Q)
    by (apply float_of_le; lia).
  assert (HyW : (float_of (y + 1) <= float_of (map_height - rect_height (rect u)))%Q)
    by (apply float_of_le; lia).
  unfold Infantry_move, Infantry_get_next_logical_location. cbv zeta. fold s.
  rewrite Hfx, Hfy. change (float_of 0) with 0%Q.
  split.
  - intros Hdx Hdy.
    assert (Hdx' : (float_of (x + 1) <= float_of (destinationX u))%Q)
      by (apply float_of_le; lia).
    assert (Hdy' : (float_of (y + 1) <= float_of (destinationY u))%Q)
      by (apply float_of_le; lia).
    qcases; try lra.
    rewrite !clamp_id by lra.
    assert (Ex : int_of (float_of x + s) = x) by (apply int_of_floor; [lia|lra|lra]).
    assert (Ey : int_of (float_of y + s) = y) by (apply int_of_floor; [lia|lra|lra]).
    rewrite Ex, Ey. unfold Unit_set_location. simpl. rewrite !int_of_float_of.
    split; [|split; reflexivity]. subst x y. now destruct (rect u).
  - intros Hdx Hdy.
    assert (Hdx' : (float_of (destinationX u) <= float_of (x - 1))%Q)
      by (apply float_of_le; lia).
    assert (Hdy' : (float_of (destinationY u) <= float_of (y - 1))%Q)
      by (apply float_of_le; lia).
    qcases; try lra.
    rewrite !clamp_id by lra.
    assert (Ex : int_of (float_of x - s) = x - 1).
    { apply int_of_floor; [lia|lra|]. replace (x - 1 + 1) with x by lia. lra. }
    assert (Ey : int_of (float_of y - s) = y - 1).
    { apply int_of_floor; [lia|lra|]. replace (y - 1 + 1) with y by lia. lra. }
    rewrite Ex, Ey. unfold Unit_set_location. simpl. rewrite !int_of_float_of. auto.
Qed.

Lemma Infantry_act_move dt i w u :
  objs w !! i = Some u -> is_OffensiveInfantry (kind u) = false -> (0 < health u)%Q ->
  objs (Infantry_act dt i w) !! i
  = Some (Infantry_move dt (set_sight (inflate (rect u) 300)
                              (set_personal_space (inflate (rect u) 3) u))).
Proof.
  intros Hi Hk Hh. unfold Infantry_act, Unit_act. rewrite Hi.
  apply Qltb_lt in Hh. rewrite Hh.
  set (u1 := set_sight _ _).
  set (w1 := upd i _ w).
  assert (H1 : objs w1 !! i = Some u1) by (subst w1; now rewrite objs_upd_eq, Hi).
  unfold get_next_logical_location. rewrite H1.
  change (kind u1) with (kind u). rewrite Hk.
  unfold Infantry_move.
  destruct (Infantry_get_next_logical_location dt u1) as [[nx ny] u2] eqn:E.
  cbn [fst snd]. rewrite objs_upd_eq, objs_upd_eq, H1. cbn [fmap option_fmap option_map].
  now rewrite E.
Qed.

(** ** The production queue as a queue *)

(** Orders leave a production queue in the order they came (first in,
    first out): after an accepted [enqueue] on a queue that is not empty,
    [dequeue] still hands out the old front and the new order stays at
    the back; an order put into an empty queue comes out next.  The
    cancel button ([DequeueAction]) takes back the newest order, so it
    undoes an accepted [enqueue].  Both [dequeue] and the cancel button
    leave an empty queue empty, and [next] is what [dequeue] returns. *)
Theorem queue_first_in_first_out :
  (forall x a q, (length (a :: q) < 5)%nat ->
     ProductionQueue_dequeue (snd (ProductionQueue_enqueue x (a :: q))) = (Some a, q ++ [x])) /\
  (forall x, ProductionQueue_dequeue (snd (ProductionQueue_enqueue x [])) = (Some x, [])) /\
  (forall x q, fst (ProductionQueue_enqueue x q) = true ->
     DequeueAction_tech_act (snd (ProductionQueue_enqueue x q)) = q) /\
  (forall x q, fst (ProductionQueue_enqueue x q) = false ->
     snd (ProductionQueue_enqueue x q) = q /\ ProductionQueue_is_full q = true) /\
  (forall q, fst (ProductionQueue_dequeue q) = ProductionQueue_next q) /\
  ProductionQueue_dequeue [] = (None, []) /\ DequeueAction_tech_act [] = [].
Proof.
  split; [|split; [|split; [|split; [|split; [|split]]]]]; try reflexivity.
  - intros x a q H. unfold ProductionQueue_enqueue.
    apply Nat.ltb_lt in H. now rewrite H.
  - intros x q. unfold ProductionQueue_enqueue, DequeueAction_tech_act.
    destruct (length q <? 5)%nat; [|discriminate]. intros _. simpl.
    apply removelast_last.
  - intros x q. unfold ProductionQueue_enqueue, ProductionQueue_is_full.
    destruct (length q <? 5)%nat eqn:E; [discriminate|]. intros _. split; [reflexivity|].
    apply Nat.ltb_ge in E. now apply Nat.leb_le.
  - now intros [|a q].
Qed.

(** ** Selection *)

Lemma update_selected_fold_spec l :
  NoDup l -> forall sel w,
  let r := fold_left update_selected_step l (sel, w) in
  let listed := take (12 - length sel) (List.filter (is_selected w) l) in
  fst r = sel ++ listed /\
  (forall j, j ∈ l -> is_selected (snd r) j = is_selected w j && bool_decide (j ∈ listed)) /\
  (forall j, j ∉ l -> objs (snd r) !! j = objs w !! j).
Proof.
  induction 1 as [|i l Hi Hnd IH]; intros sel w; cbn [fold_left].
  { cbv zeta. simpl. rewrite take_nil, app_nil_r.
    split; [reflexivity|]. split; [|reflexivity].
    intros j Hj. now apply elem_of_nil in Hj. }
  cbv zeta.
  assert (Hskip : is_selected w i = false ->
    let r := fold_left update_selected_step l (sel, w) in
    let listed := take (12 - length sel) (List.filter (is_selected w) (i :: l)) in
    fst r = sel ++ listed /\
    (forall j, j ∈ i :: l ->
       is_selected (snd r) j = is_selected w j && bool_decide (j ∈ listed)) /\
    (forall j, j ∉ i :: l -> objs (snd r) !! j = objs w !! j)).
  { intros E. cbv zeta. simpl. rewrite E. destruct (IH sel w) as (A & B & C).
    split; [exact A|]. split.
    - intros j Hj. apply elem_of_cons in Hj as [->|Hj]; [|now apply B].
      rewrite E. cbn [andb]. rewrite <- E. unfold is_selected. now rewrite (C i Hi).
    - intros j Hj. apply C. intros H. apply Hj. apply elem_of_cons. now right. }
  assert (Est : update_selected_step (sel, w) i
                = if is_selected w i
                  then (if (length sel <? 12)%nat then (sel ++ [i], w)
                        else (sel, upd i (set_selected false) w))
                  else (sel, w)).
  { unfold update_selected_step, is_selected.
    destruct (objs w !! i); [destruct (selected _)|]; reflexivity. }
  rewrite Est. clear Est.
  destruct (is_selected w i) eqn:Ei; [|now apply Hskip].
  simpl List.filter. rewrite Ei.
  destruct (length sel <? 12)%nat eqn:El.
  - apply Nat.ltb_lt in El. destruct (IH (sel ++ [i]) w) as (A & B & C).
    rewrite length_app in A, B. simpl in A, B.
    replace (12 - length sel)%nat with (S (12 - (length sel + 1)))%nat by lia.
    cbn [take]. split; [rewrite A, <- app_assoc; reflexivity|]. split.
    + intros j Hj. apply elem_of_cons in Hj as [->|Hj].
      * unfold is_selected at 1. rewrite (C i Hi). fold (is_selected w i). rewrite Ei.
        rewrite bool_decide_eq_true_2; [reflexivity|]. apply elem_of_cons. now left.
      * rewrite (B j Hj). f_equal. apply bool_decide_ext. rewrite elem_of_cons.
        split; [auto|]. intros [->|H]; [contradiction|exact H].
    + intros j Hj. apply C. intros H. apply Hj. apply elem_of_cons. now right.
  - apply Nat.ltb_ge in El. destruct (IH sel (upd i (set_selected false) w)) as (A & B & C).
    replace (12 - length sel)%nat with 0%nat in * by lia. rewrite take_0 in *.
    split; [exact A|]. split.
    + intros j Hj. rewrite bool_decide_eq_false_2 by apply not_elem_of_nil.
      rewrite andb_false_r. apply elem_of_cons in Hj as [->|Hj].
      * unfold is_selected. rewrite (C i Hi), objs_upd_eq.
        now destruct (objs w !! i).
      * rewrite (B j Hj). rewrite bool_decide_eq_false_2 by apply not_elem_of_nil.
        apply andb_false_r.
    + intros j Hj. rewrite C by (intros H; apply Hj; apply elem_of_cons; now right).
      apply objs_upd_ne. intros ->. apply Hj. apply elem_of_cons. now left.
Qed.

Lemma Player_update_selected_units_spec p w :
  let w' := Player_update_selected_units p w in
  let listed := take 12 (List.filter (is_selected w) (units (player p w))) in
  length (selected_units (player p w')) = 12%nat /\
  (NoDup (units (player p w)) ->
   selected_units (player p w') = map Some listed ++ replicate (12 - length listed) None /\
   (forall j, j ∈ units (player p w) ->
              (is_selected w' j = true <-> j ∈ listed)) /\
   (forall j, j ∉ units (player p w) -> objs w' !! j = objs w !! j)).
Proof.
  cbv zeta. unfold Player_update_selected_units.
  pose proof (update_selected_fold_spec (units (player p w))) as H.
  destruct (fold_left update_selected_step (units (player p w)) ([], w)) as [sel w1] eqn:E.
  rewrite player_upd_player_eq. cbn [selected_units set_selected_units].
  split.
  - rewrite length_take, length_app, length_map, length_replicate. lia.
  - intros Hnd. specialize (H Hnd [] w). rewrite E in H. cbv zeta in H.
    cbn [fst snd length app] in H. rewrite Nat.sub_0_r in H. destruct H as (-> & B & C).
    set (listed := take 12 _) in *.
    assert (Hlen : (length listed <= 12)%nat).
    { subst listed. rewrite length_take. lia. }
    split; [|split].
    + apply take_ge. rewrite length_app, length_map, length_replicate. lia.
    + intros j Hj. unfold is_selected at 1. rewrite objs_upd_player.
      fold (is_selected w1 j). rewrite (B j Hj). rewrite andb_true_iff, bool_decide_eq_true.
      split; [tauto|]. intros Hin. split; [|exact Hin].
      subst listed. apply elem_of_take in Hin as (k & Hk & _).
      apply list_elem_of_lookup_2, list_elem_of_In, List.filter_In in Hk. tauto.
    + intros j Hj. rewrite objs_upd_player. now apply C.
Qed.

(** [Player.update_selected_units] always produces twelve slots.  When no
    unit is listed twice, the slots hold the first twelve selected units
    of the player's list, in list order, and then [None]; of the units of
    the list exactly those are selected afterwards (a thirteenth selected
    unit is deselected); nothing else changes on any unit. *)
Theorem update_selected_units_slots p w :
  let w' := Player_update_selected_units p w in
  let listed := take 12 (List.filter (is_selected w) (units (player p w))) in
  length (selected_units (player p w')) = 12%nat /\
  (NoDup (units (player p w)) ->
   selected_units (player p w') = map Some listed ++ replicate (12 - length listed) None /\
   (forall j, j ∈ units (player p w) ->
              (is_selected w' j = true <-> j ∈ listed)) /\
   (forall j, j ∉ units (player p w) -> objs w' !! j = objs w !! j)).
Proof. apply Player_update_selected_units_spec. Qed.


Lemma filter_only (f : nat -> bool) i l :
  NoDup l -> i ∈ l -> (forall j, j ∈ l -> f j = bool_decide (j = i)) ->
  List.filter f l = [i].
Proof.
  intros Hnd. revert i. induction Hnd as [|a l Ha Hnd IH]; intros i Hi Hf.
  { now apply elem_of_nil in Hi. }
  simpl. rewrite (Hf a) by (apply elem_of_cons; now left).
  assert (Hrest : forall b, b ∉ l -> (forall j, j ∈ l -> f j = bool_decide (j = b)) ->
                            List.filter f l = []).
  { intros b Hb Hg. clear IH Hi Hf Ha Hnd. induction l as [|c l IHl]; [reflexivity|].
    simpl. rewrite (Hg c) by (apply elem_of_cons; now left).
    rewrite bool_decide_eq_false_2.
    - apply IHl; [intros H; apply Hb; apply elem_of_cons; now right|].
      intros j Hj. apply Hg. apply elem_of_cons. now right.
    - intros ->. apply Hb. apply elem_of_cons. now left. }
  destruct (decide (a = i)) as [->|Hne].
  - rewrite bool_decide_eq_true_2 by reflexivity. f_equal.
    apply (Hrest i Ha). intros j Hj. apply Hf. apply elem_of_cons. now right.
  - rewrite bool_decide_eq_false_2 by exact Hne.
    apply IH.
    + apply elem_of_cons in Hi as [->|Hi]; [congruence|exact Hi].
    + intros j Hj. apply Hf. apply elem_of_cons. now right.
Qed.


(** ** Adding and removing units *)

Ltac bool_cases :=
  repeat match goal with
         | |- context [Qltb ?a ?b] =>
             let E := fresh "E" in
             destruct (Qltb a b) eqn:E;
             [apply Qltb_lt in E | apply Qltb_ge in E]; cbn [andb orb negb fst snd]
         | |- context [Z.leb ?a ?b] =>
             let E := fresh "E" in
             destruct (Z.leb a b) eqn:E;
             [apply Z.leb_le in E | apply Z.leb_gt in E]; cbn [andb orb negb fst snd]
         | |- context [hasHero ?pl] =>
             let E := fresh "E" in
             destruct (hasHero pl) eqn:E; cbn [andb orb negb fst snd]
         end.

Lemma Player_add_unit_accepts p i w u :
  objs w !! i = Some u ->
  let pl := player p w in
  fst (Player_add_unit p i w) = true <->
  (is_Hero (kind u) = true -> hasHero pl = false) /\
  (is_ComandCenter (kind u) = true -> comandCenterCount pl < comandCeneterLimit pl) /\
  (is_SupplyDepot (kind u) = true -> supplyDepotCount pl < supplyDepotLimit pl) /\
  (float_of (cost u) < resources pl)%Q /\
  (is_Infantry (kind u) = true ->
   unitValue u <= supportedUnitsValue pl - totalUnitsValue pl).
Proof.
  intros Hu. cbv zeta. unfold Player_add_unit. rewrite Hu.
  destruct (kind u) eqn:Ek, p; simpl; bool_cases;
    (split; [intros H; try discriminate; repeat split; intros; try discriminate;
             try assumption; try reflexivity; lia || lra
            |intros (H1 & H2 & H3 & H4 & H5); try reflexivity;
             try (specialize (H1 eq_refl)); try (specialize (H2 eq_refl));
             try (specialize (H3 eq_refl)); try (specialize (H5 eq_refl));
             try discriminate; try lia; try lra]).
Qed.

Lemma Player_add_unit_account p i w u :
  objs w !! i = Some u -> fst (Player_add_unit p i w) = true ->
  let w' := snd (Player_add_unit p i w) in
  (forall q, resources (player q w') =
             if bool_decide (q = p)
             then (resources (player q w) - float_of (cost u))%Q
             else resources (player q w)) /\
  (forall q, totalUnitsValue (player q w') =
             totalUnitsValue (player q w) +
             if is_Infantry (kind u) && bool_decide (q = master u) then unitValue u else 0) /\
  (forall q, supportedUnitsValue (player q w') = supportedUnitsValue (player q w)) /\
  (forall q, comandCenterCount (player q w') =
             comandCenterCount (player q w) +
             if is_ComandCenter (kind u) && bool_decide (q = p) then 1 else 0) /\
  (forall q, supplyDepotCount (player q w') =
             supplyDepotCount (player q w) +
             if is_SupplyDepot (kind u) && bool_decide (q = p) then 1 else 0).
Proof.
  intros Hu. cbv zeta. unfold Player_add_unit, Unit_get_unit_to_add. rewrite Hu.
  destruct (kind u) eqn:Ek, p; simpl; bool_cases; intros H; try discriminate;
    rewrite ?objs_upd_player, ?Hu, ?Ek; simpl;
    destruct (master u); simpl;
    repeat split; intros []; simpl; try reflexivity; lia.
Qed.

(** The books of a player: what [add_unit] and [die] charge and credit. *)
Lemma fold_update_selected_player l sel w q :
  player q (snd (fold_left update_selected_step l (sel, w))) = player q w.
Proof.
  revert sel w. induction l as [|i l IH]; intros sel w; cbn [fold_left]; [reflexivity|].
  assert (E : player q (snd (update_selected_step (sel, w) i)) = player q w).
  { unfold update_selected_step. destruct (objs w !! i) as [u|]; [|reflexivity].
    destruct (selected u); [|reflexivity].
    destruct (length sel <? 12)%nat; [reflexivity|]. simpl. apply player_upd. }
  destruct (update_selected_step (sel, w) i) as [sel1 w1]. simpl in E.
  now rewrite IH.
Qed.

Lemma books_update_selected p w q :
  books (player q (Player_update_selected_units p w)) = books (player q w).
Proof.
  unfold Player_update_selected_units.
  pose proof (fold_update_selected_player (units (player p w)) [] w q) as E.
  destruct (fold_left update_selected_step (units (player p w)) ([], w)) as [sel w1].
  simpl in E. rewrite <- E. now destruct p, q.
Qed.

Lemma books_Player_remove_unit p x w q :
  books (player q (Player_remove_unit p x w)) = books (player q w).
Proof.
  unfold Player_remove_unit. rewrite books_update_selected.
  destruct (kind_is is_Hero w x); now destruct p, q.
Qed.

Lemma books_remove_unit p x w q :
  books (player q (remove_unit p x w)) = books (player q w).
Proof.
  destruct p; [apply books_Player_remove_unit|].
  unfold remove_unit, ComputerPlayer_remove_unit.
  rewrite <- (books_Player_remove_unit Computer x w q).
  destruct (objs (Player_remove_unit Computer x w) !! x) as [u|]; [|reflexivity].
  destruct (roster_of (kind u)), (kind u), q; reflexivity.
Qed.

Lemma die_books i w u q :
  objs w !! i = Some u ->
  books (player q (die i w)) =
  let '(r, t, s, c, d) := books (player q w) in
  if bool_decide (q = master u) then
    (r,
     t - (if is_Infantry (kind u) then unitValue u else 0),
     s - (if is_Infantry (kind u) then 0 else supportedUnits u),
     c - (if is_ComandCenter (kind u) then 1 else 0),
     d - (if is_SupplyDepot (kind u) then 1 else 0))
  else (r, t, s, c, d).
Proof.
  intros Hu.
  pose proof (books_remove_unit (master u) i w q) as E.
  unfold die, ComandCenter_die, SupplyDepot_die, Building_die, Infantry_die, Unit_die.
  rewrite !Hu. unfold books in *.
  destruct (kind u); cbn [is_Infantry is_ComandCenter is_SupplyDepot is_Building];
    destruct (master u), q; simpl in *; injection E as -> -> -> -> ->;
    f_equal; try f_equal; try f_equal; try f_equal; lia.
Qed.

Lemma add_unit_accepts_aux p i w u :
  objs w !! i = Some u ->
  fst (add_unit p i w) = true <->
  (p = Computer -> Map_is_colliding_with_unit (rect u) w = false) /\
  fst (Player_add_unit p i w) = true.
Proof.
  intros Hu. destruct p; cbn [add_unit].
  - split; [intros H; split; [discriminate|exact H]|tauto].
  - unfold ComputerPlayer_add_unit. rewrite Hu.
    destruct (Map_is_colliding_with_unit (rect u) w); cbn [negb].
    + split; [discriminate|]. intros [H _]. now specialize (H eq_refl).
    + destruct (Player_add_unit Computer i w) as [[] w1]; cbn [fst];
        split; try tauto; try discriminate.
Qed.

Lemma add_unit_books_aux p i w u q :
  objs w !! i = Some u -> fst (add_unit p i w) = true ->
  books (player q (snd (add_unit p i w))) = books (player q (snd (Player_add_unit p i w))).
Proof.
  intros Hu. destruct p; cbn [add_unit]; [reflexivity|].
  unfold ComputerPlayer_add_unit. rewrite Hu.
  destruct (Map_is_colliding_with_unit (rect u) w); cbn [negb]; [discriminate|].
  destruct (Player_add_unit Computer i w) as [[] w1]; cbn [fst snd]; [|discriminate].
  intros _. destruct (roster_of (kind u)), (kind u), q; reflexivity.
Qed.


Lemma die_lists i w u :
  objs w !! i = Some u ->
  map_units (die i w) = py_remove i (map_units w) /\
  units (player (master u) (die i w)) = py_remove i (units (player (master u) w)) /\
  hasHero (player (master u) (die i w)) =
  (if is_Hero (kind u) then false else hasHero (player (master u) w)).
Proof.
  intros Hu.
  destruct (remove_unit_removed (master u) i w u Hu) as (_ & Hm & Hl & Hh & _).
  unfold die, ComandCenter_die, SupplyDepot_die, Building_die, Infantry_die, Unit_die.
  rewrite !Hu.
  destruct (is_Infantry (kind u)), (is_ComandCenter (kind u)), (is_SupplyDepot (kind u));
    rewrite ?map_units_upd_player, ?player_upd_player_eq; cbn; auto.
Qed.

(** When [add_unit] accepts a unit.  The computer player first refuses a
    unit whose rectangle collides with a unit of the map.  Then, for both
    players: a hero is refused while the player has one; a command centre
    or a supply depot is refused at the limit of its counter; the cost
    must be strictly below the balance; a mobile unit must fit in what is
    left of the supported population. *)
Theorem add_unit_accepts p i w u :
  objs w !! i = Some u ->
  let pl := player p w in
  fst (add_unit p i w) = true <->
  (p = Computer -> Map_is_colliding_with_unit (rect u) w = false) /\
  (is_Hero (kind u) = true -> hasHero pl = false) /\
  (is_ComandCenter (kind u) = true -> comandCenterCount pl < comandCeneterLimit pl) /\
  (is_SupplyDepot (kind u) = true -> supplyDepotCount pl < supplyDepotLimit pl) /\
  (float_of (cost u) < resources pl)%Q /\
  (is_Infantry (kind u) = true ->
   unitValue u <= supportedUnitsValue pl - totalUnitsValue pl).
Proof.
  intros Hu. cbv zeta.
  rewrite (add_unit_accepts_aux p i w u Hu), (Player_add_unit_accepts p i w u Hu).
  reflexivity.
Qed.

(** What an accepted [add_unit] does.  The unit goes to the end of the
    player's list and of the map's; the player pays the cost; a hero sets
    [hasHero]; a command centre or supply depot raises its counter; a
    mobile unit raises the population of its master (not of the player
    adding it); the supported population is not touched (a building
    raises it only when it is finished); no object changes. *)
Theorem add_unit_charges p i w u :
  objs w !! i = Some u -> fst (add_unit p i w) = true ->
  let w' := snd (add_unit p i w) in
  objs w' = objs w /\
  map_units w' = map_units w ++ [i] /\
  units (player p w') = units (player p w) ++ [i] /\
  hasHero (player p w') = hasHero (player p w) || is_Hero (kind u) /\
  (forall q, resources (player q w') =
             if bool_decide (q = p)
             then (resources (player q w) - float_of (cost u))%Q
             else resources (player q w)) /\
  (forall q, totalUnitsValue (player q w') =
             totalUnitsValue (player q w) +
             if is_Infantry (kind u) && bool_decide (q = master u) then unitValue u else 0) /\
  (forall q, supportedUnitsValue (player q w') = supportedUnitsValue (player q w)) /\
  (forall q, comandCenterCount (player q w') =
             comandCenterCount (player q w) +
             if is_ComandCenter (kind u) && bool_decide (q = p) then 1 else 0) /\
  (forall q, supplyDepotCount (player q w') =
             supplyDepotCount (player q w) +
             if is_SupplyDepot (kind u) && bool_decide (q = p) then 1 else 0).
Proof.
  intros Hu Hok. cbv zeta.
  pose proof (add_unit_added p i w u Hu) as Ha. unfold added in Ha. rewrite Hok in Ha.
  destruct Ha as (Ho & _ & _ & Hm & Hl & Hh & _).
  assert (Hp : fst (Player_add_unit p i w) = true)
    by now apply (add_unit_accepts_aux p i w u Hu).
  destruct (Player_add_unit_account p i w u Hu Hp) as (R & T & S & C & D).
  assert (B : forall q, books (player q (snd (add_unit p i w)))
                        = books (player q (snd (Player_add_unit p i w))))
    by (intros q; now apply (add_unit_books_aux p i w u q Hu)).
  unfold books in B.
  repeat (split; [assumption|]).
  repeat split; intros q; specialize (B q); injection B as B1 B2 B3 B4 B5;
    rewrite ?B1, ?B2, ?B3, ?B4, ?B5; auto.
Qed.

(** What [die] does to the books.  Nothing is refunded.  A mobile unit
    gives its population back to its master.  A building takes its
    [supportedUnits] off the supported population whether or not it was
    ever finished (only a finished building had added it); a command
    centre or supply depot lowers its counter.  The unit leaves its
    master's list and the map, once each. *)
Theorem die_settles i w u :
  objs w !! i = Some u ->
  let p := master u in
  let w' := die i w in
  map_units w' = py_remove i (map_units w) /\
  units (player p w') = py_remove i (units (player p w)) /\
  hasHero (player p w') = (if is_Hero (kind u) then false else hasHero (player p w)) /\
  (forall q, resources (player q w') = resources (player q w)) /\
  totalUnitsValue (player p w') =
    totalUnitsValue (player p w) - (if is_Infantry (kind u) then unitValue u else 0) /\
  supportedUnitsValue (player p w') =
    supportedUnitsValue (player p w) - (if is_Infantry (kind u) then 0 else supportedUnits u) /\
  comandCenterCount (player p w') =
    comandCenterCount (player p w) - (if is_ComandCenter (kind u) then 1 else 0) /\
  supplyDepotCount (player p w') =
    supplyDepotCount (player p w) - (if is_SupplyDepot (kind u) then 1 else 0) /\
  (forall q, q <> p ->
     totalUnitsValue (player q w') = totalUnitsValue (player q w) /\
     supportedUnitsValue (player q w') = supportedUnitsValue (player q w) /\
     comandCenterCount (player q w') = comandCenterCount (player q w) /\
     supplyDepotCount (player q w') = supplyDepotCount (player q w)).
Proof.
  intros Hu. cbv zeta.
  destruct (die_lists i w u Hu) as (Hm & Hl & Hh).
  repeat (split; [assumption|]).
  pose proof (fun q => die_books i w u q Hu) as B. unfold books in B.
  split; [|split; [|split; [|split; [|split]]]].
  - intros q. specialize (B q). destruct (bool_decide (q = master u)); now injection B.
  - specialize (B (master u)). rewrite bool_decide_eq_true_2 in B by reflexivity.
    now injection B.
  - specialize (B (master u)). rewrite bool_decide_eq_true_2 in B by reflexivity.
    now injection B.
  - specialize (B (master u)). rewrite bool_decide_eq_true_2 in B by reflexivity.
    now injection B.
  - specialize (B (master u)). rewrite bool_decide_eq_true_2 in B by reflexivity.
    now injection B.
  - intros q Hq. specialize (B q). rewrite bool_decide_eq_false_2 in B by exact Hq.
    injection B as _ -> -> -> ->. auto.
Qed.


(** ** Buildings: income and supply *)

Lemma Building_act_idle_eq dt i w b :
  objs w !! i = Some b -> (0 < health b)%Q -> queue b = [] ->
  Building_act dt i w =
  let w1 := upd i (fun u => set_sight (inflate (rect u) 300)
                              (set_personal_space (inflate (rect u) 3) u)) w in
  if Qltb 0 (buildTime b) then w1 else
  upd_player (master b)
    (fun pl => set_resources (resources pl + resourceIncrease b * tick_scale dt)%Q pl)
    (Building_init_after_build i w1).
Proof.
  intros Hi Hh Hq. unfold Building_act, Unit_act. rewrite Hi.
  apply Qltb_lt in Hh. rewrite Hh. cbv zeta. rewrite objs_upd_eq, Hi.
  cbn [fmap option_fmap option_map]. unfold Building_is_being_built. simpl.
  destruct (Qltb 0 (buildTime b)); cbn [negb]; [reflexivity|].
  now rewrite Hq.
Qed.

(** A living building with an empty queue acts.  Under construction it
    earns nothing and supports nothing.  Finished, it pays its owner
    [resourceIncrease * dt * 60] on every call and adds its
    [supportedUnits] to the supported population on the first call only,
    which sets [didInitializeAfterBuild]. *)
Theorem Building_act_idle dt i w b :
  objs w !! i = Some b -> (0 < health b)%Q -> queue b = [] ->
  let w' := Building_act dt i w in
  let p := master b in
  map_units w' = map_units w /\
  (forall q, units (player q w') = units (player q w)) /\
  (forall q, q <> p -> player q w' = player q w) /\
  ((0 < buildTime b)%Q ->
   player p w' = player p w /\
   (didInitializeAfterBuild <$> objs w' !! i) = Some (didInitializeAfterBuild b)) /\
  ((buildTime b <= 0)%Q ->
   resources (player p w') =
     (resources (player p w) + resourceIncrease b * (dt * NOMINAL_TICK_HZ))%Q /\
   supportedUnitsValue (player p w') =
     supportedUnitsValue (player p w) +
     (if didInitializeAfterBuild b then 0 else supportedUnits b) /\
   (didInitializeAfterBuild <$> objs w' !! i) = Some true).
Proof.
  intros Hi Hh Hq. cbv zeta. rewrite (Building_act_idle_eq dt i w b Hi Hh Hq). cbv zeta.
  set (w1 := upd i _ w).
  assert (Hi1 : objs w1 !! i = Some (set_sight (inflate (rect b) 300)
                                     (set_personal_space (inflate (rect b) 3) b)))
    by (subst w1; now rewrite objs_upd_eq, Hi).
  destruct (Qltb 0 (buildTime b)) eqn:Eb.
  - apply Qltb_lt in Eb. split; [reflexivity|]. split; [reflexivity|].
    split; [intros; apply player_upd|]. split.
    + intros _. split; [apply player_upd|now rewrite Hi1].
    + intros H. exfalso. apply (Qlt_not_le _ _ Eb H).
  - apply Qltb_ge in Eb. unfold Building_init_after_build. rewrite Hi1. simpl.
    destruct (didInitializeAfterBuild b) eqn:Ed; cbn [negb].
    + split; [now destruct (master b)|]. split; [intros q; now destruct (master b), q|].
      split; [intros q Hne; destruct (master b), q; try reflexivity; congruence|].
      split; [intros H; exfalso; apply (Qlt_not_le _ _ H Eb)|]. intros _.
      split; [now destruct (master b)|]. split; [destruct (master b); simpl; lia|].
      rewrite objs_upd_player, Hi1. simpl. now rewrite Ed.
    + split; [now destruct (master b)|]. split; [intros q; now destruct (master b), q|].
      split; [intros q Hne; destruct (master b), q; try reflexivity; congruence|].
      split; [intros H; exfalso; apply (Qlt_not_le _ _ H Eb)|]. intros _.
      split; [now destruct (master b)|]. split; [now destruct (master b)|].
      rewrite !objs_upd_player, objs_upd_eq, Hi1. reflexivity.
Qed.




(** ** Builders at work *)

Lemma upd_id i f w u : objs w !! i = Some u -> f u = u -> upd i f w = w.
Proof.
  intros Hi Hf. unfold upd, set_objs. destruct w; simpl in *. f_equal.
  apply map_eq. intros j. rewrite lookup_alter.
  destruct (decide (i = j)) as [<-|]; [|reflexivity]. rewrite Hi. simpl. now rewrite Hf.
Qed.

Lemma upd_const i f w u :
  objs w !! i = Some u -> upd i f w = upd i (fun _ => f u) w.
Proof.
  intros Hi. unfold upd, set_objs. destruct w; simpl in *. f_equal.
  apply map_eq. intros j. rewrite !lookup_alter.
  destruct (decide (i = j)) as [<-|]; [|reflexivity]. now rewrite Hi.
Qed.

Lemma Infantry_act_eq dt i w u :
  objs w !! i = Some u -> is_OffensiveInfantry (kind u) = false -> (0 < health u)%Q ->
  Infantry_act dt i w =
  upd i (fun _ => Infantry_move dt (set_sight (inflate (rect u) 300)
                                      (set_personal_space (inflate (rect u) 3) u))) w.
Proof.
  intros Hi Hk Hh. unfold Infantry_act, Unit_act. rewrite Hi.
  apply Qltb_lt in Hh. rewrite Hh.
  set (u1 := set_sight _ _).
  rewrite (upd_const i _ w u Hi). fold u1.
  set (w1 := upd i _ w).
  assert (H1 : objs w1 !! i = Some u1) by (subst w1; now rewrite objs_upd_eq, Hi).
  unfold get_next_logical_location. rewrite H1.
  change (kind u1) with (kind u). rewrite Hk.
  unfold Infantry_move.
  destruct (Infantry_get_next_logical_location dt u1) as [[nx ny] u2] eqn:E.
  cbn [fst snd].
  rewrite <- (upd_compose i (Unit_set_location nx ny)
                (fun u => snd (Infantry_get_next_logical_location dt u)) w1).
  subst w1.
  rewrite <- (upd_compose i
                (fun u => Unit_set_location nx ny
                            (snd (Infantry_get_next_logical_location dt u)))
                (fun _ => u1) w).
  cbv beta. rewrite E. reflexivity.
Qed.

Lemma Infantry_move_stay dt u :
  destinationX u = rect_x (rect u) -> destinationY u = rect_y (rect u) ->
  fx u = float_of (rect_x (rect u)) -> fy u = float_of (rect_y (rect u)) ->
  (0 < float_of (speed u) * tick_scale dt)%Q ->
  0 <= rect_x (rect u) <= map_width - rect_width (rect u) ->
  0 <= rect_y (rect u) <= map_height - rect_height (rect u) ->
  Infantry_move dt u = u.
Proof.
  intros Hdx Hdy Hfx Hfy Hs Hx Hy.
  unfold Infantry_move, Infantry_get_next_logical_location. cbv zeta.
  rewrite Hfx, Hfy, Hdx, Hdy.
  set (s := (float_of (speed u) * tick_scale dt)%Q) in *.
  set (x := rect_x (rect u)) in *. set (y := rect_y (rect u)) in *.
  assert (E1 : Qltb (float_of x) (float_of x + s) = true) by (apply Qltb_lt; lra).
  assert (E2 : Qltb (float_of x - s) (float_of x) = true) by (apply Qltb_lt; lra).
  assert (E3 : Qltb (float_of y) (float_of y + s) = true) by (apply Qltb_lt; lra).
  assert (E4 : Qltb (float_of y - s) (float_of y) = true) by (apply Qltb_lt; lra).
  rewrite E1, E2, E3, E4. cbn [andb].
  rewrite !clamp_id by (split; apply float_of_le; lia).
  unfold Unit_set_location. cbv zeta. simpl. rewrite !int_of_float_of.
  subst x y. destruct u as [? ? ? [] ?]; simpl in *. subst. reflexivity.
Qed.

(** A living builder that stands on its destination with [building] set
    works on its target: one call of [Builder.act] lowers the target's
    [buildTime] by [dt * 60] and clears [building] once that time is no
    longer positive.  The builder does not move, and nothing else
    changes but its own [sight] and [personal_space].  Where the target
    stands, and whether it is on the map at all, is not looked at. *)
Theorem Builder_act_constructs dt i w u t b :
  objs w !! i = Some u -> kind u = Builder -> (0 < health u)%Q ->
  toBuild u = Some t -> building u = true -> t <> i -> objs w !! t = Some b ->
  destinationX u = rect_x (rect u) -> destinationY u = rect_y (rect u) ->
  fx u = float_of (rect_x (rect u)) -> fy u = float_of (rect_y (rect u)) ->
  (0 < float_of (speed u) * tick_scale dt)%Q ->
  0 <= rect_x (rect u) <= map_width - rect_width (rect u) ->
  0 <= rect_y (rect u) <= map_height - rect_height (rect u) ->
  let w' := Builder_act dt i w in
  let left := (buildTime b - dt * NOMINAL_TICK_HZ)%Q in
  objs w' !! t = Some (set_buildTime left b) /\
  objs w' !! i = Some (set_building (Qltb 0 left)
                         (set_sight (inflate (rect u) 300)
                            (set_personal_space (inflate (rect u) 3) u))) /\
  (forall j, j <> i -> j <> t -> objs w' !! j = objs w !! j) /\
  map_units w' = map_units w /\
  (forall p, player p w' = player p w).
Proof.
  intros Hi Hk Hh Ht Hb Hne Hbt Hdx Hdy Hfx Hfy Hs Hx Hy. cbv zeta.
  unfold Builder_act. rewrite Hi, Ht, Hb, andb_true_r.
  assert (E0 : (if colliderect (personal_space u) (personal_space_of w t)
                then upd i (fun u => set_destinationY (rect_y (rect u))
                                       (set_destinationX (rect_x (rect u)) u)) w
                else w) = w).
  { destruct (colliderect _ _); [|reflexivity]. apply (upd_id i _ w u Hi).
    destruct u; simpl in *. now subst. }
  rewrite E0.
  rewrite (Infantry_act_eq dt i w u Hi) by (try rewrite Hk; auto).
  set (u1 := set_sight _ _).
  assert (E1 : Infantry_move dt u1 = u1) by now apply Infantry_move_stay.
  rewrite E1. rewrite objs_upd_eq, Hi. cbn [fmap option_fmap option_map].
  change (toBuild u1) with (toBuild u). change (building u1) with (building u).
  rewrite Ht, Hb, andb_true_r.
  assert (Ea : Infantry_at_destination u1 = true)
    by (apply at_destination_iff; split; assumption).
  rewrite Ea.
  set (w1 := upd i (fun _ => u1) w).
  assert (Ht1 : objs w1 !! t = Some b) by (subst w1; now rewrite objs_upd_ne by congruence).
  set (w2 := upd t _ w1).
  assert (Ht2 : objs w2 !! t = Some (set_buildTime (buildTime b - dt * NOMINAL_TICK_HZ)%Q b))
    by (subst w2; now rewrite objs_upd_eq, Ht1).
  assert (Hi2 : objs w2 !! i = Some u1)
    by (subst w2 w1; now rewrite objs_upd_ne, objs_upd_eq, Hi by congruence).
  unfold buildTime_of. rewrite Ht2. simpl buildTime.
  destruct (Qltb 0 (buildTime b - dt * NOMINAL_TICK_HZ)) eqn:E; cbn [negb].
  - split; [exact Ht2|]. split.
    { rewrite Hi2. f_equal. destruct u; simpl in *. now subst. }
    split; [|split].
    + intros j H1 H2. subst w2 w1. now rewrite !objs_upd_ne by congruence.
    + reflexivity.
    + intros p. subst w2 w1. now rewrite !player_upd.
  - split; [now rewrite objs_upd_ne by congruence|]. split.
    { now rewrite objs_upd_eq, Hi2. }
    split; [|split].
    + intros j H1 H2. subst w2 w1. now rewrite !objs_upd_ne by congruence.
    + reflexivity.
    + intros p. subst w2 w1. now rewrite !player_upd.
Qed.

(** ** Tech actions *)

Lemma int_of_half n : int_of (float_of n / 2) = Z.quot n 2.
Proof. unfold int_of, float_of. simpl. now rewrite Z.mul_1_r. Qed.

(** The horseman's [DropSpearmanAction].  A horseman that still carries
    its spearman loses it and half of its power (rounded towards zero);
    a new spearman, complete and of the same side and owner, stands on
    the horseman's position with the horseman's destination, at the end
    of the owner's list and of the map's.  Nothing is paid and the
    population count is not raised: the spearman does not go through
    [add_unit].  A horseman without spearman is left alone, so a second
    press does nothing. *)
Theorem DropSpearman_effect i w h :
  objs w !! i = Some h -> objs w !! next_id w = None ->
  let w' := DropSpearmanAction_tech_act i w in
  let sm := next_id w in
  let p := master h in
  (hasSpearman h = false -> w' = w) /\
  (hasSpearman h = true ->
   objs w' !! i = Some (set_power (Z.quot (power h) 2) (set_hasSpearman false h)) /\
   (exists s, objs w' !! sm = Some s /\ kind s = Spearman /\ side s = side h /\
              master s = p /\
              rect s = mkRect (rect_x (rect h)) (rect_y (rect h)) 30 30 /\
              destinationX s = destinationX h /\ destinationY s = destinationY h /\
              health s = maxHealth s) /\
   (forall j, j <> i -> j <> sm -> objs w' !! j = objs w !! j) /\
   map_units w' = map_units w ++ [sm] /\
   units (player p w') = units (player p w) ++ [sm] /\
   (forall q, resources (player q w') = resources (player q w) /\
              totalUnitsValue (player q w') = totalUnitsValue (player q w)) /\
   DropSpearmanAction_tech_act i w' = w').
Proof.
  intros Hi Hn w' sm p.
  assert (Ew : w' = DropSpearmanAction_tech_act i w) by reflexivity. clearbody w'.
  unfold DropSpearmanAction_tech_act in Ew. rewrite Hi in Ew. subst sm p.
  destruct (hasSpearman h) eqn:Eh.
  2:{ split; [intros _; exact Ew|discriminate]. }
  split; [discriminate|]. intros _.
  assert (Hne : i <> next_id w) by congruence.
  unfold alloc in Ew. cbv zeta in Ew. subst w'.
  set (h' := set_power (Z.quot (power h) 2) (set_hasSpearman false h)).
  set (w1 := upd i _ w).
  assert (Hi1 : objs w1 !! i = Some h').
  { subst w1. rewrite objs_upd_eq, Hi. simpl. unfold h'. now rewrite int_of_half. }
  set (sm := next_id w) in *.
  assert (Hn1 : next_id w1 = sm) by reflexivity. rewrite Hn1.
  assert (Ht : timeModifier w1 = timeModifier w) by reflexivity. rewrite Ht.
  set (s0 := new_unit Spearman (side h) (master h) (timeModifier w)).
  set (w2 := set_next_id (S sm) (set_objs (<[sm := s0]> (objs w1)) w1)).
  assert (Ho2 : objs w2 = <[sm := s0]> (objs w1)) by reflexivity.
  set (w3 := upd sm (Infantry_set_destination (destinationX h) (destinationY h))
               (upd sm (Unit_set_location (rect_x (rect h)) (rect_y (rect h))) w2)).
  assert (Hs3 : objs w3 !! sm = Some (Infantry_set_destination (destinationX h) (destinationY h)
                                     (Unit_set_location (rect_x (rect h)) (rect_y (rect h)) s0))).
  { subst w3. rewrite !objs_upd_eq, Ho2. now rewrite lookup_insert_eq. }
  assert (Hj3 : forall j, j <> sm -> objs w3 !! j = objs w1 !! j).
  { intros j Hj. subst w3. rewrite (objs_upd_ne sm _ _ j), (objs_upd_ne sm _ _ j) by congruence.
    rewrite Ho2. now rewrite lookup_insert_ne by congruence. }
  assert (Hp3 : forall q, player q w3 = player q w).
  { intros q. subst w3. rewrite !player_upd. now destruct q. }
  set (w4 := Map_add_unit sm (upd_player (master h) _ w3)).
  assert (Ho4 : objs w4 = objs w3) by (subst w4; simpl; apply objs_upd_player).
  split; [now rewrite Ho4, Hj3 by congruence|]. split.
  { rewrite Ho4, Hs3. eexists. split; [reflexivity|]. simpl.
    rewrite !int_of_float_of. repeat split. }
  split.
  { intros j H1 H2. rewrite Ho4, Hj3 by congruence. subst w1.
    now rewrite objs_upd_ne by congruence. }
  split; [subst w4; simpl; now rewrite map_units_upd_player|].
  split.
  { subst w4. rewrite player_Map_add_unit, player_upd_player_eq. simpl. now rewrite Hp3. }
  split.
  { intros q. subst w4. rewrite player_Map_add_unit, player_upd_player.
    destruct (decide (master h = q)) as [<-|]; simpl; rewrite Hp3; split; reflexivity. }
  unfold DropSpearmanAction_tech_act. rewrite Ho4, Hj3, Hi1 by congruence. reflexivity.
Qed.

(** [UpgradeToClaymoreAction] is bought at most once: the first press
    with more than 200 in the bank takes exactly 200 and sets
    [attackUpgrade]; any other press, and every press after it, changes
    nothing.  A balance of exactly 200 does not buy it. *)
Theorem UpgradeToClaymore_once i w b :
  objs w !! i = Some b ->
  let p := master b in
  let w' := UpgradeToClaymoreAction_tech_act i w in
  (attackUpgrade (player p w) = false -> (200 < resources (player p w))%Q ->
   attackUpgrade (player p w') = true /\
   resources (player p w') = (resources (player p w) - 200)%Q) /\
  (attackUpgrade (player p w) = true \/ (resources (player p w) <= 200)%Q -> w' = w) /\
  UpgradeToClaymoreAction_tech_act i w' = w' /\
  objs w' = objs w /\ map_units w' = map_units w /\
  (forall q, units (player q w') = units (player q w)) /\
  (forall q, q <> p -> player q w' = player q w).
Proof.
  intros Hi p w'.
  assert (Ew : w' = UpgradeToClaymoreAction_tech_act i w) by reflexivity. clearbody w'.
  unfold UpgradeToClaymoreAction_tech_act in Ew. rewrite Hi in Ew. subst p. subst w'.
  destruct (attackUpgrade (player (master b) w)) eqn:Ea; cbn [negb andb].
  - split; [discriminate|]. split; [reflexivity|].
    split; [|repeat split].
    unfold UpgradeToClaymoreAction_tech_act. now rewrite Hi, Ea.
  - destruct (Qltb 200 (resources (player (master b) w))) eqn:Er.
    + split.
      { intros _ _. rewrite player_upd_player_eq. now split. }
      split.
      { apply Qltb_lt in Er. intros [H|H]; [discriminate|].
        exfalso. apply (Qlt_not_le _ _ Er H). }
      split.
      { unfold UpgradeToClaymoreAction_tech_act. rewrite objs_upd_player, Hi.
        rewrite player_upd_player_eq. reflexivity. }
      split; [apply objs_upd_player|]. split; [apply map_units_upd_player|].
      split.
      * intros q. rewrite player_upd_player. now destruct (decide (master b = q)) as [<-|].
      * intros q Hq. rewrite player_upd_player. now rewrite decide_False by congruence.
    + split; [intros _ H; apply Qltb_lt in H; congruence|]. split; [reflexivity|].
      split; [|repeat split].
      unfold UpgradeToClaymoreAction_tech_act. now rewrite Hi, Ea, Er.
Qed.

(** * Production *)







(** * Properties of the user interface *)

(** ** [java_mod] *)

(** For a positive divisor [java_mod] is the remainder of the division
    that rounds towards zero (Java's [%]): it has the sign of [a], is
    smaller than [b] in absolute value, and [java_mod (-a) b] is
    [- java_mod a b].  A zero divisor gives 0. *)
Theorem java_mod_rem a b :
  java_mod a 0 = 0 /\
  (0 < b ->
   java_mod a b = Z.rem a b /\ Z.abs (java_mod a b) < b /\
   java_mod (- a) b = - java_mod a b /\
   (0 <= a -> 0 <= java_mod a b) /\ (a <= 0 -> java_mod a b <= 0)).
Proof.
  split; [reflexivity|]. intros Hb.
  assert (E : forall x, java_mod x b = Z.rem x b).
  { intros x. unfold java_mod. destruct (Z.eqb_spec b 0); [lia|].
    destruct (Z.leb_spec 0 x).
    - symmetry. apply Z.rem_mod_nonneg; lia.
    - rewrite <- (Z.opp_involutive x) at 2. rewrite Z.rem_opp_l by lia.
      f_equal. symmetry. apply Z.rem_mod_nonneg; lia. }
  rewrite !E. split; [reflexivity|].
  pose proof (Z.rem_bound_abs a b ltac:(lia)).
  split; [lia|]. split; [apply Z.rem_opp_l; lia|].
  split; intros H0.
  - apply Z.rem_nonneg; lia.
  - apply Z.rem_nonpos; lia.
Qed.

(** ** The camera *)

Lemma clamp_to_bounds_spec s c :
  let c' := Map_clamp_to_bounds s c in
  (BU_w s <= map_width -> BU_w s - map_width <= cam_x c' <= 0) /\
  (BU_h s <= map_height -> BU_h s - map_height <= cam_y c' <= 0) /\
  (map_width < BU_w s -> cam_x c' = 0) /\
  (map_height < BU_h s -> cam_y c' = BU_h s - map_height) /\
  (on_map s c -> c' = c).
Proof.
  unfold Map_clamp_to_bounds, on_map, map_width, map_height. destruct c as [x y]. simpl.
  destruct (Z.ltb_spec 0 y); simpl;
    (match goal with |- context [Z.ltb (?a + 3000) (BU_h s)] =>
       destruct (Z.ltb_spec (a + 3000) (BU_h s)); simpl end);
    (destruct (Z.ltb_spec (x + 3000) (BU_w s)); simpl);
    (match goal with |- context [Z.ltb 0 ?a] => destruct (Z.ltb_spec 0 a); simpl end);
    repeat split; intros; try lia; try reflexivity; try (f_equal; lia).
Qed.

(** The camera and the edges of the map.  On a window that is not
    larger than the map the camera never shows anything beyond the map:
    [set_location], [update_scroll] and a click on the minimap all leave
    it in range; in range, [_clamp_to_bounds] changes nothing, so
    [set_location] to a point in range puts exactly that point in the
    window's corner.  On a window larger than the map the two axes
    differ, as the tests of [_clamp_to_bounds] come in a different order
    for each: the map is drawn from the window's left edge, and against
    its bottom edge. *)
Theorem camera_stays_on_map s :
  (BU_w s <= map_width -> BU_h s <= map_height ->
   (forall x y, on_map s (Map_set_location s x y)) /\
   (forall dt c, on_map s (Map_update_scroll s dt c)) /\
   (forall px py, on_map s (Minimap_do_click s px py)) /\
   (forall c, on_map s c -> Map_clamp_to_bounds s c = c) /\
   (forall x y, 0 <= x <= map_width - BU_w s -> 0 <= y <= map_height - BU_h s ->
                Map_set_location s x y = mkCamera (- x) (- y))) /\
  (forall c, map_width < BU_w s -> cam_x (Map_clamp_to_bounds s c) = 0) /\
  (forall c, map_height < BU_h s ->
             cam_y (Map_clamp_to_bounds s c) = BU_h s - map_height /\
             0 < cam_y (Map_clamp_to_bounds s c)).
Proof.
  split; [|split].
  - intros Hw Hh.
    assert (H : forall c, on_map s (Map_clamp_to_bounds s c)).
    { intros c. destruct (clamp_to_bounds_spec s c) as (A & B & _). split; auto. }
    split; [intros; apply H|]. split; [intros; apply H|]. split; [intros; apply H|].
    split; [intros c; apply clamp_to_bounds_spec|].
    intros x y Hx Hy. apply clamp_to_bounds_spec. unfold on_map. simpl. lia.
  - intros c. apply clamp_to_bounds_spec.
  - intros c H. destruct (clamp_to_bounds_spec s c) as (_ & _ & _ & B & _).
    rewrite (B H). split; [reflexivity|lia].
Qed.

Lemma scaled_nonneg X W M : 0 <= X -> 0 <= W -> 0 < M -> 0 <= X * W / M.
Proof. intros. apply Z.div_pos; [apply Z.mul_nonneg_nonneg|]; lia. Qed.

Lemma scaled_back a W M xg X :
  0 < W -> 0 < M -> 0 <= X <= xg -> xg * W <= a * M -> X * W / M <= a.
Proof.
  intros HW HM HX Hxg. apply Z.div_le_upper_bound; [lia|].
  assert (X * W <= xg * W) by (apply Z.mul_le_mono_nonneg_r; lia). lia.
Qed.

Lemma scaled_back_low a W M xg :
  0 < W <= M -> a * M < (xg + 1) * W -> a - 1 <= xg * W / M.
Proof.
  intros HW Hxg. apply Z.div_le_lower_bound; [lia|].
  replace ((xg + 1) * W) with (xg * W + W) in Hxg by ring. lia.
Qed.

Lemma scaled_inside X B W M :
  0 < M -> 0 <= W -> 0 <= X -> 0 <= B -> X + B <= M -> X * W / M + B * W / M <= W.
Proof.
  intros HM HW HX HB HXB.
  pose proof (Z.mul_div_le (X * W) M HM). pose proof (Z.mul_div_le (B * W) M HM).
  assert ((X + B) * W <= M * W) by (apply Z.mul_le_mono_nonneg_r; lia).
  replace ((X + B) * W) with (X * W + B * W) in * by ring.
  set (q1 := X * W / M) in *. set (q3 := B * W / M) in *. clearbody q1 q3.
  assert (M * (q1 + q3) <= M * W) by lia.
  apply (Z.mul_le_mono_pos_l _ _ M); assumption.
Qed.

(** A click on the minimap and the box the minimap then draws for the
    window.  The box lies inside the minimap, and its corner is on the
    clicked pixel or at most one pixel before it on either axis, unless
    the camera was stopped at the right or bottom edge of the map. *)
Theorem minimap_click_round_trip s px py :
  BU_w s <= map_width -> BU_h s <= map_height ->
  collidepoint (Minimap_rect s) px py = true ->
  let r := Minimap_rect s in
  let c := snd (Minimap_click s px py (mkCamera 0 0)) in
  let v := Minimap_view s c in
  let a := px - rect_x r in
  let b := py - rect_y r in
  fst (Minimap_click s px py (mkCamera 0 0)) = true /\
  0 <= rect_x v <= a /\ 0 <= rect_y v <= b /\
  rect_x v + rect_width v <= rect_width r /\
  rect_y v + rect_height v <= rect_height r /\
  (a * map_width / rect_width r <= map_width - BU_w s -> a - 1 <= rect_x v) /\
  (b * map_height / rect_height r <= map_height - BU_h s -> b - 1 <= rect_y v).
Proof.
  intros Hw Hh Hc. cbv zeta. unfold Minimap_click. rewrite Hc. cbn [fst snd].
  split; [reflexivity|].
  unfold collidepoint in Hc. rewrite !andb_true_iff, !Z.leb_le, !Z.ltb_lt in Hc.
  destruct Hc as (((Hx1 & Hx2) & Hy1) & Hy2).
  unfold Minimap_do_click, Map_set_location, Minimap_view.
  set (r := Minimap_rect s) in *.
  set (a := px - rect_x r) in *. set (b := py - rect_y r) in *.
  assert (Ha : 0 <= a < rect_width r) by lia.
  assert (Hb : 0 <= b < rect_height r) by lia.
  assert (Hrw : rect_width r <= 600).
  { subst r. unfold Minimap_rect, map_width in *. simpl.
    pose proof (Z.div_le_upper_bound (BU_w s) 5 600). lia. }
  assert (Hrh : rect_height r <= 600).
  { subst r. unfold Minimap_rect, map_height in *. simpl.
    pose proof (Z.div_le_upper_bound (BU_h s) 5 600). lia. }
  assert (Bw : 0 <= BU_w s).
  { unfold r, Minimap_rect in Ha. simpl in Ha.
    destruct (Z.le_gt_cases 0 (BU_w s)) as [|Hn]; [assumption|].
    pose proof (Z.div_lt_upper_bound (BU_w s) 5 0). lia. }
  assert (Bh : 0 <= BU_h s).
  { unfold r, Minimap_rect in Hb. simpl in Hb.
    destruct (Z.le_gt_cases 0 (BU_h s)) as [|Hn]; [assumption|].
    pose proof (Z.div_lt_upper_bound (BU_h s) 5 0). lia. }
  rewrite !Z.max_r by lia.
  set (xg := a * map_width / rect_width r). set (yg := b * map_height / rect_height r).
  assert (Hxg : 0 <= xg /\ xg * rect_width r <= a * map_width
                /\ a * map_width < (xg + 1) * rect_width r).
  { subst xg. pose proof (Z.div_mod (a * map_width) (rect_width r) ltac:(lia)).
    pose proof (Z.mod_pos_bound (a * map_width) (rect_width r) ltac:(lia)).
    split; [apply Z.div_pos; unfold map_width; lia|]. lia. }
  assert (Hyg : 0 <= yg /\ yg * rect_height r <= b * map_height
                /\ b * map_height < (yg + 1) * rect_height r).
  { subst yg. pose proof (Z.div_mod (b * map_height) (rect_height r) ltac:(lia)).
    pose proof (Z.mod_pos_bound (b * map_height) (rect_height r) ltac:(lia)).
    split; [apply Z.div_pos; unfold map_height; lia|]. lia. }
  clearbody xg yg.
  destruct (clamp_to_bounds_spec s (mkCamera (- xg) (- yg))) as (Bx & By & _ & _ & Bid).
  specialize (Bx Hw). specialize (By Hh). cbv zeta in Bx, By, Bid.
  set (c := Map_clamp_to_bounds s (mkCamera (- xg) (- yg))) in *.
  assert (Cx : - cam_x c <= xg /\ (xg <= map_width - BU_w s -> - cam_x c = xg)).
  { subst c. unfold Map_clamp_to_bounds, map_width, map_height in *. simpl.
    destruct (Z.ltb_spec 0 (- yg)); simpl;
      (match goal with |- context [Z.ltb (?t + 3000) (BU_h s)] =>
         destruct (Z.ltb_spec (t + 3000) (BU_h s)); simpl end);
      (destruct (Z.ltb_spec (- xg + 3000) (BU_w s)); simpl);
      (match goal with |- context [Z.ltb 0 ?t] => destruct (Z.ltb_spec 0 t); simpl end);
      lia. }
  assert (Cy : - cam_y c <= yg /\ (yg <= map_height - BU_h s -> - cam_y c = yg)).
  { subst c. unfold Map_clamp_to_bounds, map_width, map_height in *. simpl.
    destruct (Z.ltb_spec 0 (- yg)); simpl;
      (match goal with |- context [Z.ltb (?t + 3000) (BU_h s)] =>
         destruct (Z.ltb_spec (t + 3000) (BU_h s)); simpl end);
      (destruct (Z.ltb_spec (- xg + 3000) (BU_w s)); simpl);
      (match goal with |- context [Z.ltb 0 ?t] => destruct (Z.ltb_spec 0 t); simpl end);
      lia. }
  clearbody c. unfold a, b in *. clearbody r. simpl.
  assert (HX : 0 <= - cam_x c <= map_width - BU_w s) by lia.
  assert (HY : 0 <= - cam_y c <= map_height - BU_h s) by lia.
  assert (HW : 0 < rect_width r <= map_width) by (unfold map_width; lia).
  assert (HH : 0 < rect_height r <= map_height) by (unfold map_height; lia).
  unfold map_width, map_height in *.
  split; [split; [apply scaled_nonneg; lia|apply (scaled_back _ _ _ xg); lia]|].
  split; [split; [apply scaled_nonneg; lia|apply (scaled_back _ _ _ yg); lia]|].
  split; [apply scaled_inside; lia|]. split; [apply scaled_inside; lia|].
  split.
  - intros Hle. destruct Cx as (_ & Cx). rewrite (Cx Hle). apply scaled_back_low; lia.
  - intros Hle. destruct Cy as (_ & Cy). rewrite (Cy Hle). apply scaled_back_low; lia.
Qed.

(** ** The selection box *)

Lemma select_box_fold_spec r l : forall tb w,
  let res := fold_left (select_box_step r) l (tb, w) in
  fst res = tb ++ List.filter (fun i => under_box r w i && kind_is is_Building w i) l /\
  (forall p, player p (snd res) = player p w) /\
  (forall j, objs (snd res) !! j =
             if bool_decide (j ∈ l) && under_box r w j && negb (kind_is is_Building w j)
             then set_selected true <$> objs w !! j
             else objs w !! j).
Proof.
  induction l as [|i l IH]; intros tb w; cbn [fold_left].
  { cbv zeta. cbn [fst snd List.filter]. rewrite app_nil_r.
    split; [reflexivity|]. split; [reflexivity|].
    intros j. destruct (bool_decide (j ∈ [])) eqn:E; [|reflexivity].
    apply bool_decide_eq_true in E. now apply elem_of_nil in E. }
  cbv zeta.
  assert (Hin : forall j, bool_decide (j ∈ i :: l) = bool_decide (j = i) || bool_decide (j ∈ l)).
  { intros j. destruct (decide (j = i)) as [->|Hne].
    - rewrite (bool_decide_eq_true_2 (i ∈ i :: l)) by (apply elem_of_cons; now left).
      now rewrite (bool_decide_eq_true_2 (i = i)) by reflexivity.
    - rewrite (bool_decide_eq_false_2 (j = i)) by exact Hne. simpl.
      apply bool_decide_ext. rewrite elem_of_cons. tauto. }
  assert (Est : select_box_step r (tb, w) i =
                if under_box r w i
                then if kind_is is_Building w i then (tb ++ [i], w)
                     else (tb, upd i (set_selected true) w)
                else (tb, w)).
  { unfold select_box_step, under_box, kind_is. destruct (objs w !! i) as [u|] eqn:Hi;
      [|reflexivity].
    destruct (colliderect (rect u) r); [|reflexivity].
    destruct (is_Building (kind u)) eqn:Hk; [reflexivity|].
    f_equal. rewrite (upd_const i select w u Hi), (upd_const i (set_selected true) w u Hi).
    unfold select. now rewrite Hk. }
  rewrite Est. clear Est. simpl List.filter.
  destruct (under_box r w i) eqn:Hu; cbn [andb].
  2:{ destruct (IH tb w) as (A & B & C). split; [exact A|]. split; [exact B|].
      intros j. rewrite C, Hin. destruct (decide (j = i)) as [->|Hne].
      - rewrite Hu. now rewrite !andb_false_r.
      - now rewrite (bool_decide_eq_false_2 (j = i)) by exact Hne. }
  destruct (kind_is is_Building w i) eqn:Hk.
  - destruct (IH (tb ++ [i]) w) as (A & B & C).
    split; [rewrite A, <- app_assoc; reflexivity|]. split; [exact B|].
    intros j. rewrite C, Hin. destruct (decide (j = i)) as [->|Hne].
    + rewrite Hk. now rewrite !andb_false_r.
    + now rewrite (bool_decide_eq_false_2 (j = i)) by exact Hne.
  - set (w1 := upd i (set_selected true) w).
    assert (Hu1 : forall j, under_box r w1 j = under_box r w j).
    { intros j. unfold under_box. subst w1. rewrite objs_upd.
      destruct (decide (i = j)) as [<-|]; [|reflexivity]. now destruct (objs w !! i). }
    assert (Hb1 : forall j, kind_is is_Building w1 j = kind_is is_Building w j).
    { intros j. unfold kind_is. subst w1. rewrite objs_upd.
      destruct (decide (i = j)) as [<-|]; [|reflexivity]. now destruct (objs w !! i). }
    destruct (IH tb w1) as (A & B & C).
    split.
    { rewrite A. f_equal. apply List.filter_ext. intros j. now rewrite Hu1, Hb1. }
    split; [intros p; rewrite B; apply player_upd|].
    intros j. rewrite C, Hin, Hu1, Hb1. subst w1. rewrite objs_upd.
    destruct (decide (i = j)) as [<-|Hne].
    + rewrite (bool_decide_eq_true_2 (i = i)) by reflexivity. cbn [orb].
      rewrite Hu, Hk. cbn [andb negb].
      destruct (bool_decide (i ∈ l)); cbn [andb]; [|reflexivity].
      now destruct (objs w !! i).
    + now rewrite (bool_decide_eq_false_2 (j = i)) by congruence.
Qed.

(** Dragging a selection box.  Pressing the button starts without a
    box.  Moving the pointer gives a box only if the press was above the
    control panel and off the minimap and the pointer is at least four
    pixels from the press on one axis; the box then spans the press and
    the pointer.  After a straight horizontal or vertical drag the box
    has no height or no width, and is under no unit. *)
Theorem drag_selection_rect s x0 y0 x y c :
  let d := fst (HumanPlayer_update_drag s x y (HumanPlayer_begin_drag s x0 y0) c) in
  let on_map_area :=
    (y0 <? BU_h s - BU_h s / 4) && negb (collidepoint (Minimap_rect s) x0 y0) in
  selecting_rect (HumanPlayer_begin_drag s x0 y0) = None /\
  selecting_rect d =
    (if on_map_area && ((4 <=? Z.abs (x - x0)) || (4 <=? Z.abs (y - y0)))
     then Some (mkRect (Z.min x0 x) (Z.min y0 y) (Z.abs (x - x0)) (Z.abs (y - y0)))
     else None) /\
  (forall r, selecting_rect d = Some r ->
     rect_x r + rect_width r = Z.max x0 x /\ rect_y r + rect_height r = Z.max y0 y /\
     (4 <= rect_width r \/ 4 <= rect_height r) /\
     (x = x0 \/ y = y0 ->
      forall cam w i,
        under_box (mkRect (rect_x r - cam_x cam) (rect_y r - cam_y cam)
                     (rect_width r) (rect_height r)) w i = false)).
Proof.
  cbv zeta. split; [reflexivity|].
  assert (E : selecting_rect
                (fst (HumanPlayer_update_drag s x y (HumanPlayer_begin_drag s x0 y0) c))
              = if (y0 <? BU_h s - BU_h s / 4) && negb (collidepoint (Minimap_rect s) x0 y0)
                   && ((4 <=? Z.abs (x - x0)) || (4 <=? Z.abs (y - y0)))
                then Some (mkRect (Z.min x0 x) (Z.min y0 y)
                             (Z.abs (x - x0)) (Z.abs (y - y0)))
                else None).
  { unfold HumanPlayer_update_drag, HumanPlayer_begin_drag, HumanPlayer_update_selection_rect,
      DRAG_THRESH.
    cbn [fst dragAllowed dragStartedOnMinimap dragCurX dragCurY dragAnchorX dragAnchorY
         selecting_rect].
    destruct (y0 <? BU_h s - BU_h s / 4); cbn [negb orb andb]; [|reflexivity].
    destruct (collidepoint (Minimap_rect s) x0 y0); cbn [negb orb andb]; [reflexivity|].
    destruct ((4 <=? Z.abs (x - x0)) || (4 <=? Z.abs (y - y0))); reflexivity. }
  split; [exact E|].
  intros r Hr. rewrite E in Hr.
  destruct ((y0 <? BU_h s - BU_h s / 4) && negb (collidepoint (Minimap_rect s) x0 y0));
    cbn [andb] in Hr; [|discriminate].
  destruct ((4 <=? Z.abs (x - x0)) || (4 <=? Z.abs (y - y0))) eqn:Et; [|discriminate].
  injection Hr as <-. cbn [rect_x rect_y rect_width rect_height].
  apply orb_true_iff in Et. rewrite !Z.leb_le in Et.
  split; [lia|]. split; [lia|]. split; [exact Et|].
  intros Hflat cam w i. unfold under_box. destruct (objs w !! i) as [u|]; [|reflexivity].
  unfold colliderect. cbn [rect_width rect_height].
  destruct Hflat as [-> | ->]; rewrite Z.sub_diag; cbn; now rewrite ?orb_true_r.
Qed.

Lemma count_padded (l : list nat) n :
  length (List.filter (fun o : option nat => match o with Some _ => true | None => false end)
            (map Some l ++ replicate n None)) = length l.
Proof.
  induction l as [|a l IH]; simpl.
  - induction n as [|n IHn]; simpl; auto.
  - now rewrite IH.
Qed.

Lemma filter_none (f : nat -> bool) l : (forall j, j ∈ l -> f j = false) -> List.filter f l = [].
Proof.
  induction l as [|a l IH]; intros H; [reflexivity|]. simpl.
  rewrite (H a) by (apply elem_of_cons; now left).
  apply IH. intros j Hj. apply H. apply elem_of_cons. now right.
Qed.

Lemma filter_ext_elem (f g : nat -> bool) l :
  (forall j, j ∈ l -> f j = g j) -> List.filter f l = List.filter g l.
Proof.
  induction l as [|a l IH]; intros H; [reflexivity|]. simpl.
  rewrite (H a) by (apply elem_of_cons; now left).
  rewrite IH; [reflexivity|]. intros j Hj. apply H. apply elem_of_cons. now right.
Qed.

Lemma units_update_selected p w q :
  units (player q (Player_update_selected_units p w)) = units (player q w).
Proof.
  destruct (update_selected_spec p w) as ((_ & _ & H & _) & _). apply H.
Qed.

(** Releasing the mouse after dragging a selection box.  The box is
    taken to map coordinates.  Selection is added to: the units the
    human player had selected stay selected, and each of the player's
    units under the box that is not a building joins them, the first
    twelve in list order being kept.  A building is selected only when
    that leaves nothing selected, exactly one building of the player is
    under the box, and it is finished.  A box of width or height zero
    (a straight horizontal or vertical drag) is under no unit. *)
Theorem box_selection c d w r0 :
  selecting_rect d = Some r0 -> NoDup (units (hp w)) ->
  let r := mkRect (rect_x r0 - cam_x c) (rect_y r0 - cam_y c)
             (rect_width r0) (rect_height r0) in
  let picked := List.filter (fun i => is_selected w i
                                      || under_box r w i && negb (kind_is is_Building w i))
                  (units (hp w)) in
  let houses := List.filter (fun i => under_box r w i && kind_is is_Building w i)
                  (units (hp w)) in
  let final := match picked, houses with
               | [], [b] => if Qltb 0 (buildTime_of w b) then [] else [b]
               | _, _ => take 12 picked
               end in
  let w' := snd (HumanPlayer_mouse_released_select_box c d w) in
  selecting_rect (fst (HumanPlayer_mouse_released_select_box c d w)) = None /\
  units (hp w') = units (hp w) /\
  selected_units (hp w') = map Some final ++ replicate (12 - length final) None /\
  (forall j, j ∈ units (hp w) -> (is_selected w' j = true <-> j ∈ final)) /\
  (rect_width r0 = 0 \/ rect_height r0 = 0 ->
   picked = List.filter (is_selected w) (units (hp w)) /\ houses = []).
Proof.
  intros Hsel Hnd r picked houses final w'.
  assert (Hflat : rect_width r0 = 0 \/ rect_height r0 = 0 ->
                  picked = List.filter (is_selected w) (units (hp w)) /\ houses = []).
  { intros Hz.
    assert (Hu : forall i, under_box r w i = false).
    { intros i. unfold under_box. destruct (objs w !! i) as [u|]; [|reflexivity].
      unfold colliderect. subst r. cbn [rect_width rect_height].
      destruct Hz as [-> | ->]; cbn; now rewrite ?orb_true_r. }
    split.
    - apply filter_ext_elem. intros j _. rewrite Hu. cbn [andb]. apply orb_false_r.
    - apply filter_none. intros j _. now rewrite Hu. }
  subst w'. unfold HumanPlayer_mouse_released_select_box. rewrite Hsel. fold r.
  destruct (select_box_fold_spec r (units (hp w)) [] w) as (A & B & C).
  cbv zeta in A, B, C.
  destruct (fold_left (select_box_step r) (units (hp w)) ([], w)) as [tb w1].
  cbn [fst snd app] in A, B, C. fold houses in A. subst tb.
  assert (Hu1 : units (hp w1) = units (hp w)) by exact (f_equal units (B Human)).
  assert (Hs1 : forall j, j ∈ units (hp w) ->
                  is_selected w1 j = is_selected w j
                                     || under_box r w j && negb (kind_is is_Building w j)).
  { intros j Hj. unfold is_selected. rewrite C.
    rewrite (bool_decide_eq_true_2 (j ∈ units (hp w))) by exact Hj. cbn [andb].
    destruct (under_box r w j && negb (kind_is is_Building w j)) eqn:E.
    - unfold under_box in E. destruct (objs w !! j); [|discriminate]. simpl.
      now rewrite orb_true_r.
    - now rewrite orb_false_r. }
  set (w2 := Player_update_selected_units Human w1).
  destruct (Player_update_selected_units_spec Human w1) as (_ & H2).
  change (player Human w1) with (hp w1) in H2. rewrite Hu1 in H2.
  destruct (H2 Hnd) as (Hslots2 & Hiff2 & _). clear H2.
  fold w2 in Hslots2, Hiff2. change (player Human w2) with (hp w2) in Hslots2.
  rewrite (filter_ext_elem (is_selected w1) _ (units (hp w)) Hs1) in Hslots2, Hiff2.
  fold picked in Hslots2, Hiff2.
  assert (Hu2 : units (hp w2) = units (hp w)).
  { subst w2. etransitivity; [exact (units_update_selected Human w1 Human)|exact Hu1]. }
  assert (Hcount : HumanPlayer_count_selected w2 = length (take 12 picked)).
  { unfold HumanPlayer_count_selected. rewrite Hslots2. apply count_padded. }
  assert (Hplain : final = take 12 picked ->
            selecting_rect (mkDrag (dragAnchorX d) (dragAnchorY d) (dragCurX d) (dragCurY d)
                              (dragStartedOnMinimap d) (dragAllowed d) None) = None /\
            units (hp w2) = units (hp w) /\
            selected_units (hp w2) = map Some final ++ replicate (12 - length final) None /\
            (forall j, j ∈ units (hp w) -> (is_selected w2 j = true <-> j ∈ final)) /\
            (rect_width r0 = 0 \/ rect_height r0 = 0 ->
             picked = List.filter (is_selected w) (units (hp w)) /\ houses = [])).
  { intros ->. split; [reflexivity|]. split; [exact Hu2|]. split; [exact Hslots2|].
    split; [exact Hiff2|exact Hflat]. }
  destruct houses as [|b [|b' houses']] eqn:Eh; cbn [fst snd].
  - apply Hplain. subst final. now destruct picked.
  - destruct picked as [|a picked'] eqn:Ep.
    + (* nothing is selected: the building is tried *)
      rewrite Hcount. cbn [take length Nat.eqb].
      assert (Hb : b ∈ units (hp w) /\ under_box r w b && kind_is is_Building w b = true).
      { assert (Hin : b ∈ List.filter (fun i => under_box r w i && kind_is is_Building w i)
                             (units (hp w))).
        { fold houses. rewrite Eh. apply elem_of_cons. now left. }
        apply list_elem_of_In, List.filter_In in Hin as (Hin & Hf).
        split; [now apply list_elem_of_In|exact Hf]. }
      destruct Hb as (Hbin & Hbf). apply andb_true_iff in Hbf as (_ & Hbk).
      unfold kind_is in Hbk. destruct (objs w !! b) as [ub|] eqn:Hob; [|discriminate].
      assert (Hob1 : objs w1 !! b = Some ub).
      { rewrite C. unfold kind_is at 1. rewrite Hob, Hbk. cbn [negb].
        now rewrite andb_false_r. }
      destruct (Player_update_selected_units_unsel Human w1 b ub Hob1) as (ub2 & Hob2 & Hsame).
      fold w2 in Hob2.
      assert (Hoff : forall j, j ∈ units (hp w) -> is_selected w2 j = false).
      { intros j Hj. destruct (is_selected w2 j) eqn:E; [|reflexivity].
        apply (Hiff2 j Hj) in E. cbn [take] in E. now apply elem_of_nil in E. }
      set (w3 := upd b select w2).
      assert (Hu3 : units (hp w3) = units (hp w)) by (subst w3; now rewrite <- Hu2).
      assert (Hs3 : forall j, j ∈ units (hp w) ->
                is_selected w3 j = bool_decide (j = b) && negb (Qltb 0 (buildTime_of w b))).
      { intros j Hj. unfold is_selected. subst w3. rewrite objs_upd.
        destruct (decide (b = j)) as [<-|Hne].
        - rewrite (bool_decide_eq_true_2 (b = b)) by reflexivity. cbn [andb].
          rewrite Hob2. simpl. unfold buildTime_of. rewrite Hob.
          unfold select, Building_is_being_built.
          destruct Hsame as [-> | ->]; simpl; rewrite Hbk;
            destruct (Qltb 0 (buildTime ub)) eqn:Eb; simpl; try reflexivity.
          + pose proof (Hoff b Hbin) as Hx. unfold is_selected in Hx.
            rewrite Hob2 in Hx. exact Hx.
        - rewrite (bool_decide_eq_false_2 (j = b)) by congruence. cbn [andb].
          apply (Hoff j Hj). }
      destruct (Player_update_selected_units_spec Human w3) as (_ & H3).
      change (player Human w3) with (hp w3) in H3. rewrite Hu3 in H3.
      destruct (H3 Hnd) as (Hslots3 & Hiff3 & _). clear H3.
      change (player Human (Player_update_selected_units Human w3))
        with (hp (Player_update_selected_units Human w3)) in Hslots3.
      assert (Hf3 : List.filter (is_selected w3) (units (hp w)) = final).
      { subst final. destruct (Qltb 0 (buildTime_of w b)) eqn:Eb.
        - apply filter_none. intros j Hj. rewrite (Hs3 j Hj). cbn. apply andb_false_r.
        - apply filter_only; [exact Hnd|exact Hbin|].
          intros j Hj. rewrite (Hs3 j Hj). cbn. apply andb_true_r. }
      rewrite Hf3 in Hslots3, Hiff3.
      assert (Ht : take 12 final = final).
      { subst final. now destruct (Qltb 0 (buildTime_of w b)). }
      rewrite Ht in Hslots3, Hiff3.
      split; [reflexivity|]. split.
      { etransitivity; [exact (units_update_selected Human w3 Human)|exact Hu3]. }
      split; [exact Hslots3|]. split; [exact Hiff3|exact Hflat].
    + assert (Hc : (HumanPlayer_count_selected w2 =? 0)%nat = false).
      { rewrite Hcount. cbn [take length]. reflexivity. }
      rewrite Hc. apply Hplain. reflexivity.
  - apply Hplain. subst final. now destruct picked.
Qed.

(** ** Classes and buttons *)

Lemma isinstance_tree k :
  isinstance k c_object = true /\ isinstance k c_Unit = true /\
  isinstance k c_Infantry = is_Infantry k /\
  isinstance k c_OffensiveInfantry = is_OffensiveInfantry k /\
  isinstance k c_Hero = is_Hero k /\ isinstance k c_Building = is_Building k /\
  isinstance k (c_Kind ComandCenter) = is_ComandCenter k /\
  forall k0, k0 <> ComandCenter -> isinstance k (c_Kind k0) = bool_decide (k = k0).
Proof.
  repeat split; try (destruct k; reflexivity).
  intros k0 H. destruct k, k0; try reflexivity; congruence.
Qed.

Lemma forallb_elem {A} (f : A -> bool) l :
  forallb f l = true <-> forall x, x ∈ l -> f x = true.
Proof.
  rewrite forallb_forall. split; intros H x Hx; apply H; now apply list_elem_of_In.
Qed.

Lemma forallb_not {A} (f : A -> bool) l :
  forallb f l = false -> exists x, x ∈ l /\ f x = false.
Proof.
  induction l as [|a l IH]; [discriminate|]. simpl.
  destruct (f a) eqn:E; simpl.
  - intros H. destruct (IH H) as (x & Hx & Hf). exists x. split; [|exact Hf].
    apply elem_of_cons. now right.
  - intros _. exists a. split; [apply elem_of_cons; now left|exact E].
Qed.

Lemma forallb_same {A} (f : A -> bool) l a :
  l <> [] -> (forall x, x ∈ l -> x = a) -> forallb f l = f a.
Proof.
  intros Hne Hall. destruct (forallb f l) eqn:E.
  - destruct l as [|b l]; [congruence|]. symmetry.
    rewrite <- (Hall b) by (apply elem_of_cons; now left).
    apply (proj1 (forallb_elem f _) E). apply elem_of_cons. now left.
  - apply forallb_not in E as (x & Hx & Hf). now rewrite <- (Hall x Hx).
Qed.

Ltac glcc_cases :=
  unfold get_lowest_common_class;
  repeat match goal with
         | |- context [forallb ?f ?l] =>
             let E := fresh "E" in destruct (forallb f l) eqn:E; cbn [andb]
         end.

Lemma lowest_common_class_unit real :
  (exists k, k ∈ real /\ is_Infantry k = false) -> get_lowest_common_class real = c_Unit.
Proof.
  intros (k & Hk & Hf). unfold get_lowest_common_class.
  destruct (forallb (fun k => isinstance k c_Infantry) real) eqn:E; [|reflexivity].
  pose proof (proj1 (forallb_elem _ _) E k Hk) as H. cbv beta in H.
  destruct (isinstance_tree k) as (_ & _ & T & _). congruence.
Qed.

Lemma lowest_common_class_above real k :
  k ∈ real -> isinstance k (get_lowest_common_class real) = true.
Proof.
  intros Hk. glcc_cases;
    try (match goal with
         | E : forallb (fun k => isinstance k ?c) real = true |- isinstance k ?c = true =>
             exact (proj1 (forallb_elem _ _) E k Hk)
         end);
    destruct k; reflexivity.
Qed.

(** What [get_lowest_common_class] answers.  Every unit of the
    selection is an instance of the class.  It is a leaf class exactly
    when the selection consists of mobile units of that one class (an
    empty selection gives [Spearman]); it is [Unit] exactly when the
    selection holds a building, even when all its units are buildings of
    one class; in every other case it is [Infantry], so it never answers
    [OffensiveInfantry], [Hero] or [Building], which lie lower for a
    mixed group of fighters, of heroes or of buildings. *)
Theorem lowest_common_class_result real :
  let c := get_lowest_common_class real in
  (forall k, k ∈ real -> isinstance k c = true) /\
  get_lowest_common_class [] = c_Kind Spearman /\
  (forall k0, real <> [] ->
     (c = c_Kind k0 <-> is_Infantry k0 = true /\ forall k, k ∈ real -> k = k0)) /\
  (c = c_Unit <-> exists k, k ∈ real /\ is_Infantry k = false) /\
  (c = c_Infantry \/ c = c_Unit \/ exists k0, c = c_Kind k0 /\ is_Infantry k0 = true).
Proof.
  cbv zeta. split; [intros k; apply lowest_common_class_above|]. split; [reflexivity|].
  assert (Hleaf : forall k0, k0 <> ComandCenter ->
            forallb (fun k => isinstance k (c_Kind k0)) real = true ->
            forall k, k ∈ real -> k = k0).
  { intros k0 Hk0 E k Hk. pose proof (proj1 (forallb_elem _ _) E k Hk) as H.
    destruct (isinstance_tree k) as (_ & _ & _ & _ & _ & _ & _ & T).
    cbv beta in H. rewrite (T k0 Hk0) in H. now apply bool_decide_eq_true in H. }
  assert (Hinf : forallb (fun k => isinstance k c_Infantry) real = false ->
                 exists k, k ∈ real /\ is_Infantry k = false).
  { intros E. apply forallb_not in E as (k & Hk & Hf). exists k. split; [exact Hk|].
    destruct (isinstance_tree k) as (_ & _ & T & _). now rewrite <- T. }
  assert (Hall : forallb (fun k => isinstance k c_Infantry) real = true ->
                 forall k, k ∈ real -> is_Infantry k = true).
  { intros E k Hk. destruct (isinstance_tree k) as (_ & _ & T & _). rewrite <- T.
    exact (proj1 (forallb_elem _ _) E k Hk). }
  split; [|split].
  - intros k0 Hne. split.
    + intros Hc. revert Hc. glcc_cases; intros [= <-]; (split; [reflexivity|]);
        now apply Hleaf.
    + intros (Hk0 & Hsame).
      unfold get_lowest_common_class.
      rewrite !(forallb_same _ real k0 Hne Hsame).
      destruct k0; try discriminate; reflexivity.
  - split.
    + glcc_cases; try discriminate. intros _. now apply Hinf.
    + intros (k & Hk & Hf). glcc_cases; try reflexivity;
        pose proof (Hall eq_refl k Hk); congruence.
  - glcc_cases; auto; right; right; eexists; (split; [reflexivity|reflexivity]).
Qed.

(** ** The command buttons *)

Lemma keeps_kinds_refl w : keeps_kinds w w.
Proof. intros j uj H. eauto. Qed.

Lemma keeps_kinds_trans w1 w2 w3 :
  keeps_kinds w1 w2 -> keeps_kinds w2 w3 -> keeps_kinds w1 w3.
Proof.
  intros H1 H2 j uj Hj. destruct (H1 j uj Hj) as (u2 & Hj2 & Hk2).
  destruct (H2 j u2 Hj2) as (u3 & Hj3 & Hk3). exists u3. split; [exact Hj3|congruence].
Qed.

Lemma keeps_kinds_objs w w' : objs w' = objs w -> keeps_kinds w w'.
Proof. intros H j uj Hj. rewrite H. eauto. Qed.

Lemma keeps_kinds_upd i f w : (forall u, kind (f u) = kind u) -> keeps_kinds w (upd i f w).
Proof.
  intros Hf j uj Hj. rewrite objs_upd. destruct (decide (i = j)) as [->|]; [|eauto].
  rewrite Hj. simpl. eauto.
Qed.

Lemma keeps_kinds_alloc u0 w : objs w !! next_id w = None -> keeps_kinds w (snd (alloc u0 w)).
Proof.
  intros Hn j uj Hj. unfold alloc. simpl. rewrite lookup_insert_ne by congruence. eauto.
Qed.

Lemma tech_act_keeps_kinds a i w :
  objs w !! next_id w = None -> keeps_kinds w (tech_act a i w).
Proof.
  intros Hn.
  assert (Hsd : keeps_kinds w (SetDestinationAction_tech_act i w)).
  { unfold SetDestinationAction_tech_act.
    eapply keeps_kinds_trans; [apply (keeps_kinds_upd i (set_setDestinationEnabled true));
                               reflexivity|].
    destruct (kind_is _ _ _); [apply keeps_kinds_upd; reflexivity|apply keeps_kinds_refl]. }
  assert (Hmb : forall k, keeps_kinds w (MakeBuilding_tech_act k i w)).
  { intros k. unfold MakeBuilding_tech_act. destruct (objs w !! i) as [u|];
      [|apply keeps_kinds_refl].
    pose proof (keeps_kinds_alloc (new_unit k (side u) (master u) (timeModifier w)) w Hn) as H.
    destruct (alloc _ w) as [t w1]. cbn [snd] in H.
    eapply keeps_kinds_trans; [exact H|].
    eapply keeps_kinds_trans; [apply (keeps_kinds_upd i (set_toBuild (Some t))); reflexivity|].
    eapply keeps_kinds_trans; [|apply keeps_kinds_upd; reflexivity].
    destruct (negb (selectingToBuild u)); apply keeps_kinds_objs, objs_upd_player. }
  assert (Hmu : forall k, keeps_kinds w (MakeUnit_tech_act k i w)).
  { intros k. unfold MakeUnit_tech_act. destruct (objs w !! i) as [u|];
      [|apply keeps_kinds_refl].
    pose proof (keeps_kinds_alloc (new_unit k (side u) (master u) (timeModifier w)) w Hn) as H.
    destruct (alloc _ w) as [t w1]. cbn [snd] in H.
    eapply keeps_kinds_trans; [exact H|]. apply keeps_kinds_upd. reflexivity. }
  destruct a; cbn [tech_act]; auto.
  - unfold SetOffensiveDestinationAction_tech_act.
    eapply keeps_kinds_trans; [exact Hsd|]. apply keeps_kinds_upd. reflexivity.
  - unfold DropSpearmanAction_tech_act. destruct (objs w !! i) as [h|];
      [|apply keeps_kinds_refl].
    destruct (hasSpearman h); [|apply keeps_kinds_refl].
    set (w1 := upd i _ w).
    assert (H1 : keeps_kinds w w1) by (apply keeps_kinds_upd; reflexivity).
    assert (Hn1 : objs w1 !! next_id w1 = None).
    { change (next_id w1) with (next_id w). subst w1. rewrite objs_upd.
      destruct (decide (i = next_id w)) as [E|]; [|exact Hn]. now rewrite E, Hn. }
    pose proof (keeps_kinds_alloc
                  (new_unit Spearman (side h) (master h) (timeModifier w1)) w1 Hn1) as H2.
    destruct (alloc _ w1) as [sm w2]. cbn [snd] in H2.
    eapply keeps_kinds_trans; [exact H1|]. eapply keeps_kinds_trans; [exact H2|].
    set (w3 := upd sm (Unit_set_location (rect_x (rect h)) (rect_y (rect h))) w2).
    set (w4 := upd sm (Infantry_set_destination (destinationX h) (destinationY h)) w3).
    apply (keeps_kinds_trans _ w3); [apply keeps_kinds_upd; reflexivity|].
    apply (keeps_kinds_trans _ w4); [apply keeps_kinds_upd; reflexivity|].
    apply keeps_kinds_objs. unfold Map_add_unit. simpl. apply objs_upd_player.
  - apply keeps_kinds_upd. reflexivity.
  - destruct (side_of w i =? 0); apply Hmu.
  - unfold UpgradeToClaymoreAction_tech_act. destruct (objs w !! i) as [b|];
      [|apply keeps_kinds_refl].
    destruct (_ && _); [apply keeps_kinds_objs, objs_upd_player|apply keeps_kinds_refl].
Qed.

Lemma real_units_elem w units u k :
  (u, k) ∈ real_units w units <->
  Some u ∈ units /\ exists uu, objs w !! u = Some uu /\ kind uu = k.
Proof.
  unfold real_units. rewrite list_elem_of_omap. split.
  - intros ([j|] & Hin & Hf); [|discriminate]. simpl in Hf.
    destruct (objs w !! j) as [uu|] eqn:E; [|discriminate]. simpl in Hf.
    injection Hf as -> <-. eauto.
  - intros (Hin & uu & Hu & <-). exists (Some u). split; [exact Hin|].
    simpl. now rewrite Hu.
Qed.

Lemma group_fold_spec cls i real : forall acc,
  let res := fold_left (group_step cls i) real acc in
  (length res <= Nat.max (length acc) 12)%nat /\
  forall x, x ∈ res ->
    x ∈ acc \/ exists k, (fst x, k) ∈ real /\ tech_actions k i = Some (snd x) /\
                         issubclass cls (native_cls (snd x)) = true.
Proof.
  induction real as [|[u k] real IH]; intros acc; cbn [fold_left].
  { cbv zeta. split; [lia|auto]. }
  cbv zeta. destruct (IH (group_step cls i acc (u, k))) as (L & H). cbv zeta in L, H.
  assert (Hs : (length (group_step cls i acc (u, k)) <= Nat.max (length acc) 12)%nat /\
               forall x, x ∈ group_step cls i acc (u, k) ->
                 x ∈ acc \/ (x = (u, snd x) /\ tech_actions k i = Some (snd x) /\
                             issubclass cls (native_cls (snd x)) = true)).
  { unfold group_step. destruct (tech_actions k i) as [ta|]; [|split; [lia|auto]].
    destruct (issubclass cls (native_cls ta)) eqn:Ec; [|split; [lia|auto]].
    unfold add_tech_action. destruct (length acc <? 12)%nat eqn:El; [|split; [lia|auto]].
    apply Nat.ltb_lt in El. split; [rewrite length_app; simpl; lia|].
    intros x Hx. apply elem_of_app in Hx as [Hx|Hx]; [auto|].
    apply list_elem_of_singleton in Hx as ->. right. simpl. auto. }
  destruct Hs as (Ls & Hs). split; [lia|].
  intros x Hx. destruct (H x Hx) as [Hin|(k' & Hin & Ht & Hc)].
  - destruct (Hs x Hin) as [Ha|(Ex & Ht & Hc)]; [auto|].
    right. exists k. split; [|auto]. apply elem_of_cons. left.
    rewrite Ex at 1. reflexivity.
  - right. exists k'. split; [|auto]. apply elem_of_cons. now right.
Qed.

Lemma bb_actions_group w units i :
  (2 <= length (real_units w units))%nat ->
  bb_actions w units i =
  fold_left (group_step (get_lowest_common_class (map snd (real_units w units))) i)
    (real_units w units) [].
Proof.
  unfold bb_actions. destruct (real_units w units) as [|[u k] [|uk2 rest]]; simpl;
    [lia|lia|]. intros _. reflexivity.
Qed.

Lemma bb_actions_elem w units i u ta :
  (u, ta) ∈ bb_actions w units i ->
  Some u ∈ units /\ exists uu, objs w !! u = Some uu /\ tech_actions (kind uu) i = Some ta.
Proof.
  intros Hin.
  assert (H : exists k, (u, k) ∈ real_units w units /\ tech_actions k i = Some ta).
  { destruct (le_lt_dec 2 (length (real_units w units))) as [H2|H2].
    - rewrite (bb_actions_group w units i H2) in Hin.
      destruct (group_fold_spec (get_lowest_common_class (map snd (real_units w units))) i
                  (real_units w units) []) as (_ & H).
      destruct (H _ Hin) as [Hnil|(k & Hk & Ht & _)]; [now apply elem_of_nil in Hnil|].
      eauto.
    - unfold bb_actions in Hin.
      destruct (real_units w units) as [|[u1 k1] [|uk2 rest]]; simpl in H2;
        [now apply elem_of_nil in Hin| |lia].
      destruct (tech_actions k1 i) as [ta1|] eqn:Et; [|now apply elem_of_nil in Hin].
      apply list_elem_of_singleton in Hin. injection Hin as -> ->.
      exists k1. split; [apply elem_of_cons; now left|exact Et]. }
  destruct H as (k & Hk & Ht). apply real_units_elem in Hk as (Hu & uu & Ho & <-).
  eauto.
Qed.

(** What the command buttons offer.  An action on button [i] is always
    the action in slot [i] of a selected unit, and a button never holds
    more than twelve.  When two or more units are selected, the class
    of the action must lie above the class [get_lowest_common_class]
    answers; so as soon as one of them is a building the buttons offer
    only actions that any class may use: no unit can be ordered from two
    selected barracks, and no move order given to a group with a
    building in it. *)
Theorem buttons_of_a_group w units i u ta :
  (u, ta) ∈ bb_actions w units i ->
  (Some u ∈ units /\
   exists uu, objs w !! u = Some uu /\ tech_actions (kind uu) i = Some ta) /\
  (length (bb_actions w units i) <= 12)%nat /\
  ((2 <= length (real_units w units))%nat ->
   issubclass (get_lowest_common_class (map snd (real_units w units))) (native_cls ta) = true /\
   ((exists j uj, Some j ∈ units /\ objs w !! j = Some uj /\ is_Building (kind uj) = true) ->
    native_cls ta = c_object)).
Proof.
  intros Hin. split; [now apply bb_actions_elem|].
  assert (Hlen : (length (bb_actions w units i) <= 12)%nat).
  { destruct (le_lt_dec 2 (length (real_units w units))) as [H2|H2].
    - rewrite (bb_actions_group w units i H2).
      destruct (group_fold_spec (get_lowest_common_class (map snd (real_units w units))) i
                  (real_units w units) []) as (L & _). simpl in L. lia.
    - unfold bb_actions. destruct (real_units w units) as [|[u1 k1] [|uk2 rest]];
        simpl in *; [lia| |lia]. destruct (tech_actions k1 i); simpl; lia. }
  split; [exact Hlen|]. intros H2.
  rewrite (bb_actions_group w units i H2) in Hin.
  destruct (group_fold_spec (get_lowest_common_class (map snd (real_units w units))) i
              (real_units w units) []) as (_ & H).
  destruct (H _ Hin) as [Hnil|(k & Hk & Ht & Hc)]; [now apply elem_of_nil in Hnil|].
  simpl in Hc. split; [exact Hc|].
  intros (j & uj & Hj & Hoj & Hb).
  assert (Hu : get_lowest_common_class (map snd (real_units w units)) = c_Unit).
  { apply lowest_common_class_unit. exists (kind uj). split.
    - apply list_elem_of_fmap. exists (j, kind uj). split; [reflexivity|].
      apply real_units_elem. eauto.
    - destruct (kind uj); try discriminate; reflexivity. }
  rewrite Hu in Hc. destruct ta; try reflexivity; discriminate.
Qed.

Lemma do_click_run i : forall actions w,
  reachable w ->
  (forall u ta, (u, ta) ∈ actions ->
     exists uu, objs w !! u = Some uu /\ tech_actions (kind uu) i = Some ta) ->
  BufferButton_do_click actions w = run (map (fun a => Press (fst a) i) actions) w.
Proof.
  induction actions as [|[u ta] actions IH]; intros w Hr Hact; [reflexivity|].
  unfold BufferButton_do_click, run. cbn [fold_left map fst].
  destruct (Hact u ta) as (uu & Hu & Ht); [apply elem_of_cons; now left|].
  assert (Es : step (Press u i) w = tech_act ta u w).
  { cbn [step]. unfold press. now rewrite Hu, Ht. }
  rewrite Es. apply IH.
  - rewrite <- Es. now constructor.
  - intros u' ta' Hin.
    destruct (Hact u' ta') as (uu' & Hu' & Ht'); [apply elem_of_cons; now right|].
    assert (Hn : objs w !! next_id w = None).
    { apply fresh_none. now apply reachable_WF in Hr as (Hwf & _). }
    destruct (tech_act_keeps_kinds ta u w Hn u' uu' Hu') as (uu2 & Hu2 & Hk2).
    exists uu2. split; [exact Hu2|]. now rewrite Hk2.
Qed.

(** [Controller.click_buffer_button] is a run of button presses.  With
    an index from 0 to 8 and buttons larger than one pixel, the actions
    on the button are carried out one after the other, in the order the
    button holds them, and each is the action in that slot of a selected
    unit of the player: the click is that run of single presses.  With
    any other index, or buttons no larger than one pixel, nothing
    happens.  So a click on a command button, by the human or by the
    computer player's controller, takes a reachable state of the game
    to a reachable state. *)
Theorem click_buffer_button_run s p idx w :
  reachable w ->
  let slot := Z.to_nat idx in
  let acts := bb_actions w (selected_units (player p w)) slot in
  let live := (0 <=? idx) && (idx <? 9)
              && (1 <? fst (bb_size s)) && (1 <? snd (bb_size s)) in
  Controller_click_buffer_button s p idx w
  = (if live then run (map (fun a => Press (fst a) slot) acts) w else w) /\
  (forall u ta, (u, ta) ∈ acts ->
     Some u ∈ selected_units (player p w) /\
     exists uu, objs w !! u = Some uu /\ tech_actions (kind uu) slot = Some ta) /\
  (idx < 0 \/ 9 <= idx \/ fst (bb_size s) <= 1 \/ snd (bb_size s) <= 1 ->
   Controller_click_buffer_button s p idx w = w) /\
  reachable (Controller_click_buffer_button s p idx w).
Proof.
  intros Hr slot acts live.
  assert (Hact : forall u ta, (u, ta) ∈ acts ->
            Some u ∈ selected_units (player p w) /\
            exists uu, objs w !! u = Some uu /\ tech_actions (kind uu) slot = Some ta).
  { intros u ta Hin. now apply bb_actions_elem. }
  assert (E : Controller_click_buffer_button s p idx w
              = if live then run (map (fun a => Press (fst a) slot) acts) w else w).
  { unfold Controller_click_buffer_button. subst live.
    destruct ((0 <=? idx) && (idx <? 9)); cbn [andb]; [|reflexivity].
    destruct (bb_size s) as [bw bh]. cbn [fst snd].
    assert (Ec : collidepoint (mkRect 0 0 bw bh) 1 1 = (1 <? bw) && (1 <? bh)).
    { unfold collidepoint. cbn [rect_x rect_y rect_width rect_height].
      rewrite !Z.add_0_l. now destruct (1 <? bw), (1 <? bh). }
    rewrite Ec. destruct ((1 <? bw) && (1 <? bh)); [|reflexivity].
    apply (do_click_run slot acts w Hr). intros u ta Hin. now apply Hact. }
  split; [exact E|]. split; [exact Hact|]. split.
  - intros Hout. rewrite E. subst live.
    destruct (Z.leb_spec 0 idx); cbn [andb]; [|reflexivity].
    destruct (Z.ltb_spec idx 9); cbn [andb]; [|reflexivity].
    destruct (Z.ltb_spec 1 (fst (bb_size s))); cbn [andb]; [|reflexivity].
    destruct (Z.ltb_spec 1 (snd (bb_size s))); cbn [andb]; [|reflexivity].
    lia.
  - rewrite E. destruct live; [now apply reachable_run|exact Hr].
Qed.

(** ** The end of the game *)

(** The end of the game.  The game is decided in the first frame after
    which a player has no unit left; the human player wins if the
    computer player has none, also when neither has any.  The count
    towards quitting starts at this frame's length.  Once decided, the
    winner never changes whatever happens to the units, the count grows
    by [dt * 60] a frame, and [QUIT] is posted in the frames that leave
    it above 300. *)
Theorem verdict_is_final dt w g :
  let g' := fst (Game_judge dt w g) in
  let quit := snd (Game_judge dt w g) in
  (game_over g = false ->
   (units (cp w) = [] -> g' = mkVerdict true (Some Human) (0 + dt * NOMINAL_TICK_HZ)) /\
   (units (cp w) <> [] -> units (hp w) = [] ->
    g' = mkVerdict true (Some Computer) (0 + dt * NOMINAL_TICK_HZ)) /\
   (units (cp w) <> [] -> units (hp w) <> [] -> g' = g /\ quit = false)) /\
  (game_over g = true ->
   g' = mkVerdict true (winner g) (end_count g + dt * NOMINAL_TICK_HZ)) /\
  (quit = true <-> game_over g' = true /\ (300 < end_count g')%Q) /\
  (game_over g = true ->
   forall frames, game_over (judge_all frames g) = true /\
                  winner (judge_all frames g) = winner g).
Proof.
  cbv zeta.
  assert (Hover : forall dt w g, game_over g = true ->
            fst (Game_judge dt w g)
            = mkVerdict true (winner g) (end_count g + dt * NOMINAL_TICK_HZ)).
  { clear. intros dt w g Hg. unfold Game_judge. cbv zeta. rewrite Hg. cbn [negb].
    rewrite !andb_false_r. rewrite Hg. cbn [negb]. rewrite !andb_false_r.
    rewrite Hg. reflexivity. }
  split; [|split; [|split]].
  - intros Hg. unfold Game_judge. cbv zeta. split; [|split].
    + intros ->. cbn [length Nat.leb]. rewrite Hg. cbn [negb andb game_over].
      rewrite andb_false_r. reflexivity.
    + intros Hc ->. destruct (units (cp w)); [congruence|].
      cbn [length Nat.leb andb]. rewrite Hg. cbn [negb andb game_over]. reflexivity.
    + intros Hc Hh. destruct (units (cp w)); [congruence|].
      destruct (units (hp w)); [congruence|].
      cbn [length Nat.leb andb]. rewrite Hg. cbn [fst snd]. auto.
  - apply Hover.
  - unfold Game_judge. cbv zeta.
    destruct ((length (units (cp w)) <=? 0)%nat && negb (game_over g));
      cbn [game_over negb andb].
    + rewrite andb_false_r. cbn [fst snd game_over end_count]. rewrite Qltb_lt. tauto.
    + destruct ((length (units (hp w)) <=? 0)%nat && negb (game_over g));
        cbn [game_over fst snd end_count].
      * rewrite Qltb_lt. tauto.
      * destruct (game_over g) eqn:Hg; cbn [fst snd game_over end_count].
        -- rewrite Qltb_lt. tauto.
        -- rewrite Hg. split; [discriminate|]. intros [H _]. discriminate.
  - intros Hg frames. revert g Hg. unfold judge_all.
    induction frames as [|[dt' w'] frames IH]; intros g Hg; cbn [fold_left fst snd].
    + auto.
    + rewrite (Hover dt' w' g Hg).
      destruct (IH (mkVerdict true (winner g) (end_count g + dt' * NOMINAL_TICK_HZ))
                  eq_refl) as (A & B).
      split; [exact A|exact B].
Qed.

(** * Invariants of the running game *)

(** In every state the game can reach, the lists agree.  A unit on a
    player's list belongs to that player and is on the map; a unit on
    the map is on its owner's list, as many times as on the map; a
    mobile unit is on the map at most once; and every selected unit is
    on the list of the player who selected it. *)
Theorem reachable_lists_agree w :
  reachable w ->
  (forall p i, i ∈ units (player p w) ->
     exists u, objs w !! i = Some u /\ master u = p /\ i ∈ map_units w) /\
  (forall i, i ∈ map_units w ->
     exists u, objs w !! i = Some u /\ i ∈ units (player (master u) w) /\
               occ (map_units w) i = occ (units (player (master u) w)) i /\
               (is_Infantry (kind u) = true -> occ (map_units w) i = 1%nat)) /\
  (forall p j, Some j ∈ selected_units (player p w) -> j ∈ units (player p w)).
Proof.
  intros Hr. apply reachable_WF in Hr as (Hwf & Hsel). split; [|split].
  - intros p i Hi. destruct (wf_owner _ Hwf p i Hi) as (u & Hu & Hm).
    exists u. split; [exact Hu|]. split; [exact Hm|].
    apply occ_pos. rewrite (wf_map _ Hwf i u Hu), Hm. now apply occ_pos.
  - intros i Hi. destruct (wf_on_map _ Hwf i Hi) as (u & Hu).
    pose proof (wf_map _ Hwf i u Hu) as Hocc.
    exists u. split; [exact Hu|]. split; [|split; [exact Hocc|]].
    + apply occ_pos. rewrite <- Hocc. now apply occ_pos.
    + intros Hk. pose proof (wf_infantry_once _ Hwf i u Hu Hk).
      apply occ_pos in Hi. lia.
  - exact Hsel.
Qed.

(** In every state the game can reach, an order waiting in a production
    queue is a mobile unit of the building's owner, waits in that one
    queue only and at one place of it; and the building a builder is
    about to place or is building is a building of the builder's owner. *)
Theorem reachable_orders w b ub :
  reachable w -> objs w !! b = Some ub ->
  NoDup (queue ub) /\
  (forall q, q ∈ queue ub ->
     exists uq, objs w !! q = Some uq /\ is_Infantry (kind uq) = true /\
                master uq = master ub /\
                forall b' ub', objs w !! b' = Some ub' -> q ∈ queue ub' -> b' = b) /\
  (forall t, toBuild ub = Some t ->
     exists ut, objs w !! t = Some ut /\ is_Building (kind ut) = true /\
                master ut = master ub).
Proof.
  intros Hr Hb. apply reachable_WF in Hr as (Hwf & _). split; [|split].
  - now apply (wf_queue_nodup _ Hwf b).
  - intros q Hq. destruct (wf_queue _ Hwf b ub q Hb Hq) as (uq & Hu & Hk & Hm & _).
    exists uq. split; [exact Hu|]. split; [exact Hk|]. split; [exact Hm|].
    intros b' ub' Hb' Hq'. now apply (wf_queue_disj _ Hwf b' b ub' ub q).
  - intros t Ht. now apply (wf_toBuild _ Hwf b ub t).
Qed.

(** * Instances

    The further properties at the sample worlds. *)

Lemma next_location_toward_witness :
  fx (snd (Infantry_get_next_logical_location 1 (new_unit Builder 0 Human 1))) = float_of 100.
Proof.
  assert (H1 : (0 <= 1)%Q) by (vm_compute; discriminate).
  assert (H2 : 0 <= speed (new_unit Builder 0 Human 1)) by (vm_compute; discriminate).
  destruct (next_location_toward 1 (new_unit Builder 0 Human 1) H1 H2) as ((_ & _ & A & _) & _).
  - split; vm_compute; discriminate.
  - split; vm_compute; discriminate.
  - split; vm_compute; discriminate.
  - split; vm_compute; discriminate.
  - apply A. split; vm_compute; reflexivity.
Defined.

Lemma sub_pixel_step_witness :
  rect_x (rect (Infantry_move (1 # 360) (Unit_set_location 500 500 (new_unit Builder 0 Human 1))))
  = 500 - 1.
Proof.
  destruct (sub_pixel_step (1 # 360) (Unit_set_location 500 500 (new_unit Builder 0 Human 1)))
    as (_ & A).
  - vm_compute; reflexivity.
  - vm_compute; reflexivity.
  - vm_compute; reflexivity.
  - vm_compute; reflexivity.
  - vm_compute. split; [discriminate|reflexivity].
  - vm_compute. split; [discriminate|reflexivity].
  - destruct A as (A & _); [vm_compute; reflexivity|vm_compute; reflexivity|exact A].
Defined.

Lemma queue_first_in_first_out_witness :
  ProductionQueue_dequeue (snd (ProductionQueue_enqueue 7 [1; 2]))%nat = (Some 1, [2; 7])%nat.
Proof.
  destruct queue_first_in_first_out as (A & _).
  apply (A 7 1 [2])%nat. vm_compute. lia.
Defined.


Lemma NoDup_parade : NoDup (units (player Human parade)).
Proof. apply (bool_decide_unpack _). vm_compute. exact I. Qed.

Lemma update_selected_units_slots_witness :
  is_selected parade 1 = true /\ is_selected parade 3 = true /\
  selected_units (player Human parade) = Some 1%nat :: replicate 11 None /\
  selected_units (player Human (Player_update_selected_units Human parade))
  = Some 1%nat :: Some 3%nat :: replicate 10 None.
Proof.
  split; [vm_compute; reflexivity|]. split; [vm_compute; reflexivity|].
  split; [vm_compute; reflexivity|].
  pose proof (update_selected_units_slots Human parade) as H. cbv zeta in H.
  destruct H as (_ & H). destruct (H NoDup_parade) as (Hs & _).
  rewrite Hs. vm_compute. reflexivity.
Defined.


Lemma recruit_4 : objs recruit !! 4%nat = Some (new_unit Swordsman 0 Human 1).
Proof. vm_compute. reflexivity. Qed.

Lemma add_unit_accepts_witness : fst (add_unit Human 4 recruit) = true.
Proof.
  apply (add_unit_accepts Human 4 recruit (new_unit Swordsman 0 Human 1) recruit_4).
  split; [discriminate|]. split; [discriminate|]. split; [discriminate|].
  split; [discriminate|]. split; [vm_compute; reflexivity|].
  intros _. vm_compute. discriminate.
Defined.

Lemma add_unit_charges_witness :
  map_units (snd (add_unit Human 4 recruit)) = map_units recruit ++ [4%nat].
Proof.
  assert (Hok : fst (add_unit Human 4 recruit) = true) by (vm_compute; reflexivity).
  exact (proj1 (proj2 (add_unit_charges Human 4 recruit _ recruit_4 Hok))).
Defined.

Lemma die_settles_witness :
  resources (player Human (die 3 camp)) = resources (player Human camp).
Proof.
  destruct (objs camp !! 3%nat) as [u|] eqn:E; [|vm_compute in E; discriminate].
  pose proof (die_settles 3 camp u E) as H. cbv zeta in H.
  destruct H as (_ & _ & _ & H & _). exact (H Human).
Defined.


Lemma Building_act_idle_witness :
  exists b, objs Game_init !! 1%nat = Some b /\
            supportedUnitsValue (player (master b) (Building_act 1 1 Game_init))
            = supportedUnitsValue (player (master b) Game_init)
              + (if didInitializeAfterBuild b then 0 else supportedUnits b).
Proof.
  destruct (objs Game_init !! 1%nat) as [b|] eqn:E; [|vm_compute in E; discriminate].
  exists b. split; [reflexivity|].
  assert (Hh : (0 < health b)%Q) by (vm_compute in E; injection E as <-; reflexivity).
  assert (Hq : queue b = []) by (vm_compute in E; injection E as <-; reflexivity).
  assert (Hbt : (buildTime b <= 0)%Q)
    by (vm_compute in E; injection E as <-; vm_compute; discriminate).
  destruct (Building_act_idle 1 1 Game_init b E Hh Hq) as (_ & _ & _ & _ & A).
  exact (proj1 (proj2 (A Hbt))).
Defined.


Lemma Builder_act_constructs_witness :
  exists b, objs workshop !! 3%nat = Some b /\
            objs (Builder_act 1 2 workshop) !! 3%nat
            = Some (set_buildTime (buildTime b - 1 * NOMINAL_TICK_HZ)%Q b).
Proof.
  destruct (objs workshop !! 2%nat) as [u|] eqn:E; [|vm_compute in E; discriminate].
  destruct (objs workshop !! 3%nat) as [b|] eqn:Eb; [|vm_compute in Eb; discriminate].
  exists b. split; [reflexivity|].
  assert (H : kind u = Builder /\ (0 < health u)%Q /\ toBuild u = Some 3%nat /\
              building u = true /\ destinationX u = 870 /\ destinationY u = 200 /\
              rect u = mkRect 870 200 25 25 /\ fx u = float_of 870 /\ fy u = float_of 200 /\
              speed u = 3)
    by (vm_compute in E; injection E as <-; repeat split).
  destruct H as (Hk & Hh & Ht & Hbd & Hdx & Hdy & Hr & Hfx & Hfy & Hsp).
  assert (Hne : 3%nat <> 2%nat) by discriminate.
  refine (proj1 (Builder_act_constructs 1 2 workshop u 3 b E Hk Hh Ht Hbd Hne Eb _ _ _ _ _ _ _)).
  - now rewrite Hdx, Hr.
  - now rewrite Hdy, Hr.
  - now rewrite Hfx, Hr.
  - now rewrite Hfy, Hr.
  - rewrite Hsp. vm_compute. reflexivity.
  - rewrite Hr. vm_compute. split; discriminate.
  - rewrite Hr. vm_compute. split; discriminate.
Defined.

Lemma rider_2 : objs rider !! 2%nat = Some (new_unit Horseman 0 Human 1).
Proof. vm_compute. reflexivity. Qed.

Lemma DropSpearman_effect_witness :
  map_units (DropSpearmanAction_tech_act 2 rider) = map_units rider ++ [next_id rider].
Proof.
  assert (Hn : objs rider !! next_id rider = None) by (vm_compute; reflexivity).
  destruct (DropSpearman_effect 2 rider _ rider_2 Hn) as (_ & A).
  exact (proj1 (proj2 (proj2 (proj2 (A eq_refl))))).
Defined.

Lemma UpgradeToClaymore_once_witness :
  UpgradeToClaymoreAction_tech_act 1 (UpgradeToClaymoreAction_tech_act 1 Game_init)
  = UpgradeToClaymoreAction_tech_act 1 Game_init.
Proof.
  destruct (objs Game_init !! 1%nat) as [b|] eqn:E; [|vm_compute in E; discriminate].
  exact (proj1 (proj2 (proj2 (UpgradeToClaymore_once 1 Game_init b E)))).
Defined.

Lemma java_mod_rem_witness : java_mod (-7) 3 = Z.rem (-7) 3.
Proof. destruct (java_mod_rem (-7) 3) as (_ & A). apply A. lia. Defined.

Lemma camera_stays_on_map_witness : on_map window (Map_set_location window 500 0).
Proof.
  assert (Hw : BU_w window <= map_width) by (vm_compute; discriminate).
  assert (Hh : BU_h window <= map_height) by (vm_compute; discriminate).
  exact (proj1 (proj1 (camera_stays_on_map window) Hw Hh) 500 0).
Defined.

Lemma minimap_click_round_trip_witness :
  0 <= rect_x (Minimap_view window (snd (Minimap_click window 50 400 (mkCamera 0 0))))
    <= 50 - rect_x (Minimap_rect window).
Proof.
  assert (Hw : BU_w window <= map_width) by (vm_compute; discriminate).
  assert (Hh : BU_h window <= map_height) by (vm_compute; discriminate).
  assert (Hc : collidepoint (Minimap_rect window) 50 400 = true) by (vm_compute; reflexivity).
  exact (proj1 (proj2 (minimap_click_round_trip window 50 400 Hw Hh Hc))).
Defined.

Lemma drag_selection_rect_witness :
  selecting_rect (fst (HumanPlayer_update_drag window 410 240
                         (HumanPlayer_begin_drag window 360 190) (mkCamera (-500) 0)))
  = Some (mkRect 360 190 50 50).
Proof.
  exact (proj1 (proj2 (drag_selection_rect window 360 190 410 240 (mkCamera (-500) 0)))).
Defined.

Lemma box_selection_witness :
  units (hp (snd (HumanPlayer_mouse_released_select_box (mkCamera (-500) 0)
                    (mkDrag 360 190 410 240 false true (Some (mkRect 360 190 50 50)))
                    camp)))
  = units (hp camp).
Proof.
  assert (Hnd : NoDup (units (hp camp))) by (apply (bool_decide_unpack _); vm_compute; exact I).
  pose proof (box_selection (mkCamera (-500) 0)
                (mkDrag 360 190 410 240 false true (Some (mkRect 360 190 50 50)))
                camp (mkRect 360 190 50 50) eq_refl Hnd) as H.
  cbv zeta in H. destruct H as (_ & H & _). exact H.
Defined.

Lemma lowest_common_class_result_witness :
  get_lowest_common_class [Barracks; Barracks] = c_Unit.
Proof.
  apply (proj1 (proj2 (proj2 (proj2 (lowest_common_class_result [Barracks; Barracks]))))).
  exists Barracks. split; [apply elem_of_cons; now left|reflexivity].
Defined.

Lemma buttons_of_a_group_witness :
  (length (bb_actions camp [Some 1; Some 3]%nat 8) <= 12)%nat.
Proof.
  assert (Hin : (1%nat, DequeueAction) ∈ bb_actions camp [Some 1; Some 3]%nat 8).
  { assert (E : bb_actions camp [Some 1; Some 3]%nat 8 = [(1%nat, DequeueAction)])
      by (vm_compute; reflexivity).
    rewrite E. apply elem_of_cons. now left. }
  exact (proj1 (proj2 (buttons_of_a_group camp [Some 1; Some 3]%nat 8 1 DequeueAction Hin))).
Defined.

Lemma reachable_camp : reachable camp.
Proof. apply reachable_run, reachable_init. Qed.

Lemma reachable_office : reachable office.
Proof. apply reachable_step, reachable_run, reachable_init. Qed.

Lemma click_buffer_button_run_witness :
  selected_units (player Human office) = Some 1%nat :: replicate 11 None /\
  queue_of office 1 = [] /\
  queue_of (Controller_click_buffer_button window Human 0 office) 1 = [4%nat] /\
  Controller_click_buffer_button window Human 9 office = office.
Proof.
  destruct (click_buffer_button_run window Human 0 office reachable_office) as (E & _).
  destruct (click_buffer_button_run window Human 9 office reachable_office)
    as (_ & _ & Hout & _).
  cbv zeta in E. split; [vm_compute; reflexivity|]. split; [vm_compute; reflexivity|].
  split; [rewrite E; vm_compute; reflexivity|].
  apply Hout. right. left. lia.
Defined.

Lemma verdict_is_final_witness :
  winner (judge_all [(1%Q, Game_init)] (mkVerdict true (Some Computer) 0)) = Some Computer.
Proof.
  destruct (verdict_is_final 1 Game_init (mkVerdict true (Some Computer) 0))
    as (_ & _ & _ & A).
  exact (proj2 (A eq_refl [(1%Q, Game_init)])).
Defined.

Lemma reachable_lists_agree_witness :
  exists u, objs camp !! 3%nat = Some u /\ master u = Human /\ 3%nat ∈ map_units camp.
Proof.
  destruct (reachable_lists_agree camp reachable_camp) as (H & _).
  apply (H Human 3%nat). apply (bool_decide_unpack _). vm_compute. exact I.
Defined.

Lemma reachable_orders_witness :
  exists ub, objs nursery !! 1%nat = Some ub /\ NoDup (queue ub).
Proof.
  destruct (objs nursery !! 1%nat) as [ub|] eqn:E; [|vm_compute in E; discriminate].
  exists ub. split; [reflexivity|].
  apply (reachable_orders nursery 1 ub); [apply reachable_run, reachable_init|exact E].
Defined.
